(** * brainbuilder: splitting a SONATA population into sub-populations

    A shallow embedding of [brainbuilder/utils/sonata/split_population.py]
    and the properties of its chunk scanner, id mapper, edge copier,
    index step and node-set rewriter, of the documents it writes (circuit
    configuration, id mapping) and of the external connectivity of a
    subcircuit.

    Conventions of the embedding
    - a 1-D integer numpy array or HDF5 dataset is a [list Z]; a boolean
      mask is a [list bool]; dtypes are not tracked (ids and counts stay far
      below the 64-bit range);
    - a Python [dict] whose iteration order matters (the id mapping, a node
      set file, an HDF5 group) is an association list in insertion order;
      the directory of output files is a [gmap] from path to file content;
    - the id-mapping [DataFrame] (index = old ids, one column [new_id]) is
      the list of its rows [(old_id, new_id)];
    - a Python exception is the [Raise] case of [result]; a function that
      writes files also returns the directory it leaves behind;
    - a JSON document handed to [utils.dump_json] is the [json] value the
      function returns; [pathlib] joins and [curate._create_source_nodes]
      are variables of the sections that use them. *)

From stdpp Require Import gmap strings list sorting.
From Stdlib Require Import ZArith Lia Bool.

#[local] Set Warnings "-register-all".
#[local] Open Scope string_scope.
#[local] Open Scope list_scope.
#[local] Open Scope Z_scope.

(** ** Exceptions *)

Inductive exn : Type :=
| ValueError
| RuntimeError
| AssertionError
| KeyError
| IndexError
| TypeError.

Inductive result (A : Type) : Type :=
| Ok (a : A)
| Raise (e : exn).

Arguments Ok {A} a.
Arguments Raise {A} e.

Definition rbind {A B} (r : result A) (k : A -> result B) : result B :=
  match r with
  | Ok a => k a
  | Raise e => Raise e
  end.

#[global] Instance result_bind : MBind result := fun _ _ k r => rbind r k.
#[global] Instance result_ret : MRet result := fun _ a => Ok a.

(** Code with an effect on a store [S] (a file being written, the output
    directory, the log): the store survives an exception. *)
Definition stateful (S A : Type) : Type := S -> S * result A.

Definition sbind {S A B} (m : stateful S A) (k : A -> stateful S B)
  : stateful S B :=
  fun s =>
    match m s with
    | (s', Ok a) => k a s'
    | (s', Raise e) => (s', Raise e)
    end.

#[global] Instance stateful_bind {S} : MBind (stateful S) :=
  fun _ _ k m => sbind m k.
#[global] Instance stateful_ret {S} : MRet (stateful S) :=
  fun _ a s => (s, Ok a).

Definition lift {S A} (r : result A) : stateful S A := fun s => (s, r).
Definition modify {S} (f : S -> S) : stateful S unit := fun s => (f s, Ok tt).
Definition get_state {S} : stateful S S := fun s => (s, Ok s).

(** A [for] loop whose body updates a local accumulator. *)
Fixpoint for_acc {S A B} (items : list A) (body : B -> A -> stateful S B)
    (acc : B) : stateful S B :=
  match items with
  | [] => mret acc
  | x :: rest => acc' ← body acc x; for_acc rest body acc'
  end.

Definition for_each {S A} (items : list A) (body : A -> stateful S unit)
  : stateful S unit :=
  for_acc items (fun _ x => body x) tt.

(** ** numpy primitives used by the module *)

Definition arange (n : nat) : list Z := map Z.of_nat (seq 0 n).

Definition np_full (n : nat) (v : Z) : list Z := repeat v n.

(** [np.isin(elements, test_elements, invert=invert)] *)
Definition np_isin (elements test_elements : list Z) (invert : bool) : list bool :=
  map (fun e => xorb (existsb (Z.eqb e) test_elements) invert) elements.

(** [np.concatenate] refuses an empty sequence of arrays. *)
Definition np_concatenate {A} (arrays : list (list A)) : result (list A) :=
  match arrays with
  | [] => Raise ValueError
  | _ => Ok (concat arrays)
  end.

(** [a & b] on boolean arrays; shapes must agree. *)
Definition np_and (a b : list bool) : result (list bool) :=
  if Nat.eqb (length a) (length b)
  then Ok (map (fun p => andb (fst p) (snd p)) (combine a b))
  else Raise ValueError.

Definition np_any (mask : list bool) : bool := existsb (fun b => b) mask.

(** [values[mask]]: boolean indexing; the mask must be as long as the array. *)
Fixpoint mask_select {A} (values : list A) (mask : list bool) : list A :=
  match values, mask with
  | v :: values', b :: mask' =>
      if b then v :: mask_select values' mask' else mask_select values' mask'
  | _, _ => []
  end.

Definition np_mask {A} (values : list A) (mask : list bool) : result (list A) :=
  if Nat.eqb (length values) (length mask)
  then Ok (mask_select values mask)
  else Raise IndexError.

(** [np.max]; there is no maximum of an empty array. *)
Definition np_max (values : list Z) : result Z :=
  match values with
  | [] => Raise ValueError
  | v :: rest => Ok (fold_left Z.max rest v)
  end.

(** A Python [slice(start, stop)], and [values[sl]]: a negative bound
    counts from the end, and both bounds are clamped to the array. *)
Definition slice : Type := (Z * Z)%type.

Definition clamp_bound (n bound : Z) : Z :=
  if Z.ltb bound 0 then Z.max 0 (bound + n) else Z.min bound n.

Definition py_slice {A} (values : list A) (sl : slice) : list A :=
  let n := Z.of_nat (length values) in
  let start := clamp_bound n (fst sl) in
  let stop := clamp_bound n (snd sl) in
  firstn (Z.to_nat (stop - start)) (skipn (Z.to_nat start) values).

(** ** Chunk scanner *)

Definition H5_READ_CHUNKSIZE : Z := 500000000.
Definition GROUP_NAME : string := "0".
Definition DELETED_EMPTY_EDGES_FILE : string := "DELETED_EMPTY_EDGES_FILE".

(** [range(start, stop, step)] for a positive step; [fuel] bounds the
    number of elements produced. *)
Fixpoint range_from (fuel : nat) (start stop step : Z) : list Z :=
  match fuel with
  | O => []
  | S fuel' =>
      if Z.ltb start stop
      then start :: range_from fuel' (start + step) stop step
      else []
  end.

(** [range(0, length, chunk_size)]: a zero step is refused, a negative one
    yields nothing since [0 <= length]. *)
Definition py_range0 (length : nat) (step : Z) : result (list Z) :=
  if Z.eqb step 0 then Raise ValueError
  else if Z.ltb step 0 then Ok []
  else Ok (range_from length 0 (Z.of_nat length) step).

Definition _create_chunked_slices (length : nat) (chunk_size : Z)
  : result (list slice) :=
  starts ← py_range0 length chunk_size;
  Ok (map (fun start => (start, start + chunk_size)) starts).

Definition _isin_worker (elements test_elements : list Z) (sl : slice)
    (invert : bool) : list bool :=
  np_isin (py_slice elements sl) test_elements invert.

(** The process environment: the value of [H5_READ_CHUNKSIZE], when set. *)
Definition environ : Type := option Z.

Definition _h5_get_read_chunk_size (env : environ) : Z :=
  match env with
  | Some v => v
  | None => H5_READ_CHUNKSIZE
  end.

(** The chunk size of the parallel branch of [_isin]:
    [max(500, int(h5_chunksize / 500))]; [int] truncates the quotient
    towards zero. *)
Definition isin_chunk_size (h5_chunksize : Z) : Z :=
  Z.max 500 (Z.quot h5_chunksize 500).

(** [_isin]: the joblib workers are pure and their results come back in
    submission order, so the parallel call is a [map] over the slices. *)
Definition _isin (env : environ) (elements test_elements : list Z)
    (invert : bool) : result (list bool) :=
  let h5_chunksize := _h5_get_read_chunk_size env in
  if Z.ltb (Z.of_nat (length elements)) h5_chunksize
  then Ok (np_isin elements test_elements invert)
  else
    let chunk_size := isin_chunk_size h5_chunksize in
    slices ← _create_chunked_slices (length elements) chunk_size;
    np_concatenate
      (map (fun sl => _isin_worker elements test_elements sl invert) slices).

(** ** Names *)

Definition _get_population_name_with (src dst synapse_type : string) : string :=
  if String.eqb src dst then src
  else (src ++ "__" ++ dst ++ "__" ++ synapse_type)%string.

(** [synapse_type] defaults to ['chemical']. *)
Definition _get_population_name (src dst : string) : string :=
  _get_population_name_with src dst "chemical".

Definition _get_edge_file_name (new_pop_name : string) : string :=
  ("edges_" ++ new_pop_name ++ ".h5")%string.

Definition _get_node_file_name (new_pop_name : string) : string :=
  ("nodes_" ++ new_pop_name ++ ".h5")%string.

(** ** Python dictionaries as association lists *)

Fixpoint assoc {V} (key : string) (d : list (string * V)) : option V :=
  match d with
  | [] => None
  | (k, v) :: d' => if String.eqb key k then Some v else assoc key d'
  end.

(** [key in d] *)
Definition dict_has {V} (key : string) (d : list (string * V)) : bool :=
  match assoc key d with Some _ => true | None => false end.

(** [d[key] = v]: an existing key keeps its position, a new one goes last. *)
Fixpoint dict_set {V} (d : list (string * V)) (key : string) (v : V)
  : list (string * V) :=
  match d with
  | [] => [(key, v)]
  | (k, w) :: d' =>
      if String.eqb key k then (k, v) :: d' else (k, w) :: dict_set d' key v
  end.

(** [del d[key]] *)
Fixpoint dict_del {V} (d : list (string * V)) (key : string)
  : list (string * V) :=
  match d with
  | [] => []
  | (k, w) :: d' =>
      if String.eqb key k then d' else (k, w) :: dict_del d' key
  end.

Definition dict_keys {V} (d : list (string * V)) : list string := map fst d.

(** [itertools.product(d, d)] over the keys of a dictionary. *)
Definition product_keys {V} (d : list (string * V)) : list (string * string) :=
  list_prod (dict_keys d) (dict_keys d).

(** ** Id mapper *)

(** The id-mapping [DataFrame]: one row [(old_id, new_id)] per node, the old
    id being the index label. *)
Definition mapping_df : Type := list (Z * Z).

Definition df_index (df : mapping_df) : list Z := map fst df.
Definition df_new_id (df : mapping_df) : list Z := map snd df.

(** [pd.DataFrame({"new_id": new_id}, index=index)], for columns of equal
    length (every call site builds [new_id] from [len(index)]). *)
Definition make_mapping (index new_id : list Z) : mapping_df :=
  combine index new_id.

(** [df.loc[labels]] with a list of labels: for every label the rows
    carrying it, in label order; a label without a row is a [KeyError]. *)
Fixpoint df_loc (df : mapping_df) (labels : list Z) : result mapping_df :=
  match labels with
  | [] => Ok []
  | lbl :: labels' =>
      match List.filter (fun row => Z.eqb (fst row) lbl) df with
      | [] => Raise KeyError
      | rows => rest ← df_loc df labels'; Ok (rows ++ rest)
      end
  end.

(** A cell of a node attribute column. *)
Inductive cell : Type :=
| CInt (z : Z)
| CStr (s : string).

(** A node [DataFrame]: the index holds the old node ids, every column is
    row-aligned with it. *)
Record node_table : Type := {
  nt_index : list Z;
  nt_columns : list (string * list cell)
}.

(** [len(df)] *)
Definition nt_len (df : node_table) : nat := length (nt_index df).

Definition _get_node_id_mapping (split_nodes : list (string * node_table))
  : list (string * mapping_df) :=
  map (fun item =>
         (fst item,
          make_mapping (nt_index (snd item)) (arange (nt_len (snd item)))))
      split_nodes.

(** ** External source ids of a subcircuit *)

(** [np.unique]: the sorted distinct values. *)
Fixpoint insert_unique (x : Z) (sorted : list Z) : list Z :=
  match sorted with
  | [] => [x]
  | y :: rest =>
      if Z.ltb x y then x :: y :: rest
      else if Z.eqb x y then y :: rest
      else y :: insert_unique x rest
  end.

Definition np_unique (values : list Z) : list Z :=
  fold_right insert_unique [] values.

(** [df.sort_index()]: rows ordered by index label, ties in row order. *)
Fixpoint insert_row (row : Z * Z) (sorted : mapping_df) : mapping_df :=
  match sorted with
  | [] => [row]
  | r :: rest =>
      if Z.ltb (fst row) (fst r) then row :: r :: rest
      else r :: insert_row row rest
  end.

Definition df_sort_index (df : mapping_df) : mapping_df :=
  fold_right insert_row [] df.

(** The body of the chunk loop of [_get_subcircuit_external_ids]; [ret] is
    the mapping built so far ([None] before the first match). *)
Definition external_ids_body (env : environ)
    (all_sgids all_tgids wanted_src_ids wanted_dst_ids : list Z)
    (ret : option mapping_df) (sl : slice) : result (option mapping_df) :=
  let sgids := py_slice all_sgids sl in
  let tgids := py_slice all_tgids sl in
  m_src ← _isin env sgids wanted_src_ids false;
  m_dst ← _isin env tgids wanted_dst_ids false;
  mask ← np_and m_src m_dst;
  if np_any mask then
    selected ← np_mask sgids mask;
    let needed := np_unique selected in
    match ret with
    | None => Ok (Some (make_mapping needed (arange (length needed))))
    | Some r =>
        mm ← _isin env needed (df_index r) true;
        if np_any mm then
          needed' ← np_mask needed mm;
          top ← np_max (df_new_id r);
          let start_id := top + 1 in
          let new :=
            make_mapping needed'
              (map (fun i => start_id + i) (arange (length needed'))) in
          Ok (Some (r ++ new))
        else Ok (Some r)
    end
  else Ok ret.

Fixpoint external_ids_loop (env : environ)
    (all_sgids all_tgids wanted_src_ids wanted_dst_ids : list Z)
    (ret : option mapping_df) (slices : list slice)
  : result (option mapping_df) :=
  match slices with
  | [] => Ok ret
  | sl :: slices' =>
      ret' ← external_ids_body env all_sgids all_tgids wanted_src_ids
               wanted_dst_ids ret sl;
      external_ids_loop env all_sgids all_tgids wanted_src_ids wanted_dst_ids
        ret' slices'
  end.

Definition _get_subcircuit_external_ids (env : environ)
    (all_sgids all_tgids wanted_src_ids wanted_dst_ids : list Z)
  : result mapping_df :=
  let h5_read_chunk_size := _h5_get_read_chunk_size env in
  slices ← _create_chunked_slices (length all_sgids) h5_read_chunk_size;
  ret ← external_ids_loop env all_sgids all_tgids wanted_src_ids
          wanted_dst_ids None slices;
  match ret with
  | None => Ok (df_sort_index (make_mapping [] []))
  | Some r => Ok (df_sort_index r)
  end.

(** ** Node sets *)

(** A JSON document, as [json.load] returns it. *)
Inductive json : Type :=
| JNull
| JBool (b : bool)
| JInt (z : Z)
| JString (s : string)
| JList (items : list json)
| JDict (fields : list (string * json)).

(** [pd.unique]: the distinct values in order of first appearance. *)
Fixpoint pd_unique_from (seen values : list Z) : list Z :=
  match values with
  | [] => []
  | x :: rest =>
      if existsb (Z.eqb x) seen then pd_unique_from seen rest
      else x :: pd_unique_from (x :: seen) rest
  end.

Definition pd_unique (values : list Z) : list Z := pd_unique_from [] values.

(** [index.intersection(other)]: the distinct labels of [index] that occur
    in [other]. *)
Definition index_intersection (index other : list Z) : list Z :=
  pd_unique (List.filter (fun i => existsb (Z.eqb i) other) index).

(** [series.sort_values()] on integers. *)
Definition sort_values (values : list Z) : list Z := merge_sort Z.le values.

(** The ids of [rule['node_id']] as labels: a list is required, and an item
    that is not an integer equals no old id. *)
Definition node_id_labels (v : json) : result (list Z) :=
  match v with
  | JList items =>
      Ok (omap (fun j => match j with JInt z => Some z | _ => None end) items)
  | _ => Raise TypeError
  end.

(** [rule['population'] in id_mapping] followed by the lookup: the keys of
    the mapping are strings, a list or a dictionary is not hashable. *)
Definition lookup_population (population : json)
    (id_mapping : list (string * mapping_df)) : result (option mapping_df) :=
  match population with
  | JString name => Ok (assoc name id_mapping)
  | JList _ | JDict _ => Raise TypeError
  | _ => Ok None
  end.

(** [mapping.loc[mapping.index.intersection(ids)].new_id.sort_values().to_list()] *)
Definition remap_node_ids (mapping : mapping_df) (node_id : json)
  : result (list Z) :=
  labels ← node_id_labels node_id;
  rows ← df_loc mapping (index_intersection (df_index mapping) labels);
  Ok (sort_values (df_new_id rows)).

Definition warning_no_population (name : string) : string :=
  ("No population key in nodeset " ++ name ++ ", ignoring")%string.

(** The body of the loop of [_update_node_sets]; the store is the list of
    warnings logged so far, [ret] the dictionary being built.  The source
    stores the rule object itself in [ret] and then overwrites its
    ['node_id'] entry; only the returned dictionary is modelled. *)
Definition update_node_sets_body (id_mapping : list (string * mapping_df))
    (ret : list (string * json)) (item : string * json)
  : stateful (list string) (list (string * json)) :=
  let name := fst item in
  let rule := snd item in
  match rule with
  | JDict fields =>
      match assoc "node_id" fields with
      | Some node_id =>
          match assoc "population" fields with
          | None =>
              _ ← modify (fun log => log ++ [warning_no_population name]);
              mret ret
          | Some population =>
              found ← lift (lookup_population population id_mapping);
              match found with
              | None => mret ret
              | Some mapping =>
                  ids ← lift (remap_node_ids mapping node_id);
                  mret (dict_set ret name
                          (JDict (dict_set fields "node_id"
                                    (JList (map JInt ids)))))
              end
          end
      | None => mret (dict_set ret name rule)
      end
  | _ => mret (dict_set ret name rule)
  end.

Definition _update_node_sets (node_sets : list (string * json))
    (id_mapping : list (string * mapping_df))
  : stateful (list string) (list (string * json)) :=
  for_acc node_sets (update_node_sets_body id_mapping) [].

(** ** HDF5 containers *)

(** A member of an edge group: a dataset (its rows; the values are opaque
    to the copier) or a nested group. *)
Inductive h5obj : Type :=
| H5Dataset (rows : list Z)
| H5Group (members : list (string * h5obj)).

Definition h5group : Type := list (string * h5obj).

(** The two directional range indices of an edge population: for every
    node id below the node count, the row positions bearing it. *)
Record edge_indices : Type := {
  source_to_target : list (list nat);
  target_to_source : list (list nat)
}.

(** An edge population [/edges/<name>]: the two id datasets with their
    [node_population] attribute, the bookkeeping datasets once written, the
    sub-groups (['0']) and the indices once written. *)
Record edge_population : Type := {
  source_node_id : list Z;
  source_node_population : string;
  target_node_id : list Z;
  target_node_population : string;
  edge_type_id : option (list Z);
  edge_group_id : option (list Z);
  edge_group_index : option (list Z);
  groups : list (string * h5group);
  indices : option edge_indices
}.

(** An edges file: the populations of its [/edges] group. *)
Definition h5file : Type := list (string * edge_population).

(** The output directory: path to file content. *)
Abbreviation directory := (gmap string h5file).

Definition _get_unique_population {V} (parent : list (string * V))
  : result string :=
  let population_names := dict_keys parent in
  if Nat.eqb (length population_names) 1
  then match population_names with
       | name :: _ => Ok name
       | [] => Raise IndexError
       end
  else Raise ValueError.

Definition _get_unique_group (parent : edge_population) : result h5group :=
  match assoc GROUP_NAME (groups parent) with
  | Some g => Ok g
  | None => Raise ValueError
  end.

(** Modelled from the spec: [utils.create_appendable_dataset] of
    [brainbuilder/utils/__init__.py], the "create-empty-with-dtype"
    container primitive: an empty, resizable dataset under [name]. *)
Definition create_appendable_dataset (g : h5group) (name : string) : h5group :=
  dict_set g name (H5Dataset []).

(** Modelled from the spec: [utils.append_to_dataset] of
    [brainbuilder/utils/__init__.py], the "append-rows" container
    primitive, applied to the dataset [g[name]]. *)
Definition append_to_dataset (g : h5group) (name : string) (values : list Z)
  : result h5group :=
  match assoc name g with
  | Some (H5Dataset rows) => Ok (dict_set g name (H5Dataset (rows ++ values)))
  | Some (H5Group _) => Raise TypeError
  | None => Raise KeyError
  end.

(** The inner loop of [_init_edge_group] over [dynamics_params]. *)
Fixpoint init_dynamics_params (items : list (string * h5obj))
  : stateful h5group unit :=
  match items with
  | [] => mret tt
  | (k, values) :: rest =>
      match values with
      | H5Dataset _ =>
          _ ← modify (fun g => create_appendable_dataset g k);
          init_dynamics_params rest
      | H5Group _ => lift (Raise AssertionError)
      end
  end.

(** [_init_edge_group]: the store is [new_group]. *)
Fixpoint _init_edge_group (orig_group : h5group) : stateful h5group unit :=
  match orig_group with
  | [] => mret tt
  | (name, attr) :: rest =>
      match attr with
      | H5Dataset _ =>
          _ ← modify (fun g => create_appendable_dataset g name);
          _init_edge_group rest
      | H5Group sub =>
          if String.eqb name "dynamics_params" then
            fun new_group =>
              let '(new_sub, r) := init_dynamics_params sub [] in
              let new_group' := dict_set new_group name (H5Group new_sub) in
              match r with
              | Ok _ => _init_edge_group rest new_group'
              | Raise e => (new_group', Raise e)
              end
          else lift (Raise ValueError)
      end
  end.

(** [values[sl][mask]] appended to [new_group[name][k]] for every dataset
    of [dynamics_params]; other members are skipped. *)
Fixpoint populate_dynamics_params (items : list (string * h5obj))
    (sl : slice) (mask : list bool) : stateful h5group unit :=
  match items with
  | [] => mret tt
  | (k, values) :: rest =>
      match values with
      | H5Dataset rows =>
          selected ← lift (np_mask (py_slice rows sl) mask);
          _ ← (fun g => match append_to_dataset g k selected with
                        | Ok g' => (g', Ok tt)
                        | Raise e => (g, Raise e)
                        end);
          populate_dynamics_params rest sl mask
      | H5Group _ => populate_dynamics_params rest sl mask
      end
  end.

(** [_populate_edge_group]: the store is [new_group]. *)
Fixpoint _populate_edge_group (orig_group : h5group) (sl : slice)
    (mask : list bool) : stateful h5group unit :=
  match orig_group with
  | [] => mret tt
  | (name, attr) :: rest =>
      match attr with
      | H5Dataset rows =>
          selected ← lift (np_mask (py_slice rows sl) mask);
          _ ← (fun g => match append_to_dataset g name selected with
                        | Ok g' => (g', Ok tt)
                        | Raise e => (g, Raise e)
                        end);
          _populate_edge_group rest sl mask
      | H5Group sub =>
          if String.eqb name "dynamics_params" then
            fun new_group =>
              match assoc name new_group with
              | Some (H5Group new_sub) =>
                  let '(new_sub', r) :=
                    populate_dynamics_params sub sl mask new_sub in
                  let new_group' := dict_set new_group name (H5Group new_sub') in
                  match r with
                  | Ok _ => _populate_edge_group rest sl mask new_group'
                  | Raise e => (new_group', Raise e)
                  end
              | Some (H5Dataset _) => (new_group, Raise TypeError)
              | None => (new_group, Raise KeyError)
              end
          else lift (Raise ValueError)
      end
  end.

(** ** Edge attribute copier *)

Definition append_source_node_id (values : list Z) (p : edge_population)
  : edge_population :=
  {| source_node_id := source_node_id p ++ values;
     source_node_population := source_node_population p;
     target_node_id := target_node_id p;
     target_node_population := target_node_population p;
     edge_type_id := edge_type_id p; edge_group_id := edge_group_id p;
     edge_group_index := edge_group_index p;
     groups := groups p; indices := indices p |}.

Definition append_target_node_id (values : list Z) (p : edge_population)
  : edge_population :=
  {| source_node_id := source_node_id p;
     source_node_population := source_node_population p;
     target_node_id := target_node_id p ++ values;
     target_node_population := target_node_population p;
     edge_type_id := edge_type_id p; edge_group_id := edge_group_id p;
     edge_group_index := edge_group_index p;
     groups := groups p; indices := indices p |}.

Definition set_groups (gs : list (string * h5group)) (p : edge_population)
  : edge_population :=
  {| source_node_id := source_node_id p;
     source_node_population := source_node_population p;
     target_node_id := target_node_id p;
     target_node_population := target_node_population p;
     edge_type_id := edge_type_id p; edge_group_id := edge_group_id p;
     edge_group_index := edge_group_index p;
     groups := gs; indices := indices p |}.

Definition set_indices (idx : option edge_indices) (p : edge_population)
  : edge_population :=
  {| source_node_id := source_node_id p;
     source_node_population := source_node_population p;
     target_node_id := target_node_id p;
     target_node_population := target_node_population p;
     edge_type_id := edge_type_id p; edge_group_id := edge_group_id p;
     edge_group_index := edge_group_index p;
     groups := groups p; indices := idx |}.

(** Run code on the group ['0'] of the population being written. *)
Definition on_new_group (m : stateful h5group unit)
  : stateful edge_population unit :=
  fun new_edges =>
    match assoc GROUP_NAME (groups new_edges) with
    | Some new_group =>
        let '(new_group', r) := m new_group in
        (set_groups (dict_set (groups new_edges) GROUP_NAME new_group')
           new_edges, r)
    | None => (new_edges, Raise KeyError)
    end.

Definition _finalize_edges (new_edges : edge_population) : edge_population :=
  let edge_count := length (source_node_id new_edges) in
  {| source_node_id := source_node_id new_edges;
     source_node_population := source_node_population new_edges;
     target_node_id := target_node_id new_edges;
     target_node_population := target_node_population new_edges;
     edge_type_id := Some (np_full edge_count (-1));
     edge_group_id := Some (np_full edge_count 0);
     edge_group_index := Some (arange edge_count);
     groups := groups new_edges; indices := indices new_edges |}.

(** [assert (ids >= 0).all()] *)
Definition assert_non_negative (ids : list Z) : result unit :=
  if forallb (fun i => Z.leb 0 i) ids then Ok tt else Raise AssertionError.

(** The body of the chunk loop of [_copy_edge_attributes]; the store is
    the population [new_edges] being written. *)
Definition copy_edges_chunk (env : environ)
    (orig_edges : edge_population) (orig_group : h5group)
    (src_mapping dst_mapping : mapping_df) (sl : slice)
  : stateful edge_population unit :=
  let sgids := py_slice (source_node_id orig_edges) sl in
  let tgids := py_slice (target_node_id orig_edges) sl in
  sgid_mask ← lift (_isin env sgids (df_index src_mapping) false);
  tgid_mask ← lift (_isin env tgids (df_index dst_mapping) false);
  mask ← lift (np_and sgid_mask tgid_mask);
  if np_any mask then
    s_kept ← lift (np_mask sgids mask);
    s_rows ← lift (df_loc src_mapping s_kept);
    _ ← modify (append_source_node_id (df_new_id s_rows));
    t_kept ← lift (np_mask tgids mask);
    t_rows ← lift (df_loc dst_mapping t_kept);
    _ ← modify (append_target_node_id (df_new_id t_rows));
    on_new_group (_populate_edge_group orig_group sl mask)
  else mret tt.

(** What [_copy_edge_attributes] does once the output group exists. *)
Definition copy_into_new_edges (env : environ)
    (orig_edges : edge_population) (orig_group : h5group)
    (src_mapping dst_mapping : mapping_df) (h5_read_chunk_size : Z)
  : stateful edge_population unit :=
  _ ← on_new_group (_init_edge_group orig_group);
  _ ← lift (assert_non_negative (df_index src_mapping));
  _ ← lift (assert_non_negative (df_index dst_mapping));
  slices ← lift (_create_chunked_slices (length (source_node_id orig_edges))
                   h5_read_chunk_size);
  _ ← for_each slices
        (copy_edges_chunk env orig_edges orig_group src_mapping dst_mapping);
  modify _finalize_edges.

(** [_copy_edge_attributes]: [h5in] is the input file, the store is the
    output file [h5out]. *)
Definition _copy_edge_attributes (env : environ) (h5in : h5file)
    (src_node_name dst_node_name src_edge_name dst_edge_name : string)
    (src_mapping dst_mapping : mapping_df) (h5_read_chunk_size : option Z)
  : stateful h5file unit :=
  fun h5out =>
    let chunk_size :=
      match h5_read_chunk_size with
      | Some c => c
      | None => _h5_get_read_chunk_size env
      end in
    match assoc src_edge_name h5in with
    | None => (h5out, Raise KeyError)
    | Some orig_edges =>
        match _get_unique_group orig_edges with
        | Raise e => (h5out, Raise e)
        | Ok orig_group =>
            if dict_has dst_edge_name h5out then (h5out, Raise ValueError)
            else
              let created :=
                {| source_node_id := [];
                   source_node_population := src_node_name;
                   target_node_id := [];
                   target_node_population := dst_node_name;
                   edge_type_id := None; edge_group_id := None;
                   edge_group_index := None;
                   groups := [(GROUP_NAME, [])]; indices := None |} in
              let '(new_edges, r) :=
                copy_into_new_edges env orig_edges orig_group src_mapping
                  dst_mapping chunk_size created in
              (dict_set h5out dst_edge_name new_edges, r)
        end
    end.

(** ** Index builder *)

Definition _get_node_counts (h5out : h5file) (new_pop_name : string)
  : result (nat * Z * Z) :=
  match assoc new_pop_name h5out with
  | None => Raise KeyError
  | Some new_edges =>
      let edge_count := length (source_node_id new_edges) in
      if Nat.ltb 0 edge_count then
        smax ← np_max (source_node_id new_edges);
        tmax ← np_max (target_node_id new_edges);
        Ok (edge_count, smax + 1, tmax + 1)
      else Ok (edge_count, 0, 0)
  end.

(** The row positions of [ids] that carry [node]. *)
Fixpoint positions_from (pos : nat) (ids : list Z) (node : Z) : list nat :=
  match ids with
  | [] => []
  | i :: rest =>
      if Z.eqb i node then pos :: positions_from (S pos) rest node
      else positions_from (S pos) rest node
  end.

Definition range_index (ids : list Z) (node_count : Z) : list (list nat) :=
  map (fun node => positions_from 0 ids (Z.of_nat node))
      (seq 0 (Z.to_nat node_count)).

(** Modelled from the spec: [libsonata.EdgePopulation.write_indices], the
    external index writer behind [_write_indexes]: it stores, in the file at
    [edge_file_name], the source and target range indices of the population
    for the node counts it is given, and fails when there is no such
    population. *)
Definition _write_indexes (edge_file_name new_pop_name : string)
    (source_node_count target_node_count : Z) : stateful directory unit :=
  fun dir =>
    match dir !! edge_file_name with
    | None => (dir, Raise RuntimeError)
    | Some file =>
        match assoc new_pop_name file with
        | None => (dir, Raise RuntimeError)
        | Some p =>
            let idx :=
              {| source_to_target :=
                   range_index (source_node_id p) source_node_count;
                 target_to_source :=
                   range_index (target_node_id p) target_node_count |} in
            (<[edge_file_name := dict_set file new_pop_name
                                   (set_indices (Some idx) p)]> dir, Ok tt)
        end
    end.

(** ** Writing the edge files *)

Fixpoint ends_with_slash (s : string) : bool :=
  match s with
  | EmptyString => false
  | String c EmptyString => Ascii.eqb c (Ascii.ascii_of_nat 47)
  | String _ rest => ends_with_slash rest
  end.

(** [os.path.join(a, b)] *)
Definition os_path_join (a b : string) : string :=
  if String.prefix "/" b then b
  else if String.eqb a "" then b
  else if ends_with_slash a then (a ++ b)%string
  else (a ++ "/" ++ b)%string.

(** [with h5py.File(path, 'w') as h5out: body]: the file starts empty and
    holds whatever was written when the block is left, also by an
    exception. *)
Definition with_h5_file_w {A} (path : string) (body : stateful h5file A)
  : stateful directory A :=
  fun dir =>
    let '(h5out, r) := body [] in
    (<[path := h5out]> dir, r).

(** [with h5py.File(path, 'a') as h5out: body]: an existing file keeps its
    content. *)
Definition with_h5_file_a {A} (path : string) (body : stateful h5file A)
  : stateful directory A :=
  fun dir =>
    let '(h5out, r) := body (default [] (dir !! path)) in
    (<[path := h5out]> dir, r).

(** [os.unlink(path)] of a file that exists. *)
Definition os_unlink (path : string) : stateful directory unit :=
  modify (delete path).

(** [d[key]] *)
Definition dict_get {V} (d : list (string * V)) (key : string) : result V :=
  match assoc key d with
  | Some v => Ok v
  | None => Raise KeyError
  end.

Definition _check_all_edges_used (h5in : h5file) (written_edges : nat)
  : result unit :=
  name ← _get_unique_population h5in;
  orig_edges ← dict_get h5in name;
  let expected_edges := length (source_node_id orig_edges) in
  if negb (Nat.eqb expected_edges written_edges)
  then Raise RuntimeError
  else Ok tt.

(** The [with h5py.File(edge_file_name, 'w')] block of [_write_edges]:
    the copy into the fresh file, then the counts. *)
Definition write_edges_block (env : environ) (h5in : h5file)
    (id_mapping : list (string * mapping_df))
    (h5_read_chunk_size : option Z) (src_node_pop dst_node_pop : string)
  : stateful h5file (nat * Z * Z) :=
  let edge_pop_name := _get_population_name src_node_pop dst_node_pop in
  src_edge_name ← lift (_get_unique_population h5in);
  src_mapping ← lift (dict_get id_mapping src_node_pop);
  dst_mapping ← lift (dict_get id_mapping dst_node_pop);
  _ ← _copy_edge_attributes env h5in src_node_pop dst_node_pop
        src_edge_name edge_pop_name src_mapping dst_mapping
        h5_read_chunk_size;
  h5out ← get_state;
  lift (_get_node_counts h5out edge_pop_name).

(** The body of the loop of [_write_edges] over the ordered pairs of new
    populations; [written_edges] is the local counter. *)
Definition write_edges_pair (env : environ) (output : string)
    (h5in : h5file) (id_mapping : list (string * mapping_df))
    (h5_read_chunk_size : option Z) (written_edges : nat)
    (pair : string * string) : stateful directory nat :=
  let src_node_pop := fst pair in
  let dst_node_pop := snd pair in
  let edge_pop_name := _get_population_name src_node_pop dst_node_pop in
  let edge_file_name :=
    os_path_join output (_get_edge_file_name edge_pop_name) in
  counts ← with_h5_file_w edge_file_name
    (write_edges_block env h5in id_mapping h5_read_chunk_size
       src_node_pop dst_node_pop);
  let edge_count := fst (fst counts) in
  let sgid_count := snd (fst counts) in
  let tgid_count := snd counts in
  if Nat.ltb 0 edge_count then
    _ ← _write_indexes edge_file_name edge_pop_name sgid_count tgid_count;
    mret (written_edges + edge_count)%nat
  else
    _ ← os_unlink edge_file_name;
    mret written_edges.

(** [_write_edges]: [h5in] is the content of [edges_path], the store is
    the output directory. *)
Definition _write_edges (env : environ) (output : string) (h5in : h5file)
    (id_mapping : list (string * mapping_df))
    (h5_read_chunk_size : option Z) (expect_to_use_all_edges : bool)
  : stateful directory unit :=
  written_edges ←
    for_acc (product_keys id_mapping)
      (write_edges_pair env output h5in id_mapping h5_read_chunk_size) 0%nat;
  if expect_to_use_all_edges
  then lift (_check_all_edges_used h5in written_edges)
  else mret tt.

(** The [with h5py.File(output_path, 'a')] block of
    [_write_subcircuit_edges]: the counts and [is_file_empty]. *)
Definition subcircuit_edges_block (env : environ) (h5in : h5file)
    (src_node_pop dst_node_pop src_edge_pop_name dst_edge_pop_name : string)
    (src_mapping dst_mapping : mapping_df)
  : stateful h5file (nat * Z * Z * bool) :=
  _ ← _copy_edge_attributes env h5in src_node_pop dst_node_pop
        src_edge_pop_name dst_edge_pop_name src_mapping dst_mapping None;
  h5out ← get_state;
  counts ← lift (_get_node_counts h5out dst_edge_pop_name);
  if Nat.eqb (fst (fst counts)) 0 then
    _ ← modify (fun f : h5file => dict_del f dst_edge_pop_name);
    h5out' ← get_state;
    mret (counts, Nat.eqb (length h5out') 0)
  else mret (counts, false).

(** [_write_subcircuit_edges]: returns the output path, or the sentinel
    when the file was removed. *)
Definition _write_subcircuit_edges (env : environ) (output_path : string)
    (h5in : h5file)
    (src_node_pop dst_node_pop src_edge_pop_name dst_edge_pop_name : string)
    (src_mapping dst_mapping : mapping_df) : stateful directory string :=
  res ← with_h5_file_a output_path
    (subcircuit_edges_block env h5in src_node_pop dst_node_pop
       src_edge_pop_name dst_edge_pop_name src_mapping dst_mapping);
  let edge_count := fst (fst (fst res)) in
  let sgid_count := snd (fst (fst res)) in
  let tgid_count := snd (fst res) in
  let is_file_empty : bool := snd res in
  if Nat.ltb 0 edge_count then
    _ ← _write_indexes output_path dst_edge_pop_name sgid_count tgid_count;
    mret output_path
  else if is_file_empty then
    _ ← os_unlink output_path;
    mret DELETED_EMPTY_EDGES_FILE
  else mret output_path.

(** ** Circuit configuration of a split *)

(** [os.path.exists(path)] in the output directory. *)
Definition os_path_exists (dir : directory) (path : string) : bool :=
  match dir !! path with Some _ => true | None => false end.

(** The body of the loop of [_write_circuit_config] over the ordered
    pairs of populations; the store holds [tmpl['networks']['nodes']] and
    [tmpl['networks']['edges']]. *)
Definition circuit_config_pair (dir : directory) (output : string)
    (tmpl : list json * list json) (pair : string * string)
  : list json * list json :=
  let src := fst pair in
  let dst := snd pair in
  let new_pop_name := _get_population_name src dst in
  let nodes :=
    if String.eqb src dst then
      fst tmpl ++
      [JDict [("nodes_file",
               JString (os_path_join "$BASE_DIR"
                          (_get_node_file_name new_pop_name)));
              ("node_types_file", JNull)]]
    else fst tmpl in
  let edges :=
    if os_path_exists dir
         (os_path_join output (_get_edge_file_name new_pop_name)) then
      snd tmpl ++
      [JDict [("edges_file",
               JString (os_path_join "$BASE_DIR"
                          (_get_edge_file_name new_pop_name)));
              ("edge_types_file", JNull)]]
    else snd tmpl in
  (nodes, edges).

(** [_write_circuit_config]: the document handed to [utils.dump_json] for
    [circuit_config.json] in [output]; [dir] is the output directory the
    loop looks edge files up in. *)
Definition _write_circuit_config {V} (dir : directory) (output : string)
    (split_nodes : list (string * V)) : json :=
  let tmpl :=
    fold_left (circuit_config_pair dir output) (product_keys split_nodes)
      ([], []) in
  JDict [("manifest", JDict [("$BASE_DIR", JString ".")]);
         ("networks",
          JDict [("nodes", JList (fst tmpl)); ("edges", JList (snd tmpl))])].

(** ** Id mapping document *)

(** [_write_mapping]: the document handed to [utils.dump_json] for
    [id_mapping.json] in [output]. *)
Definition _write_mapping (id_mapping : list (string * mapping_df)) : json :=
  JDict
    (fold_left
       (fun mapping item =>
          dict_set mapping (fst item)
            (JDict [("old_id", JList (map JInt (df_index (snd item))));
                    ("new_id", JList (map JInt (df_new_id (snd item))))]))
       id_mapping []).

(** ** Circuit configuration of a subcircuit *)

(** An element of [config['networks']['nodes']] or
    [config['networks']['edges']], as a validated SONATA configuration
    has it: the dictionary [el['populations']] and the other keys of
    [el], the file key among them. *)
Record stanza : Type := {
  stanza_populations : list (string * json);
  stanza_keys : list (string * json)
}.

(** A SONATA configuration: [config['networks']] and the other keys. *)
Record sonata_config : Type := {
  config_networks : list (string * list stanza);
  config_keys : list (string * json)
}.

(** [s[n:]] *)
Definition str_drop (n : nat) (s : string) : string :=
  String.substring n (String.length s - n) s.

(** The local function [_strip_base_path] of
    [_update_config_with_new_paths]. *)
Definition _strip_base_path (output path : string) : result string :=
  if String.prefix output path then
    let path := str_drop (String.length output) path in
    Ok (if String.prefix "/" path then str_drop 1 path else path)
  else Raise AssertionError.

(** [el[key] = value] *)
Definition stanza_set (el : stanza) (key : string) (value : json) : stanza :=
  {| stanza_populations := stanza_populations el;
     stanza_keys := dict_set (stanza_keys el) key value |}.

(** What the first loop of [_update_config_with_new_paths] keeps: the
    copy of [new_population_files] and the set [removed_populations]. *)
Record path_update : Type := {
  remaining_files : list (string * string);
  removed_populations : gset string
}.

Definition remove_population (population : string) (st : path_update)
  : path_update :=
  {| remaining_files := remaining_files st;
     removed_populations := {[population]} ∪ removed_populations st |}.

Definition take_population_file (population : string) (st : path_update)
  : path_update :=
  {| remaining_files := dict_del (remaining_files st) population;
     removed_populations := removed_populations st |}.

Section UpdateConfig.

(** [str(Path(a) / b)] of [pathlib]. *)
Variable pathlib_join : string -> string -> string.

(** The body of the inner loop of the first pass, for one population of
    the element [el]. *)
Definition update_population_path (type_ output : string) (el : stanza)
    (population : string) : stateful path_update stanza :=
  st ← get_state;
  match assoc population (remaining_files st) with
  | None =>
      _ ← modify (remove_population population);
      mret el
  | Some population_path =>
      _ ← modify (take_population_file population);
      if String.eqb population_path DELETED_EMPTY_EDGES_FILE then
        _ ← modify (remove_population population);
        mret el
      else
        updated_path ← lift (_strip_base_path output population_path);
        if String.eqb (pathlib_join output updated_path) population_path
        then
          mret (stanza_set el (type_ ++ "_file")
                  (JString (os_path_join "$BASE_DIR" updated_path)))
        else lift (Raise AssertionError)
  end.

(** The first pass over one element. *)
Definition update_stanza_paths (type_ output : string) (el : stanza)
  : stateful path_update stanza :=
  for_acc (dict_keys (stanza_populations el))
    (update_population_path type_ output) el.

(** The first pass over [config['networks'][type_]]. *)
Fixpoint update_paths (type_ output : string) (els : list stanza)
  : stateful path_update (list stanza) :=
  match els with
  | [] => mret []
  | el :: rest =>
      el' ← update_stanza_paths type_ output el;
      rest' ← update_paths type_ output rest;
      mret (el' :: rest')
  end.

(** The second pass: the removed populations leave their element. *)
Definition drop_removed (removed : gset string) (el : stanza) : stanza :=
  {| stanza_populations :=
       List.filter (fun item => negb (bool_decide (fst item ∈ removed)))
         (stanza_populations el);
     stanza_keys := stanza_keys el |}.

(** [if el['populations']] *)
Definition has_populations (el : stanza) : bool :=
  match stanza_populations el with [] => false | _ => true end.

Definition _update_config_with_new_paths (output : string)
    (config : sonata_config) (new_population_files : list (string * string))
    (type_ : string) : result sonata_config :=
  if negb (String.eqb type_ "nodes" || String.eqb type_ "edges")
  then Raise AssertionError
  else
    let manifest := JDict [("$BASE_DIR", JString "./")] in
    els ← dict_get (config_networks config) type_;
    let '(st, r) :=
      update_paths type_ output els
        {| remaining_files := new_population_files;
           removed_populations := ∅ |} in
    els' ← r;
    if forallb (String.prefix "external") (dict_keys (remaining_files st))
    then
      let els'' := map (drop_removed (removed_populations st)) els' in
      Ok {| config_networks :=
              dict_set (config_networks config) type_
                (List.filter has_populations els'');
            config_keys := dict_set (config_keys config) "manifest" manifest |}
    else Raise AssertionError.

End UpdateConfig.

(** ** External connectivity of a subcircuit *)

(** An edge population of a [bluepysnap] circuit, as far as the module
    reads it: the name and type of its source node population, the name
    of its target node population, and the content of the edges file at
    [h5_filepath]. *)
Record circuit_edge : Type := {
  edge_source_name : string;
  edge_source_type : string;
  edge_target_name : string;
  edge_storage : h5file
}.

(** A circuit: [circuit.edges] and, per node population, the ids
    [circuit.nodes[name].ids()]. *)
Record circuit : Type := {
  circuit_edges : list (string * circuit_edge);
  circuit_nodes : list (string * list Z)
}.

(** The dictionaries the loop of [_write_subcircuit_external] updates:
    [id_mapping] (the caller's, written in place), [new_nodes] and
    [new_edges_files]. *)
Record external_state : Type := {
  ext_id_mapping : list (string * mapping_df);
  ext_new_nodes : list (string * mapping_df);
  ext_new_edges_files : list (string * string)
}.

Section SubcircuitExternal.

(** [str(Path(a) / b)] of [pathlib]. *)
Variable pathlib_join : string -> string -> string.

(** The path [curate._create_source_nodes(population_name, count, output)]
    returns; the nodes file it writes is not an edges file. *)
Variable create_source_nodes : string -> nat -> string -> string.

(** The body of the loop over [circuit.edges.items()]. *)
Definition external_edge (env : environ) (output : string) (circ : circuit)
    (acc : external_state) (item : string * circuit_edge)
  : stateful directory external_state :=
  let name := fst item in
  let edge := snd item in
  let id_mapping := ext_id_mapping acc in
  if negb (String.eqb (edge_source_type edge) "virtual")
     && dict_has (edge_target_name edge) id_mapping
  then
    all_src_ids ← lift (dict_get (circuit_nodes circ) (edge_source_name edge));
    wanted_src_ids ←
      lift (match assoc (edge_source_name edge) id_mapping with
            | Some src_mapping =>
                mask ← _isin env all_src_ids (df_index src_mapping) true;
                np_mask all_src_ids mask
            | None => Ok all_src_ids
            end);
    orig_edges ← lift (dict_get (edge_storage edge) name);
    dst_mapping ← lift (dict_get id_mapping (edge_target_name edge));
    wanted ←
      lift (_get_subcircuit_external_ids env (source_node_id orig_edges)
              (target_node_id orig_edges) wanted_src_ids
              (df_index dst_mapping));
    if Nat.eqb (length wanted) 0 then mret acc
    else
      let new_name := ("external_" ++ name)%string in
      let output_path := pathlib_join output (new_name ++ ".h5") in
      path ← _write_subcircuit_edges env output_path (edge_storage edge)
               (edge_source_name edge) (edge_target_name edge) name new_name
               wanted dst_mapping;
      mret {| ext_id_mapping := dict_set id_mapping new_name wanted;
              ext_new_nodes := dict_set (ext_new_nodes acc) new_name wanted;
              ext_new_edges_files :=
                dict_set (ext_new_edges_files acc) new_name path |}
  else mret acc.

(** The second loop: one nodes file per new population. *)
Definition external_node_files (output : string)
    (new_nodes : list (string * mapping_df)) : list (string * string) :=
  fold_left
    (fun new_node_files item =>
       if Nat.eqb (length (snd item)) 0 then new_node_files
       else dict_set new_node_files (fst item)
              (create_source_nodes (fst item) (length (snd item)) output))
    new_nodes [].

(** [_write_subcircuit_external]: returns [new_node_files] and
    [new_edges_files], and with them the [id_mapping] it has written in
    place. *)
Definition _write_subcircuit_external (env : environ) (output : string)
    (circ : circuit) (id_mapping : list (string * mapping_df))
  : stateful directory
      (list (string * string) * list (string * string)
       * list (string * mapping_df)) :=
  acc ← for_acc (circuit_edges circ) (external_edge env output circ)
          {| ext_id_mapping := id_mapping; ext_new_nodes := [];
             ext_new_edges_files := [] |};
  mret (external_node_files output (ext_new_nodes acc),
        ext_new_edges_files acc, ext_id_mapping acc).

End SubcircuitExternal.

(** ** Vocabulary of the statements *)

(** The number of rows held by an HDF5 object. *)
Fixpoint h5obj_rows (o : h5obj) : nat :=
  match o with
  | H5Dataset rows => length rows
  | H5Group members => list_sum (map (fun m => h5obj_rows (snd m)) members)
  end.

Definition h5group_rows (g : h5group) : nat :=
  list_sum (map (fun m => h5obj_rows (snd m)) g).

(** The rows of an edge population: ids and group attributes. *)
Definition population_rows (p : edge_population) : nat :=
  (length (source_node_id p) + length (target_node_id p)
   + list_sum (map (fun g => h5group_rows (snd g)) (groups p)))%nat.

(** The edge count [_write_edges] obtains for one ordered pair: what
    [_get_node_counts] reports after the copy into the fresh file. *)
Definition pair_edge_count (env : environ) (h5in : h5file)
    (id_mapping : list (string * mapping_df))
    (h5_read_chunk_size : option Z) (pair : string * string) : nat :=
  match write_edges_block env h5in id_mapping h5_read_chunk_size
          (fst pair) (snd pair) [] with
  | (_, Ok counts) => fst (fst counts)
  | (_, Raise _) => O
  end.

(** The shapes of a node-set rule that [_update_node_sets] tells apart. *)
Definition rule_node_id (rule : json) : option json :=
  match rule with
  | JDict fields => assoc "node_id" fields
  | _ => None
  end.

Definition rule_population (rule : json) : option json :=
  match rule with
  | JDict fields => assoc "population" fields
  | _ => None
  end.

(** The names of the rules with a ['node_id'] and no ['population']. *)
Definition names_without_population (node_sets : list (string * json))
  : list string :=
  omap (fun item =>
          match rule_node_id (snd item), rule_population (snd item) with
          | Some _, None => Some (fst item)
          | _, _ => None
          end) node_sets.

(** A mapping in the state the chunk loop keeps it: not empty, distinct
    old ids, new ids 0..n-1 in row order. *)
Definition numbered_mapping (r : mapping_df) : Prop :=
  r <> [] /\ NoDup (df_index r) /\ df_new_id r = arange (length r).

(** The connections the external scan looks for. *)
Definition wanted_connection (wanted_src_ids wanted_dst_ids : list Z)
    (edge : Z * Z) : Prop :=
  fst edge ∈ wanted_src_ids /\ snd edge ∈ wanted_dst_ids.

(** The mask of a chunk: source id wanted and target id wanted. *)
Definition chunk_mask (sgids tgids src dst : list Z) : list bool :=
  map (fun p : bool * bool => fst p && snd p)
      (combine (np_isin sgids src false) (np_isin tgids dst false)).

(** A group none of whose [dynamics_params] tables nests a group. *)
Definition flat_dynamics_params (g : h5group) : Prop :=
  forall sub k nested,
    (("dynamics_params", H5Group sub) : string * h5obj) ∈ g ->
    ((k, H5Group nested) : string * h5obj) ∈ sub -> False.

(** A population has a file of its own: [new_population_files] names a
    path for it that is not the sentinel of a removed file. *)
Definition population_written (new_population_files : list (string * string))
    (population : string) : bool :=
  match assoc population new_population_files with
  | Some path => negb (String.eqb path DELETED_EMPTY_EDGES_FILE)
  | None => false
  end.

(** ** The circuit of the unit tests *)

(** The edges of [edges.h5] of the tests, 2->0, 0->1, 0->1, 2->1 in the
    population [default]; one attribute column and one parameter table stand
    for the attributes of the file. *)
Definition test_edges_population : edge_population :=
  {| source_node_id := [2; 0; 0; 2];
     source_node_population := "default";
     target_node_id := [0; 1; 1; 1];
     target_node_population := "default";
     edge_type_id := Some [-1; -1; -1; -1];
     edge_group_id := Some [0; 0; 0; 0];
     edge_group_index := Some [0; 1; 2; 3];
     groups :=
       [("0", [("delay", H5Dataset [10; 11; 12; 13]);
               ("dynamics_params", H5Group [("u_syn", H5Dataset [1; 2; 3; 4])])])];
     indices := None |}.

Definition test_edges_file : h5file := [("default", test_edges_population)].

(** The split of [test__write_edges] with the reduced chunk size: all four
    edges go from [B] to [B]. *)
Definition test_id_mapping : list (string * mapping_df) :=
  [("A", [(5, 0); (4, 1); (3, 2)]); ("B", [(2, 0); (1, 1); (0, 2)])].

(** The node set [L6_Y] of [test_simple_split_subcircuit]: nodes 1 and 2. *)
Definition test_subset_mapping : list (string * mapping_df) :=
  [("L6_Y", [(1, 0); (2, 1)])].

(** The node sets of [test__update_node_sets], with one more rule whose
    population is not part of the split. *)
Definition test_node_sets : list (string * json) :=
  [("CopiedNoNodeIds", JList [JString "All"]);
   ("MissingPopluationNotCopied",
    JDict [("node_id", JList [JInt 15; JInt 280; JInt 397])]);
   ("HasPopulationCopied",
    JDict [("population", JString "A");
           ("node_id",
            JList [JInt 3; JInt 4; JInt 5; JInt 1003; JInt 1004; JInt 1005]);
           ("mtype", JString "foo")]);
   ("OtherPopulation",
    JDict [("population", JString "Z"); ("node_id", JList [JInt 3])])].

Definition test_node_sets_mapping : list (string * mapping_df) :=
  [("A", [(0, 0); (5, 1); (4, 2); (3, 3)])].

(** An edges file whose group holds a sub-group that is not
    [dynamics_params]. *)
Definition test_unsupported_group_file : h5file :=
  [("default",
    {| source_node_id := [0; 1];
       source_node_population := "default";
       target_node_id := [1; 0];
       target_node_population := "default";
       edge_type_id := None; edge_group_id := None; edge_group_index := None;
       groups :=
         [("0", [("delay", H5Dataset [10; 11]);
                 ("extra_params", H5Group [("v", H5Dataset [1; 2])])])];
       indices := None |})].

(** The file [_write_edges] writes for an ordered pair of populations. *)
Definition pair_edge_file (output : string) (pair : string * string) : string :=
  os_path_join output
    (_get_edge_file_name (_get_population_name (fst pair) (snd pair))).

(** An edges file as [_write_edges] leaves it: one population, with at
    least one edge and with its indices. *)
Definition indexed_edge_file (file : h5file) : Prop :=
  exists pop p idx,
    file = [(pop, p)] /\ source_node_id p <> [] /\ indices p = Some idx.

(** *** The edge copier without chunks *)

(** An edge is kept when its source id is an old id of the source mapping
    and its target id an old id of the target mapping. *)
Definition edge_kept (src_ids dst_ids : list Z) (edge : Z * Z) : bool :=
  existsb (Z.eqb (fst edge)) src_ids && existsb (Z.eqb (snd edge)) dst_ids.

(** The new ids [df.loc[labels].new_id] lists: for every label, the new
    ids of the rows that carry it. *)
Definition loc_new_ids (df : mapping_df) (labels : list Z) : list Z :=
  flat_map
    (fun lbl => df_new_id (List.filter (fun row => Z.eqb (fst row) lbl) df))
    labels.

(** The rows of a group member that a mask selects. *)
Definition select_dataset (mask : list bool) (o : h5obj) : h5obj :=
  match o with
  | H5Dataset rows => H5Dataset (mask_select rows mask)
  | H5Group sub => H5Group sub
  end.

Definition select_member (mask : list bool) (o : h5obj) : h5obj :=
  match o with
  | H5Dataset rows => H5Dataset (mask_select rows mask)
  | H5Group sub =>
      H5Group (map (fun m => (fst m, select_dataset mask (snd m))) sub)
  end.

Definition select_group (mask : list bool) (g : h5group) : h5group :=
  map (fun m => (fst m, select_member mask (snd m))) g.

(** A table of datasets of [n] rows each, under distinct names. *)
Definition dataset_table (n : nat) (sub : list (string * h5obj)) : Prop :=
  NoDup (dict_keys sub) /\
  forall k v, ((k, v) : string * h5obj) ∈ sub ->
    exists rows, v = H5Dataset rows /\ length rows = n.

(** An edge group the copier supports, for a population of [n] edges:
    distinct member names, datasets of [n] rows, and no sub-group but a
    [dynamics_params] table of such datasets. *)
Definition supported_group (n : nat) (g : h5group) : Prop :=
  NoDup (dict_keys g) /\
  forall name o, ((name, o) : string * h5obj) ∈ g ->
    match o with
    | H5Dataset rows => length rows = n
    | H5Group sub => name = "dynamics_params" /\ dataset_table n sub
    end.

(** The population under construction once the edges [done] have been
    scanned. *)
Definition copy_state (src_node_name dst_node_name : string)
    (src_mapping dst_mapping : mapping_df) (orig_group : h5group)
    (done : list (Z * Z)) : edge_population :=
  let kept := edge_kept (df_index src_mapping) (df_index dst_mapping) in
  {| source_node_id := loc_new_ids src_mapping (map fst (List.filter kept done));
     source_node_population := src_node_name;
     target_node_id := loc_new_ids dst_mapping (map snd (List.filter kept done));
     target_node_population := dst_node_name;
     edge_type_id := None; edge_group_id := None; edge_group_index := None;
     groups := [(GROUP_NAME, select_group (map kept done) orig_group)];
     indices := None |}.

(** The population [_copy_edge_attributes] produces, described on the
    whole arrays. *)
Definition copied_edges (src_node_name dst_node_name : string)
    (src_mapping dst_mapping : mapping_df) (orig_edges : edge_population)
    (orig_group : h5group) : edge_population :=
  _finalize_edges
    (copy_state src_node_name dst_node_name src_mapping dst_mapping
       orig_group
       (combine (source_node_id orig_edges) (target_node_id orig_edges))).

(** ** Proof steps *)

(** Unfold the store monad. *)
Ltac run_stateful :=
  unfold mbind, mret, stateful_bind, stateful_ret, sbind, lift, modify,
    get_state in *.

(** Run the binds of an exception-only computation. *)
Ltac run_result := cbn [mbind mret result_bind result_ret rbind].

(** * Properties *)

(** ** Names *)

Lemma string_length_append (s t : string) :
  String.length (s ++ t)%string = (String.length s + String.length t)%nat.
Proof.
  induction s as [|c s IH]; simpl; [reflexivity|].
  now rewrite IH.
Qed.

(** C9: [_get_population_name] names a self-pair after the population and
    a cross pair [src__dst__chemical]; the self-pair never gets the
    suffixed name. *)
Theorem get_population_name_spec (src dst : string) :
  _get_population_name src src = src /\
  (src <> dst ->
   _get_population_name src dst = (src ++ "__" ++ dst ++ "__chemical")%string) /\
  _get_population_name src src <> (src ++ "__" ++ src ++ "__chemical")%string.
Proof.
  unfold _get_population_name, _get_population_name_with.
  rewrite String.eqb_refl.
  repeat split.
  - intros Hne. apply String.eqb_neq in Hne. now rewrite Hne.
  - intros Heq. apply (f_equal String.length) in Heq.
    rewrite !string_length_append in Heq. simpl in Heq. lia.
Qed.

Lemma get_population_name_spec_witness :
  _get_population_name "A" "B" = "A__B__chemical" /\
  _get_population_name "A" "A" = "A".
Proof.
  destruct (get_population_name_spec "A" "B") as (_ & Hcross & _).
  destruct (get_population_name_spec "A" "A") as (Hself & _ & _).
  split.
  - apply Hcross. discriminate.
  - exact Hself.
Defined.

(** ** Chunk scanner *)

Lemma np_isin_app (a b test : list Z) (invert : bool) :
  np_isin (a ++ b) test invert = np_isin a test invert ++ np_isin b test invert.
Proof. unfold np_isin. apply map_app. Qed.

Lemma np_isin_length (a test : list Z) (invert : bool) :
  length (np_isin a test invert) = length a.
Proof. unfold np_isin. apply length_map. Qed.

(** A window that starts inside the array, followed by the rest of the
    array, is the array from the start of the window. *)
Lemma py_slice_step {A} (values : list A) (start chunk : Z) :
  0 <= start -> 0 < chunk ->
  py_slice values (start, start + chunk)
    ++ skipn (Z.to_nat (start + chunk)) values
  = skipn (Z.to_nat start) values.
Proof.
  intros Hs Hc. unfold py_slice, clamp_bound. simpl fst. simpl snd.
  set (n := Z.of_nat (length values)).
  assert (Hn : 0 <= n) by (subst n; lia).
  destruct (Z.ltb_spec start 0) as [?|_]; [lia|].
  destruct (Z.ltb_spec (start + chunk) 0) as [?|_]; [lia|].
  destruct (Z.le_gt_cases n start) as [Hge|Hlt].
  - (* the window starts at or after the end *)
    rewrite !skipn_all2 by (subst n; lia).
    now rewrite firstn_nil.
  - rewrite (Z.min_l start n) by lia.
    destruct (Z.le_gt_cases (start + chunk) n) as [Hin|Hout].
    + rewrite (Z.min_l (start + chunk) n) by lia.
      replace (Z.to_nat (start + chunk))
        with (Z.to_nat start + Z.to_nat (start + chunk - start))%nat by lia.
      rewrite <- drop_drop. apply take_drop.
    + rewrite (Z.min_r (start + chunk) n) by lia.
      rewrite (skipn_all2 values (n := Z.to_nat (start + chunk)))
        by (subst n; lia).
      rewrite app_nil_r. apply firstn_all2.
      rewrite length_skipn. subst n. lia.
Qed.

(** The windows of [range_from], concatenated, cover the array from the
    first start on. *)
Lemma concat_slices_from {A} (values : list A) (chunk : Z) (fuel : nat)
    (start : Z) :
  0 < chunk -> 0 <= start ->
  Z.of_nat (length values) - start <= Z.of_nat fuel ->
  concat (map (fun s => py_slice values (s, s + chunk))
              (range_from fuel start (Z.of_nat (length values)) chunk))
  = skipn (Z.to_nat start) values.
Proof.
  intros Hc. revert start.
  induction fuel as [|fuel IH]; intros start Hs Hfuel; simpl.
  - symmetry. apply skipn_all2. lia.
  - destruct (Z.ltb_spec start (Z.of_nat (length values))) as [Hlt|Hge].
    + simpl. rewrite IH by lia. now apply py_slice_step.
    + symmetry. apply skipn_all2. lia.
Qed.

(** Chunk-size invariance of the scanner: the windows cover the array. *)
Lemma chunked_slices_cover {A} (values : list A) (chunk_size : Z) :
  1 <= chunk_size ->
  exists slices,
    _create_chunked_slices (length values) chunk_size = Ok slices /\
    concat (map (py_slice values) slices) = values /\
    (values <> [] -> slices <> []).
Proof.
  intros Hc. unfold _create_chunked_slices, py_range0.
  destruct (Z.eqb_spec chunk_size 0) as [?|_]; [lia|].
  destruct (Z.ltb_spec chunk_size 0) as [?|_]; [lia|].
  eexists. split; [reflexivity|]. split.
  - rewrite map_map.
    rewrite (concat_slices_from values chunk_size (length values) 0) by lia.
    reflexivity.
  - intros Hne. destruct values as [|v values]; [congruence|].
    simpl. discriminate.
Qed.

Lemma concat_isin_workers (elements test : list Z) (invert : bool)
    (slices : list slice) :
  concat (map (fun sl => _isin_worker elements test sl invert) slices)
  = np_isin (concat (map (py_slice elements) slices)) test invert.
Proof.
  induction slices as [|sl slices IH]; simpl; [reflexivity|].
  rewrite np_isin_app, IH. reflexivity.
Qed.

(** The parallel branch of [_isin] for any window size. *)
Lemma isin_windows (elements test : list Z) (invert : bool) (chunk_size : Z) :
  1 <= chunk_size -> elements <> [] ->
  exists slices,
    _create_chunked_slices (length elements) chunk_size = Ok slices /\
    np_concatenate
      (map (fun sl => _isin_worker elements test sl invert) slices)
    = Ok (np_isin elements test invert).
Proof.
  intros Hc Hne.
  destruct (chunked_slices_cover elements chunk_size Hc)
    as (slices & Hsl & Hcover & Hnonempty).
  exists slices. split; [exact Hsl|].
  unfold np_concatenate.
  destruct slices as [|sl slices]; [now specialize (Hnonempty Hne)|].
  change (Ok (concat (map (fun sl0 => _isin_worker elements test sl0 invert)
                        (sl :: slices)))
          = Ok (np_isin elements test invert)).
  now rewrite concat_isin_workers, Hcover.
Qed.

Lemma isin_chunk_size_pos (h : Z) : 1 <= isin_chunk_size h.
Proof. unfold isin_chunk_size. lia. Qed.

(** [_isin] is the whole-array test, whatever the configured size. *)
Lemma isin_correct (env : environ) (elements test : list Z) (invert : bool) :
  1 <= _h5_get_read_chunk_size env ->
  _isin env elements test invert = Ok (np_isin elements test invert).
Proof.
  intros Hh. unfold _isin.
  destruct (Z.ltb_spec (Z.of_nat (length elements))
              (_h5_get_read_chunk_size env)) as [Hlt|Hge]; [reflexivity|].
  assert (Hne : elements <> []) by (intros ->; simpl in Hge; lia).
  destruct (isin_windows elements test invert
              (isin_chunk_size (_h5_get_read_chunk_size env))
              (isin_chunk_size_pos _) Hne) as (slices & Hsl & Hcat).
  rewrite Hsl. exact Hcat.
Qed.

(** C1: for every array, needle set and invert flag, the chunked
    membership test [_isin] returns the mask of the whole-array test for
    every chunk size of at least one, its windows concatenated in order
    give that mask for every window size, and an empty array gives an
    empty mask. *)
Theorem isin_equals_whole_array_test (env : environ)
    (elements test_elements : list Z) (invert : bool) :
  1 <= _h5_get_read_chunk_size env ->
  _isin env elements test_elements invert
  = Ok (np_isin elements test_elements invert) /\
  (forall chunk_size, 1 <= chunk_size -> elements <> [] ->
   exists slices,
     _create_chunked_slices (length elements) chunk_size = Ok slices /\
     np_concatenate
       (map (fun sl => _isin_worker elements test_elements sl invert) slices)
     = Ok (np_isin elements test_elements invert)) /\
  (elements = [] -> _isin env elements test_elements invert = Ok []).
Proof.
  intros Hh. split; [|split].
  - now apply isin_correct.
  - intros chunk_size Hc Hne. now apply isin_windows.
  - intros ->. now rewrite isin_correct.
Qed.

Lemma isin_equals_whole_array_test_witness :
  _isin (Some 2) [1; 2; 3; 4; 5] [1; 3] true
  = Ok [false; true; false; true; true].
Proof.
  destruct (isin_equals_whole_array_test (Some 2) [1; 2; 3; 4; 5] [1; 3] true)
    as (H & _ & _).
  - simpl. lia.
  - exact H.
Defined.

(** ** Lists, dictionaries and the store monad *)

Lemma combine_lookup {A B} (a : list A) (b : list B) (i : nat) (x : A) (y : B) :
  combine a b !! i = Some (x, y) <-> a !! i = Some x /\ b !! i = Some y.
Proof.
  revert b i. induction a as [|a0 a IH]; intros [|b0 b] [|i]; simpl;
    try (split; [discriminate | intros [? ?]; discriminate]).
  - split; [intros [= -> ->]; auto | intros [[= ->] [= ->]]; reflexivity].
  - apply IH.
Qed.

Lemma arange_lookup (n i : nat) (z : Z) :
  arange n !! i = Some z <-> z = Z.of_nat i /\ (i < n)%nat.
Proof.
  unfold arange. change (map Z.of_nat (seq 0 n)) with (Z.of_nat <$> seq 0 n).
  rewrite list_lookup_fmap. split.
  - intros H. destruct (seq 0 n !! i) as [j|] eqn:Hj; [|discriminate].
    apply lookup_seq in Hj as [-> Hlt]. simpl in H. injection H as <-. auto.
  - intros [-> Hlt]. now rewrite lookup_seq_lt.
Qed.

Lemma arange_length (n : nat) : length (arange n) = n.
Proof. unfold arange. now rewrite length_map, length_seq. Qed.

Lemma map_fst_combine_same {A B} (a : list A) (b : list B) :
  length a = length b -> map fst (combine a b) = a.
Proof.
  revert b. induction a as [|a0 a IH]; intros [|b0 b] Hlen;
    simpl in *; try reflexivity; try discriminate.
  f_equal. apply IH. lia.
Qed.

Lemma map_snd_combine_same {A B} (a : list A) (b : list B) :
  length a = length b -> map snd (combine a b) = b.
Proof.
  revert b. induction a as [|a0 a IH]; intros [|b0 b] Hlen;
    simpl in *; try reflexivity; try discriminate.
  f_equal. apply IH. lia.
Qed.

Lemma assoc_dict_set_eq {V} (d : list (string * V)) (key : string) (v : V) :
  assoc key (dict_set d key v) = Some v.
Proof.
  induction d as [|[k w] d IH]; simpl.
  - now rewrite String.eqb_refl.
  - destruct (String.eqb_spec key k) as [->|Hne]; simpl.
    + now rewrite String.eqb_refl.
    + apply String.eqb_neq in Hne. now rewrite Hne.
Qed.

Lemma assoc_dict_set_ne {V} (d : list (string * V)) (key key' : string) (v : V) :
  key <> key' -> assoc key' (dict_set d key v) = assoc key' d.
Proof.
  intros Hne. induction d as [|[k w] d IH]; simpl.
  - destruct (String.eqb_spec key' key) as [->|_]; [congruence|reflexivity].
  - destruct (String.eqb_spec key k) as [->|Hk]; simpl.
    + destruct (String.eqb_spec key' k); [congruence|reflexivity].
    + destruct (String.eqb_spec key' k); [reflexivity|exact IH].
Qed.

(** A successful [bind] ran both of its parts. *)
Lemma sbind_Ok {S A B} (m : stateful S A) (k : A -> stateful S B)
    (s s' : S) (b : B) :
  sbind m k s = (s', Ok b) ->
  exists a s1, m s = (s1, Ok a) /\ k a s1 = (s', Ok b).
Proof.
  unfold sbind. destruct (m s) as [s1 [a|e]]; [eauto | discriminate].
Qed.

Lemma for_acc_app {S A B} (l1 l2 : list A) (body : B -> A -> stateful S B)
    (acc : B) (s : S) :
  for_acc (l1 ++ l2) body acc s
  = sbind (for_acc l1 body acc) (fun acc' => for_acc l2 body acc') s.
Proof.
  revert acc s. induction l1 as [|x l1 IH]; intros acc s; simpl.
  - reflexivity.
  - unfold mbind, stateful_bind. unfold sbind at 1 2 3.
    destruct (body acc x s) as [s1 [acc1|e]]; [|reflexivity].
    rewrite IH. reflexivity.
Qed.

(** ** Bookkeeping columns *)

Lemma copy_into_new_edges_finalizes (env : environ)
    (orig_edges : edge_population) (orig_group : h5group)
    (src_mapping dst_mapping : mapping_df) (chunk_size : Z)
    (created new_edges : edge_population) :
  copy_into_new_edges env orig_edges orig_group src_mapping dst_mapping
    chunk_size created = (new_edges, Ok tt) ->
  exists copied, new_edges = _finalize_edges copied.
Proof.
  unfold copy_into_new_edges. intros H.
  repeat (apply sbind_Ok in H as (? & ? & _ & H)).
  unfold modify in H. injection H as <-. eauto.
Qed.

Lemma copy_edge_attributes_Ok (env : environ) (h5in : h5file)
    (src_node_name dst_node_name src_edge_name dst_edge_name : string)
    (src_mapping dst_mapping : mapping_df) (h5_read_chunk_size : option Z)
    (h5out h5out' : h5file) :
  _copy_edge_attributes env h5in src_node_name dst_node_name src_edge_name
    dst_edge_name src_mapping dst_mapping h5_read_chunk_size h5out
  = (h5out', Ok tt) ->
  exists copied,
    h5out' = dict_set h5out dst_edge_name (_finalize_edges copied) /\
    assoc dst_edge_name h5out' = Some (_finalize_edges copied).
Proof.
  unfold _copy_edge_attributes. intros H.
  destruct (assoc src_edge_name h5in) as [orig_edges|]; [|discriminate].
  destruct (_get_unique_group orig_edges) as [orig_group|]; [|discriminate].
  destruct (dict_has dst_edge_name h5out); [discriminate|].
  match type of H with
  | (let '(_, _) := ?run in _) = _ => destruct run as [new_edges r] eqn:Hrun
  end.
  injection H as <- ->.
  apply copy_into_new_edges_finalizes in Hrun as [copied ->].
  exists copied. split; [reflexivity | apply assoc_dict_set_eq].
Qed.

(** C8: [_finalize_edges] sets, for a population of [count] edges,
    [edge_type_id] to [count] copies of -1, [edge_group_id] to [count]
    copies of 0 and [edge_group_index] to 0..count-1, leaves the copied
    columns alone, and every population [_copy_edge_attributes] completes
    carries these three columns, one row per copied edge. *)
Theorem finalize_edges_bookkeeping :
  (forall new_edges : edge_population,
     let count := length (source_node_id new_edges) in
     let finalized := _finalize_edges new_edges in
     edge_type_id finalized = Some (repeat (-1) count) /\
     edge_group_id finalized = Some (repeat 0 count) /\
     edge_group_index finalized = Some (map Z.of_nat (seq 0 count)) /\
     source_node_id finalized = source_node_id new_edges /\
     target_node_id finalized = target_node_id new_edges /\
     groups finalized = groups new_edges) /\
  (forall env h5in src_node_name dst_node_name src_edge_name dst_edge_name
          src_mapping dst_mapping h5_read_chunk_size h5out h5out',
     _copy_edge_attributes env h5in src_node_name dst_node_name src_edge_name
       dst_edge_name src_mapping dst_mapping h5_read_chunk_size h5out
     = (h5out', Ok tt) ->
     exists new_edges type_ids group_ids group_index,
       assoc dst_edge_name h5out' = Some new_edges /\
       edge_type_id new_edges = Some type_ids /\
       edge_group_id new_edges = Some group_ids /\
       edge_group_index new_edges = Some group_index /\
       length type_ids = length (source_node_id new_edges) /\
       length group_ids = length (source_node_id new_edges) /\
       length group_index = length (source_node_id new_edges) /\
       forall i : nat,
         (i < length (source_node_id new_edges))%nat ->
         type_ids !! i = Some (-1) /\
         group_ids !! i = Some 0 /\
         group_index !! i = Some (Z.of_nat i)).
Proof.
  split.
  - intros new_edges. cbv zeta. unfold _finalize_edges, np_full, arange.
    simpl. repeat split.
  - intros env h5in src_node_name dst_node_name src_edge_name dst_edge_name
      src_mapping dst_mapping h5_read_chunk_size h5out h5out' Hrun.
    apply copy_edge_attributes_Ok in Hrun as (copied & _ & Hfound).
    exists (_finalize_edges copied). do 3 eexists.
    split; [exact Hfound|].
    simpl. repeat split.
    + unfold np_full. apply repeat_length.
    + unfold np_full. apply repeat_length.
    + apply arange_length.
    + unfold np_full. apply lookup_replicate_2 with (x := (-1)) in H.
      revert H. clear. generalize (length (source_node_id copied)).
      intros n. revert i. induction n as [|n IH]; intros [|i]; simpl; auto.
    + unfold np_full. apply lookup_replicate_2 with (x := 0) in H.
      revert H. clear. generalize (length (source_node_id copied)).
      intros n. revert i. induction n as [|n IH]; intros [|i]; simpl; auto.
    + apply arange_lookup. auto.
Qed.

Lemma finalize_edges_bookkeeping_witness :
  let copy :=
    _copy_edge_attributes None test_edges_file "B" "B" "default" "B"
      [(2, 0); (1, 1); (0, 2)] [(2, 0); (1, 1); (0, 2)] (Some 3) [] in
  copy = (fst copy, Ok tt) /\
  exists new_edges type_ids group_ids group_index,
    assoc "B" (fst copy) = Some new_edges /\
    edge_type_id new_edges = Some type_ids /\
    edge_group_id new_edges = Some group_ids /\
    edge_group_index new_edges = Some group_index /\
    length type_ids = length (source_node_id new_edges).
Proof.
  intros copy.
  assert (Hcopy : copy = (fst copy, Ok tt)) by (vm_compute; reflexivity).
  split; [exact Hcopy|].
  destruct (proj2 finalize_edges_bookkeeping None test_edges_file "B" "B"
              "default" "B" [(2, 0); (1, 1); (0, 2)] [(2, 0); (1, 1); (0, 2)]
              (Some 3) [] (fst copy) Hcopy)
    as (new_edges & type_ids & group_ids & group_index & Hfound & Htype
        & Hgroup & Hindex & Hlen & _).
  exists new_edges, type_ids, group_ids, group_index.
  repeat split; assumption.
Defined.

(** ** Id mapper *)

Lemma make_mapping_elem (index : list Z) (old new : Z) :
  (old, new) ∈ make_mapping index (arange (length index)) <->
  exists i : nat, index !! i = Some old /\ new = Z.of_nat i.
Proof.
  unfold make_mapping. rewrite list_elem_of_lookup. split.
  - intros [i Hi]. apply combine_lookup in Hi as [Hold Hnew].
    apply arange_lookup in Hnew as [-> _]. eauto.
  - intros (i & Hold & ->). exists i. apply combine_lookup. split; [exact Hold|].
    apply arange_lookup. split; [reflexivity|]. now apply lookup_lt_Some in Hold.
Qed.

Lemma get_node_id_mapping_assoc (split_nodes : list (string * node_table))
    (pop : string) :
  assoc pop (_get_node_id_mapping split_nodes)
  = option_map (fun df => make_mapping (nt_index df) (arange (nt_len df)))
      (assoc pop split_nodes).
Proof.
  induction split_nodes as [|[k df] rest IH]; simpl; [reflexivity|].
  destruct (String.eqb pop k); [reflexivity | exact IH].
Qed.

(** C2: for every new population with [n] rows, [_get_node_id_mapping]
    pairs the old ids of the table, in table order, with the new ids
    0..n-1: row [i] maps the [i]-th old id to [i]; the mapping is onto
    [0, n), injective, defined on every old id, and single-valued when the
    old ids of the table are distinct. *)
Theorem node_id_mapping_ordered_bijection
    (split_nodes : list (string * node_table)) (pop : string)
    (df : node_table) :
  assoc pop split_nodes = Some df ->
  dict_keys (_get_node_id_mapping split_nodes) = dict_keys split_nodes /\
  exists mapping,
    assoc pop (_get_node_id_mapping split_nodes) = Some mapping /\
    df_index mapping = nt_index df /\
    df_new_id mapping = arange (nt_len df) /\
    (forall (i : nat) old,
       nt_index df !! i = Some old -> mapping !! i = Some (old, Z.of_nat i)) /\
    (forall old new,
       (old, new) ∈ mapping -> 0 <= new < Z.of_nat (nt_len df)) /\
    (forall new,
       0 <= new < Z.of_nat (nt_len df) -> exists old, (old, new) ∈ mapping) /\
    (forall old, old ∈ nt_index df -> exists new, (old, new) ∈ mapping) /\
    (forall old1 old2 new,
       (old1, new) ∈ mapping -> (old2, new) ∈ mapping -> old1 = old2) /\
    (NoDup (nt_index df) ->
     forall old new1 new2,
       (old, new1) ∈ mapping -> (old, new2) ∈ mapping -> new1 = new2).
Proof.
  intros Hdf. split.
  { unfold _get_node_id_mapping, dict_keys. rewrite map_map. reflexivity. }
  exists (make_mapping (nt_index df) (arange (nt_len df))).
  split; [now rewrite get_node_id_mapping_assoc, Hdf|].
  unfold nt_len.
  split; [apply map_fst_combine_same; now rewrite arange_length|].
  split; [apply map_snd_combine_same; now rewrite arange_length|].
  split.
  { intros i old Hold. apply combine_lookup. split; [exact Hold|].
    apply arange_lookup. split; [reflexivity|]. now apply lookup_lt_Some in Hold. }
  split.
  { intros old new (i & Hold & ->)%make_mapping_elem.
    apply lookup_lt_Some in Hold. lia. }
  split.
  { intros new Hnew.
    destruct (lookup_lt_is_Some_2 (nt_index df) (Z.to_nat new)) as [old Hold];
      [lia|].
    exists old. apply make_mapping_elem. exists (Z.to_nat new).
    split; [exact Hold | lia]. }
  split.
  { intros old (i & Hold)%list_elem_of_lookup.
    exists (Z.of_nat i). apply make_mapping_elem. eauto. }
  split.
  { intros old1 old2 new (i & H1 & ->)%make_mapping_elem
      (j & H2 & Hij)%make_mapping_elem.
    assert (i = j) as -> by lia. congruence. }
  intros Hnodup old new1 new2 (i & H1 & ->)%make_mapping_elem
    (j & H2 & ->)%make_mapping_elem.
  f_equal. eapply NoDup_lookup; eauto.
Qed.

Lemma node_id_mapping_ordered_bijection_witness :
  assoc "B"
    [("A", {| nt_index := [0; 3]; nt_columns := [] |});
     ("B", {| nt_index := [5; 4; 1]; nt_columns := [] |})]
  = Some {| nt_index := [5; 4; 1]; nt_columns := [] |} /\
  exists mapping,
    assoc "B"
      (_get_node_id_mapping
         [("A", {| nt_index := [0; 3]; nt_columns := [] |});
          ("B", {| nt_index := [5; 4; 1]; nt_columns := [] |})])
    = Some mapping /\
    df_index mapping = [5; 4; 1] /\ df_new_id mapping = [0; 1; 2].
Proof.
  split; [reflexivity|].
  destruct (node_id_mapping_ordered_bijection
              [("A", {| nt_index := [0; 3]; nt_columns := [] |});
               ("B", {| nt_index := [5; 4; 1]; nt_columns := [] |})]
              "B" {| nt_index := [5; 4; 1]; nt_columns := [] |} eq_refl)
    as (_ & mapping & Hfound & Hindex & Hnew & _).
  exists mapping. repeat split; assumption.
Defined.

(** ** External source ids *)

Lemma existsb_eqb_elem (x : Z) (l : list Z) :
  existsb (Z.eqb x) l = true <-> x ∈ l.
Proof.
  rewrite existsb_exists, list_elem_of_In. split.
  - intros (y & Hin & ->%Z.eqb_eq). exact Hin.
  - intros Hin. exists x. split; [exact Hin | apply Z.eqb_refl].
Qed.

Lemma insert_unique_elem (x y : Z) (sorted : list Z) :
  y ∈ insert_unique x sorted <-> y = x \/ y ∈ sorted.
Proof.
  induction sorted as [|z rest IH]; simpl.
  - rewrite list_elem_of_singleton, elem_of_nil. tauto.
  - destruct (Z.ltb_spec x z) as [_|_].
    + rewrite !elem_of_cons. tauto.
    + destruct (Z.eqb_spec x z) as [->|_].
      * rewrite !elem_of_cons. tauto.
      * rewrite !elem_of_cons, IH. tauto.
Qed.

Lemma np_unique_elem (x : Z) (values : list Z) :
  x ∈ np_unique values <-> x ∈ values.
Proof.
  unfold np_unique. induction values as [|v values IH]; simpl.
  - reflexivity.
  - rewrite insert_unique_elem, IH, elem_of_cons. tauto.
Qed.

Lemma insert_unique_sorted (x : Z) (sorted : list Z) :
  StronglySorted Z.lt sorted -> StronglySorted Z.lt (insert_unique x sorted).
Proof.
  induction 1 as [|z rest Hrest IH Hall]; simpl.
  - repeat constructor.
  - destruct (Z.ltb_spec x z) as [Hlt|Hge].
    + constructor; [constructor; assumption|].
      constructor; [exact Hlt|].
      eapply Forall_impl; [exact Hall|]. intros; simpl in *; lia.
    + destruct (Z.eqb_spec x z) as [->|Hne].
      * now constructor.
      * constructor; [exact IH|].
        apply Forall_forall. intros y Hy.
        apply insert_unique_elem in Hy as [->|Hy]; [lia|].
        rewrite Forall_forall in Hall. now apply Hall.
Qed.

Lemma np_unique_sorted (values : list Z) :
  StronglySorted Z.lt (np_unique values).
Proof.
  unfold np_unique. induction values as [|v values IH]; simpl.
  - constructor.
  - now apply insert_unique_sorted.
Qed.

Lemma sorted_lt_NoDup (l : list Z) : StronglySorted Z.lt l -> NoDup l.
Proof.
  induction 1 as [|z rest Hrest IH Hall]; constructor; [|exact IH].
  intros Hin. rewrite Forall_forall in Hall.
  apply Hall in Hin. lia.
Qed.

Lemma np_unique_NoDup (values : list Z) : NoDup (np_unique values).
Proof. apply sorted_lt_NoDup, np_unique_sorted. Qed.

(** Boolean indexing with a membership mask keeps the elements the mask
    accepts, in order. *)
Lemma mask_select_isin (values test : list Z) (invert : bool) :
  mask_select values (np_isin values test invert)
  = List.filter (fun e => xorb (existsb (Z.eqb e) test) invert) values.
Proof.
  induction values as [|v values IH]; simpl; [reflexivity|].
  rewrite IH. reflexivity.
Qed.

Lemma StronglySorted_filter_lt (f : Z -> bool) (l : list Z) :
  StronglySorted Z.lt l -> StronglySorted Z.lt (List.filter f l).
Proof.
  induction 1 as [|z rest Hrest IH Hall]; simpl; [constructor|].
  destruct (f z); [|exact IH].
  constructor; [exact IH|].
  rewrite Forall_forall in *. intros y Hy.
  apply Hall. apply list_elem_of_In, filter_In in Hy as [Hy _].
  now apply list_elem_of_In.
Qed.

Lemma mask_select_nonempty {A} (values : list A) (mask : list bool) :
  length values = length mask -> np_any mask = true ->
  mask_select values mask <> [].
Proof.
  revert mask. induction values as [|v values IH]; intros [|b mask] Hlen Hany;
    simpl in *; try discriminate.
  destruct b; [discriminate|]. apply IH; [lia | exact Hany].
Qed.

Lemma np_unique_nonempty (values : list Z) :
  values <> [] -> np_unique values <> [].
Proof.
  destruct values as [|v values]; [congruence|]. intros _ Hnil.
  assert (Hin : v ∈ np_unique (v :: values))
    by (apply np_unique_elem; left).
  rewrite Hnil in Hin. now apply elem_of_nil in Hin.
Qed.

Lemma map_of_nat_seq_shift (a b start : nat) :
  map Z.of_nat (seq (start + a) b)
  = map (fun i => Z.of_nat a + i) (map Z.of_nat (seq start b)).
Proof.
  revert start. induction b as [|b IH]; intros start; simpl; [reflexivity|].
  f_equal; [lia|]. apply (IH (S start)).
Qed.

Lemma arange_app (a b : nat) :
  arange (a + b) = arange a ++ map (fun i => Z.of_nat a + i) (arange b).
Proof.
  unfold arange. rewrite seq_app, map_app. f_equal.
  apply map_of_nat_seq_shift.
Qed.

Lemma fold_max_arange (n start : nat) (a : Z) :
  fold_left Z.max (map Z.of_nat (seq start n)) a
  = if Nat.eqb n 0 then a else Z.max a (Z.of_nat (start + n) - 1).
Proof.
  revert start a. induction n as [|n IH]; intros start a; simpl.
  - reflexivity.
  - rewrite IH. destruct n; simpl; lia.
Qed.

(** The largest new id of a mapping numbered 0..n-1 is n-1. *)
Lemma np_max_arange (n : nat) :
  n <> O -> np_max (arange n) = Ok (Z.of_nat n - 1).
Proof.
  destruct n as [|n]; [congruence|]. intros _.
  unfold arange, np_max. simpl. f_equal.
  rewrite fold_max_arange. destruct n; simpl; lia.
Qed.

Lemma insert_row_perm (row : Z * Z) (sorted : mapping_df) :
  insert_row row sorted ≡ₚ row :: sorted.
Proof.
  induction sorted as [|r rest IH]; simpl; [reflexivity|].
  destruct (Z.ltb (fst row) (fst r)); [reflexivity|].
  rewrite IH. apply Permutation_swap.
Qed.

Lemma df_sort_index_perm (df : mapping_df) : df_sort_index df ≡ₚ df.
Proof.
  unfold df_sort_index. induction df as [|row df IH]; simpl; [reflexivity|].
  now rewrite insert_row_perm, IH.
Qed.

Lemma insert_row_sorted (row : Z * Z) (sorted : mapping_df) :
  StronglySorted (fun a b => fst a <= fst b) sorted ->
  StronglySorted (fun a b => fst a <= fst b) (insert_row row sorted).
Proof.
  induction 1 as [|r rest Hrest IH Hall]; simpl.
  - repeat constructor.
  - destruct (Z.ltb_spec (fst row) (fst r)) as [Hlt|Hge].
    + constructor; [constructor; assumption|].
      constructor; [lia|].
      eapply Forall_impl; [exact Hall|]. intros; simpl in *; lia.
    + constructor; [exact IH|].
      rewrite (insert_row_perm row rest). constructor; [exact Hge | exact Hall].
Qed.

Lemma df_sort_index_sorted (df : mapping_df) :
  StronglySorted (fun a b => fst a <= fst b) (df_sort_index df).
Proof.
  unfold df_sort_index. induction df as [|row df IH]; simpl.
  - constructor.
  - now apply insert_row_sorted.
Qed.

Lemma py_slice_length {A B} (a : list A) (b : list B) (sl : slice) :
  length a = length b -> length (py_slice a sl) = length (py_slice b sl).
Proof.
  intros Hlen. unfold py_slice. rewrite <- Hlen.
  rewrite !length_firstn, !length_skipn. now rewrite Hlen.
Qed.

Lemma py_slice_combine {A B} (a : list A) (b : list B) (sl : slice) :
  length a = length b ->
  combine (py_slice a sl) (py_slice b sl) = py_slice (combine a b) sl.
Proof.
  intros Hlen. unfold py_slice.
  rewrite length_combine, <- Hlen, Nat.min_id.
  rewrite <- combine_firstn. f_equal.
  generalize (Z.to_nat (clamp_bound (Z.of_nat (length a)) (fst sl))).
  clear. intros n. revert a b. induction n as [|n IH]; intros [|x a] [|y b];
    simpl; try reflexivity.
  - now destruct (skipn n a).
  - apply IH.
Qed.

Lemma py_slice_elem {A} (values : list A) (sl : slice) (x : A) :
  x ∈ py_slice values sl -> x ∈ values.
Proof.
  unfold py_slice. intros Hx.
  now apply subseteq_take, subseteq_drop in Hx.
Qed.

(** The mask of one chunk, and the source ids it selects. *)
Lemma external_chunk_mask (sgids tgids src dst : list Z) :
  length sgids = length tgids ->
  let mask := chunk_mask sgids tgids src dst in
  np_and (np_isin sgids src false) (np_isin tgids dst false) = Ok mask /\
  np_mask sgids mask = Ok (mask_select sgids mask) /\
  (forall s, s ∈ mask_select sgids mask ->
     exists t, (s, t) ∈ combine sgids tgids /\ s ∈ src /\ t ∈ dst) /\
  (np_any mask = true -> mask_select sgids mask <> []) /\
  ((forall edge, edge ∈ combine sgids tgids ->
      ~ wanted_connection src dst edge) -> np_any mask = false).
Proof.
  intros Hlen mask. subst mask. unfold chunk_mask.
  assert (Hmask : length (map (fun p : bool * bool => fst p && snd p)
                    (combine (np_isin sgids src false)
                       (np_isin tgids dst false))) = length sgids).
  { rewrite length_map, length_combine, !np_isin_length. lia. }
  split.
  { unfold np_and. now rewrite !np_isin_length, <- Hlen, Nat.eqb_refl. }
  split; [unfold np_mask; now rewrite Hmask, Nat.eqb_refl|].
  clear Hmask. unfold np_isin. split; [|split].
  - revert tgids Hlen. induction sgids as [|s0 sgids IH];
      intros [|t0 tgids] Hlen s Hs; simpl in *; try discriminate.
    + now apply elem_of_nil in Hs.
    + rewrite !xorb_false_r in Hs.
      destruct (existsb (Z.eqb s0) src) eqn:Hsrc;
        destruct (existsb (Z.eqb t0) dst) eqn:Hdst; simpl in Hs;
        try (destruct (IH tgids ltac:(lia) s Hs) as (t & Hin & ? & ?);
             exists t; split; [now right | auto]).
      apply elem_of_cons in Hs as [->|Hs].
      * exists t0. split; [left|]. split; now apply existsb_eqb_elem.
      * destruct (IH tgids ltac:(lia) s Hs) as (t & Hin & ? & ?).
        exists t. split; [now right | auto].
  - apply mask_select_nonempty.
    rewrite length_map, length_combine, !length_map. lia.
  - revert tgids Hlen. induction sgids as [|s0 sgids IH];
      intros [|t0 tgids] Hlen Hnone; simpl in *; try discriminate;
      try reflexivity.
    rewrite !xorb_false_r.
    rewrite IH; [|lia|intros edge Hin; apply Hnone; now right].
    rewrite orb_false_r. apply andb_false_iff.
    destruct (existsb (Z.eqb s0) src) eqn:Hsrc; [|now left].
    destruct (existsb (Z.eqb t0) dst) eqn:Hdst; [|now right].
    exfalso. apply (Hnone (s0, t0)); [left|].
    split; now apply existsb_eqb_elem.
Qed.

(** The first matching chunk creates the mapping. *)
Lemma external_ids_body_None (env : environ)
    (all_sgids all_tgids src dst : list Z) (sl : slice) :
  1 <= _h5_get_read_chunk_size env ->
  length all_sgids = length all_tgids ->
  exists ret,
    external_ids_body env all_sgids all_tgids src dst None sl = Ok ret /\
    match ret with
    | None => True
    | Some r =>
        numbered_mapping r /\
        forall old, old ∈ df_index r ->
          old ∈ src /\ exists t, (old, t) ∈ combine all_sgids all_tgids /\ t ∈ dst
    end /\
    ((forall edge, edge ∈ combine all_sgids all_tgids ->
        ~ wanted_connection src dst edge) -> ret = None).
Proof.
  intros Hh Hlen. unfold external_ids_body.
  pose proof (py_slice_length all_sgids all_tgids sl Hlen) as Hsl.
  destruct (external_chunk_mask _ _ src dst Hsl)
    as (Hand & Hsel & Helem & Hnonempty & Hnone).
  rewrite !isin_correct by exact Hh. run_result.
  rewrite Hand. run_result.
  destruct (np_any (chunk_mask _ _ src dst)) eqn:Hany.
  - rewrite Hsel. run_result. eexists. split; [reflexivity|].
    set (needed := np_unique _).
    assert (Hidx : df_index (make_mapping needed (arange (length needed)))
                   = needed).
    { apply map_fst_combine_same. now rewrite arange_length. }
    split; [split; [unfold numbered_mapping; split; [|split]|]|].
    + intros Hnil. apply (f_equal df_index) in Hnil. rewrite Hidx in Hnil.
      revert Hnil. apply np_unique_nonempty, Hnonempty. reflexivity.
    + rewrite Hidx. apply np_unique_NoDup.
    + unfold make_mapping at 2. rewrite length_combine, arange_length, Nat.min_id.
      apply map_snd_combine_same. now rewrite arange_length.
    + rewrite Hidx. intros old Hold. unfold needed in Hold.
      rewrite np_unique_elem in Hold.
      destruct (Helem old Hold) as (t & Hin & Hs & Ht).
      split; [exact Hs|]. exists t. split; [|exact Ht].
      rewrite py_slice_combine in Hin by exact Hlen.
      now apply py_slice_elem in Hin.
    + intros Hno. exfalso.
      assert (Hf : true = false); [apply Hnone | discriminate Hf].
      intros edge Hin. apply Hno.
      rewrite py_slice_combine in Hin by exact Hlen.
      now apply py_slice_elem in Hin.
  - exists None. repeat split.
Qed.

(** A later chunk appends the source ids it discovers. *)
Lemma external_ids_body_Some (env : environ)
    (all_sgids all_tgids src dst : list Z) (r : mapping_df) (sl : slice) :
  1 <= _h5_get_read_chunk_size env ->
  length all_sgids = length all_tgids ->
  r <> [] ->
  exists new top,
    external_ids_body env all_sgids all_tgids src dst (Some r) sl
    = Ok (Some (r ++ new)) /\
    np_max (df_new_id r) = Ok top /\
    df_new_id new = map (fun i => top + 1 + i) (arange (length new)) /\
    StronglySorted Z.lt (df_index new) /\
    forall old, old ∈ df_index new ->
      (old ∉ df_index r) /\ old ∈ src /\
      exists t, (old, t) ∈ combine all_sgids all_tgids /\ t ∈ dst.
Proof.
  intros Hh Hlen Hr. unfold external_ids_body.
  pose proof (py_slice_length all_sgids all_tgids sl Hlen) as Hsl.
  destruct (external_chunk_mask _ _ src dst Hsl)
    as (Hand & Hsel & Helem & Hnonempty & Hnone).
  assert (Htop : exists top, np_max (df_new_id r) = Ok top).
  { destruct r as [|row r]; [congruence|]. simpl. eauto. }
  destruct Htop as (top & Htop).
  rewrite !isin_correct by exact Hh. run_result.
  rewrite Hand. run_result.
  destruct (np_any (chunk_mask _ _ src dst)) eqn:Hany.
  - rewrite Hsel. run_result.
    set (needed := np_unique _).
    rewrite isin_correct by exact Hh. run_result.
    destruct (np_any (np_isin needed (df_index r) true)) eqn:Hmm.
    + unfold np_mask. rewrite np_isin_length, Nat.eqb_refl. run_result.
      rewrite Htop. run_result.
      rewrite mask_select_isin.
      set (needed' := List.filter _ needed).
      eexists. exists top. split; [reflexivity|].
      assert (Hidx : df_index
                (make_mapping needed'
                   (map (fun i => top + 1 + i) (arange (length needed'))))
              = needed').
      { apply map_fst_combine_same. now rewrite length_map, arange_length. }
      split; [reflexivity|]. split; [|split].
      * unfold make_mapping at 2.
        rewrite length_combine, length_map, arange_length, Nat.min_id.
        apply map_snd_combine_same. now rewrite length_map, arange_length.
      * rewrite Hidx. subst needed'.
        apply StronglySorted_filter_lt, np_unique_sorted.
      * rewrite Hidx. intros old Hold. subst needed'.
        apply list_elem_of_In, filter_In in Hold as [Hold Hnot].
        unfold needed in Hold.
        rewrite <- list_elem_of_In, np_unique_elem in Hold.
        destruct (Helem old Hold) as (t & Hin & Hs & Ht).
        split; [|split; [exact Hs|]].
        -- intros Hin_r. apply existsb_eqb_elem in Hin_r.
           rewrite Hin_r in Hnot. discriminate.
        -- exists t. split; [|exact Ht].
           rewrite py_slice_combine in Hin by exact Hlen.
           now apply py_slice_elem in Hin.
    + exists [], top. rewrite app_nil_r. split; [reflexivity|].
      split; [exact Htop|]. repeat split; try constructor;
        intros; exfalso; eapply elem_of_nil; eassumption.
  - exists [], top. rewrite app_nil_r. split; [reflexivity|].
    split; [exact Htop|]. repeat split; try constructor;
      intros; exfalso; eapply elem_of_nil; eassumption.
Qed.

Lemma numbered_mapping_extend (r new : mapping_df) (top : Z) :
  numbered_mapping r ->
  np_max (df_new_id r) = Ok top ->
  df_new_id new = map (fun i => top + 1 + i) (arange (length new)) ->
  StronglySorted Z.lt (df_index new) ->
  (forall old, old ∈ df_index new -> old ∉ df_index r) ->
  numbered_mapping (r ++ new).
Proof.
  intros (Hne & Hnodup & Hids) Htop Hnew Hsorted Hfresh.
  rewrite Hids, np_max_arange in Htop
    by (destruct r; [congruence | discriminate]).
  injection Htop as <-.
  split; [|split].
  - destruct r; [congruence | discriminate].
  - unfold df_index. rewrite map_app. apply NoDup_app.
    split; [exact Hnodup|]. split; [|now apply sorted_lt_NoDup].
    intros old Hold Hin. now apply (Hfresh old Hin).
  - unfold df_new_id in *. rewrite map_app, length_app, arange_app, Hids, Hnew.
    f_equal. apply map_ext. intros i. lia.
Qed.

(** The chunk loop returns, keeps the mapping numbered and only appends. *)
Lemma external_ids_loop_spec (env : environ)
    (all_sgids all_tgids src dst : list Z) (slices : list slice)
    (ret : option mapping_df) :
  1 <= _h5_get_read_chunk_size env ->
  length all_sgids = length all_tgids ->
  match ret with None => True | Some r => numbered_mapping r end ->
  exists ret',
    external_ids_loop env all_sgids all_tgids src dst ret slices = Ok ret' /\
    match ret' with None => True | Some r' => numbered_mapping r' end /\
    (forall r, ret = Some r -> exists new, ret' = Some (r ++ new)) /\
    ((forall edge, edge ∈ combine all_sgids all_tgids ->
        ~ wanted_connection src dst edge) -> ret = None -> ret' = None).
Proof.
  intros Hh Hlen. revert ret.
  induction slices as [|sl slices IH]; intros ret Hinv; simpl.
  - exists ret. split; [reflexivity|]. split; [exact Hinv|].
    split; [|auto]. intros r ->. exists []. now rewrite app_nil_r.
  - destruct ret as [r|].
    + destruct (external_ids_body_Some env all_sgids all_tgids src dst r sl
                  Hh Hlen (proj1 Hinv))
        as (new & top & Hbody & Htop & Hnew & Hsorted & Hfresh).
      rewrite Hbody. run_result.
      destruct (IH (Some (r ++ new))) as (ret' & Hloop & Hinv' & Hext & _).
      { eapply numbered_mapping_extend; eauto.
        intros old Hold. now destruct (Hfresh old Hold). }
      exists ret'. split; [exact Hloop|]. split; [exact Hinv'|].
      split; [|discriminate].
      intros r0 [= <-]. destruct (Hext _ eq_refl) as (new' & ->).
      exists (new ++ new'). now rewrite app_assoc.
    + destruct (external_ids_body_None env all_sgids all_tgids src dst sl
                  Hh Hlen) as (ret1 & Hbody & Hinv1 & Hnone1).
      rewrite Hbody. run_result.
      destruct (IH ret1) as (ret' & Hloop & Hinv' & _ & Hnone').
      { destruct ret1; [apply Hinv1 | exact I]. }
      exists ret'. split; [exact Hloop|]. split; [exact Hinv'|].
      split; [discriminate|].
      intros Hno _. apply Hnone'; [exact Hno | now apply Hnone1].
Qed.


(** ** Node sets *)

Lemma elem_of_map {A B} (f : A -> B) (l : list A) (y : B) :
  y ∈ map f l <-> exists x, y = f x /\ x ∈ l.
Proof. change (map f l) with (f <$> l). apply list_elem_of_fmap. Qed.

Lemma pd_unique_from_elem (seen values : list Z) (x : Z) :
  x ∈ pd_unique_from seen values <-> x ∈ values /\ x ∉ seen.
Proof.
  revert seen. induction values as [|v values IH]; intros seen; simpl.
  - rewrite elem_of_nil. tauto.
  - destruct (existsb (Z.eqb v) seen) eqn:Hseen.
    + apply existsb_eqb_elem in Hseen. rewrite IH, elem_of_cons.
      split; [tauto|]. intros [[->|Hx] Hnot]; [contradiction | tauto].
    + assert (Hv : v ∉ seen).
      { intros Hin. apply existsb_eqb_elem in Hin. congruence. }
      rewrite !elem_of_cons, IH, not_elem_of_cons.
      destruct (Z.eq_dec x v) as [->|Hne]; tauto.
Qed.

Lemma index_intersection_elem (index other : list Z) (x : Z) :
  x ∈ index_intersection index other <-> x ∈ index /\ x ∈ other.
Proof.
  unfold index_intersection, pd_unique.
  rewrite pd_unique_from_elem, list_elem_of_In, filter_In,
    <- list_elem_of_In, existsb_eqb_elem.
  pose proof (not_elem_of_nil x). tauto.
Qed.

(** [df.loc] with labels taken from the index finds the rows that carry
    one of the labels. *)
Lemma df_loc_of_index (df : mapping_df) (labels : list Z) :
  (forall lbl, lbl ∈ labels -> lbl ∈ df_index df) ->
  exists rows,
    df_loc df labels = Ok rows /\
    forall row, row ∈ rows <-> row ∈ df /\ fst row ∈ labels.
Proof.
  induction labels as [|lbl labels IH]; intros Hsub; simpl.
  - exists []. split; [reflexivity|]. intros row.
    rewrite !elem_of_nil. tauto.
  - destruct IH as (rest & Hrest & Hrows).
    { intros l Hl. apply Hsub. now right. }
    assert (Hfilter : forall row,
              row ∈ List.filter (fun row => Z.eqb (fst row) lbl) df
              <-> row ∈ df /\ fst row = lbl).
    { intros row. now rewrite list_elem_of_In, filter_In, <- list_elem_of_In,
        Z.eqb_eq. }
    destruct (List.filter (fun row => Z.eqb (fst row) lbl) df)
      as [|row0 rows0] eqn:Hrows0.
    + exfalso. assert (Hin : lbl ∈ df_index df) by (apply Hsub; left).
      apply elem_of_map in Hin as (row & -> & Hin).
      apply (not_elem_of_nil row), Hfilter. auto.
    + rewrite Hrest. run_result. eexists. split; [reflexivity|].
      intros row.
      change (row ∈ (row0 :: rows0) ++ rest <-> row ∈ df /\ fst row ∈ lbl :: labels).
      rewrite elem_of_app, Hfilter, Hrows, elem_of_cons.
      split; [intros [[? ->]|[? ?]]; auto | intros [? [->|?]]; auto].
Qed.

(** The remapped ids of a rule: ascending, and exactly the new ids of the
    listed old ids that the mapping knows. *)
Lemma remap_node_ids_spec (mapping : mapping_df) (items : list json) :
  exists ids,
    remap_node_ids mapping (JList items) = Ok ids /\
    Sorted Z.le ids /\
    forall new,
      new ∈ ids <-> exists old, JInt old ∈ items /\ (old, new) ∈ mapping.
Proof.
  unfold remap_node_ids, node_id_labels. run_result.
  set (labels := omap _ items).
  destruct (df_loc_of_index mapping
              (index_intersection (df_index mapping) labels))
    as (rows & Hloc & Hrows).
  { intros lbl Hl. now apply index_intersection_elem in Hl. }
  rewrite Hloc. run_result. eexists. split; [reflexivity|].
  split; [apply Sorted_merge_sort, Z.le_total|].
  intros new. unfold sort_values. rewrite merge_sort_Permutation.
  unfold df_new_id. rewrite elem_of_map. split.
  - intros ([old new'] & -> & Hrow). simpl.
    apply Hrows in Hrow as [Hin Hlbl]. simpl in Hlbl.
    apply index_intersection_elem in Hlbl as [_ Hlbl].
    apply list_elem_of_omap in Hlbl as (j & Hj & Hjint).
    destruct j; try discriminate. injection Hjint as ->. eauto.
  - intros (old & Hitem & Hrow). exists (old, new). split; [reflexivity|].
    apply Hrows. split; [exact Hrow|]. simpl.
    apply index_intersection_elem. split.
    + apply elem_of_map. exists (old, new). auto.
    + apply list_elem_of_omap. exists (JInt old). auto.
Qed.

(** What one rule contributes: [keeps ret ret' name] says the entries of
    other names are untouched. *)
Lemma update_node_sets_body_cases (id_mapping : list (string * mapping_df))
    (ret : list (string * json)) (name : string) (rule : json)
    (log : list string) :
  update_node_sets_body id_mapping ret (name, rule) log =
  match rule_node_id rule with
  | None => (log, Ok (dict_set ret name rule))
  | Some node_id =>
      match rule_population rule with
      | None => (log ++ [warning_no_population name], Ok ret)
      | Some population =>
          match lookup_population population id_mapping with
          | Raise e => (log, Raise e)
          | Ok None => (log, Ok ret)
          | Ok (Some mapping) =>
              match remap_node_ids mapping node_id, rule with
              | Ok ids, JDict fields =>
                  (log, Ok (dict_set ret name
                              (JDict (dict_set fields "node_id"
                                        (JList (map JInt ids))))))
              | Ok _, _ => (log, Ok ret)
              | Raise e, _ => (log, Raise e)
              end
          end
      end
  end.
Proof.
  unfold update_node_sets_body, rule_node_id, rule_population. simpl.
  destruct rule as [| | | |items|fields]; try reflexivity.
  destruct (assoc "node_id" fields) as [node_id|]; [|reflexivity].
  destruct (assoc "population" fields) as [population|]; [|reflexivity].
  run_stateful.
  destruct (lookup_population population id_mapping) as [[mapping|]|e];
    reflexivity.
Qed.

Lemma update_node_sets_body_frame (id_mapping : list (string * mapping_df))
    (ret ret1 : list (string * json)) (item : string * json)
    (log log1 : list string) :
  update_node_sets_body id_mapping ret item log = (log1, Ok ret1) ->
  log1 = log ++ map warning_no_population (names_without_population [item]) /\
  forall name, name <> fst item -> assoc name ret1 = assoc name ret.
Proof.
  destruct item as [name0 rule]. rewrite update_node_sets_body_cases.
  unfold names_without_population. simpl.
  destruct (rule_node_id rule) as [node_id|].
  - destruct (rule_population rule) as [population|].
    + destruct (lookup_population population id_mapping) as [[mapping|]|e];
        try discriminate.
      * destruct (remap_node_ids mapping node_id) as [ids|e];
          [|discriminate].
        destruct rule; intros [= <- <-];
          (split; [now rewrite app_nil_r|]); intros name Hne;
          try reflexivity.
        apply assoc_dict_set_ne. congruence.
      * intros [= <- <-]. split; [now rewrite app_nil_r | reflexivity].
    + intros [= <- <-]. split; reflexivity.
  - intros [= <- <-]. split; [now rewrite app_nil_r|].
    intros name Hne. apply assoc_dict_set_ne. congruence.
Qed.

(** The loop of [_update_node_sets]: the log it leaves, and where the
    entry of every name of the result comes from. *)
Lemma update_node_sets_loop (id_mapping : list (string * mapping_df))
    (items : list (string * json)) :
  forall ret log log' ret',
    for_acc items (update_node_sets_body id_mapping) ret log = (log', Ok ret') ->
    log' = log ++ map warning_no_population (names_without_population items) /\
    (forall name, name ∉ dict_keys items -> assoc name ret' = assoc name ret) /\
    (NoDup (dict_keys items) ->
     forall name rule,
       (name, rule) ∈ items ->
       exists ret_in ret_out log_in log_out,
         update_node_sets_body id_mapping ret_in (name, rule) log_in
         = (log_out, Ok ret_out) /\
         assoc name ret_in = assoc name ret /\
         assoc name ret' = assoc name ret_out).
Proof.
  induction items as [|[name0 rule0] rest IH]; intros ret log log' ret' Hrun.
  - simpl in Hrun. run_stateful. injection Hrun as <- <-.
    split; [now rewrite app_nil_r|]. split; [reflexivity|].
    intros _ name rule Hin. now apply elem_of_nil in Hin.
  - simpl in Hrun. unfold mbind, stateful_bind in Hrun.
    apply sbind_Ok in Hrun as (ret1 & log1 & Hbody & Hrest).
    destruct (update_node_sets_body_frame _ _ _ _ _ _ Hbody)
      as (Hlog1 & Hframe1).
    destruct (IH _ _ _ _ Hrest) as (Hlog' & Hframe & Hitems).
    split; [|split].
    + rewrite Hlog', Hlog1, <- app_assoc. f_equal.
      unfold names_without_population. simpl.
      destruct (rule_node_id rule0); [destruct (rule_population rule0)|];
        reflexivity.
    + intros name Hname. simpl in Hname.
      apply not_elem_of_cons in Hname as [Hne Hname].
      rewrite (Hframe name Hname). now apply Hframe1.
    + intros Hnodup name rule Hin. simpl in Hnodup.
      apply NoDup_cons in Hnodup as [Hfresh Hnodup].
      apply elem_of_cons in Hin as [[= -> ->]|Hin].
      * exists ret, ret1, log, log1. split; [exact Hbody|].
        split; [reflexivity | now apply Hframe].
      * destruct (Hitems Hnodup name rule Hin)
          as (ret_in & ret_out & log_in & log_out & Hb & Hin_eq & Hout_eq).
        exists ret_in, ret_out, log_in, log_out.
        split; [exact Hb|]. split; [|exact Hout_eq].
        rewrite Hin_eq. apply Hframe1. simpl. intros ->.
        apply Hfresh. apply elem_of_map. exists (name0, rule). auto.
Qed.

Lemma update_node_sets_skip (id_mapping : list (string * mapping_df))
    (pre post : list (string * json)) (item : string * json) :
  (forall ret log,
     update_node_sets_body id_mapping ret item log = (log, Ok ret)) ->
  forall log,
    _update_node_sets (pre ++ item :: post) id_mapping log
    = _update_node_sets (pre ++ post) id_mapping log.
Proof.
  intros Hskip log. unfold _update_node_sets. rewrite !for_acc_app.
  unfold sbind.
  destruct (for_acc pre (update_node_sets_body id_mapping) [] log)
    as [log1 [ret1|e]]; [|reflexivity].
  simpl. unfold mbind, stateful_bind, sbind. now rewrite Hskip.
Qed.

(** C7: a rule with ['node_id'] whose population is absent from the id
    mapping is dropped and execution continues exactly as if the rule were
    not in the file: no entry, no warning, no error; a rule whose
    population is present gets its ['node_id'] replaced by the new ids of
    the listed old ids that the mapping knows. *)
Theorem update_node_sets_population_rules
    (id_mapping : list (string * mapping_df)) :
  (forall pre post name fields node_id population log,
     assoc "node_id" fields = Some node_id ->
     assoc "population" fields = Some (JString population) ->
     assoc population id_mapping = None ->
     _update_node_sets (pre ++ (name, JDict fields) :: post) id_mapping log
     = _update_node_sets (pre ++ post) id_mapping log) /\
  (forall node_sets log log' ret name fields items population mapping,
     NoDup (dict_keys node_sets) ->
     _update_node_sets node_sets id_mapping log = (log', Ok ret) ->
     (name, JDict fields) ∈ node_sets ->
     assoc "node_id" fields = Some (JList items) ->
     assoc "population" fields = Some (JString population) ->
     assoc population id_mapping = Some mapping ->
     exists ids,
       assoc name ret
       = Some (JDict (dict_set fields "node_id" (JList (map JInt ids)))) /\
       forall new,
         new ∈ ids <-> exists old, JInt old ∈ items /\ (old, new) ∈ mapping).
Proof.
  split.
  - intros pre post name fields node_id population log Hid Hpop Habsent.
    apply update_node_sets_skip. intros ret log0.
    rewrite update_node_sets_body_cases. simpl.
    rewrite Hid, Hpop. unfold lookup_population. now rewrite Habsent.
  - intros node_sets log log' ret name fields items population mapping
      Hnodup Hrun Hin Hid Hpop Hpresent.
    destruct (update_node_sets_loop _ _ _ _ _ _ Hrun) as (_ & _ & Hitems).
    destruct (Hitems Hnodup _ _ Hin)
      as (ret_in & ret_out & log_in & log_out & Hbody & _ & Hout).
    rewrite update_node_sets_body_cases in Hbody. simpl in Hbody.
    rewrite Hid, Hpop in Hbody. unfold lookup_population in Hbody.
    rewrite Hpresent in Hbody.
    destruct (remap_node_ids_spec mapping items) as (ids & Hremap & _ & Hids).
    rewrite Hremap in Hbody. injection Hbody as <- <-.
    exists ids. split; [|exact Hids].
    rewrite Hout. apply assoc_dict_set_eq.
Qed.

Lemma update_node_sets_population_rules_witness :
  _update_node_sets
    ([("CopiedNoNodeIds", JList [JString "All"])]
     ++ ("OtherPopulation",
         JDict [("population", JString "Z"); ("node_id", JList [JInt 3])])
        :: [])
    test_node_sets_mapping []
  = _update_node_sets ([("CopiedNoNodeIds", JList [JString "All"])] ++ [])
      test_node_sets_mapping [] /\
  exists ids,
    assoc "HasPopulationCopied"
      [("CopiedNoNodeIds", JList [JString "All"]);
       ("HasPopulationCopied",
        JDict [("population", JString "A");
               ("node_id", JList [JInt 1; JInt 2; JInt 3]);
               ("mtype", JString "foo")])]
    = Some (JDict [("population", JString "A");
                   ("node_id", JList (map JInt ids));
                   ("mtype", JString "foo")]).
Proof.
  destruct (update_node_sets_population_rules test_node_sets_mapping)
    as [Hdrop Hremap].
  split.
  - apply (Hdrop _ _ _ _ (JList [JInt 3]) "Z"); reflexivity.
  - assert (Hnodup : NoDup (dict_keys test_node_sets)) by compute_done.
    assert (Hin : ("HasPopulationCopied",
                   JDict [("population", JString "A");
                          ("node_id",
                           JList [JInt 3; JInt 4; JInt 5; JInt 1003;
                                  JInt 1004; JInt 1005]);
                          ("mtype", JString "foo")]) ∈ test_node_sets)
      by (unfold test_node_sets; do 2 right; left).
    assert (Hrun :
              _update_node_sets test_node_sets test_node_sets_mapping []
              = (["No population key in nodeset MissingPopluationNotCopied, ignoring"],
                 Ok [("CopiedNoNodeIds", JList [JString "All"]);
                     ("HasPopulationCopied",
                      JDict [("population", JString "A");
                             ("node_id", JList [JInt 1; JInt 2; JInt 3]);
                             ("mtype", JString "foo")])]))
      by (vm_compute; reflexivity).
    destruct (Hremap test_node_sets [] _ _ _ _ _ "A"
                [(0, 0); (5, 1); (4, 2); (3, 3)]
                Hnodup Hrun Hin eq_refl eq_refl eq_refl)
      as (ids & Hfound & _).
    exists ids. exact Hfound.
Defined.

(** C7, as stated: a rule whose population is absent from the mapping is
    dropped without any warning. *)
Lemma update_node_sets_absent_population_silent :
  rule_population
    (JDict [("population", JString "Z"); ("node_id", JList [JInt 3])])
  = Some (JString "Z") /\
  assoc "Z" test_node_sets_mapping = None /\
  _update_node_sets
    [("OtherPopulation",
      JDict [("population", JString "Z"); ("node_id", JList [JInt 3])])]
    test_node_sets_mapping []
  = ([], Ok []).
Proof. repeat split. Qed.

Lemma remap_node_ids_sorted (mapping : mapping_df) (node_id : json)
    (ids : list Z) :
  remap_node_ids mapping node_id = Ok ids -> Sorted Z.le ids.
Proof.
  unfold remap_node_ids.
  destruct (node_id_labels node_id) as [labels|]; [|discriminate].
  run_result.
  destruct (df_loc mapping _) as [rows|]; [|discriminate].
  run_result. intros [= <-]. apply Sorted_merge_sort, Z.le_total.
Qed.

(** C10: a rule with ['node_id'] and no ['population'] is left out of the
    result and a warning is logged for it (the log gains exactly these
    warnings); a rule without ['node_id'] is passed through unchanged; and
    the ['node_id'] list of a kept rule is in ascending order of new id. *)
Theorem update_node_sets_kept_and_omitted
    (id_mapping : list (string * mapping_df))
    (node_sets : list (string * json)) (log log' : list string)
    (ret : list (string * json)) :
  NoDup (dict_keys node_sets) ->
  _update_node_sets node_sets id_mapping log = (log', Ok ret) ->
  log' = log ++ map warning_no_population (names_without_population node_sets) /\
  (forall name fields node_id,
     (name, JDict fields) ∈ node_sets ->
     assoc "node_id" fields = Some node_id ->
     assoc "population" fields = None ->
     assoc name ret = None /\ warning_no_population name ∈ log') /\
  (forall name rule,
     (name, rule) ∈ node_sets ->
     rule_node_id rule = None ->
     assoc name ret = Some rule) /\
  (forall name fields node_id kept,
     (name, JDict fields) ∈ node_sets ->
     assoc "node_id" fields = Some node_id ->
     assoc name ret = Some kept ->
     exists ids,
       kept = JDict (dict_set fields "node_id" (JList (map JInt ids))) /\
       Sorted Z.le ids).
Proof.
  intros Hnodup Hrun.
  destruct (update_node_sets_loop _ _ _ _ _ _ Hrun) as (Hlog & _ & Hitems).
  specialize (Hitems Hnodup).
  split; [exact Hlog|]. split; [|split].
  - intros name fields node_id Hin Hid Hpop.
    destruct (Hitems _ _ Hin)
      as (ret_in & ret_out & log_in & log_out & Hbody & Hin_eq & Hout).
    rewrite update_node_sets_body_cases in Hbody. simpl in Hbody.
    rewrite Hid, Hpop in Hbody. injection Hbody as _ <-.
    split; [now rewrite Hout, Hin_eq|].
    rewrite Hlog. apply elem_of_app. right.
    apply elem_of_map. exists name. split; [reflexivity|].
    apply list_elem_of_omap. exists (name, JDict fields).
    split; [exact Hin|]. simpl. now rewrite Hid, Hpop.
  - intros name rule Hin Hid.
    destruct (Hitems _ _ Hin)
      as (ret_in & ret_out & log_in & log_out & Hbody & _ & Hout).
    rewrite update_node_sets_body_cases, Hid in Hbody.
    injection Hbody as _ <-. rewrite Hout. apply assoc_dict_set_eq.
  - intros name fields node_id kept Hin Hid Hkept.
    destruct (Hitems _ _ Hin)
      as (ret_in & ret_out & log_in & log_out & Hbody & Hin_eq & Hout).
    rewrite update_node_sets_body_cases in Hbody. simpl in Hbody.
    rewrite Hid in Hbody. rewrite Hout in Hkept. simpl in Hin_eq.
    destruct (assoc "population" fields) as [population|].
    + destruct (lookup_population population id_mapping) as [[mapping|]|e];
        try discriminate.
      * destruct (remap_node_ids mapping node_id) as [ids|e] eqn:Hremap;
          [|discriminate].
        injection Hbody as _ <-. rewrite assoc_dict_set_eq in Hkept.
        injection Hkept as <-. exists ids. split; [reflexivity|].
        eapply remap_node_ids_sorted; eassumption.
      * injection Hbody as _ <-. congruence.
    + injection Hbody as _ <-. congruence.
Qed.

Lemma update_node_sets_kept_and_omitted_witness :
  NoDup (dict_keys test_node_sets) /\
  _update_node_sets test_node_sets test_node_sets_mapping []
  = (["No population key in nodeset MissingPopluationNotCopied, ignoring"],
     Ok [("CopiedNoNodeIds", JList [JString "All"]);
         ("HasPopulationCopied",
          JDict [("population", JString "A");
                 ("node_id", JList [JInt 1; JInt 2; JInt 3]);
                 ("mtype", JString "foo")])]) /\
  assoc "CopiedNoNodeIds"
    [("CopiedNoNodeIds", JList [JString "All"]);
     ("HasPopulationCopied",
      JDict [("population", JString "A");
             ("node_id", JList [JInt 1; JInt 2; JInt 3]);
             ("mtype", JString "foo")])]
  = Some (JList [JString "All"]).
Proof.
  assert (Hnodup : NoDup (dict_keys test_node_sets)) by compute_done.
  assert (Hrun :
            _update_node_sets test_node_sets test_node_sets_mapping []
            = (["No population key in nodeset MissingPopluationNotCopied, ignoring"],
               Ok [("CopiedNoNodeIds", JList [JString "All"]);
                   ("HasPopulationCopied",
                    JDict [("population", JString "A");
                           ("node_id", JList [JInt 1; JInt 2; JInt 3]);
                           ("mtype", JString "foo")])]))
    by (vm_compute; reflexivity).
  split; [exact Hnodup|]. split; [exact Hrun|].
  destruct (update_node_sets_kept_and_omitted test_node_sets_mapping
              test_node_sets [] _ _ Hnodup Hrun)
    as (_ & _ & Hpass & _).
  apply Hpass; [left | reflexivity].
Defined.

(** ** Structural errors *)

Lemma get_unique_population_not_single {V} (parent : list (string * V)) :
  length parent <> 1%nat -> _get_unique_population parent = Raise ValueError.
Proof.
  intros Hlen. unfold _get_unique_population, dict_keys.
  rewrite length_map. destruct (Nat.eqb_spec (length parent) 1); [lia|].
  reflexivity.
Qed.

Lemma get_unique_population_single {V} (name : string) (v : V) :
  _get_unique_population [(name, v)] = Ok name.
Proof. reflexivity. Qed.

Lemma h5group_rows_dict_set (g : h5group) (name : string) (o : h5obj) :
  h5group_rows g = O -> h5obj_rows o = O ->
  h5group_rows (dict_set g name o) = O.
Proof.
  unfold h5group_rows. intros Hg Ho.
  induction g as [|[k w] g IH]; simpl in *.
  - lia.
  - destruct (String.eqb name k); simpl; [lia|].
    rewrite IH; lia.
Qed.

Lemma init_dynamics_params_spec (items : list (string * h5obj))
    (g g' : h5group) (r : result unit) :
  init_dynamics_params items g = (g', r) ->
  (h5group_rows g = O -> h5group_rows g' = O) /\
  (forall e, r = Raise e ->
     e = AssertionError /\
     exists k nested, ((k, H5Group nested) : string * h5obj) ∈ items).
Proof.
  revert g. induction items as [|[k values] rest IH]; intros g; simpl.
  - run_stateful. intros [= <- <-]. split; [auto | discriminate].
  - destruct values as [rows|nested].
    + run_stateful. intros Hrun. apply IH in Hrun as [Hrows Hraise].
      split.
      * intros Hg. apply Hrows.
        unfold create_appendable_dataset. now apply h5group_rows_dict_set.
      * intros e He. destruct (Hraise e He) as (-> & k' & nested & Hin).
        split; [reflexivity|]. exists k', nested. now right.
    + run_stateful. intros [= <- <-]. split; [auto|].
      intros e [= <-]. split; [reflexivity|]. exists k, nested. left.
Qed.

(** [_init_edge_group] creates empty datasets only, and refuses a
    sub-group that is not [dynamics_params]. *)
Lemma init_edge_group_rows (orig_group : h5group) (new_group g : h5group)
    (r : result unit) :
  _init_edge_group orig_group new_group = (g, r) ->
  h5group_rows new_group = O -> h5group_rows g = O.
Proof.
  revert new_group. induction orig_group as [|[name attr] rest IH];
    intros new_group; simpl.
  - run_stateful. now intros [= <- <-].
  - destruct attr as [rows|sub].
    + run_stateful. intros Hrun Hg. apply IH in Hrun; [exact Hrun|].
      unfold create_appendable_dataset. now apply h5group_rows_dict_set.
    + destruct (String.eqb name "dynamics_params").
      * destruct (init_dynamics_params sub []) as [new_sub r0] eqn:Hsub.
        apply init_dynamics_params_spec in Hsub as [Hrows _].
        assert (Hzero : h5group_rows new_group = O ->
                        h5group_rows (dict_set new_group name (H5Group new_sub))
                        = O).
        { intros Hg. apply h5group_rows_dict_set; [exact Hg|].
          apply Hrows. reflexivity. }
        destruct r0 as [[]|e].
        -- intros Hrun Hg. apply IH in Hrun; auto.
        -- intros [= <- <-]. exact Hzero.
      * run_stateful. now intros [= <- <-].
Qed.

Lemma init_edge_group_unexpected (orig_group new_group : h5group)
    (name : string) (sub : list (string * h5obj)) :
  ((name, H5Group sub) : string * h5obj) ∈ orig_group ->
  name <> "dynamics_params" ->
  exists g e,
    _init_edge_group orig_group new_group = (g, Raise e) /\
    (flat_dynamics_params orig_group -> e = ValueError).
Proof.
  intros Hin Hname. revert new_group.
  induction orig_group as [|[name0 attr] rest IH]; intros new_group.
  - now apply elem_of_nil in Hin.
  - simpl. apply elem_of_cons in Hin as [[= <- <-]|Hin].
    + apply String.eqb_neq in Hname. rewrite Hname.
      exists new_group, ValueError. split; [reflexivity | auto].
    + specialize (IH Hin).
      assert (Hflat : flat_dynamics_params ((name0, attr) :: rest) ->
                      flat_dynamics_params rest).
      { intros Hf sub0 k nested Hs Hk. apply (Hf sub0 k nested); [now right|exact Hk]. }
      destruct attr as [rows|sub0].
      * run_stateful.
        destruct (IH (create_appendable_dataset new_group name0))
          as (g & e & Hrun & He).
        exists g, e. split; [exact Hrun | auto].
      * destruct (String.eqb_spec name0 "dynamics_params") as [->|Hne].
        -- destruct (init_dynamics_params sub0 []) as [new_sub r0] eqn:Hsub.
           apply init_dynamics_params_spec in Hsub as [_ Hraise].
           destruct r0 as [[]|e0].
           ++ destruct (IH (dict_set new_group "dynamics_params"
                              (H5Group new_sub))) as (g & e & Hrun & He).
              exists g, e. split; [exact Hrun | auto].
           ++ eexists _, e0. split; [reflexivity|].
              intros Hf. destruct (Hraise e0 eq_refl) as (_ & k & nested & Hk).
              exfalso. apply (Hf sub0 k nested); [left | exact Hk].
        -- exists new_group, ValueError. split; [reflexivity | auto].
Qed.

(** With an unexpected sub-group in the input, [_copy_edge_attributes]
    stops in [_init_edge_group]: the output population exists and holds
    no row. *)
Lemma copy_edge_attributes_unexpected_group (env : environ) (h5in : h5file)
    (src_node_name dst_node_name src_edge_name dst_edge_name : string)
    (src_mapping dst_mapping : mapping_df) (h5_read_chunk_size : option Z)
    (h5out : h5file) (orig_edges : edge_population) (orig_group : h5group)
    (name : string) (sub : list (string * h5obj)) :
  assoc src_edge_name h5in = Some orig_edges ->
  assoc GROUP_NAME (groups orig_edges) = Some orig_group ->
  ((name, H5Group sub) : string * h5obj) ∈ orig_group ->
  name <> "dynamics_params" ->
  dict_has dst_edge_name h5out = false ->
  exists h5out' e new_edges,
    _copy_edge_attributes env h5in src_node_name dst_node_name src_edge_name
      dst_edge_name src_mapping dst_mapping h5_read_chunk_size h5out
    = (h5out', Raise e) /\
    (flat_dynamics_params orig_group -> e = ValueError) /\
    assoc dst_edge_name h5out' = Some new_edges /\
    population_rows new_edges = O.
Proof.
  intros Horig Hgroup Hin Hname Hfree.
  unfold _copy_edge_attributes, _get_unique_group.
  rewrite Horig, Hgroup, Hfree.
  unfold copy_into_new_edges, on_new_group. run_stateful.
  cbn [groups assoc GROUP_NAME String.eqb Ascii.eqb Bool.eqb].
  destruct (init_edge_group_unexpected orig_group [] name sub Hin Hname)
    as (g & e & Hrun & He).
  pose proof (init_edge_group_rows _ _ _ _ Hrun eq_refl) as Hrows.
  rewrite Hrun. eexists _, e, _.
  split; [reflexivity|]. split; [exact He|].
  split; [apply assoc_dict_set_eq|].
  unfold population_rows. cbn.
  unfold h5group_rows, list_sum in Hrows. rewrite Hrows. reflexivity.
Qed.

Lemma product_keys_cons {V} (k : string) (v : V) (d : list (string * V)) :
  exists pairs, product_keys ((k, v) :: d) = (k, k) :: pairs.
Proof. unfold product_keys, dict_keys. simpl. eauto. Qed.

Lemma write_edges_pair_not_single (env : environ) (output : string)
    (h5in : h5file) (id_mapping : list (string * mapping_df))
    (h5_read_chunk_size : option Z) (written_edges : nat)
    (pair : string * string) (dir : directory) (e : exn) :
  _get_unique_population h5in = Raise e ->
  write_edges_pair env output h5in id_mapping h5_read_chunk_size
    written_edges pair dir
  = (<[os_path_join output
         (_get_edge_file_name (_get_population_name (fst pair) (snd pair)))
       := []]> dir,
     Raise e).
Proof.
  intros Hunique.
  unfold write_edges_pair, with_h5_file_w, write_edges_block. run_stateful.
  now rewrite Hunique.
Qed.

(** Without exactly one input population nothing is copied. *)
Lemma write_edges_not_single (env : environ) (output : string)
    (h5in : h5file) (id_mapping : list (string * mapping_df))
    (h5_read_chunk_size : option Z) (expect_to_use_all_edges : bool)
    (dir : directory) :
  length h5in <> 1%nat ->
  id_mapping <> [] \/ expect_to_use_all_edges = true ->
  exists dir',
    _write_edges env output h5in id_mapping h5_read_chunk_size
      expect_to_use_all_edges dir = (dir', Raise ValueError) /\
    forall path file,
      dir' !! path = Some file -> dir !! path = Some file \/ file = [].
Proof.
  intros Hlen Hcase. unfold _write_edges.
  pose proof (get_unique_population_not_single h5in Hlen) as Hunique.
  destruct id_mapping as [|[k v] id_mapping].
  - destruct Hcase as [?| ->]; [congruence|].
    exists dir. run_stateful. cbn. unfold _check_all_edges_used.
    rewrite Hunique. split; [reflexivity | auto].
  - destruct (product_keys_cons k v id_mapping) as (pairs & ->).
    cbn [for_acc]. unfold mbind, stateful_bind, sbind.
    rewrite (write_edges_pair_not_single _ _ _ _ _ _ _ _ _ Hunique).
    eexists. split; [reflexivity|].
    intros path file Hlookup.
    apply lookup_insert_Some in Hlookup as [[_ <-]|[_ Hlookup]]; auto.
Qed.

(** C6: an input container that does not hold exactly one population is
    refused with [ValueError], and so is [_write_edges] on it, leaving at
    most an empty file; an edge group with a sub-group other than
    [dynamics_params] is refused by [_init_edge_group] ([ValueError] when
    no parameter table nests a group), and [_copy_edge_attributes] then
    stops with an output population that holds no row. *)
Theorem structural_errors_before_copy :
  (forall (V : Type) (parent : list (string * V)),
     length parent <> 1%nat ->
     _get_unique_population parent = Raise ValueError) /\
  (forall env output h5in id_mapping h5_read_chunk_size expect dir,
     length h5in <> 1%nat ->
     id_mapping <> [] \/ expect = true ->
     exists dir',
       _write_edges env output h5in id_mapping h5_read_chunk_size expect dir
       = (dir', Raise ValueError) /\
       forall path file,
         dir' !! path = Some file -> dir !! path = Some file \/ file = []) /\
  (forall (orig_group new_group : h5group) name sub,
     ((name, H5Group sub) : string * h5obj) ∈ orig_group ->
     name <> "dynamics_params" ->
     exists g e,
       _init_edge_group orig_group new_group = (g, Raise e) /\
       (flat_dynamics_params orig_group -> e = ValueError)) /\
  (forall env h5in src_node_name dst_node_name src_edge_name dst_edge_name
          src_mapping dst_mapping h5_read_chunk_size h5out
          orig_edges orig_group name sub,
     assoc src_edge_name h5in = Some orig_edges ->
     assoc GROUP_NAME (groups orig_edges) = Some orig_group ->
     ((name, H5Group sub) : string * h5obj) ∈ orig_group ->
     name <> "dynamics_params" ->
     dict_has dst_edge_name h5out = false ->
     exists h5out' e new_edges,
       _copy_edge_attributes env h5in src_node_name dst_node_name
         src_edge_name dst_edge_name src_mapping dst_mapping
         h5_read_chunk_size h5out = (h5out', Raise e) /\
       (flat_dynamics_params orig_group -> e = ValueError) /\
       assoc dst_edge_name h5out' = Some new_edges /\
       population_rows new_edges = O).
Proof.
  split; [|split; [|split]].
  - intros V parent. apply get_unique_population_not_single.
  - intros. now apply write_edges_not_single.
  - intros. eapply init_edge_group_unexpected; eassumption.
  - intros. eapply copy_edge_attributes_unexpected_group; eassumption.
Qed.

Lemma structural_errors_before_copy_witness :
  _get_unique_population ([] : h5file) = Raise ValueError /\
  exists h5out' new_edges,
    _copy_edge_attributes None test_unsupported_group_file "A" "A" "default"
      "A" [(0, 0); (1, 1)] [(0, 0); (1, 1)] None []
    = (h5out', Raise ValueError) /\
    assoc "A" h5out' = Some new_edges /\
    population_rows new_edges = O.
Proof.
  destruct structural_errors_before_copy as (Hsingle & _ & _ & Hcopy).
  split; [apply Hsingle; discriminate|].
  destruct (Hcopy None test_unsupported_group_file "A" "A" "default" "A"
              [(0, 0); (1, 1)] [(0, 0); (1, 1)] None [] _
              [("delay", H5Dataset [10; 11]);
               ("extra_params", H5Group [("v", H5Dataset [1; 2])])]
              "extra_params" [("v", H5Dataset [1; 2])]
              eq_refl eq_refl)
    as (h5out' & e & new_edges & Hrun & He & Hfound & Hrows).
  - right. left.
  - discriminate.
  - reflexivity.
  - exists h5out', new_edges. rewrite Hrun. repeat split; try assumption.
    f_equal. f_equal. apply He. intros sub k nested Hs Hk.
    apply elem_of_cons in Hs as [Hs|Hs]; [discriminate Hs|].
    apply elem_of_cons in Hs as [Hs|Hs]; [discriminate Hs|].
    now apply elem_of_nil in Hs.
Defined.

(** ** Edge conservation *)

Lemma write_indexes_Ok (edge_file_name new_pop_name : string)
    (source_node_count target_node_count : Z) (file : h5file)
    (p : edge_population) (dir : directory) :
  assoc new_pop_name file = Some p ->
  _write_indexes edge_file_name new_pop_name source_node_count
    target_node_count (<[edge_file_name := file]> dir)
  = (<[edge_file_name :=
         dict_set file new_pop_name
           (set_indices
              (Some {| source_to_target :=
                         range_index (source_node_id p) source_node_count;
                       target_to_source :=
                         range_index (target_node_id p) target_node_count |})
              p)]> dir,
     Ok tt).
Proof.
  intros Hp. unfold _write_indexes.
  rewrite lookup_insert_eq, Hp. now rewrite insert_insert_eq.
Qed.

Lemma get_node_counts_Ok (h5out : h5file) (new_pop_name : string)
    (counts : nat * Z * Z) :
  _get_node_counts h5out new_pop_name = Ok counts ->
  exists p,
    assoc new_pop_name h5out = Some p /\
    fst (fst counts) = length (source_node_id p).
Proof.
  unfold _get_node_counts.
  destruct (assoc new_pop_name h5out) as [p|]; [|discriminate].
  intros H. exists p. split; [reflexivity|].
  destruct (Nat.ltb 0 (length (source_node_id p))).
  - destruct (np_max (source_node_id p)); [|discriminate].
    destruct (np_max (target_node_id p)); [|discriminate].
    run_result. now injection H as <-.
  - now injection H as <-.
Qed.

Lemma write_edges_block_Ok (env : environ) (h5in : h5file)
    (id_mapping : list (string * mapping_df)) (h5_read_chunk_size : option Z)
    (src_node_pop dst_node_pop : string) (h5out0 h5out : h5file)
    (counts : nat * Z * Z) :
  write_edges_block env h5in id_mapping h5_read_chunk_size src_node_pop
    dst_node_pop h5out0 = (h5out, Ok counts) ->
  _get_node_counts h5out (_get_population_name src_node_pop dst_node_pop)
  = Ok counts.
Proof.
  unfold write_edges_block. intros H.
  unfold mbind, stateful_bind in H.
  repeat (apply sbind_Ok in H as (? & ? & ? & H)).
  unfold get_state in *. unfold lift in H.
  repeat match goal with
         | Hs : (_, Ok _) = (_, Ok _) |- _ => injection Hs as <- <-
         end.
  now injection H as <- ->.
Qed.

(** What one pair does to the directory and to the counter, given the
    outcome of its [with] block. *)
Lemma write_edges_pair_cases (env : environ) (output : string)
    (h5in : h5file) (id_mapping : list (string * mapping_df))
    (h5_read_chunk_size : option Z) (written_edges : nat)
    (src_node_pop dst_node_pop : string) (dir : directory)
    (h5out : h5file) (edge_count : nat) (sgid_count tgid_count : Z) :
  let edge_pop_name := _get_population_name src_node_pop dst_node_pop in
  let edge_file_name :=
    os_path_join output (_get_edge_file_name edge_pop_name) in
  write_edges_block env h5in id_mapping h5_read_chunk_size src_node_pop
    dst_node_pop [] = (h5out, Ok (edge_count, sgid_count, tgid_count)) ->
  (edge_count = O ->
   write_edges_pair env output h5in id_mapping h5_read_chunk_size
     written_edges (src_node_pop, dst_node_pop) dir
   = (delete edge_file_name dir, Ok written_edges)) /\
  (edge_count <> O ->
   exists p,
     assoc edge_pop_name h5out = Some p /\
     length (source_node_id p) = edge_count /\
     write_edges_pair env output h5in id_mapping h5_read_chunk_size
       written_edges (src_node_pop, dst_node_pop) dir
     = (<[edge_file_name :=
            dict_set h5out edge_pop_name
              (set_indices
                 (Some {| source_to_target :=
                            range_index (source_node_id p) sgid_count;
                          target_to_source :=
                            range_index (target_node_id p) tgid_count |})
                 p)]> dir,
        Ok (written_edges + edge_count)%nat)).
Proof.
  intros edge_pop_name edge_file_name Hblock.
  pose proof (write_edges_block_Ok _ _ _ _ _ _ _ _ _ Hblock) as Hcounts.
  apply get_node_counts_Ok in Hcounts as (p & Hp & Hlen). simpl in Hlen.
  unfold write_edges_pair, with_h5_file_w. cbn [fst snd].
  fold edge_pop_name. fold edge_file_name.
  unfold mbind, stateful_bind, sbind. rewrite Hblock. cbn [fst snd].
  split.
  - intros ->. cbn [Nat.ltb Nat.leb]. unfold os_unlink, modify, sbind.
    unfold mret, stateful_ret. now rewrite delete_insert_eq.
  - intros Hpos. exists p. split; [exact Hp|]. split; [now symmetry|].
    destruct (Nat.ltb_spec 0 edge_count) as [_|?]; [|lia].
    now rewrite (write_indexes_Ok _ _ _ _ _ _ _ Hp).
Qed.

Lemma write_edges_pair_count (env : environ) (output : string)
    (h5in : h5file) (id_mapping : list (string * mapping_df))
    (h5_read_chunk_size : option Z) (written_edges written' : nat)
    (pair : string * string) (dir dir' : directory) :
  write_edges_pair env output h5in id_mapping h5_read_chunk_size
    written_edges pair dir = (dir', Ok written') ->
  written'
  = (written_edges
     + pair_edge_count env h5in id_mapping h5_read_chunk_size pair)%nat.
Proof.
  destruct pair as [src_node_pop dst_node_pop]. unfold pair_edge_count.
  cbn [fst snd].
  destruct (write_edges_block env h5in id_mapping h5_read_chunk_size
              src_node_pop dst_node_pop [])
    as [h5out [[[edge_count sgid_count] tgid_count]|e]] eqn:Hblock.
  - destruct (write_edges_pair_cases env output h5in id_mapping
                h5_read_chunk_size written_edges src_node_pop dst_node_pop
                dir _ _ _ _ Hblock) as [Hzero Hpos].
    cbn [fst]. destruct edge_count as [|n].
    + rewrite Hzero by reflexivity. intros [= _ <-]. lia.
    + destruct Hpos as (p & _ & _ & ->); [discriminate|].
      now intros [= _ <-].
  - unfold write_edges_pair, with_h5_file_w. cbn [fst snd].
    unfold mbind, stateful_bind, sbind. rewrite Hblock. discriminate.
Qed.

Lemma write_edges_loop_count (env : environ) (output : string)
    (h5in : h5file) (id_mapping : list (string * mapping_df))
    (h5_read_chunk_size : option Z) (pairs : list (string * string)) :
  forall written_edges written' dir dir',
    for_acc pairs
      (write_edges_pair env output h5in id_mapping h5_read_chunk_size)
      written_edges dir = (dir', Ok written') ->
    written'
    = (written_edges
       + list_sum (map (pair_edge_count env h5in id_mapping
                          h5_read_chunk_size) pairs))%nat.
Proof.
  induction pairs as [|pair pairs IH]; intros written_edges written' dir dir';
    simpl.
  - run_stateful. intros [= _ <-]. lia.
  - unfold mbind, stateful_bind. intros Hrun.
    apply sbind_Ok in Hrun as (w1 & dir1 & Hpair & Hrest).
    apply write_edges_pair_count in Hpair. apply IH in Hrest. lia.
Qed.


(** ** Empty outputs *)

Lemma subcircuit_edges_block_cases (env : environ) (h5in : h5file)
    (src_node_pop dst_node_pop src_edge_pop_name dst_edge_pop_name : string)
    (src_mapping dst_mapping : mapping_df) (h5out0 h5out : h5file)
    (counts : nat * Z * Z) :
  _copy_edge_attributes env h5in src_node_pop dst_node_pop src_edge_pop_name
    dst_edge_pop_name src_mapping dst_mapping None h5out0 = (h5out, Ok tt) ->
  _get_node_counts h5out dst_edge_pop_name = Ok counts ->
  subcircuit_edges_block env h5in src_node_pop dst_node_pop src_edge_pop_name
    dst_edge_pop_name src_mapping dst_mapping h5out0
  = if Nat.eqb (fst (fst counts)) 0
    then (dict_del h5out dst_edge_pop_name,
          Ok (counts, Nat.eqb (length (dict_del h5out dst_edge_pop_name)) 0))
    else (h5out, Ok (counts, false)).
Proof.
  intros Hcopy Hcounts. unfold subcircuit_edges_block.
  unfold mbind, stateful_bind, sbind. rewrite Hcopy.
  unfold get_state, lift. rewrite Hcounts.
  destruct (Nat.eqb (fst (fst counts)) 0); reflexivity.
Qed.


(** * Further properties of the module *)

(** ** The windows of the chunk scanner *)

Lemma range_from_closed (fuel : nat) (start stop step : Z) :
  0 < step -> stop - start <= Z.of_nat fuel ->
  range_from fuel start stop step
  = map (fun k => start + Z.of_nat k * step)
        (seq 0 (Z.to_nat ((stop - start + step - 1) / step))).
Proof.
  intros Hstep. revert start.
  induction fuel as [|fuel IH]; intros start Hfuel; simpl.
  - replace (Z.to_nat ((stop - start + step - 1) / step)) with O;
      [reflexivity|].
    assert ((stop - start + step - 1) / step <= 0); [|lia].
    apply Z.lt_succ_r, Z.div_lt_upper_bound; lia.
  - destruct (Z.ltb_spec start stop) as [Hlt|Hge].
    + rewrite IH by lia.
      replace (stop - start + step - 1)
        with (stop - (start + step) + step - 1 + 1 * step) by lia.
      rewrite Z.div_add by lia.
      assert (0 <= (stop - (start + step) + step - 1) / step)
        by (apply Z.div_pos; lia).
      rewrite Z2Nat.inj_add by lia.
      rewrite Nat.add_comm. simpl. f_equal; [lia|].
      rewrite <- seq_shift, map_map. apply map_ext. intros k. lia.
    + replace (Z.to_nat ((stop - start + step - 1) / step)) with O;
        [reflexivity|].
      assert ((stop - start + step - 1) / step <= 0); [|lia].
      apply Z.lt_succ_r, Z.div_lt_upper_bound; lia.
Qed.

(** X1: [_create_chunked_slices] refuses a zero chunk size, yields no
    window for a negative one, and for a positive one yields the
    ceil(length / chunk_size) consecutive windows
    [k * chunk_size, (k + 1) * chunk_size), which, applied to an array of
    that length, are each non-empty and concatenate to the array. *)
Theorem create_chunked_slices_windows (length : nat) (chunk_size : Z) :
  (chunk_size = 0 ->
   _create_chunked_slices length chunk_size = Raise ValueError) /\
  (chunk_size < 0 -> _create_chunked_slices length chunk_size = Ok []) /\
  (0 < chunk_size ->
   let windows :=
     map (fun k => (Z.of_nat k * chunk_size, (Z.of_nat k + 1) * chunk_size))
         (seq 0 (Z.to_nat ((Z.of_nat length + chunk_size - 1) / chunk_size))) in
   _create_chunked_slices length chunk_size = Ok windows /\
   forall (A : Type) (values : list A),
     List.length values = length ->
     concat (map (py_slice values) windows) = values /\
     forall sl, sl ∈ windows -> py_slice values sl <> []).
Proof.
  split; [|split].
  - intros ->. reflexivity.
  - intros Hneg. unfold _create_chunked_slices, py_range0.
    destruct (Z.eqb_spec chunk_size 0); [lia|].
    destruct (Z.ltb_spec chunk_size 0); [reflexivity | lia].
  - intros Hpos windows. unfold _create_chunked_slices, py_range0.
    destruct (Z.eqb_spec chunk_size 0); [lia|].
    destruct (Z.ltb_spec chunk_size 0); [lia|].
    assert (Hwin : map (fun start => (start, start + chunk_size))
                     (range_from length 0 (Z.of_nat length) chunk_size)
                   = windows).
    { rewrite range_from_closed by lia. rewrite map_map. subst windows.
      rewrite Z.sub_0_r. apply map_ext. intros k. f_equal; lia. }
    run_result. rewrite Hwin. split; [reflexivity|].
    intros A values Hlen. split.
    + destruct (chunked_slices_cover values chunk_size) as (sl & Hsl & Hcover & _);
        [lia|].
      unfold _create_chunked_slices, py_range0 in Hsl.
      destruct (Z.eqb_spec chunk_size 0); [lia|].
      destruct (Z.ltb_spec chunk_size 0); [lia|].
      cbn [mbind mret result_bind result_ret rbind] in Hsl.
      rewrite Hlen, Hwin in Hsl. now injection Hsl as <-.
    + intros sl Hsl. subst windows.
      apply elem_of_map in Hsl as (k & -> & Hk).
      apply elem_of_seq in Hk as [_ Hk]. simpl in Hk.
      assert (Hstart : Z.of_nat k * chunk_size < Z.of_nat length).
      { assert (Z.of_nat k < (Z.of_nat length + chunk_size - 1) / chunk_size)
          by lia.
        assert (Hdiv : ((Z.of_nat length + chunk_size - 1) / chunk_size)
                       * chunk_size <= Z.of_nat length + chunk_size - 1).
        { rewrite Z.mul_comm. apply Z.mul_div_le. lia. }
        nia. }
      unfold py_slice, clamp_bound. cbn [fst snd]. rewrite Hlen.
      destruct (Z.ltb_spec (Z.of_nat k * chunk_size) 0); [nia|].
      destruct (Z.ltb_spec ((Z.of_nat k + 1) * chunk_size) 0); [nia|].
      intros Hnil. apply (f_equal List.length) in Hnil.
      rewrite length_firstn, length_skipn, Hlen in Hnil. simpl in Hnil. nia.
Qed.

Lemma create_chunked_slices_windows_witness :
  _create_chunked_slices 7 3 = Ok [(0, 3); (3, 6); (6, 9)] /\
  concat (map (py_slice [10; 11; 12; 13; 14; 15; 16]) [(0, 3); (3, 6); (6, 9)])
  = [10; 11; 12; 13; 14; 15; 16].
Proof.
  destruct (create_chunked_slices_windows 7 3) as (_ & _ & Hpos).
  specialize (Hpos ltac:(lia)). cbv zeta in Hpos.
  destruct Hpos as [Hok Hcover].
  split; [exact Hok|].
  destruct (Hcover Z [10; 11; 12; 13; 14; 15; 16] eq_refl) as [Hcat _].
  exact Hcat.
Defined.



(** ** Node counts *)

Lemma fold_left_max_spec (l : list Z) (a : Z) :
  a <= fold_left Z.max l a /\
  (forall x, x ∈ l -> x <= fold_left Z.max l a) /\
  (fold_left Z.max l a = a \/ fold_left Z.max l a ∈ l).
Proof.
  revert a. induction l as [|y l IH]; intros a; simpl.
  - split; [lia|]. split; [|now left].
    intros x Hx. now apply elem_of_nil in Hx.
  - destruct (IH (Z.max a y)) as (Hge & Hall & Hmax).
    split; [lia|]. split.
    + intros x [->|Hx]%elem_of_cons; [lia | now apply Hall].
    + destruct Hmax as [Hmax|Hmax]; [|right; now right].
      rewrite Hmax. destruct (Z.max_spec a y) as [[_ ->]|[_ ->]];
        [right; left | now left].
Qed.

Lemma np_max_spec (values : list Z) (m : Z) :
  np_max values = Ok m ->
  m ∈ values /\ forall x, x ∈ values -> x <= m.
Proof.
  destruct values as [|v rest]; [discriminate|]. simpl. intros [= <-].
  destruct (fold_left_max_spec rest v) as (Hge & Hall & Hmax). split.
  - destruct Hmax as [->|Hmax]; [left | now right].
  - intros x [->|Hx]%elem_of_cons; [exact Hge | now apply Hall].
Qed.

(** X3: [_get_node_counts] fails with [KeyError] on a missing population;
    it reports the length of [source_node_id] as edge count, node counts
    0 and 0 when there is no edge, and otherwise node counts that are one
    more than the largest source and target id, so every id of the
    population lies below its node count. *)
Theorem get_node_counts_bounds (h5out : h5file) (new_pop_name : string) :
  (assoc new_pop_name h5out = None ->
   _get_node_counts h5out new_pop_name = Raise KeyError) /\
  (forall p,
     assoc new_pop_name h5out = Some p -> source_node_id p = [] ->
     _get_node_counts h5out new_pop_name = Ok (O, 0, 0)) /\
  (forall p edge_count source_node_count target_node_count,
     assoc new_pop_name h5out = Some p ->
     _get_node_counts h5out new_pop_name
     = Ok (edge_count, source_node_count, target_node_count) ->
     edge_count = length (source_node_id p) /\
     (forall s, s ∈ source_node_id p -> s < source_node_count) /\
     (edge_count <> O ->
      source_node_count - 1 ∈ source_node_id p /\
      target_node_count - 1 ∈ target_node_id p /\
      forall t, t ∈ target_node_id p -> t < target_node_count)).
Proof.
  unfold _get_node_counts. split; [|split].
  - now intros ->.
  - intros p -> ->. reflexivity.
  - intros p edge_count sc tc -> Hcounts.
    destruct (Nat.ltb_spec 0 (length (source_node_id p))) as [Hpos|Hzero].
    + destruct (np_max (source_node_id p)) as [smax|] eqn:Hs; [|discriminate].
      destruct (np_max (target_node_id p)) as [tmax|] eqn:Ht; [|discriminate].
      run_result. injection Hcounts as <- <- <-.
      apply np_max_spec in Hs as [Hsin Hsall].
      apply np_max_spec in Ht as [Htin Htall].
      split; [reflexivity|]. split.
      * intros s Hin. apply Hsall in Hin. lia.
      * intros _. replace (smax + 1 - 1) with smax by lia.
        replace (tmax + 1 - 1) with tmax by lia.
        split; [exact Hsin|]. split; [exact Htin|].
        intros t Hin. apply Htall in Hin. lia.
    + injection Hcounts as <- <- <-. split; [reflexivity|].
      assert (Hnil : source_node_id p = [])
        by (destruct (source_node_id p); [reflexivity | simpl in Hzero; lia]).
      rewrite Hnil. split; [|simpl; congruence].
      intros s Hin. now apply elem_of_nil in Hin.
Qed.

Lemma get_node_counts_bounds_witness :
  _get_node_counts test_edges_file "default" = Ok (4%nat, 3, 2) /\
  forall s, s ∈ [2; 0; 0; 2] -> s < 3.
Proof.
  destruct (get_node_counts_bounds test_edges_file "default") as (_ & _ & H).
  destruct (H test_edges_population 4%nat 3 2 eq_refl eq_refl)
    as (_ & Hsrc & _).
  split; [reflexivity | exact Hsrc].
Defined.

(** ** Files shared by several populations *)

Lemma assoc_dict_del_ne {V} (d : list (string * V)) (key key' : string) :
  key <> key' -> assoc key' (dict_del d key) = assoc key' d.
Proof.
  intros Hne. induction d as [|[k w] d IH]; simpl; [reflexivity|].
  destruct (String.eqb_spec key k) as [->|Hk]; simpl.
  - destruct (String.eqb_spec key' k); [congruence | reflexivity].
  - destruct (String.eqb_spec key' k); [reflexivity | exact IH].
Qed.

(** [_copy_edge_attributes] touches the destination population only. *)
Lemma copy_edge_attributes_frame (env : environ) (h5in : h5file)
    (src_node_name dst_node_name src_edge_name dst_edge_name : string)
    (src_mapping dst_mapping : mapping_df) (h5_read_chunk_size : option Z)
    (h5out h5out' : h5file) (r : result unit) (other : string) :
  _copy_edge_attributes env h5in src_node_name dst_node_name src_edge_name
    dst_edge_name src_mapping dst_mapping h5_read_chunk_size h5out
  = (h5out', r) ->
  dst_edge_name <> other ->
  assoc other h5out' = assoc other h5out.
Proof.
  unfold _copy_edge_attributes. intros H Hne.
  destruct (assoc src_edge_name h5in) as [orig_edges|];
    [|now injection H as <- _].
  destruct (_get_unique_group orig_edges) as [orig_group|];
    [|now injection H as <- _].
  destruct (dict_has dst_edge_name h5out); [now injection H as <- _|].
  match type of H with
  | (let '(_, _) := ?run in _) = _ => destruct run as [new_edges r0]
  end.
  injection H as <- _. now apply assoc_dict_set_ne.
Qed.

Lemma copy_edge_attributes_existing (env : environ) (h5in : h5file)
    (src_node_name dst_node_name src_edge_name dst_edge_name : string)
    (src_mapping dst_mapping : mapping_df) (h5_read_chunk_size : option Z)
    (h5out : h5file) :
  dict_has dst_edge_name h5out = true ->
  exists e,
    _copy_edge_attributes env h5in src_node_name dst_node_name src_edge_name
      dst_edge_name src_mapping dst_mapping h5_read_chunk_size h5out
    = (h5out, Raise e).
Proof.
  intros Hhas. unfold _copy_edge_attributes.
  destruct (assoc src_edge_name h5in) as [orig_edges|]; [|eauto].
  destruct (_get_unique_group orig_edges) as [orig_group|]; [|eauto].
  rewrite Hhas. eauto.
Qed.

(** The file [_write_subcircuit_edges] leaves at [output_path], if any,
    agrees with the file it found on every population but the written
    one. *)
Lemma write_subcircuit_edges_frame (env : environ) (output_path : string)
    (h5in : h5file)
    (src_node_pop dst_node_pop src_edge_pop_name dst_edge_pop_name : string)
    (src_mapping dst_mapping : mapping_df) (dir dir' : directory)
    (r : result string) :
  _write_subcircuit_edges env output_path h5in src_node_pop dst_node_pop
    src_edge_pop_name dst_edge_pop_name src_mapping dst_mapping dir
  = (dir', r) ->
  (forall path, path <> output_path -> dir' !! path = dir !! path) /\
  ((exists file,
      dir' !! output_path = Some file /\
      forall other, dst_edge_pop_name <> other ->
        assoc other file = assoc other (default [] (dir !! output_path))) \/
   (dir' !! output_path = None /\
    forall other, dst_edge_pop_name <> other ->
      assoc other (default [] (dir !! output_path)) = None)).
Proof.
  unfold _write_subcircuit_edges, with_h5_file_a.
  unfold mbind at 1, stateful_bind at 1, sbind at 1.
  destruct (subcircuit_edges_block env h5in src_node_pop dst_node_pop
              src_edge_pop_name dst_edge_pop_name src_mapping dst_mapping
              (default [] (dir !! output_path)))
    as [file1 r1] eqn:Hblock.
  assert (Hfile1 : forall other, dst_edge_pop_name <> other ->
            assoc other file1 = assoc other (default [] (dir !! output_path))).
  { intros other Hne. revert Hblock. unfold subcircuit_edges_block.
    unfold mbind, stateful_bind, sbind.
    destruct (_copy_edge_attributes env h5in src_node_pop dst_node_pop
                src_edge_pop_name dst_edge_pop_name src_mapping dst_mapping
                None (default [] (dir !! output_path)))
      as [file0 r0] eqn:Hcopy.
    pose proof (copy_edge_attributes_frame _ _ _ _ _ _ _ _ _ _ _ _ other
                  Hcopy Hne) as Hframe.
    destruct r0 as [[]|e]; [|now intros [= <- _]].
    unfold get_state, lift.
    destruct (_get_node_counts file0 dst_edge_pop_name) as [counts|e];
      [|now intros [= <- _]].
    destruct (Nat.eqb (fst (fst counts)) 0).
    - unfold modify, mret, stateful_ret. intros [= <- _].
      now rewrite assoc_dict_del_ne.
    - unfold mret, stateful_ret. now intros [= <- _]. }
  destruct r1 as [[[[edge_count sgid_count] tgid_count] is_file_empty]|e].
  - cbn [fst snd].
    destruct (Nat.ltb 0 edge_count) eqn:Hcount.
    + unfold mbind, stateful_bind, sbind, _write_indexes.
      rewrite lookup_insert_eq.
      destruct (assoc dst_edge_pop_name file1) as [p|] eqn:Hp.
      * unfold mret, stateful_ret. intros [= <- _]. split.
        -- intros path Hpath. now rewrite !lookup_insert_ne.
        -- left. eexists. split; [apply lookup_insert_eq|].
           intros other Hne. rewrite assoc_dict_set_ne by exact Hne. auto.
      * intros [= <- _]. split.
        -- intros path Hpath. now rewrite lookup_insert_ne.
        -- left. eexists. split; [apply lookup_insert_eq | exact Hfile1].
    + destruct is_file_empty eqn:Hempty.
      * unfold mbind, stateful_bind, sbind, os_unlink, modify, mret,
          stateful_ret.
        intros [= <- _]. split.
        -- intros path Hpath.
           now rewrite lookup_delete_ne, lookup_insert_ne.
        -- right. split; [apply lookup_delete_eq|].
           intros other Hne. rewrite <- Hfile1 by exact Hne.
           revert Hblock. unfold subcircuit_edges_block.
           unfold mbind, stateful_bind, sbind.
           destruct (_copy_edge_attributes _ _ _ _ _ _ _ _ _ _)
             as [file0 [[]|e]]; [|discriminate].
           unfold get_state, lift.
           destruct (_get_node_counts file0 dst_edge_pop_name) as [counts|e];
             [|discriminate].
           destruct (Nat.eqb (fst (fst counts)) 0); [|discriminate].
           unfold modify, mret, stateful_ret. intros [= <- _ Hlen].
           apply Nat.eqb_eq in Hlen.
           destruct (dict_del file0 dst_edge_pop_name); [reflexivity|].
           discriminate.
      * unfold mret, stateful_ret. intros [= <- _]. split.
        -- intros path Hpath. now rewrite lookup_insert_ne.
        -- left. eexists. split; [apply lookup_insert_eq | exact Hfile1].
  - intros [= <- _]. split.
    + intros path Hpath. now rewrite lookup_insert_ne.
    + left. eexists. split; [apply lookup_insert_eq | exact Hfile1].
Qed.

(** X4: [_write_subcircuit_edges] changes no file but the one at
    [output_path]; whatever the outcome, every population that file held
    under another name is still there, unchanged; and the file is removed
    only if it held no population at all before the call. *)
Theorem write_subcircuit_edges_keeps_other_populations (env : environ)
    (output_path : string) (h5in : h5file)
    (src_node_pop dst_node_pop src_edge_pop_name dst_edge_pop_name : string)
    (src_mapping dst_mapping : mapping_df) (dir dir' : directory)
    (r : result string) :
  _write_subcircuit_edges env output_path h5in src_node_pop dst_node_pop
    src_edge_pop_name dst_edge_pop_name src_mapping dst_mapping dir
  = (dir', r) ->
  (forall path, path <> output_path -> dir' !! path = dir !! path) /\
  (forall file other p,
     dir !! output_path = Some file ->
     dst_edge_pop_name <> other ->
     assoc other file = Some p ->
     exists file',
       dir' !! output_path = Some file' /\ assoc other file' = Some p) /\
  (dir' !! output_path = None ->
   dir !! output_path = None \/ dir !! output_path = Some []).
Proof.
  intros Hrun.
  destruct (write_subcircuit_edges_frame _ _ _ _ _ _ _ _ _ _ _ _ Hrun)
    as [Hpaths Hfile].
  split; [exact Hpaths|]. split.
  - intros file other p Hfound Hne Hp. rewrite Hfound in Hfile. simpl in Hfile.
    destruct Hfile as [(file' & Hfile' & Hsame)|[_ Hnone]].
    + exists file'. split; [exact Hfile'|]. now rewrite Hsame.
    + rewrite Hnone in Hp by exact Hne. discriminate.
  - intros Hgone.
    destruct Hfile as [(file' & Hfile' & _)|[_ Hnone]];
      [assert (Hc : Some file' = None)
         by (rewrite <- Hfile'; exact Hgone); discriminate Hc|].
    destruct (dir !! output_path) as [[|[k v] file]|] eqn:Hfound; auto.
    exfalso. simpl in Hnone.
    destruct (String.eqb_spec dst_edge_pop_name k) as [->|Hk].
    + (* the population exists already: the copy refuses, the file stays *)
      revert Hrun. unfold _write_subcircuit_edges, with_h5_file_a.
      unfold mbind at 1, stateful_bind at 1, sbind at 1.
      unfold subcircuit_edges_block.
      unfold mbind at 1, stateful_bind at 1, sbind at 1.
      rewrite Hfound. simpl default.
      destruct (copy_edge_attributes_existing env h5in src_node_pop
                  dst_node_pop src_edge_pop_name k src_mapping dst_mapping
                  None ((k, v) :: file)) as (e & ->).
      { unfold dict_has. simpl. now rewrite String.eqb_refl. }
      intros [= <- _]. now rewrite lookup_insert_eq in Hgone.
    + specialize (Hnone k Hk). simpl in Hnone.
      rewrite String.eqb_refl in Hnone. discriminate.
Qed.

Lemma write_subcircuit_edges_keeps_other_populations_witness :
  let dir : directory := {["out/edges.h5" := test_edges_file]} in
  let run :=
    _write_subcircuit_edges None "out/edges.h5" test_edges_file "default"
      "default" "default" "copy" [(5, 0)] [(5, 0)] dir in
  run = (fst run, Ok "out/edges.h5") /\
  exists file',
    fst run !! "out/edges.h5" = Some file' /\
    assoc "default" file' = Some test_edges_population.
Proof.
  intros dir run.
  assert (Hrun : run = (fst run, Ok "out/edges.h5"))
    by (vm_compute; reflexivity).
  split; [exact Hrun|].
  destruct (write_subcircuit_edges_keeps_other_populations _ _ _ _ _ _ _ _ _
              _ _ _ Hrun) as (_ & Hkeep & _).
  apply (Hkeep test_edges_file "default" test_edges_population).
  - vm_compute. reflexivity.
  - discriminate.
  - reflexivity.
Defined.

(** ** No empty edge file is left behind *)

Lemma write_edges_block_file (env : environ) (h5in : h5file)
    (id_mapping : list (string * mapping_df)) (h5_read_chunk_size : option Z)
    (src_node_pop dst_node_pop : string) (h5out : h5file)
    (counts : nat * Z * Z) :
  write_edges_block env h5in id_mapping h5_read_chunk_size src_node_pop
    dst_node_pop [] = (h5out, Ok counts) ->
  exists p, h5out = [(_get_population_name src_node_pop dst_node_pop, p)].
Proof.
  unfold write_edges_block. intros H.
  unfold mbind, stateful_bind in H.
  apply sbind_Ok in H as (? & ? & [= <- _] & H).
  apply sbind_Ok in H as (? & ? & [= <- _] & H).
  apply sbind_Ok in H as (? & ? & [= <- _] & H).
  apply sbind_Ok in H as ([] & ? & Hcopy & H).
  apply sbind_Ok in H as (? & ? & [= <- <-] & H).
  unfold lift in H. injection H as <- _.
  apply copy_edge_attributes_Ok in Hcopy as (copied & -> & _).
  simpl. eauto.
Qed.

Lemma write_edges_pair_outcome (env : environ) (output : string)
    (h5in : h5file) (id_mapping : list (string * mapping_df))
    (h5_read_chunk_size : option Z) (written_edges written' : nat)
    (pair : string * string) (dir dir' : directory) :
  write_edges_pair env output h5in id_mapping h5_read_chunk_size
    written_edges pair dir = (dir', Ok written') ->
  (forall path, path <> pair_edge_file output pair ->
     dir' !! path = dir !! path) /\
  (dir' !! pair_edge_file output pair = None \/
   exists file,
     dir' !! pair_edge_file output pair = Some file /\
     indexed_edge_file file).
Proof.
  destruct pair as [src_node_pop dst_node_pop]. unfold pair_edge_file.
  cbn [fst snd]. intros Hrun.
  destruct (write_edges_block env h5in id_mapping h5_read_chunk_size
              src_node_pop dst_node_pop [])
    as [h5out [[[edge_count sgid_count] tgid_count]|e]] eqn:Hblock.
  - destruct (write_edges_pair_cases env output h5in id_mapping
                h5_read_chunk_size written_edges src_node_pop dst_node_pop
                dir _ _ _ _ Hblock) as [Hzero Hpos].
    destruct edge_count as [|n].
    + rewrite Hzero in Hrun by reflexivity. injection Hrun as <- _.
      split; [intros path Hpath; now rewrite lookup_delete_ne|].
      left. apply lookup_delete_eq.
    + destruct Hpos as (p & Hp & Hlen & Heq); [discriminate|].
      rewrite Heq in Hrun. injection Hrun as <- _.
      split; [intros path Hpath; now rewrite lookup_insert_ne|].
      right. eexists. split; [apply lookup_insert_eq|].
      apply write_edges_block_file in Hblock as (p0 & ->).
      simpl in Hp. rewrite String.eqb_refl in Hp. injection Hp as ->.
      simpl. rewrite String.eqb_refl.
      eexists _, _, _. split; [reflexivity|]. split; [|reflexivity].
      simpl. intros Hnil. rewrite Hnil in Hlen. discriminate.
  - revert Hrun. unfold write_edges_pair, with_h5_file_w. cbn [fst snd].
    unfold mbind, stateful_bind, sbind. rewrite Hblock. discriminate.
Qed.

Lemma write_edges_loop_outcome (env : environ) (output : string)
    (h5in : h5file) (id_mapping : list (string * mapping_df))
    (h5_read_chunk_size : option Z) (pairs : list (string * string)) :
  forall written_edges written' (dir dir' : directory),
    for_acc pairs
      (write_edges_pair env output h5in id_mapping h5_read_chunk_size)
      written_edges dir = (dir', Ok written') ->
    (forall path,
       (forall pair, pair ∈ pairs -> path <> pair_edge_file output pair) ->
       dir' !! path = dir !! path) /\
    (forall pair, pair ∈ pairs ->
       dir' !! pair_edge_file output pair = None \/
       exists file,
         dir' !! pair_edge_file output pair = Some file /\
         indexed_edge_file file).
Proof.
  induction pairs as [|pair0 pairs IH];
    intros written_edges written' dir dir' Hrun; simpl in Hrun.
  - unfold mret, stateful_ret in Hrun. injection Hrun as <- _.
    split; [reflexivity|]. intros pair Hin. now apply elem_of_nil in Hin.
  - unfold mbind, stateful_bind in Hrun.
    apply sbind_Ok in Hrun as (w1 & dir1 & Hpair & Hrest).
    apply write_edges_pair_outcome in Hpair as [Hother Hown].
    apply IH in Hrest as [Hframe Hgood].
    split.
    + intros path Hpath. rewrite Hframe.
      * apply Hother, Hpath. left.
      * intros pair Hin. apply Hpath. now right.
    + intros pair [->|Hin]%elem_of_cons; [|now apply Hgood].
      destruct (decide (pair_edge_file output pair0
                        ∈ map (pair_edge_file output) pairs)) as [Hlater|Hlast].
      * apply elem_of_map in Hlater as (pair & -> & Hin). now apply Hgood.
      * rewrite Hframe; [exact Hown|].
        intros pair Hin Heq. apply Hlast, elem_of_map. eauto.
Qed.

(** X5: when [_write_edges] completes, every file of an ordered pair of
    populations is either absent or holds exactly one population with at
    least one edge and with its indices, so no empty edge file is left
    behind; files that belong to no pair are untouched. *)
Theorem write_edges_leaves_no_empty_file (env : environ) (output : string)
    (h5in : h5file) (id_mapping : list (string * mapping_df))
    (h5_read_chunk_size : option Z) (expect_to_use_all_edges : bool)
    (dir dir' : directory) :
  _write_edges env output h5in id_mapping h5_read_chunk_size
    expect_to_use_all_edges dir = (dir', Ok tt) ->
  (forall path,
     (forall pair, pair ∈ product_keys id_mapping ->
        path <> pair_edge_file output pair) ->
     dir' !! path = dir !! path) /\
  (forall pair, pair ∈ product_keys id_mapping ->
     dir' !! pair_edge_file output pair = None \/
     exists file,
       dir' !! pair_edge_file output pair = Some file /\
       indexed_edge_file file).
Proof.
  unfold _write_edges, mbind, stateful_bind. intros Hrun.
  apply sbind_Ok in Hrun as (written & dir1 & Hloop & Hcheck).
  assert (dir' = dir1) as ->.
  { destruct expect_to_use_all_edges.
    - unfold lift in Hcheck. now injection Hcheck as <- _.
    - unfold mret, stateful_ret in Hcheck. now injection Hcheck as <-. }
  now apply write_edges_loop_outcome in Hloop.
Qed.

Lemma write_edges_leaves_no_empty_file_witness :
  let run :=
    _write_edges None "out" test_edges_file test_id_mapping (Some 3) true ∅ in
  run = (fst run, Ok tt) /\
  fst run !! "out/edges_A.h5" = None /\
  exists file,
    fst run !! "out/edges_B.h5" = Some file /\ indexed_edge_file file.
Proof.
  intros run.
  assert (Hrun : run = (fst run, Ok tt)) by (vm_compute; reflexivity).
  split; [exact Hrun|]. split; [vm_compute; reflexivity|].
  destruct (write_edges_leaves_no_empty_file None "out" test_edges_file
              test_id_mapping (Some 3) true ∅ (fst run) Hrun)
    as [_ Hgood].
  destruct (Hgood ("B", "B")) as [Hnone|Hfile].
  - unfold product_keys, test_id_mapping. simpl. do 3 right. left.
  - exfalso. vm_compute in Hnone. discriminate.
  - exact Hfile.
Defined.

(** ** The edge copier, chunk by chunk *)

Lemma mask_select_nil_r {A} (values : list A) : mask_select values [] = [].
Proof. now destruct values. Qed.

Lemma mask_select_app {A} (r1 r2 : list A) (m1 m2 : list bool) :
  length r1 = length m1 ->
  mask_select (r1 ++ r2) (m1 ++ m2) = mask_select r1 m1 ++ mask_select r2 m2.
Proof.
  revert m1. induction r1 as [|v r1 IH]; intros [|b m1] Hlen;
    simpl in *; try discriminate; [reflexivity|].
  rewrite IH by lia. now destruct b.
Qed.

Lemma mask_select_trunc {A} (r extra : list A) (m : list bool) :
  length r = length m -> mask_select (r ++ extra) m = mask_select r m.
Proof.
  intros Hlen. rewrite <- (app_nil_r m) at 1.
  rewrite mask_select_app by exact Hlen.
  now rewrite mask_select_nil_r, app_nil_r.
Qed.

Lemma mask_select_none {A} (values : list A) (mask : list bool) :
  np_any mask = false -> mask_select values mask = [].
Proof.
  revert mask. induction values as [|v values IH]; intros [|b mask] Hany;
    simpl in *; try reflexivity.
  destruct b; [discriminate|]. now apply IH.
Qed.

Lemma mask_select_map_filter {A B} (f : A -> B) (keep : A -> bool)
    (l : list A) :
  mask_select (map f l) (map keep l) = map f (List.filter keep l).
Proof.
  induction l as [|x l IH]; simpl; [reflexivity|].
  rewrite IH. now destruct (keep x).
Qed.

Lemma filter_none {A} (keep : A -> bool) (l : list A) :
  np_any (map keep l) = false -> List.filter keep l = [].
Proof.
  induction l as [|x l IH]; simpl; [reflexivity|].
  destruct (keep x); [discriminate | exact IH].
Qed.

Lemma py_slice_map {A B} (f : A -> B) (l : list A) (sl : slice) :
  py_slice (map f l) sl = map f (py_slice l sl).
Proof.
  unfold py_slice. rewrite length_map.
  rewrite <- (firstn_map f), <- (skipn_map f). reflexivity.
Qed.

(** The scanned prefix grows by one window. *)
Lemma firstn_py_slice {A} (l : list A) (start chunk : Z) :
  0 <= start -> 0 < chunk ->
  firstn (Z.to_nat start) l ++ py_slice l (start, start + chunk)
  = firstn (Z.to_nat (start + chunk)) l.
Proof.
  intros Hs Hc.
  apply (app_inv_tail (skipn (Z.to_nat (start + chunk)) l)).
  rewrite <- app_assoc, py_slice_step by assumption.
  now rewrite !firstn_skipn.
Qed.

Lemma mask_select_window {A B} (rows : list A) (edges : list B)
    (keep : B -> bool) (start chunk : Z) :
  length rows = length edges -> 0 <= start -> 0 < chunk ->
  mask_select rows (map keep (firstn (Z.to_nat (start + chunk)) edges))
  = mask_select rows (map keep (firstn (Z.to_nat start) edges))
    ++ mask_select (py_slice rows (start, start + chunk))
         (map keep (py_slice edges (start, start + chunk))).
Proof.
  intros Hlen Hs Hc.
  set (sl := (start, start + chunk)).
  assert (Hrows : rows = (firstn (Z.to_nat start) rows ++ py_slice rows sl)
                         ++ skipn (Z.to_nat (start + chunk)) rows).
  { unfold sl. rewrite firstn_py_slice by assumption.
    now rewrite firstn_skipn. }
  assert (Hl1 : length (firstn (Z.to_nat start) rows)
                = length (map keep (firstn (Z.to_nat start) edges))).
  { rewrite length_map, !length_firstn. lia. }
  assert (Hl2 : length (py_slice rows sl)
                = length (map keep (py_slice edges sl))).
  { rewrite length_map. now apply py_slice_length. }
  rewrite <- (firstn_py_slice edges start chunk) by assumption.
  fold sl. rewrite map_app.
  remember (firstn (Z.to_nat start) rows) as r1.
  remember (py_slice rows sl) as r2.
  remember (skipn (Z.to_nat (start + chunk)) rows) as r3.
  rewrite Hrows.
  rewrite mask_select_trunc by (rewrite !length_app; lia).
  rewrite mask_select_app by exact Hl1. f_equal.
  rewrite <- app_assoc. symmetry. now apply mask_select_trunc.
Qed.

Lemma loc_new_ids_app (df : mapping_df) (l1 l2 : list Z) :
  loc_new_ids df (l1 ++ l2) = loc_new_ids df l1 ++ loc_new_ids df l2.
Proof. unfold loc_new_ids. apply flat_map_app. Qed.

(** [df.loc] succeeds on labels of the index. *)
Lemma df_loc_Ok (df : mapping_df) (labels : list Z) :
  (forall lbl, lbl ∈ labels -> lbl ∈ df_index df) ->
  exists rows,
    df_loc df labels = Ok rows /\ df_new_id rows = loc_new_ids df labels.
Proof.
  induction labels as [|lbl labels IH]; intros Hsub; simpl.
  - exists []. split; reflexivity.
  - destruct IH as (rest & Hrest & Hids).
    { intros l Hl. apply Hsub. now right. }
    destruct (List.filter (fun row => Z.eqb (fst row) lbl) df)
      as [|row0 rows0] eqn:Hrows0.
    + exfalso. assert (Hin : lbl ∈ df_index df) by (apply Hsub; left).
      apply elem_of_map in Hin as (row & -> & Hin).
      assert (Hrow : In row (List.filter (fun r => Z.eqb (fst r) (fst row)) df)).
      { apply filter_In. split; [now apply list_elem_of_In | apply Z.eqb_refl]. }
      rewrite Hrows0 in Hrow. exact Hrow.
    + rewrite Hrest. run_result. eexists. split; [reflexivity|].
      unfold df_new_id in *.
      change (map snd ((row0 :: rows0) ++ rest)
              = map snd (row0 :: rows0) ++ loc_new_ids df labels).
      now rewrite map_app, Hids.
Qed.

Lemma filter_kept_in_index (src_ids dst_ids : list Z) (edges : list (Z * Z)) :
  (forall s, s ∈ map fst (List.filter (edge_kept src_ids dst_ids) edges) ->
     s ∈ src_ids) /\
  (forall t, t ∈ map snd (List.filter (edge_kept src_ids dst_ids) edges) ->
     t ∈ dst_ids).
Proof.
  split; intros x (edge & -> & Hin)%elem_of_map;
    apply list_elem_of_In, filter_In in Hin as [_ Hkept];
    unfold edge_kept in Hkept; apply andb_true_iff in Hkept as [Hs Ht];
    now apply existsb_eqb_elem.
Qed.

Lemma chunk_mask_edges (edges : list (Z * Z)) (src_ids dst_ids : list Z) :
  chunk_mask (map fst edges) (map snd edges) src_ids dst_ids
  = map (edge_kept src_ids dst_ids) edges.
Proof.
  unfold chunk_mask, np_isin, edge_kept.
  induction edges as [|[s t] edges IH]; simpl; [reflexivity|].
  rewrite IH, !xorb_false_r. reflexivity.
Qed.

Lemma assoc_app_fresh {V} (x y : list (string * V)) (key : string) :
  key ∉ dict_keys x -> assoc key (x ++ y) = assoc key y.
Proof.
  induction x as [|[k w] x IH]; simpl; [reflexivity|].
  intros [Hne Hx]%not_elem_of_cons.
  destruct (String.eqb_spec key k); [congruence | now apply IH].
Qed.

Lemma dict_set_app_fresh {V} (x y : list (string * V)) (key : string) (v : V) :
  key ∉ dict_keys x -> dict_set (x ++ y) key v = x ++ dict_set y key v.
Proof.
  induction x as [|[k w] x IH]; simpl; [reflexivity|].
  intros [Hne Hx]%not_elem_of_cons.
  destruct (String.eqb_spec key k); [congruence|]. now rewrite IH.
Qed.

Lemma dict_set_fresh {V} (d : list (string * V)) (key : string) (v : V) :
  key ∉ dict_keys d -> dict_set d key v = d ++ [(key, v)].
Proof.
  intros Hfresh. rewrite <- (app_nil_r d) at 1.
  now rewrite dict_set_app_fresh.
Qed.

Lemma dict_keys_app {V} (x y : list (string * V)) :
  dict_keys (x ++ y) = dict_keys x ++ dict_keys y.
Proof. unfold dict_keys. apply map_app. Qed.

Lemma select_group_keys (mask : list bool) (g : h5group) :
  dict_keys (select_group mask g) = dict_keys g.
Proof. unfold dict_keys, select_group. rewrite map_map. reflexivity. Qed.

(** [_init_edge_group] on a supported group creates one empty dataset per
    dataset of the input. *)
Lemma init_dynamics_params_table (n : nat) (items : list (string * h5obj)) :
  dataset_table n items ->
  forall acc : h5group,
    (forall k, k ∈ dict_keys items -> k ∉ dict_keys acc) ->
    init_dynamics_params items acc
    = (acc ++ map (fun m => (fst m, select_dataset [] (snd m))) items, Ok tt).
Proof.
  induction items as [|[k v] items IH]; intros [Hnodup Hdata] acc Hfresh; simpl.
  - now rewrite app_nil_r.
  - destruct (Hdata k v) as (rows & -> & _); [left|].
    simpl in Hnodup. apply NoDup_cons in Hnodup as [Hk Hnodup].
    run_stateful. unfold create_appendable_dataset.
    rewrite dict_set_fresh by (apply Hfresh; left).
    rewrite IH.
    + simpl. rewrite mask_select_nil_r, <- app_assoc. reflexivity.
    + split; [exact Hnodup|]. intros k0 v0 Hin. apply (Hdata k0 v0). now right.
    + intros k0 Hk0. rewrite dict_keys_app. simpl.
      rewrite elem_of_app, list_elem_of_singleton.
      intros [Hin| ->]; [|contradiction].
      revert Hin. apply Hfresh. now right.
Qed.

Lemma init_edge_group_supported (n : nat) (items : h5group) :
  supported_group n items ->
  forall acc : h5group,
    (forall k, k ∈ dict_keys items -> k ∉ dict_keys acc) ->
    _init_edge_group items acc = (acc ++ select_group [] items, Ok tt).
Proof.
  induction items as [|[name o] items IH]; intros [Hnodup Hsup] acc Hfresh;
    simpl.
  - now rewrite app_nil_r.
  - simpl in Hnodup. apply NoDup_cons in Hnodup as [Hname Hnodup].
    assert (Hrest : supported_group n items).
    { split; [exact Hnodup|]. intros k0 v0 Hin. apply (Hsup k0 v0). now right. }
    assert (Hacc : forall v, forall k, k ∈ dict_keys items ->
                     k ∉ dict_keys (acc ++ [(name, v)])).
    { intros v k0 Hk0. rewrite dict_keys_app. simpl.
      rewrite elem_of_app, list_elem_of_singleton.
      intros [Hin| ->]; [|contradiction].
      revert Hin. apply Hfresh. now right. }
    pose proof (Hsup name o ltac:(left)) as Ho.
    destruct o as [rows|sub].
    + run_stateful. unfold create_appendable_dataset.
      rewrite dict_set_fresh by (apply Hfresh; left).
      rewrite (IH Hrest) by apply Hacc.
      simpl. rewrite mask_select_nil_r, <- app_assoc. reflexivity.
    + destruct Ho as [-> Htable]. rewrite String.eqb_refl.
      rewrite (init_dynamics_params_table n sub Htable [])
        by (intros; apply not_elem_of_nil).
      cbn [app].
      rewrite dict_set_fresh by (apply Hfresh; left).
      rewrite (IH Hrest) by apply Hacc.
      simpl. rewrite <- app_assoc. reflexivity.
Qed.

Section PopulateWindow.

(** One window [sl] of a population of [n] edges: [mask_a] is the mask
    of the edges scanned before it, [mask_b] the mask including it and
    [mask] the mask of the window. *)
Variables (n : nat) (sl : slice) (mask_a mask_b mask : list bool).

Hypothesis window_rows :
  forall rows : list Z,
    length rows = n ->
    np_mask (py_slice rows sl) mask
    = Ok (mask_select (py_slice rows sl) mask) /\
    mask_select rows mask_b
    = mask_select rows mask_a ++ mask_select (py_slice rows sl) mask.

Lemma populate_dynamics_params_table (items : list (string * h5obj)) :
  dataset_table n items ->
  forall acc : h5group,
    (forall k, k ∈ dict_keys items -> k ∉ dict_keys acc) ->
    populate_dynamics_params items sl mask
      (acc ++ map (fun m => (fst m, select_dataset mask_a (snd m))) items)
    = (acc ++ map (fun m => (fst m, select_dataset mask_b (snd m))) items,
       Ok tt).
Proof.
  induction items as [|[k v] items IH]; intros [Hnodup Hdata] acc Hfresh;
    simpl.
  - reflexivity.
  - destruct (Hdata k v) as (rows & -> & Hrows); [left|].
    simpl in Hnodup. apply NoDup_cons in Hnodup as [Hk Hnodup].
    destruct (window_rows rows Hrows) as [Hsel Hgrow].
    run_stateful. rewrite Hsel. simpl select_dataset.
    unfold append_to_dataset.
    rewrite assoc_app_fresh by (apply Hfresh; left).
    simpl assoc. rewrite String.eqb_refl.
    rewrite dict_set_app_fresh by (apply Hfresh; left).
    simpl dict_set. rewrite String.eqb_refl. rewrite <- Hgrow.
    rewrite (cons_middle _ acc), app_assoc.
    rewrite IH.
    + now rewrite <- app_assoc.
    + split; [exact Hnodup|]. intros k0 v0 Hin. apply (Hdata k0 v0).
      now right.
    + intros k0 Hk0. rewrite dict_keys_app. simpl.
      rewrite elem_of_app, list_elem_of_singleton.
      intros [Hin| ->]; [|contradiction].
      revert Hin. apply Hfresh. now right.
Qed.

Lemma populate_edge_group_supported (items : h5group) :
  supported_group n items ->
  forall acc : h5group,
    (forall k, k ∈ dict_keys items -> k ∉ dict_keys acc) ->
    _populate_edge_group items sl mask (acc ++ select_group mask_a items)
    = (acc ++ select_group mask_b items, Ok tt).
Proof.
  induction items as [|[name o] items IH]; intros [Hnodup Hsup] acc Hfresh;
    simpl.
  - reflexivity.
  - simpl in Hnodup. apply NoDup_cons in Hnodup as [Hname Hnodup].
    assert (Hrest : supported_group n items).
    { split; [exact Hnodup|]. intros k0 v0 Hin. apply (Hsup k0 v0).
      now right. }
    assert (Hacc : forall v, forall k, k ∈ dict_keys items ->
                     k ∉ dict_keys (acc ++ [(name, v)])).
    { intros v k0 Hk0. rewrite dict_keys_app. simpl.
      rewrite elem_of_app, list_elem_of_singleton.
      intros [Hin| ->]; [|contradiction].
      revert Hin. apply Hfresh. now right. }
    pose proof (Hsup name o ltac:(left)) as Ho.
    destruct o as [rows|sub].
    + destruct (window_rows rows Ho) as [Hsel Hgrow].
      run_stateful. rewrite Hsel. unfold append_to_dataset.
      rewrite assoc_app_fresh by (apply Hfresh; left).
      simpl assoc. rewrite String.eqb_refl.
      rewrite dict_set_app_fresh by (apply Hfresh; left).
      simpl dict_set. rewrite String.eqb_refl. rewrite <- Hgrow.
      rewrite (cons_middle _ acc), app_assoc.
      rewrite (IH Hrest) by apply Hacc.
      now rewrite <- app_assoc.
    + destruct Ho as [-> Htable]. rewrite String.eqb_refl.
      rewrite assoc_app_fresh by (apply Hfresh; left).
      simpl assoc.
      pose proof (populate_dynamics_params_table sub Htable []
                    ltac:(intros; apply not_elem_of_nil)) as Hsub.
      cbn [app] in Hsub. cbv beta iota. rewrite Hsub.
      rewrite dict_set_app_fresh by (apply Hfresh; left).
      simpl dict_set.
      rewrite (cons_middle _ acc), app_assoc.
      rewrite (IH Hrest) by apply Hacc.
      now rewrite <- app_assoc.
Qed.

End PopulateWindow.

Lemma select_group_ext (n : nat) (g : h5group) (m1 m2 : list bool) :
  supported_group n g ->
  (forall rows : list Z,
     length rows = n -> mask_select rows m1 = mask_select rows m2) ->
  select_group m1 g = select_group m2 g.
Proof.
  intros [_ Hsup] Hext. unfold select_group.
  apply map_ext_in. intros [name o] Hin. apply list_elem_of_In in Hin.
  specialize (Hsup name o Hin). simpl. f_equal.
  destruct o as [rows|sub]; simpl.
  - now rewrite Hext.
  - destruct Hsup as [_ [_ Hdata]]. f_equal.
    apply map_ext_in. intros [k v] Hk. apply list_elem_of_In in Hk.
    destruct (Hdata k v Hk) as (rows & -> & Hrows). simpl.
    now rewrite Hext.
Qed.

(** One window of the chunk loop takes the population from the edges
    scanned so far to the edges scanned including the window. *)
Lemma copy_edges_chunk_step (env : environ)
    (src_node_name dst_node_name : string)
    (src_mapping dst_mapping : mapping_df) (orig_edges : edge_population)
    (orig_group : h5group) (edges : list (Z * Z)) (start chunk : Z) :
  1 <= _h5_get_read_chunk_size env ->
  source_node_id orig_edges = map fst edges ->
  target_node_id orig_edges = map snd edges ->
  supported_group (length edges) orig_group ->
  0 <= start -> 0 < chunk ->
  copy_edges_chunk env orig_edges orig_group src_mapping dst_mapping
    (start, start + chunk)
    (copy_state src_node_name dst_node_name src_mapping dst_mapping
       orig_group (firstn (Z.to_nat start) edges))
  = (copy_state src_node_name dst_node_name src_mapping dst_mapping
       orig_group (firstn (Z.to_nat (start + chunk)) edges),
     Ok tt).
Proof.
  intros Henv Hsrc Htgt Hsup Hstart Hchunk.
  set (sl := (start, start + chunk)).
  set (kept := edge_kept (df_index src_mapping) (df_index dst_mapping)).
  set (done := firstn (Z.to_nat start) edges).
  set (window := py_slice edges sl).
  assert (Hdone : firstn (Z.to_nat (start + chunk)) edges = done ++ window).
  { subst done window sl. now rewrite firstn_py_slice. }
  assert (Hrows : forall rows : list Z,
            length rows = length edges ->
            np_mask (py_slice rows sl) (map kept window)
            = Ok (mask_select (py_slice rows sl) (map kept window)) /\
            mask_select rows (map kept (firstn (Z.to_nat (start + chunk)) edges))
            = mask_select rows (map kept done)
              ++ mask_select (py_slice rows sl) (map kept window)).
  { intros rows Hlen. split.
    - unfold np_mask. rewrite length_map.
      rewrite (py_slice_length rows edges sl Hlen). fold window.
      now rewrite Nat.eqb_refl.
    - now apply mask_select_window. }
  unfold copy_edges_chunk.
  rewrite Hsrc, Htgt, !py_slice_map. fold sl. fold window.
  unfold mbind, stateful_bind, sbind, lift.
  rewrite !isin_correct by exact Henv.
  destruct (external_chunk_mask (map fst window) (map snd window)
              (df_index src_mapping) (df_index dst_mapping))
    as (Hand & _); [now rewrite !length_map|].
  rewrite Hand, chunk_mask_edges. fold kept.
  destruct (np_any (map kept window)) eqn:Hany.
  - (* some edge of the window is kept *)
    assert (Hmask : forall (f : Z * Z -> Z),
              np_mask (map f window) (map kept window)
              = Ok (map f (List.filter kept window))).
    { intros f. unfold np_mask. rewrite !length_map, Nat.eqb_refl.
      now rewrite mask_select_map_filter. }
    destruct (filter_kept_in_index (df_index src_mapping)
                (df_index dst_mapping) window) as [Hs_in Ht_in].
    destruct (df_loc_Ok src_mapping (map fst (List.filter kept window)) Hs_in)
      as (s_rows & Hs_loc & Hs_ids).
    destruct (df_loc_Ok dst_mapping (map snd (List.filter kept window)) Ht_in)
      as (t_rows & Ht_loc & Ht_ids).
    rewrite !Hmask, Hs_loc, Ht_loc.
    unfold modify, on_new_group. cbn [groups copy_state append_source_node_id
      append_target_node_id]. 
    cbn [assoc GROUP_NAME String.eqb Ascii.eqb Bool.eqb].
    pose proof (populate_edge_group_supported (length edges) sl
                  (map kept done)
                  (map kept (firstn (Z.to_nat (start + chunk)) edges))
                  (map kept window) Hrows orig_group Hsup []
                  ltac:(intros; apply not_elem_of_nil)) as Hpop.
    cbn [app] in Hpop. fold kept. rewrite Hpop.
    f_equal. unfold copy_state, set_groups. cbn. fold kept.
    rewrite Hdone, List.filter_app, !map_app, !loc_new_ids_app, Hs_ids, Ht_ids.
    reflexivity.
  - (* nothing to copy in this window *)
    unfold mret, stateful_ret. f_equal. unfold copy_state. fold kept.
    rewrite Hdone, List.filter_app, (filter_none kept window Hany), app_nil_r.
    rewrite <- Hdone. f_equal. f_equal. f_equal.
    apply (select_group_ext (length edges)); [exact Hsup|].
    intros rows Hlen. destruct (Hrows rows Hlen) as [_ ->].
    now rewrite (mask_select_none _ _ Hany), app_nil_r.
Qed.

(** The chunk loop, started after [start] edges, ends with all edges
    scanned. *)
Lemma copy_edges_loop (env : environ)
    (src_node_name dst_node_name : string)
    (src_mapping dst_mapping : mapping_df) (orig_edges : edge_population)
    (orig_group : h5group) (edges : list (Z * Z)) (chunk : Z) (fuel : nat)
    (start : Z) :
  1 <= _h5_get_read_chunk_size env ->
  source_node_id orig_edges = map fst edges ->
  target_node_id orig_edges = map snd edges ->
  supported_group (length edges) orig_group ->
  0 < chunk -> 0 <= start ->
  Z.of_nat (length edges) - start <= Z.of_nat fuel ->
  for_each
    (map (fun s => (s, s + chunk))
       (range_from fuel start (Z.of_nat (length edges)) chunk))
    (copy_edges_chunk env orig_edges orig_group src_mapping dst_mapping)
    (copy_state src_node_name dst_node_name src_mapping dst_mapping
       orig_group (firstn (Z.to_nat start) edges))
  = (copy_state src_node_name dst_node_name src_mapping dst_mapping
       orig_group edges,
     Ok tt).
Proof.
  intros Henv Hsrc Htgt Hsup Hchunk. revert start.
  unfold for_each.
  induction fuel as [|fuel IH]; intros start Hstart Hfuel; simpl.
  - unfold mret, stateful_ret. now rewrite firstn_all2 by lia.
  - destruct (Z.ltb_spec start (Z.of_nat (length edges))) as [Hlt|Hge];
      simpl.
    + unfold mbind, stateful_bind, sbind.
      rewrite (copy_edges_chunk_step env src_node_name dst_node_name
                 src_mapping dst_mapping orig_edges orig_group edges
                 start chunk Henv Hsrc Htgt Hsup Hstart Hchunk).
      apply IH; lia.
    + unfold mret, stateful_ret. now rewrite firstn_all2 by lia.
Qed.

Lemma assert_non_negative_Ok (ids : list Z) :
  Forall (fun i => 0 <= i) ids -> assert_non_negative ids = Ok tt.
Proof.
  intros Hall. unfold assert_non_negative.
  replace (forallb (fun i => 0 <=? i) ids) with true; [reflexivity|].
  symmetry. apply forallb_forall. intros i Hin.
  apply Z.leb_le. rewrite Forall_forall in Hall. apply Hall.
  now apply list_elem_of_In.
Qed.

(** The copier on the whole arrays: once the output group exists, any
    chunk size of at least one row leads to [copied_edges]. *)
Lemma copy_into_new_edges_closed (env : environ)
    (src_node_name dst_node_name : string)
    (src_mapping dst_mapping : mapping_df) (orig_edges : edge_population)
    (orig_group : h5group) (chunk : Z) :
  1 <= _h5_get_read_chunk_size env ->
  1 <= chunk ->
  length (source_node_id orig_edges) = length (target_node_id orig_edges) ->
  supported_group (length (source_node_id orig_edges)) orig_group ->
  Forall (fun i => 0 <= i) (df_index src_mapping) ->
  Forall (fun i => 0 <= i) (df_index dst_mapping) ->
  copy_into_new_edges env orig_edges orig_group src_mapping dst_mapping chunk
    {| source_node_id := [];
       source_node_population := src_node_name;
       target_node_id := [];
       target_node_population := dst_node_name;
       edge_type_id := None; edge_group_id := None;
       edge_group_index := None;
       groups := [(GROUP_NAME, [])]; indices := None |}
  = (copied_edges src_node_name dst_node_name src_mapping dst_mapping
       orig_edges orig_group,
     Ok tt).
Proof.
  intros Henv Hchunk Hlen Hsup Hs_pos Ht_pos.
  set (edges := combine (source_node_id orig_edges) (target_node_id orig_edges)).
  assert (Hsrc : source_node_id orig_edges = map fst edges).
  { subst edges. symmetry. now apply map_fst_combine_same. }
  assert (Htgt : target_node_id orig_edges = map snd edges).
  { subst edges. symmetry. now apply map_snd_combine_same. }
  assert (Hn : length (source_node_id orig_edges) = length edges).
  { now rewrite Hsrc at 1; rewrite length_map. }
  rewrite Hn in Hsup.
  unfold copy_into_new_edges, copied_edges. fold edges.
  unfold mbind, stateful_bind, sbind at 1.
  unfold on_new_group at 1.
  cbn [groups assoc GROUP_NAME String.eqb Ascii.eqb Bool.eqb].
  rewrite (init_edge_group_supported (length edges) orig_group Hsup []
             ltac:(intros; apply not_elem_of_nil)).
  cbn [app].
  unfold sbind, lift, modify.
  rewrite !assert_non_negative_Ok by assumption.
  unfold _create_chunked_slices, py_range0.
  destruct (Z.eqb_spec chunk 0) as [?|_]; [lia|].
  destruct (Z.ltb_spec chunk 0) as [?|_]; [lia|].
  cbn [mbind result_bind rbind].
  rewrite Hn.
  pose proof (copy_edges_loop env src_node_name dst_node_name src_mapping
                dst_mapping orig_edges orig_group edges chunk
                (length edges) 0 Henv Hsrc Htgt Hsup
                ltac:(lia) ltac:(lia) ltac:(lia)) as Hloop.
  change (firstn (Z.to_nat 0) edges) with (@nil (Z * Z)) in Hloop.
  change (set_groups _ _)
    with (copy_state src_node_name dst_node_name src_mapping dst_mapping
            orig_group []).
  set (run := for_each _ _ _).
  assert (Hrun : run
                 = (copy_state src_node_name dst_node_name src_mapping
                      dst_mapping orig_group edges, Ok tt)) by exact Hloop.
  clearbody run. subst run. reflexivity.
Qed.

(** [_copy_edge_attributes] described on the whole arrays. *)
Lemma copy_edge_attributes_closed (env : environ) (h5in : h5file)
    (src_node_name dst_node_name src_edge_name dst_edge_name : string)
    (src_mapping dst_mapping : mapping_df) (h5_read_chunk_size : option Z)
    (h5out : h5file) (orig_edges : edge_population) (orig_group : h5group) :
  assoc src_edge_name h5in = Some orig_edges ->
  assoc GROUP_NAME (groups orig_edges) = Some orig_group ->
  dict_has dst_edge_name h5out = false ->
  length (source_node_id orig_edges) = length (target_node_id orig_edges) ->
  supported_group (length (source_node_id orig_edges)) orig_group ->
  Forall (fun i => 0 <= i) (df_index src_mapping) ->
  Forall (fun i => 0 <= i) (df_index dst_mapping) ->
  1 <= _h5_get_read_chunk_size env ->
  (forall c, h5_read_chunk_size = Some c -> 1 <= c) ->
  _copy_edge_attributes env h5in src_node_name dst_node_name src_edge_name
    dst_edge_name src_mapping dst_mapping h5_read_chunk_size h5out
  = (dict_set h5out dst_edge_name
       (copied_edges src_node_name dst_node_name src_mapping dst_mapping
          orig_edges orig_group),
     Ok tt).
Proof.
  intros Hin Hgroup Hfree Hlen Hsup Hs_pos Ht_pos Henv Hsize.
  unfold _copy_edge_attributes, _get_unique_group.
  rewrite Hin, Hgroup, Hfree.
  rewrite (copy_into_new_edges_closed env src_node_name dst_node_name
             src_mapping dst_mapping orig_edges orig_group); auto.
  destruct h5_read_chunk_size as [c|]; [now apply Hsize|exact Henv].
Qed.

Lemma test_group_supported :
  supported_group 4
    [("delay", H5Dataset [10; 11; 12; 13]);
     ("dynamics_params", H5Group [("u_syn", H5Dataset [1; 2; 3; 4])])].
Proof.
  split; [compute_done|].
  intros name o Hin.
  apply elem_of_cons in Hin as [Heq|Hin]; [injection Heq as -> ->; reflexivity|].
  apply list_elem_of_singleton in Hin. injection Hin as -> ->.
  split; [reflexivity|]. split; [compute_done|].
  intros k v Hk. apply list_elem_of_singleton in Hk. injection Hk as -> ->.
  now eexists.
Qed.

(** X6: [_copy_edge_attributes] gives the same output file whatever the
    chunk sizes are, those of the copy loop (the argument, or else
    [H5_READ_CHUNKSIZE]) and of [_isin] (always [H5_READ_CHUNKSIZE]), as
    long as they are at least one row: for a source population with a
    supported group ['0'], id arrays of one length, mappings without
    negative old ids and a fresh output name, two runs that differ only in
    the environment and in [h5_read_chunk_size] both return normally with
    the same file. *)
Theorem copy_edge_attributes_chunk_size_independent (env1 env2 : environ)
    (h5in : h5file)
    (src_node_name dst_node_name src_edge_name dst_edge_name : string)
    (src_mapping dst_mapping : mapping_df) (size1 size2 : option Z)
    (h5out : h5file) (orig_edges : edge_population) (orig_group : h5group) :
  assoc src_edge_name h5in = Some orig_edges ->
  assoc GROUP_NAME (groups orig_edges) = Some orig_group ->
  dict_has dst_edge_name h5out = false ->
  length (source_node_id orig_edges) = length (target_node_id orig_edges) ->
  supported_group (length (source_node_id orig_edges)) orig_group ->
  Forall (fun i => 0 <= i) (df_index src_mapping) ->
  Forall (fun i => 0 <= i) (df_index dst_mapping) ->
  1 <= _h5_get_read_chunk_size env1 ->
  1 <= _h5_get_read_chunk_size env2 ->
  (forall c, size1 = Some c -> 1 <= c) ->
  (forall c, size2 = Some c -> 1 <= c) ->
  _copy_edge_attributes env1 h5in src_node_name dst_node_name src_edge_name
    dst_edge_name src_mapping dst_mapping size1 h5out
  = _copy_edge_attributes env2 h5in src_node_name dst_node_name src_edge_name
      dst_edge_name src_mapping dst_mapping size2 h5out /\
  snd (_copy_edge_attributes env1 h5in src_node_name dst_node_name
         src_edge_name dst_edge_name src_mapping dst_mapping size1 h5out)
  = Ok tt.
Proof.
  intros Hin Hgroup Hfree Hlen Hsup Hs_pos Ht_pos Henv1 Henv2 Hsize1 Hsize2.
  rewrite (copy_edge_attributes_closed env1 h5in src_node_name dst_node_name
             src_edge_name dst_edge_name src_mapping dst_mapping size1 h5out
             orig_edges orig_group) by assumption.
  rewrite (copy_edge_attributes_closed env2 h5in src_node_name dst_node_name
             src_edge_name dst_edge_name src_mapping dst_mapping size2 h5out
             orig_edges orig_group) by assumption.
  split; reflexivity.
Qed.

Lemma copy_edge_attributes_chunk_size_independent_witness :
  _copy_edge_attributes None test_edges_file "B" "B" "default" "B__B"
    [(2, 0); (1, 1); (0, 2)] [(2, 0); (1, 1); (0, 2)] (Some 3) []
  = _copy_edge_attributes (Some 1) test_edges_file "B" "B" "default" "B__B"
      [(2, 0); (1, 1); (0, 2)] [(2, 0); (1, 1); (0, 2)] None [] /\
  snd (_copy_edge_attributes None test_edges_file "B" "B" "default" "B__B"
         [(2, 0); (1, 1); (0, 2)] [(2, 0); (1, 1); (0, 2)] (Some 3) [])
  = Ok tt.
Proof.
  apply (copy_edge_attributes_chunk_size_independent None (Some 1)
           test_edges_file "B" "B" "default" "B__B"
           [(2, 0); (1, 1); (0, 2)] [(2, 0); (1, 1); (0, 2)] (Some 3) None []
           test_edges_population
           [("delay", H5Dataset [10; 11; 12; 13]);
            ("dynamics_params", H5Group [("u_syn", H5Dataset [1; 2; 3; 4])])]).
  - reflexivity.
  - reflexivity.
  - reflexivity.
  - reflexivity.
  - exact test_group_supported.
  - compute_done.
  - compute_done.
  - vm_compute. discriminate.
  - simpl. lia.
  - intros c [= <-]. lia.
  - intros c [=].
Defined.

(** In a mapping with distinct old ids, a label of the index selects one
    row. *)
Lemma filter_label_single (df : mapping_df) (lbl : Z) :
  NoDup (df_index df) -> lbl ∈ df_index df ->
  exists new, (lbl, new) ∈ df /\
    List.filter (fun row => Z.eqb (fst row) lbl) df = [(lbl, new)].
Proof.
  induction df as [|[old new] df IH]; simpl; intros Hnodup Hin.
  - now apply elem_of_nil in Hin.
  - apply NoDup_cons in Hnodup as [Hfresh Hnodup].
    destruct (Z.eqb_spec old lbl) as [->|Hne].
    + exists new. split; [left|]. f_equal.
      apply filter_none. unfold np_any.
      destruct (existsb (fun b : bool => b)
                  (map (fun row : Z * Z => fst row =? lbl) df))
        eqn:Hex; [|reflexivity].
      apply existsb_exists in Hex as (b & Hb & Hid).
      apply in_map_iff in Hb as (row & Hrow & Hin_row).
      subst b. apply Z.eqb_eq in Hid. subst lbl.
      exfalso. apply Hfresh. apply elem_of_map. exists row.
      split; [reflexivity|now apply list_elem_of_In].
    + apply elem_of_cons in Hin as [Heq|Hin]; [congruence|].
      destruct (IH Hnodup Hin) as (new' & Hrow & Hfilter).
      exists new'. split; [now right|exact Hfilter].
Qed.

(** With distinct old ids, [df.loc[labels].new_id] renames label by
    label. *)
Lemma loc_new_ids_rows (df : mapping_df) (labels : list Z) :
  NoDup (df_index df) ->
  (forall lbl, lbl ∈ labels -> lbl ∈ df_index df) ->
  Forall2 (fun lbl new => (lbl, new) ∈ df) labels (loc_new_ids df labels).
Proof.
  intros Hnodup. induction labels as [|lbl labels IH]; intros Hsub.
  - constructor.
  - destruct (filter_label_single df lbl Hnodup) as (new & Hrow & Hfilter).
    { apply Hsub. left. }
    unfold loc_new_ids. simpl. rewrite Hfilter. simpl.
    constructor; [exact Hrow|]. apply IH. intros l Hl. apply Hsub. now right.
Qed.

Lemma Forall2_combine_columns (P Q : Z -> Z -> Prop)
    (edges : list (Z * Z)) (S T : list Z) :
  Forall2 P (map fst edges) S -> Forall2 Q (map snd edges) T ->
  Forall2 (fun e out => P (fst e) (fst out) /\ Q (snd e) (snd out))
    edges (combine S T).
Proof.
  revert S T. induction edges as [|e edges IH]; intros S T HS HT; simpl in *.
  - apply Forall2_nil_inv_l in HS. subst S. constructor.
  - apply Forall2_cons_inv_l in HS as (s & S' & Hs & HS & ->).
    apply Forall2_cons_inv_l in HT as (t & T' & Ht & HT & ->).
    simpl. constructor; [now split|]. now apply IH.
Qed.

Lemma assoc_select_group (mask : list bool) (g : h5group) (name : string)
    (o : h5obj) :
  NoDup (dict_keys g) -> (name, o) ∈ g ->
  assoc name (select_group mask g) = Some (select_member mask o).
Proof.
  induction g as [|[k v] g IH]; simpl; intros Hnodup Hin.
  - now apply elem_of_nil in Hin.
  - apply NoDup_cons in Hnodup as [Hfresh Hnodup].
    apply elem_of_cons in Hin as [Heq|Hin].
    + injection Heq as -> ->. now rewrite String.eqb_refl.
    + destruct (String.eqb_spec name k) as [->|_]; [|now apply IH].
      exfalso. apply Hfresh. apply elem_of_map. now exists (k, o).
Qed.

(** X7: what [_copy_edge_attributes] writes, with mappings whose old ids
    are distinct: the new population holds, in their order, the edges of
    the source population whose source id is an old id of the source
    mapping and whose target id is an old id of the target mapping, both
    ids renamed by a row of their mapping; every dataset of the group
    ['0'] keeps the rows of these edges; and the bookkeeping arrays are
    [-1], [0] and [0..n-1] for the [n] edges kept. *)
Theorem copy_edge_attributes_renames_kept_edges (env : environ)
    (h5in : h5file)
    (src_node_name dst_node_name src_edge_name dst_edge_name : string)
    (src_mapping dst_mapping : mapping_df) (h5_read_chunk_size : option Z)
    (h5out : h5file) (orig_edges : edge_population) (orig_group : h5group)
    (edges kept : list (Z * Z)) :
  assoc src_edge_name h5in = Some orig_edges ->
  assoc GROUP_NAME (groups orig_edges) = Some orig_group ->
  dict_has dst_edge_name h5out = false ->
  length (source_node_id orig_edges) = length (target_node_id orig_edges) ->
  supported_group (length (source_node_id orig_edges)) orig_group ->
  Forall (fun i => 0 <= i) (df_index src_mapping) ->
  Forall (fun i => 0 <= i) (df_index dst_mapping) ->
  NoDup (df_index src_mapping) ->
  NoDup (df_index dst_mapping) ->
  1 <= _h5_get_read_chunk_size env ->
  (forall c, h5_read_chunk_size = Some c -> 1 <= c) ->
  edges = combine (source_node_id orig_edges) (target_node_id orig_edges) ->
  kept = List.filter
           (edge_kept (df_index src_mapping) (df_index dst_mapping)) edges ->
  exists new_edges new_group,
    assoc dst_edge_name
      (fst (_copy_edge_attributes env h5in src_node_name dst_node_name
              src_edge_name dst_edge_name src_mapping dst_mapping
              h5_read_chunk_size h5out))
    = Some new_edges /\
    Forall2 (fun old new => (fst old, fst new) ∈ src_mapping /\
                            (snd old, snd new) ∈ dst_mapping)
      kept
      (combine (source_node_id new_edges) (target_node_id new_edges)) /\
    length (source_node_id new_edges) = length kept /\
    length (target_node_id new_edges) = length kept /\
    source_node_population new_edges = src_node_name /\
    target_node_population new_edges = dst_node_name /\
    edge_type_id new_edges = Some (np_full (length kept) (-1)) /\
    edge_group_id new_edges = Some (np_full (length kept) 0) /\
    edge_group_index new_edges = Some (arange (length kept)) /\
    assoc GROUP_NAME (groups new_edges) = Some new_group /\
    forall name rows,
      (name, H5Dataset rows) ∈ orig_group ->
      assoc name new_group
      = Some (H5Dataset
                (mask_select rows
                   (map (edge_kept (df_index src_mapping)
                           (df_index dst_mapping)) edges))).
Proof.
  intros Hin Hgroup Hfree Hlen Hsup Hs_pos Ht_pos Hs_nodup Ht_nodup Henv
    Hsize Hedges Hkept.
  rewrite (copy_edge_attributes_closed env h5in src_node_name dst_node_name
             src_edge_name dst_edge_name src_mapping dst_mapping
             h5_read_chunk_size h5out orig_edges orig_group) by assumption.
  cbn [fst].
  destruct (filter_kept_in_index (df_index src_mapping)
              (df_index dst_mapping) edges) as [Hs_in Ht_in].
  rewrite <- Hkept in Hs_in, Ht_in.
  pose proof (loc_new_ids_rows src_mapping (map fst kept) Hs_nodup Hs_in)
    as Hs_rows.
  pose proof (loc_new_ids_rows dst_mapping (map snd kept) Ht_nodup Ht_in)
    as Ht_rows.
  assert (Hs_len : length (loc_new_ids src_mapping (map fst kept))
                   = length kept).
  { apply Forall2_length in Hs_rows. now rewrite length_map in Hs_rows. }
  assert (Ht_len : length (loc_new_ids dst_mapping (map snd kept))
                   = length kept).
  { apply Forall2_length in Ht_rows. now rewrite length_map in Ht_rows. }
  eexists. eexists. split; [apply assoc_dict_set_eq|].
  unfold copied_edges, _finalize_edges, copy_state.
  cbn [source_node_id target_node_id source_node_population
       target_node_population edge_type_id edge_group_id edge_group_index
       groups].
  rewrite <- Hedges, <- Hkept, Hs_len.
  split; [|repeat (split; [first [reflexivity|assumption]|])].
  - now apply (Forall2_combine_columns
                 (fun lbl new => (lbl, new) ∈ src_mapping)
                 (fun lbl new => (lbl, new) ∈ dst_mapping)).
  - intros name rows Hrow.
    now rewrite (assoc_select_group _ orig_group name (H5Dataset rows)
                   (proj1 Hsup) Hrow).
Qed.

Lemma copy_edge_attributes_renames_kept_edges_witness :
  exists new_edges new_group,
    assoc "B__B"
      (fst (_copy_edge_attributes None test_edges_file "B" "B" "default"
              "B__B" [(2, 0); (1, 1); (0, 2)] [(1, 1); (0, 2)] (Some 3) []))
    = Some new_edges /\
    Forall2 (fun old new =>
               (fst old, fst new) ∈ [(2, 0); (1, 1); (0, 2)] /\
               (snd old, snd new) ∈ [(1, 1); (0, 2)])
      [(2, 0); (0, 1); (0, 1); (2, 1)]
      (combine (source_node_id new_edges) (target_node_id new_edges)) /\
    length (source_node_id new_edges) = 4%nat /\
    length (target_node_id new_edges) = 4%nat /\
    source_node_population new_edges = "B" /\
    target_node_population new_edges = "B" /\
    edge_type_id new_edges = Some (np_full 4 (-1)) /\
    edge_group_id new_edges = Some (np_full 4 0) /\
    edge_group_index new_edges = Some (arange 4) /\
    assoc GROUP_NAME (groups new_edges) = Some new_group /\
    forall name rows,
      (name, H5Dataset rows)
      ∈ [("delay", H5Dataset [10; 11; 12; 13]);
         ("dynamics_params", H5Group [("u_syn", H5Dataset [1; 2; 3; 4])])] ->
      assoc name new_group
      = Some (H5Dataset
                (mask_select rows
                   (map (edge_kept [2; 1; 0] [1; 0])
                      [(2, 0); (0, 1); (0, 1); (2, 1)]))).
Proof.
  apply (copy_edge_attributes_renames_kept_edges None test_edges_file
           "B" "B" "default" "B__B" [(2, 0); (1, 1); (0, 2)]
           [(1, 1); (0, 2)] (Some 3) [] test_edges_population
           [("delay", H5Dataset [10; 11; 12; 13]);
            ("dynamics_params", H5Group [("u_syn", H5Dataset [1; 2; 3; 4])])]
           [(2, 0); (0, 1); (0, 1); (2, 1)]
           [(2, 0); (0, 1); (0, 1); (2, 1)]).
  - reflexivity.
  - reflexivity.
  - reflexivity.
  - reflexivity.
  - exact test_group_supported.
  - compute_done.
  - compute_done.
  - compute_done.
  - compute_done.
  - vm_compute. discriminate.
  - intros c [= <-]. lia.
  - reflexivity.
  - reflexivity.
Defined.

(** ** The external source ids, whatever the chunks *)

(** The source ids a chunk mask selects are those of its wanted
    connections. *)
Lemma chunk_selected_elem (sgids tgids src dst : list Z) (s : Z) :
  length sgids = length tgids ->
  s ∈ mask_select sgids (chunk_mask sgids tgids src dst) <->
  exists t, (s, t) ∈ combine sgids tgids /\ s ∈ src /\ t ∈ dst.
Proof.
  intros Hlen.
  assert (Hedges : forall edges : list (Z * Z),
            s ∈ mask_select (map fst edges)
                  (chunk_mask (map fst edges) (map snd edges) src dst) <->
            exists t, (s, t) ∈ edges /\ s ∈ src /\ t ∈ dst);
    [|specialize (Hedges (combine sgids tgids));
      now rewrite map_fst_combine_same, map_snd_combine_same in Hedges].
  intros edges.
  rewrite chunk_mask_edges, mask_select_map_filter, elem_of_map.
  split.
  - intros ([s' t] & -> & Hin). exists t.
    apply list_elem_of_In, filter_In in Hin as [Hin Hkept].
    unfold edge_kept in Hkept. apply andb_true_iff in Hkept as [Hs Ht].
    simpl in *. rewrite !existsb_eqb_elem in *.
    split; [now apply list_elem_of_In|]. now split.
  - intros (t & Hin & Hs & Ht). exists (s, t). split; [reflexivity|].
    apply list_elem_of_In, filter_In. split; [now apply list_elem_of_In|].
    unfold edge_kept. simpl. apply andb_true_iff.
    now rewrite !existsb_eqb_elem.
Qed.

(** One chunk adds to the index the sources of its wanted connections. *)
Lemma external_ids_body_index (env : environ)
    (all_sgids all_tgids src dst : list Z) (ret : option mapping_df)
    (sl : slice) :
  1 <= _h5_get_read_chunk_size env ->
  length all_sgids = length all_tgids ->
  (forall r, ret = Some r -> r <> []) ->
  exists ret',
    external_ids_body env all_sgids all_tgids src dst ret sl = Ok ret' /\
    (forall r', ret' = Some r' -> r' <> []) /\
    forall old,
      old ∈ from_option df_index [] ret' <->
      old ∈ from_option df_index [] ret \/
      exists t, (old, t) ∈ py_slice (combine all_sgids all_tgids) sl /\
                old ∈ src /\ t ∈ dst.
Proof.
  intros Hh Hlen Hret. unfold external_ids_body.
  pose proof (py_slice_length all_sgids all_tgids sl Hlen) as Hsl.
  destruct (external_chunk_mask _ _ src dst Hsl)
    as (Hand & Hsel & _ & Hnonempty & _).
  pose proof (fun s => chunk_selected_elem _ _ src dst s Hsl) as Helem.
  rewrite py_slice_combine in Helem by exact Hlen.
  rewrite !isin_correct by exact Hh. run_result.
  rewrite Hand. run_result.
  destruct (np_any (chunk_mask _ _ src dst)) eqn:Hany.
  - rewrite Hsel. run_result.
    set (needed := np_unique _).
    assert (Hneeded : forall old, old ∈ needed <->
              exists t, (old, t) ∈ py_slice (combine all_sgids all_tgids) sl /\
                        old ∈ src /\ t ∈ dst).
    { intros old. unfold needed. now rewrite np_unique_elem, Helem. }
    destruct ret as [r|].
    + rewrite isin_correct by exact Hh. run_result.
      destruct (np_any (np_isin needed (df_index r) true)) eqn:Hmm.
      * unfold np_mask. rewrite np_isin_length, Nat.eqb_refl. run_result.
        assert (Htop : exists top, np_max (df_new_id r) = Ok top).
        { destruct r as [|row r]; [now destruct (Hret [])|]. simpl. eauto. }
        destruct Htop as (top & ->). run_result.
        rewrite mask_select_isin.
        set (needed' := List.filter _ needed).
        eexists. split; [reflexivity|]. split.
        { intros r' [= <-] Hnil. apply app_eq_nil in Hnil as [Hnil _].
          now apply (Hret r). }
        intros old. cbn [from_option].
        unfold df_index at 1. rewrite map_app. fold (df_index r).
        change (map fst ?m) with (df_index m).
        assert (Hidx : df_index
                  (make_mapping needed'
                     (map (fun i => top + 1 + i) (arange (length needed'))))
                = needed').
        { apply map_fst_combine_same. now rewrite length_map, arange_length. }
        rewrite Hidx, elem_of_app, <- Hneeded.
        assert (Hnew : old ∈ needed' <->
                  old ∈ needed /\ existsb (Z.eqb old) (df_index r) = false).
        { subst needed'.
          rewrite list_elem_of_In, filter_In, <- list_elem_of_In.
          now rewrite xorb_true_r, negb_true_iff. }
        rewrite Hnew.
        destruct (existsb (Z.eqb old) (df_index r)) eqn:Hin_r.
        -- apply existsb_eqb_elem in Hin_r. intuition discriminate.
        -- tauto.
      * eexists. split; [reflexivity|]. split; [exact Hret|].
        intros old. cbn [from_option]. rewrite <- Hneeded.
        split; [now left|]. intros [Hold|Hold]; [exact Hold|].
        destruct (existsb (Z.eqb old) (df_index r)) eqn:Hin_r;
          [now apply existsb_eqb_elem|].
        exfalso. unfold np_any in Hmm.
        assert (Hex : existsb (fun b : bool => b)
                        (np_isin needed (df_index r) true) = true);
          [|rewrite Hex in Hmm; discriminate].
        apply existsb_exists. exists true. split; [|reflexivity].
        unfold np_isin. apply in_map_iff. exists old.
        rewrite Hin_r. split; [reflexivity|now apply list_elem_of_In].
    + eexists. split; [reflexivity|].
      assert (Hidx : df_index (make_mapping needed (arange (length needed)))
                     = needed).
      { apply map_fst_combine_same. now rewrite arange_length. }
      split.
      { intros r' [= <-] Hnil. apply (f_equal df_index) in Hnil.
        rewrite Hidx in Hnil. revert Hnil.
        apply np_unique_nonempty, Hnonempty. reflexivity. }
      intros old. cbn [from_option]. rewrite Hidx, Hneeded, elem_of_nil.
      tauto.
  - exists ret. split; [reflexivity|]. split; [exact Hret|].
    intros old. split; [now left|]. intros [Hold|(t & Hin & Hs & Ht)];
      [exact Hold|].
    exfalso.
    assert (Hsel_in : old ∈ mask_select (py_slice all_sgids sl)
                        (chunk_mask (py_slice all_sgids sl)
                           (py_slice all_tgids sl) src dst)).
    { apply Helem. eauto. }
    rewrite (mask_select_none _ _ Hany) in Hsel_in.
    now apply elem_of_nil in Hsel_in.
Qed.

(** The chunk loop collects the sources of the wanted connections of all
    its windows. *)
Lemma external_ids_loop_index (env : environ)
    (all_sgids all_tgids src dst : list Z) (slices : list slice) :
  1 <= _h5_get_read_chunk_size env ->
  length all_sgids = length all_tgids ->
  forall ret : option mapping_df,
    (forall r, ret = Some r -> r <> []) ->
    exists ret',
      external_ids_loop env all_sgids all_tgids src dst ret slices = Ok ret' /\
      forall old,
        old ∈ from_option df_index [] ret' <->
        old ∈ from_option df_index [] ret \/
        exists t,
          (old, t) ∈ concat (map (py_slice (combine all_sgids all_tgids))
                               slices) /\
          old ∈ src /\ t ∈ dst.
Proof.
  intros Hh Hlen.
  induction slices as [|sl slices IH]; intros ret Hret; simpl.
  - exists ret. split; [reflexivity|]. intros old. split; [now left|].
    intros [Hold|(t & Hin & _)]; [exact Hold|]. now apply elem_of_nil in Hin.
  - destruct (external_ids_body_index env all_sgids all_tgids src dst ret sl
                Hh Hlen Hret) as (ret1 & -> & Hret1 & Hidx1).
    run_result.
    destruct (IH ret1 Hret1) as (ret' & -> & Hidx').
    exists ret'. split; [reflexivity|]. intros old.
    rewrite Hidx', Hidx1. split.
    + intros [[Hold|(t & Hin & Hs & Ht)]|(t & Hin & Hs & Ht)].
      * now left.
      * right. exists t. rewrite elem_of_app. tauto.
      * right. exists t. rewrite elem_of_app. tauto.
    + intros [Hold|(t & Hin & Hs & Ht)]; [now left; left|].
      apply elem_of_app in Hin as [Hin|Hin]; [left; right|right]; eauto.
Qed.

(** Increasing lists with the same elements are equal. *)
Lemma sorted_lt_ext (l1 l2 : list Z) :
  StronglySorted Z.lt l1 -> StronglySorted Z.lt l2 ->
  (forall x, x ∈ l1 <-> x ∈ l2) -> l1 = l2.
Proof.
  intros H1. revert l2.
  induction H1 as [|x1 l1 Hs1 IH Hall1]; intros l2 H2 Hext.
  - destruct l2 as [|x2 l2]; [reflexivity|].
    exfalso. apply (elem_of_nil x2), Hext. left.
  - destruct H2 as [|x2 l2 Hs2 Hall2].
    + exfalso. apply (elem_of_nil x1), Hext. left.
    + rewrite Forall_forall in Hall1, Hall2.
      assert (Heq : x1 = x2).
      { assert (H12 : x1 ∈ x2 :: l2) by (apply Hext; left).
        assert (H21 : x2 ∈ x1 :: l1) by (apply Hext; left).
        apply elem_of_cons in H12 as [?|H12]; [assumption|].
        apply elem_of_cons in H21 as [?|H21]; [congruence|].
        apply Hall1 in H21. apply Hall2 in H12. lia. }
      subst x2. f_equal. apply IH; [exact Hs2|].
      intros x. split; intros Hx.
      * assert (Hin : x ∈ x1 :: l2) by (apply Hext; now right).
        apply elem_of_cons in Hin as [->|Hin]; [|exact Hin].
        apply Hall1 in Hx. lia.
      * assert (Hin : x ∈ x1 :: l1) by (apply Hext; now right).
        apply elem_of_cons in Hin as [->|Hin]; [|exact Hin].
        apply Hall2 in Hx. lia.
Qed.

(** A mapping sorted on distinct old ids has an increasing index. *)
Lemma sorted_index_lt (df : mapping_df) :
  StronglySorted (fun a b => fst a <= fst b) df ->
  NoDup (df_index df) -> StronglySorted Z.lt (df_index df).
Proof.
  induction 1 as [|row df Hs IH Hall]; simpl; intros Hnodup.
  - constructor.
  - apply NoDup_cons in Hnodup as [Hfresh Hnodup].
    constructor; [now apply IH|].
    rewrite Forall_forall in Hall. apply Forall_forall.
    intros y Hy. apply elem_of_map in Hy as (row' & -> & Hin).
    assert (fst row <> fst row').
    { intros Heq. apply Hfresh. apply elem_of_map. now exists row'. }
    specialize (Hall row' Hin). lia.
Qed.

(** X8: the old ids of the mapping [_get_subcircuit_external_ids] returns
    are exactly the source ids of the connections whose source id is in
    [wanted_src_ids] and whose target id is in [wanted_dst_ids], each
    once and in increasing order, whatever [H5_READ_CHUNKSIZE] (at least
    one row) cuts the arrays into. *)
Theorem external_ids_index_exact (env : environ)
    (all_sgids all_tgids wanted_src_ids wanted_dst_ids : list Z) :
  1 <= _h5_get_read_chunk_size env ->
  length all_sgids = length all_tgids ->
  exists result,
    _get_subcircuit_external_ids env all_sgids all_tgids wanted_src_ids
      wanted_dst_ids = Ok result /\
    (forall old,
       old ∈ df_index result <->
       exists t, (old, t) ∈ combine all_sgids all_tgids /\
                 old ∈ wanted_src_ids /\ t ∈ wanted_dst_ids) /\
    df_index result
    = np_unique
        (map fst
           (List.filter (edge_kept wanted_src_ids wanted_dst_ids)
              (combine all_sgids all_tgids))).
Proof.
  intros Hh Hlen.
  unfold _get_subcircuit_external_ids.
  destruct (chunked_slices_cover (combine all_sgids all_tgids)
              (_h5_get_read_chunk_size env) Hh)
    as (slices & Hslices & Hcover & _).
  rewrite length_combine, <- Hlen, Nat.min_id in Hslices.
  rewrite Hslices. run_result.
  destruct (external_ids_loop_spec env all_sgids all_tgids wanted_src_ids
              wanted_dst_ids slices None Hh Hlen I)
    as (ret' & Hloop & Hinv & _).
  destruct (external_ids_loop_index env all_sgids all_tgids wanted_src_ids
              wanted_dst_ids slices Hh Hlen None ltac:(discriminate))
    as (ret'' & Hloop' & Hidx).
  rewrite Hloop in Hloop'. injection Hloop' as <-.
  rewrite Hloop, Hcover in *. run_result.
  assert (Hresult : exists result,
            match ret' with
            | Some r => Ok (df_sort_index r)
            | None => Ok (df_sort_index (make_mapping [] []))
            end = Ok result /\
            df_index result ≡ₚ from_option df_index [] ret' /\
            StronglySorted Z.lt (df_index result)).
  { destruct ret' as [r|].
    - exists (df_sort_index r). split; [reflexivity|].
      assert (Hperm : df_index (df_sort_index r) ≡ₚ df_index r).
      { unfold df_index. apply Permutation_map, df_sort_index_perm. }
      split; [exact Hperm|].
      apply sorted_index_lt; [apply df_sort_index_sorted|].
      rewrite Hperm. apply Hinv.
    - exists []. split; [reflexivity|]. split; [reflexivity|constructor]. }
  destruct Hresult as (result & -> & Hperm & Hsorted).
  exists result. split; [reflexivity|].
  assert (Hset : forall old,
            old ∈ df_index result <->
            exists t, (old, t) ∈ combine all_sgids all_tgids /\
                      old ∈ wanted_src_ids /\ t ∈ wanted_dst_ids).
  { intros old. rewrite Hperm, Hidx. cbn [from_option].
    rewrite elem_of_nil. tauto. }
  split; [exact Hset|].
  apply sorted_lt_ext; [exact Hsorted|apply np_unique_sorted|].
  intros old. rewrite Hset, np_unique_elem, elem_of_map. split.
  - intros (t & Hin & Hs & Ht). exists (old, t). split; [reflexivity|].
    apply list_elem_of_In, filter_In. split; [now apply list_elem_of_In|].
    unfold edge_kept. simpl. apply andb_true_iff.
    now rewrite !existsb_eqb_elem.
  - intros ([s t] & -> & Hin). exists t.
    apply list_elem_of_In, filter_In in Hin as [Hin Hkept].
    unfold edge_kept in Hkept. apply andb_true_iff in Hkept as [Hs Ht].
    simpl in *. rewrite !existsb_eqb_elem in *.
    split; [now apply list_elem_of_In|]. now split.
Qed.

Lemma external_ids_index_exact_witness :
  exists result,
    _get_subcircuit_external_ids (Some 2) [7; 7; 3; 9; 5] [0; 0; 1; 1; 4]
      [1; 3; 7; 9] [0; 1] = Ok result /\
    (forall old,
       old ∈ df_index result <->
       exists t, (old, t) ∈ combine [7; 7; 3; 9; 5] [0; 0; 1; 1; 4] /\
                 old ∈ [1; 3; 7; 9] /\ t ∈ [0; 1]) /\
    df_index result
    = np_unique
        (map fst
           (List.filter (edge_kept [1; 3; 7; 9] [0; 1])
              (combine [7; 7; 3; 9; 5] [0; 0; 1; 1; 4]))).
Proof.
  apply (external_ids_index_exact (Some 2) [7; 7; 3; 9; 5] [0; 0; 1; 1; 4]
           [1; 3; 7; 9] [0; 1]).
  - simpl. lia.
  - reflexivity.
Defined.

(** ** The circuit configuration of a split *)

Lemma circuit_config_fold (dir : directory) (output : string)
    (pairs : list (string * string)) (nodes edges : list json) :
  fold_left (circuit_config_pair dir output) pairs (nodes, edges)
  = (nodes ++
     map (fun pair =>
            JDict [("nodes_file",
                    JString (os_path_join "$BASE_DIR"
                               (_get_node_file_name
                                  (_get_population_name (fst pair) (snd pair)))));
                   ("node_types_file", JNull)])
       (List.filter (fun pair => String.eqb (fst pair) (snd pair)) pairs),
     edges ++
     map (fun pair =>
            JDict [("edges_file",
                    JString (os_path_join "$BASE_DIR"
                               (_get_edge_file_name
                                  (_get_population_name (fst pair) (snd pair)))));
                   ("edge_types_file", JNull)])
       (List.filter
          (fun pair => os_path_exists dir (pair_edge_file output pair)) pairs)).
Proof.
  revert nodes edges.
  induction pairs as [|pair pairs IH]; intros nodes edges; simpl.
  - now rewrite !app_nil_r.
  - unfold circuit_config_pair at 2. cbn [fst snd].
    fold (pair_edge_file output pair).
    rewrite IH.
    destruct (String.eqb (fst pair) (snd pair)),
             (os_path_exists dir (pair_edge_file output pair));
      simpl; now rewrite <- ?app_assoc.
Qed.

(** Among distinct names, a name selects itself. *)
Lemma filter_eqb_single (names : list string) (name : string) :
  NoDup names -> name ∈ names -> List.filter (String.eqb name) names = [name].
Proof.
  induction names as [|k names IH]; intros Hnodup Hin.
  - now apply elem_of_nil in Hin.
  - apply NoDup_cons in Hnodup as [Hfresh Hnodup]. simpl.
    destruct (String.eqb_spec name k) as [->|Hne].
    + f_equal. clear IH Hin Hnodup.
      induction names as [|k' names IH]; [reflexivity|]. simpl.
      destruct (String.eqb_spec k k') as [->|_].
      * exfalso. apply Hfresh. left.
      * apply IH. intros Hin. apply Hfresh. now right.
    + apply elem_of_cons in Hin as [?|Hin]; [contradiction|]. now apply IH.
Qed.

(** The ordered pairs of [itertools.product] with equal components are
    the names, each once. *)
Lemma product_diagonal (names : list string) :
  NoDup names ->
  List.filter (fun pair : string * string => String.eqb (fst pair) (snd pair))
    (list_prod names names)
  = map (fun name => (name, name)) names.
Proof.
  intros Hnodup.
  assert (Hgen : forall l1 : list string,
            (forall k, k ∈ l1 -> k ∈ names) ->
            List.filter
              (fun pair : string * string => String.eqb (fst pair) (snd pair))
              (list_prod l1 names)
            = map (fun name => (name, name)) l1);
    [|now apply Hgen].
  induction l1 as [|k l1 IH]; intros Hsub; simpl; [reflexivity|].
  rewrite List.filter_app, IH by (intros k' Hk'; apply Hsub; now right).
  assert (Hrow : List.filter
                   (fun pair : string * string =>
                      String.eqb (fst pair) (snd pair))
                   (map (fun y => (k, y)) names)
                 = map (fun y => (k, y)) (List.filter (String.eqb k) names)).
  { clear. induction names as [|y names IH]; simpl; [reflexivity|].
    destruct (String.eqb k y); simpl; now rewrite IH. }
  rewrite Hrow, (filter_eqb_single names k Hnodup) by (apply Hsub; left).
  reflexivity.
Qed.

(** X9: the document of [_write_circuit_config] for populations with
    distinct names: the manifest maps [$BASE_DIR] to [.]; the nodes list
    names one file [$BASE_DIR/nodes_<population>.h5] per population, in
    the order of the populations; the edges list names
    [$BASE_DIR/edges_<edge population>.h5] for the ordered pairs, in the
    order of the product, whose edge file exists in the output directory,
    and for no other pair. *)
Theorem write_circuit_config_lists {V} (dir : directory) (output : string)
    (split_nodes : list (string * V)) :
  NoDup (dict_keys split_nodes) ->
  _write_circuit_config dir output split_nodes
  = JDict
      [("manifest", JDict [("$BASE_DIR", JString ".")]);
       ("networks",
        JDict
          [("nodes",
            JList
              (map (fun name =>
                      JDict [("nodes_file",
                              JString ("$BASE_DIR/nodes_" ++ name ++ ".h5"));
                             ("node_types_file", JNull)])
                 (dict_keys split_nodes)));
           ("edges",
            JList
              (map (fun pair =>
                      JDict [("edges_file",
                              JString
                                ("$BASE_DIR/edges_"
                                 ++ _get_population_name (fst pair) (snd pair)
                                 ++ ".h5"));
                             ("edge_types_file", JNull)])
                 (List.filter
                    (fun pair =>
                       os_path_exists dir (pair_edge_file output pair))
                    (product_keys split_nodes))))])].
Proof.
  intros Hnodup. unfold _write_circuit_config.
  rewrite circuit_config_fold. cbn [fst snd app].
  unfold product_keys at 1. rewrite (product_diagonal _ Hnodup), map_map.
  do 8 f_equal.
  apply map_ext. intros name. cbn [fst snd].
  unfold _get_population_name, _get_population_name_with.
  now rewrite String.eqb_refl.
Qed.

Lemma write_circuit_config_lists_witness :
  _write_circuit_config
    (<["out/edges_B.h5" := test_edges_file]> ∅) "out" test_id_mapping
  = JDict
      [("manifest", JDict [("$BASE_DIR", JString ".")]);
       ("networks",
        JDict
          [("nodes",
            JList
              (map (fun name =>
                      JDict [("nodes_file",
                              JString ("$BASE_DIR/nodes_" ++ name ++ ".h5"));
                             ("node_types_file", JNull)])
                 (dict_keys test_id_mapping)));
           ("edges",
            JList
              (map (fun pair =>
                      JDict [("edges_file",
                              JString
                                ("$BASE_DIR/edges_"
                                 ++ _get_population_name (fst pair) (snd pair)
                                 ++ ".h5"));
                             ("edge_types_file", JNull)])
                 (List.filter
                    (fun pair =>
                       os_path_exists
                         (<["out/edges_B.h5" := test_edges_file]> ∅)
                         (pair_edge_file "out" pair))
                    (product_keys test_id_mapping))))])].
Proof.
  apply (write_circuit_config_lists
           (<["out/edges_B.h5" := test_edges_file]> ∅) "out" test_id_mapping).
  compute_done.
Defined.

Lemma write_edges_Ok_loop (env : environ) (output : string) (h5in : h5file)
    (id_mapping : list (string * mapping_df)) (h5_read_chunk_size : option Z)
    (expect_to_use_all_edges : bool) (dir dir' : directory) :
  _write_edges env output h5in id_mapping h5_read_chunk_size
    expect_to_use_all_edges dir = (dir', Ok tt) ->
  exists written,
    for_acc (product_keys id_mapping)
      (write_edges_pair env output h5in id_mapping h5_read_chunk_size)
      0%nat dir = (dir', Ok written).
Proof.
  unfold _write_edges, mbind, stateful_bind. intros Hrun.
  apply sbind_Ok in Hrun as (written & dir1 & Hloop & Hcheck).
  exists written. rewrite Hloop. f_equal.
  destruct expect_to_use_all_edges.
  - unfold lift in Hcheck. now injection Hcheck as <- _.
  - unfold mret, stateful_ret in Hcheck. now injection Hcheck as <-.
Qed.

Lemma get_node_id_mapping_keys (split_nodes : list (string * node_table)) :
  dict_keys (_get_node_id_mapping split_nodes) = dict_keys split_nodes.
Proof.
  unfold dict_keys, _get_node_id_mapping. rewrite map_map.
  now apply map_ext.
Qed.

(** X10: [split_population] writes the circuit configuration after
    [_write_edges] has completed on the mapping of the same populations.
    Every entry of its edges list then names the file of an ordered pair
    of populations that holds exactly one population with at least one
    edge and its indices, and every pair whose file is in the output
    directory has its entry. *)
Theorem circuit_config_lists_written_edge_files (env : environ)
    (output : string) (h5in : h5file)
    (split_nodes : list (string * node_table))
    (h5_read_chunk_size : option Z) (expect_to_use_all_edges : bool)
    (dir dir' : directory) :
  _write_edges env output h5in (_get_node_id_mapping split_nodes)
    h5_read_chunk_size expect_to_use_all_edges dir = (dir', Ok tt) ->
  exists nodes edges,
    _write_circuit_config dir' output split_nodes
    = JDict [("manifest", JDict [("$BASE_DIR", JString ".")]);
             ("networks",
              JDict [("nodes", JList nodes); ("edges", JList edges)])] /\
    (forall entry, entry ∈ edges ->
       exists pair file,
         pair ∈ product_keys split_nodes /\
         entry
         = JDict [("edges_file",
                   JString
                     ("$BASE_DIR/edges_"
                      ++ _get_population_name (fst pair) (snd pair) ++ ".h5"));
                  ("edge_types_file", JNull)] /\
         dir' !! pair_edge_file output pair = Some file /\
         indexed_edge_file file) /\
    (forall pair file,
       pair ∈ product_keys split_nodes ->
       dir' !! pair_edge_file output pair = Some file ->
       JDict [("edges_file",
               JString
                 ("$BASE_DIR/edges_"
                  ++ _get_population_name (fst pair) (snd pair) ++ ".h5"));
              ("edge_types_file", JNull)] ∈ edges).
Proof.
  intros Hrun.
  apply write_edges_Ok_loop in Hrun as (written & Hloop).
  apply write_edges_loop_outcome in Hloop as [_ Hgood].
  unfold product_keys in Hgood at 1.
  rewrite get_node_id_mapping_keys in Hgood. fold (product_keys split_nodes) in Hgood.
  unfold _write_circuit_config. rewrite circuit_config_fold. cbn [fst snd app].
  eexists. eexists. split; [reflexivity|]. split.
  - intros entry Hentry.
    apply elem_of_map in Hentry as (pair & -> & Hpair).
    apply list_elem_of_In, filter_In in Hpair as [Hpair Hexists].
    apply list_elem_of_In in Hpair.
    unfold os_path_exists in Hexists.
    destruct (Hgood pair Hpair) as [Hnone|(file & Hfile & Hindexed)].
    + rewrite Hnone in Hexists. discriminate.
    + exists pair, file. repeat split; assumption.
  - intros pair file Hpair Hfile.
    apply elem_of_map. exists pair. split; [reflexivity|].
    apply list_elem_of_In, filter_In. split; [now apply list_elem_of_In|].
    unfold os_path_exists. now rewrite Hfile.
Qed.

Lemma circuit_config_lists_written_edge_files_witness :
  let split_nodes :=
    [("A", {| nt_index := [5; 4; 3]; nt_columns := [] |});
     ("B", {| nt_index := [2; 1; 0]; nt_columns := [] |})] in
  let run :=
    _write_edges None "out" test_edges_file (_get_node_id_mapping split_nodes)
      (Some 3) true ∅ in
  run = (fst run, Ok tt) /\
  exists nodes edges,
    _write_circuit_config (fst run) "out" split_nodes
    = JDict [("manifest", JDict [("$BASE_DIR", JString ".")]);
             ("networks",
              JDict [("nodes", JList nodes); ("edges", JList edges)])] /\
    (forall entry, entry ∈ edges ->
       exists pair file,
         pair ∈ product_keys split_nodes /\
         entry
         = JDict [("edges_file",
                   JString
                     ("$BASE_DIR/edges_"
                      ++ _get_population_name (fst pair) (snd pair) ++ ".h5"));
                  ("edge_types_file", JNull)] /\
         fst run !! pair_edge_file "out" pair = Some file /\
         indexed_edge_file file) /\
    (forall pair file,
       pair ∈ product_keys split_nodes ->
       fst run !! pair_edge_file "out" pair = Some file ->
       JDict [("edges_file",
               JString
                 ("$BASE_DIR/edges_"
                  ++ _get_population_name (fst pair) (snd pair) ++ ".h5"));
              ("edge_types_file", JNull)] ∈ edges).
Proof.
  intros split_nodes run.
  assert (Hrun : run = (fst run, Ok tt)) by (vm_compute; reflexivity).
  split; [exact Hrun|].
  exact (circuit_config_lists_written_edge_files None "out" test_edges_file
           split_nodes (Some 3) true ∅ (fst run) Hrun).
Defined.

(** ** The id mapping document *)

(** Filling a dictionary from items with distinct new keys appends them
    in order. *)
Lemma fold_dict_set_fresh {A V} (f : A -> V) (key : A -> string)
    (items : list A) (acc : list (string * V)) :
  NoDup (map key items) ->
  (forall item, item ∈ items -> key item ∉ dict_keys acc) ->
  fold_left (fun d item => dict_set d (key item) (f item)) items acc
  = acc ++ map (fun item => (key item, f item)) items.
Proof.
  revert acc. induction items as [|item items IH]; intros acc Hnodup Hfresh;
    simpl.
  - now rewrite app_nil_r.
  - simpl in Hnodup. apply NoDup_cons in Hnodup as [Hitem Hnodup].
    rewrite dict_set_fresh by (apply Hfresh; left).
    rewrite IH; [now rewrite <- app_assoc|exact Hnodup|].
    intros item' Hin. rewrite dict_keys_app, elem_of_app. simpl.
    intros [Hacc|Hkey%list_elem_of_singleton].
    + revert Hacc. apply Hfresh. now right.
    + apply Hitem. rewrite <- Hkey. apply elem_of_map. now exists item'.
Qed.

Lemma write_mapping_entries (id_mapping : list (string * mapping_df)) :
  NoDup (dict_keys id_mapping) ->
  _write_mapping id_mapping
  = JDict
      (map (fun item =>
              (fst item,
               JDict [("old_id", JList (map JInt (df_index (snd item))));
                      ("new_id", JList (map JInt (df_new_id (snd item))))]))
         id_mapping).
Proof.
  intros Hnodup. unfold _write_mapping. f_equal.
  rewrite (fold_dict_set_fresh
             (fun item : string * mapping_df =>
                JDict [("old_id", JList (map JInt (df_index (snd item))));
                       ("new_id", JList (map JInt (df_new_id (snd item))))])
             fst id_mapping [] Hnodup); [reflexivity|].
  intros item _. apply not_elem_of_nil.
Qed.

Lemma map_JInt_inj (l1 l2 : list Z) : map JInt l1 = map JInt l2 -> l1 = l2.
Proof.
  revert l2. induction l1 as [|x l1 IH]; intros [|y l2] Heq;
    try discriminate; [reflexivity|].
  injection Heq as -> Heq. f_equal. now apply IH.
Qed.

Lemma mapping_df_columns_inj (df1 df2 : mapping_df) :
  df_index df1 = df_index df2 -> df_new_id df1 = df_new_id df2 -> df1 = df2.
Proof.
  revert df2. induction df1 as [|[o1 n1] df1 IH]; intros [|[o2 n2] df2];
    simpl; intros Hidx Hnew; try discriminate; [reflexivity|].
  injection Hidx as -> Hidx. injection Hnew as -> Hnew.
  f_equal. now apply IH.
Qed.

(** X11: [_write_mapping] loses nothing: two mappings with distinct
    population names that give the same document are equal, population
    by population and row by row. *)
Theorem write_mapping_injective (m1 m2 : list (string * mapping_df)) :
  NoDup (dict_keys m1) -> NoDup (dict_keys m2) ->
  _write_mapping m1 = _write_mapping m2 -> m1 = m2.
Proof.
  intros H1 H2. rewrite !write_mapping_entries by assumption.
  intros Heq. injection Heq as Heq. clear H1 H2.
  revert m2 Heq. induction m1 as [|[k1 df1] m1 IH]; intros [|[k2 df2] m2] Heq;
    simpl in Heq; try discriminate; [reflexivity|].
  injection Heq as -> Hold Hnew Hrest.
  apply map_JInt_inj in Hold, Hnew.
  rewrite (mapping_df_columns_inj df1 df2 Hold Hnew).
  f_equal. now apply IH.
Qed.

Lemma write_mapping_injective_witness :
  test_id_mapping = test_id_mapping.
Proof.
  apply (write_mapping_injective test_id_mapping test_id_mapping).
  - compute_done.
  - compute_done.
  - reflexivity.
Defined.

(** X12: the id mapping document of a split: for populations with
    distinct names, [_write_mapping] applied to the mapping of
    [_get_node_id_mapping] lists, per population and in order, the index
    of its node table as old ids and [0..n-1] as new ids. *)
Theorem write_mapping_of_node_tables
    (split_nodes : list (string * node_table)) :
  NoDup (dict_keys split_nodes) ->
  _write_mapping (_get_node_id_mapping split_nodes)
  = JDict
      (map (fun item =>
              (fst item,
               JDict [("old_id", JList (map JInt (nt_index (snd item))));
                      ("new_id",
                       JList (map JInt (arange (nt_len (snd item)))))]))
         split_nodes).
Proof.
  intros Hnodup.
  rewrite write_mapping_entries by now rewrite get_node_id_mapping_keys.
  f_equal. unfold _get_node_id_mapping. rewrite map_map.
  apply map_ext. intros [name df]. cbn [fst snd].
  unfold nt_len, df_index, df_new_id, make_mapping.
  rewrite (map_fst_combine_same (nt_index df) (arange (length (nt_index df))))
    by now rewrite arange_length.
  rewrite (map_snd_combine_same (nt_index df) (arange (length (nt_index df))))
    by now rewrite arange_length.
  reflexivity.
Qed.

Lemma write_mapping_of_node_tables_witness :
  _write_mapping
    (_get_node_id_mapping
       [("A", {| nt_index := [5; 4; 3]; nt_columns := [] |});
        ("B", {| nt_index := [2; 1; 0]; nt_columns := [] |})])
  = JDict
      [("A", JDict [("old_id", JList [JInt 5; JInt 4; JInt 3]);
                    ("new_id", JList [JInt 0; JInt 1; JInt 2])]);
       ("B", JDict [("old_id", JList [JInt 2; JInt 1; JInt 0]);
                    ("new_id", JList [JInt 0; JInt 1; JInt 2])])].
Proof.
  apply (write_mapping_of_node_tables
           [("A", {| nt_index := [5; 4; 3]; nt_columns := [] |});
            ("B", {| nt_index := [2; 1; 0]; nt_columns := [] |})]).
  compute_done.
Defined.

(** ** The configuration of a subcircuit *)

Lemma assoc_elem {V} (d : list (string * V)) (key : string) (v : V) :
  assoc key d = Some v -> (key, v) ∈ d.
Proof.
  induction d as [|[k w] d IH]; simpl; [discriminate|].
  destruct (String.eqb_spec key k) as [->|_].
  - intros [= ->]. left.
  - intros Hd. right. now apply IH.
Qed.

Lemma dict_del_subset {V} (d : list (string * V)) (key : string)
    (item : string * V) :
  item ∈ dict_del d key -> item ∈ d.
Proof.
  induction d as [|[k w] d IH]; simpl; [trivial|].
  destruct (String.eqb key k).
  - intros Hin. now right.
  - intros [->|Hin]%elem_of_cons; [left|right; now apply IH].
Qed.

Lemma dict_del_keys_ne {V} (d : list (string * V)) (key key' : string) :
  key' <> key -> key' ∈ dict_keys d -> key' ∈ dict_keys (dict_del d key).
Proof.
  intros Hne. induction d as [|[k w] d IH]; simpl; [trivial|].
  destruct (String.eqb_spec key k) as [->|Hk]; simpl.
  - intros [?|Hin]%elem_of_cons; [contradiction|exact Hin].
  - intros [->|Hin]%elem_of_cons; [left|right; now apply IH].
Qed.

Section UpdateConfigFacts.

Variable pathlib_join : string -> string -> string.
Variables type_ output : string.
Variable new_population_files : list (string * string).

(** One population of the first pass: the element keeps its
    populations, the removed set grows, the remaining files are files of
    [new_population_files], and the population is removed unless it has a
    file other than the sentinel. *)
Lemma update_population_path_Ok (el el' : stanza) (population : string)
    (st st' : path_update) :
  (forall item, item ∈ remaining_files st -> item ∈ new_population_files) ->
  update_population_path pathlib_join type_ output el population st
  = (st', Ok el') ->
  stanza_populations el' = stanza_populations el /\
  removed_populations st ⊆ removed_populations st' /\
  (forall item, item ∈ remaining_files st' -> item ∈ new_population_files) /\
  (population ∈ removed_populations st' \/
   exists path, (population, path) ∈ new_population_files /\
                path <> DELETED_EMPTY_EDGES_FILE).
Proof.
  intros Hfiles. unfold update_population_path. run_stateful.
  destruct (assoc population (remaining_files st)) as [path|] eqn:Hpath.
  - apply assoc_elem, Hfiles in Hpath.
    destruct (String.eqb_spec path DELETED_EMPTY_EDGES_FILE) as [->|Hne].
    + intros [= <- <-]. simpl. split; [reflexivity|]. split; [|split].
      * apply union_subseteq_r.
      * intros item Hin. now apply dict_del_subset, Hfiles in Hin.
      * left. apply elem_of_union_l, elem_of_singleton. reflexivity.
    + destruct (_strip_base_path output path) as [updated|e];
        [|discriminate].
      destruct (String.eqb (pathlib_join output updated) path);
        [|discriminate].
      intros [= <- <-]. simpl. split; [reflexivity|]. split; [|split].
      * reflexivity.
      * intros item Hin. now apply dict_del_subset, Hfiles in Hin.
      * right. eauto.
  - intros [= <- <-]. simpl. split; [reflexivity|]. split; [|split].
    + apply union_subseteq_r.
    + exact Hfiles.
    + left. apply elem_of_union_l, elem_of_singleton. reflexivity.
Qed.

Lemma update_populations_Ok (populations : list string) :
  forall (el el' : stanza) (st st' : path_update),
    (forall item, item ∈ remaining_files st -> item ∈ new_population_files) ->
    for_acc populations (update_population_path pathlib_join type_ output)
      el st = (st', Ok el') ->
    stanza_populations el' = stanza_populations el /\
    removed_populations st ⊆ removed_populations st' /\
    (forall item, item ∈ remaining_files st' -> item ∈ new_population_files) /\
    (forall population, population ∈ populations ->
       population ∈ removed_populations st' \/
       exists path, (population, path) ∈ new_population_files /\
                    path <> DELETED_EMPTY_EDGES_FILE).
Proof.
  induction populations as [|population populations IH];
    intros el el' st st' Hfiles Hrun; simpl in Hrun.
  - unfold mret, stateful_ret in Hrun. injection Hrun as <- <-.
    split; [reflexivity|]. split; [reflexivity|]. split; [exact Hfiles|].
    intros population Hin. now apply elem_of_nil in Hin.
  - unfold mbind, stateful_bind in Hrun.
    apply sbind_Ok in Hrun as (el1 & st1 & Hfirst & Hrest).
    apply update_population_path_Ok in Hfirst
      as (Hpops1 & Hsub1 & Hfiles1 & Hgood1); [|exact Hfiles].
    apply IH in Hrest as (Hpops & Hsub & Hfiles' & Hgood); [|exact Hfiles1].
    split; [congruence|]. split; [now transitivity (removed_populations st1)|].
    split; [exact Hfiles'|].
    intros p [->|Hin]%elem_of_cons; [|now apply Hgood].
    destruct Hgood1 as [Hremoved|Hpath]; [left|now right].
    eapply elem_of_weaken; eassumption.
Qed.

Lemma update_paths_Ok (els : list stanza) :
  forall (els' : list stanza) (st st' : path_update),
    (forall item, item ∈ remaining_files st -> item ∈ new_population_files) ->
    update_paths pathlib_join type_ output els st = (st', Ok els') ->
    map stanza_populations els' = map stanza_populations els /\
    removed_populations st ⊆ removed_populations st' /\
    (forall item, item ∈ remaining_files st' -> item ∈ new_population_files) /\
    (forall el population,
       el ∈ els -> population ∈ dict_keys (stanza_populations el) ->
       population ∈ removed_populations st' \/
       exists path, (population, path) ∈ new_population_files /\
                    path <> DELETED_EMPTY_EDGES_FILE).
Proof.
  induction els as [|el els IH]; intros els' st st' Hfiles Hrun;
    simpl in Hrun.
  - unfold mret, stateful_ret in Hrun. injection Hrun as <- <-.
    split; [reflexivity|]. split; [reflexivity|]. split; [exact Hfiles|].
    intros el population Hin. now apply elem_of_nil in Hin.
  - unfold mbind, stateful_bind in Hrun.
    apply sbind_Ok in Hrun as (el1 & st1 & Hfirst & Hrun).
    apply sbind_Ok in Hrun as (rest' & st2 & Hrest & Hret).
    unfold mret, stateful_ret in Hret. injection Hret as <- <-.
    apply update_populations_Ok in Hfirst
      as (Hpops1 & Hsub1 & Hfiles1 & Hgood1); [|exact Hfiles].
    apply IH in Hrest as (Hpops & Hsub & Hfiles' & Hgood); [|exact Hfiles1].
    split; [simpl; congruence|].
    split; [now transitivity (removed_populations st1)|].
    split; [exact Hfiles'|].
    intros el0 p [->|Hin]%elem_of_cons Hp; [|now apply (Hgood el0)].
    destruct (Hgood1 p Hp) as [Hremoved|Hpath]; [left|now right].
    eapply elem_of_weaken; eassumption.
Qed.

End UpdateConfigFacts.

(** X13: the configuration [_update_config_with_new_paths] returns: its
    manifest maps [$BASE_DIR] to [./]; the networks of the other type are
    those of the input; no element of the updated type is left without a
    population; and every population it still names has a file in
    [new_population_files] that is not the [DELETED_EMPTY_EDGES_FILE]
    sentinel, so a population whose edge file was removed as empty, or
    that was not written at all, is gone from the configuration. *)
Theorem update_config_keeps_written_populations
    (pathlib_join : string -> string -> string) (output : string)
    (config config' : sonata_config)
    (new_population_files : list (string * string)) (type_ : string) :
  _update_config_with_new_paths pathlib_join output config
    new_population_files type_ = Ok config' ->
  (type_ = "nodes" \/ type_ = "edges") /\
  assoc "manifest" (config_keys config')
  = Some (JDict [("$BASE_DIR", JString "./")]) /\
  (forall other, other <> type_ ->
     assoc other (config_networks config')
     = assoc other (config_networks config)) /\
  exists els',
    assoc type_ (config_networks config') = Some els' /\
    forall el, el ∈ els' ->
      stanza_populations el <> [] /\
      forall population props,
        (population, props) ∈ stanza_populations el ->
        exists path,
          (population, path) ∈ new_population_files /\
          path <> DELETED_EMPTY_EDGES_FILE.
Proof.
  unfold _update_config_with_new_paths, dict_get.
  destruct (String.eqb_spec type_ "nodes") as [Hnodes|Hnodes];
    destruct (String.eqb_spec type_ "edges") as [Hedges|Hedges];
    cbn [orb negb]; try discriminate.
  all: destruct (assoc type_ (config_networks config)) as [els|] eqn:Hels;
    run_result; try discriminate.
  all: destruct (update_paths pathlib_join type_ output els _)
         as [st [els1|e]] eqn:Hrun; run_result; try discriminate.
  all: destruct (forallb _ _); try discriminate.
  all: intros [= <-]; cbn [config_keys config_networks].
  all: apply update_paths_Ok with (new_population_files := new_population_files)
         in Hrun as (Hpops & _ & _ & Hgood); [|trivial].
  all: split; [tauto|]; split; [apply assoc_dict_set_eq|].
  all: split; [intros other Hother; now apply assoc_dict_set_ne|].
  all: eexists; split; [apply assoc_dict_set_eq|].
  all: intros el Hel.
  all: apply list_elem_of_In, filter_In in Hel as [Hel Hnonempty].
  all: apply in_map_iff in Hel as (el1 & <- & Hel1).
  all: split; [unfold has_populations in Hnonempty;
               now destruct (stanza_populations _)|].
  all: intros population props Hin; cbn [drop_removed stanza_populations] in Hin.
  all: apply list_elem_of_In, filter_In in Hin as [Hin Hkept].
  all: cbn [fst] in Hkept; apply negb_true_iff, bool_decide_eq_false in Hkept.
  all: assert (Hel0 : exists el0, el0 ∈ els /\
                 stanza_populations el0 = stanza_populations el1).
  all: try (assert (Hmem : stanza_populations el1
                           ∈ map stanza_populations els)
              by (rewrite <- Hpops; apply elem_of_map; exists el1;
                  split; [reflexivity|now apply list_elem_of_In]);
            apply elem_of_map in Hmem as (el0 & Heq & Hel0); eauto).
  all: destruct Hel0 as (el0 & Hel0 & Heq).
  all: destruct (Hgood el0 population Hel0) as [Hremoved|Hpath];
    [rewrite Heq; apply elem_of_map; exists (population, props);
     split; [reflexivity|now apply list_elem_of_In]
    |contradiction|exact Hpath].
Qed.

Lemma update_config_keeps_written_populations_witness :
  let pathlib_join := fun a b : string => (a ++ "/" ++ b)%string in
  let config :=
    {| config_networks :=
         [("nodes",
           [{| stanza_populations := [("A", JDict [])];
               stanza_keys := [("nodes_file", JString "$BASE_DIR/nodes.h5")] |}]);
          ("edges",
           [{| stanza_populations := [("A__A", JDict [])];
               stanza_keys := [("edges_file", JString "$BASE_DIR/e1.h5")] |};
            {| stanza_populations := [("V__A", JDict []); ("W__A", JDict [])];
               stanza_keys := [("edges_file", JString "$BASE_DIR/e2.h5")] |}])];
       config_keys := [("version", JInt 2)] |} in
  let files :=
    [("A__A", "out/A__A/e1.h5"); ("V__A", DELETED_EMPTY_EDGES_FILE);
     ("external_A__A", "out/external_A__A.h5")] in
  exists config',
    _update_config_with_new_paths pathlib_join "out" config files "edges"
    = Ok config' /\
    assoc "edges" (config_networks config')
    = Some [{| stanza_populations := [("A__A", JDict [])];
               stanza_keys :=
                 [("edges_file", JString "$BASE_DIR/A__A/e1.h5")] |}] /\
    forall el,
      el ∈ default [] (assoc "edges" (config_networks config')) ->
      stanza_populations el <> [].
Proof.
  intros pathlib_join config files.
  destruct (_update_config_with_new_paths pathlib_join "out" config files
              "edges") as [config'|e] eqn:Hrun;
    [|exfalso; vm_compute in Hrun; discriminate].
  exists config'. split; [reflexivity|].
  destruct (update_config_keeps_written_populations pathlib_join "out"
              config config' files "edges" Hrun)
    as (_ & _ & _ & els' & Hels' & Hgood).
  split.
  - vm_compute in Hrun. injection Hrun as <-. reflexivity.
  - rewrite Hels'. intros el Hel. now apply Hgood.
Defined.

Section UpdateConfigErrors.

Variable pathlib_join : string -> string -> string.
Variables type_ output : string.

(** The first pass raises nothing but [AssertionError], and leaves in
    [new_population_files] the files of the populations it does not
    meet. *)
Lemma update_population_path_outcome (el : stanza) (population : string)
    (st st' : path_update) (r : result stanza) :
  update_population_path pathlib_join type_ output el population st
  = (st', r) ->
  (forall e, r = Raise e -> e = AssertionError) /\
  (forall key, key <> population ->
     key ∈ dict_keys (remaining_files st) ->
     key ∈ dict_keys (remaining_files st')).
Proof.
  unfold update_population_path, _strip_base_path. run_stateful.
  destruct (assoc population (remaining_files st)) as [path|].
  - destruct (String.eqb path DELETED_EMPTY_EDGES_FILE).
    + intros [= <- <-]. split; [discriminate|]. simpl.
      intros key Hne Hkey. now apply dict_del_keys_ne.
    + destruct (String.prefix output path).
      * destruct (String.eqb _ path); intros [= <- <-];
          (split; [congruence|]); simpl;
          intros key Hne Hkey; now apply dict_del_keys_ne.
      * intros [= <- <-]. split; [congruence|]. simpl.
        intros key Hne Hkey. now apply dict_del_keys_ne.
  - intros [= <- <-]. split; [discriminate|]. trivial.
Qed.

Lemma update_populations_outcome (populations : list string) :
  forall (el : stanza) (st st' : path_update) (r : result stanza),
    for_acc populations (update_population_path pathlib_join type_ output)
      el st = (st', r) ->
    (forall e, r = Raise e -> e = AssertionError) /\
    (forall key, key ∉ populations ->
       key ∈ dict_keys (remaining_files st) ->
       key ∈ dict_keys (remaining_files st')).
Proof.
  induction populations as [|population populations IH];
    intros el st st' r Hrun; simpl in Hrun.
  - unfold mret, stateful_ret in Hrun. injection Hrun as <- <-.
    split; [discriminate|trivial].
  - unfold mbind, stateful_bind, sbind in Hrun.
    destruct (update_population_path _ _ _ el population st)
      as [st1 r1] eqn:Hfirst.
    apply update_population_path_outcome in Hfirst as [Herr1 Hkeys1].
    destruct r1 as [el1|e1].
    + apply IH in Hrun as [Herr Hkeys]. split; [exact Herr|].
      intros key Hkey Hin. apply Hkeys, Hkeys1; [| |exact Hin];
        intros Heq; apply Hkey; [now right|subst; left].
    + injection Hrun as <- <-. split; [exact Herr1|].
      intros key Hkey Hin. apply Hkeys1; [|exact Hin].
      intros ->. apply Hkey. left.
Qed.

Lemma update_paths_outcome (els : list stanza) :
  forall (st st' : path_update) (r : result (list stanza)),
    update_paths pathlib_join type_ output els st = (st', r) ->
    (forall e, r = Raise e -> e = AssertionError) /\
    (forall key,
       (forall el, el ∈ els -> key ∉ dict_keys (stanza_populations el)) ->
       key ∈ dict_keys (remaining_files st) ->
       key ∈ dict_keys (remaining_files st')).
Proof.
  induction els as [|el els IH]; intros st st' r Hrun; simpl in Hrun.
  - unfold mret, stateful_ret in Hrun. injection Hrun as <- <-.
    split; [discriminate|trivial].
  - unfold mbind, stateful_bind, sbind in Hrun.
    destruct (update_stanza_paths _ _ _ el st) as [st1 r1] eqn:Hfirst.
    apply update_populations_outcome in Hfirst as [Herr1 Hkeys1].
    destruct r1 as [el1|e1].
    + destruct (update_paths _ _ _ els st1) as [st2 r2] eqn:Hrest.
      apply IH in Hrest as [Herr2 Hkeys2].
      assert (Hkeys : forall key,
                (forall el0, el0 ∈ el :: els ->
                   key ∉ dict_keys (stanza_populations el0)) ->
                key ∈ dict_keys (remaining_files st) ->
                key ∈ dict_keys (remaining_files st2)).
      { intros key Hkey Hin. apply Hkeys2.
        - intros el0 Hel0. apply Hkey. now right.
        - apply Hkeys1; [|exact Hin]. apply Hkey. left. }
      destruct r2 as [rest|e2].
      * unfold mret, stateful_ret in Hrun. injection Hrun as <- <-.
        split; [discriminate|exact Hkeys].
      * injection Hrun as <- <-. split; [exact Herr2|exact Hkeys].
    + injection Hrun as <- <-.
      split; [intros e [= <-]; now apply Herr1|].
      intros key Hkey Hin. apply Hkeys1; [|exact Hin]. apply Hkey. left.
Qed.

End UpdateConfigErrors.

(** X14: [_update_config_with_new_paths] refuses files it cannot place:
    when [new_population_files] has a population whose name does not
    start with [external] and that no element of the updated type names,
    the call ends in an [AssertionError], whatever the other files are. *)
Theorem update_config_unused_population
    (pathlib_join : string -> string -> string) (output : string)
    (config : sonata_config) (new_population_files : list (string * string))
    (type_ : string) (els : list stanza) (population : string) :
  type_ = "nodes" \/ type_ = "edges" ->
  assoc type_ (config_networks config) = Some els ->
  population ∈ dict_keys new_population_files ->
  String.prefix "external" population = false ->
  (forall el, el ∈ els ->
     population ∉ dict_keys (stanza_populations el)) ->
  _update_config_with_new_paths pathlib_join output config
    new_population_files type_ = Raise AssertionError.
Proof.
  intros Htype Hels Hfile Hname Hunused.
  unfold _update_config_with_new_paths, dict_get.
  replace (negb (String.eqb type_ "nodes" || String.eqb type_ "edges"))
    with false by (destruct Htype as [-> | ->]; reflexivity).
  rewrite Hels. run_result.
  destruct (update_paths pathlib_join type_ output els _)
    as [st r] eqn:Hrun.
  apply update_paths_outcome in Hrun as [Herr Hkeys].
  destruct r as [els1|e]; run_result; [|now rewrite (Herr e eq_refl)].
  specialize (Hkeys population Hunused Hfile).
  replace (forallb (String.prefix "external") (dict_keys (remaining_files st)))
    with false; [reflexivity|].
  symmetry. apply not_true_is_false. intros Hall.
  rewrite forallb_forall in Hall.
  apply list_elem_of_In, Hall in Hkeys. congruence.
Qed.

Lemma update_config_unused_population_witness :
  _update_config_with_new_paths (fun a b : string => (a ++ "/" ++ b)%string)
    "out"
    {| config_networks :=
         [("edges",
           [{| stanza_populations := [("A__A", JDict [])];
               stanza_keys := [("edges_file", JString "$BASE_DIR/e1.h5")] |}])];
       config_keys := [] |}
    [("A__A", "out/A__A/e1.h5"); ("B__B", "out/B__B/e1.h5")] "edges"
  = Raise AssertionError.
Proof.
  apply (update_config_unused_population _ "out" _ _ "edges"
           [{| stanza_populations := [("A__A", JDict [])];
               stanza_keys := [("edges_file", JString "$BASE_DIR/e1.h5")] |}]
           "B__B").
  - now right.
  - reflexivity.
  - simpl. right. left.
  - reflexivity.
  - intros el Hel. apply list_elem_of_singleton in Hel. subst el. simpl.
    intros Hin. apply list_elem_of_singleton in Hin. discriminate.
Defined.

(** ** Every edge is written once *)

Lemma assoc_of_elem {V} (d : list (string * V)) (key : string) (v : V) :
  NoDup (dict_keys d) -> (key, v) ∈ d -> assoc key d = Some v.
Proof.
  induction d as [|[k w] d IH]; simpl; intros Hnodup Hin.
  - now apply elem_of_nil in Hin.
  - apply NoDup_cons in Hnodup as [Hfresh Hnodup].
    apply elem_of_cons in Hin as [Heq|Hin].
    + injection Heq as -> ->. now rewrite String.eqb_refl.
    + destruct (String.eqb_spec key k) as [->|_]; [|now apply IH].
      exfalso. apply Hfresh. apply elem_of_map. now exists (k, v).
Qed.

Lemma list_sum_map_add {A} (f g : A -> nat) (l : list A) :
  list_sum (map (fun x => (f x + g x)%nat) l)
  = (list_sum (map f l) + list_sum (map g l))%nat.
Proof. induction l as [|x l IH]; simpl; lia. Qed.

Lemma list_sum_map_mul {A} (c : nat) (g : A -> nat) (l : list A) :
  list_sum (map (fun x => (c * g x)%nat) l) = (c * list_sum (map g l))%nat.
Proof. induction l as [|x l IH]; simpl; lia. Qed.

(** A sum over [itertools.product] of a product of two terms is the
    product of the sums. *)
Lemma list_sum_prod {A B} (f : A -> nat) (g : B -> nat) (l1 : list A)
    (l2 : list B) :
  list_sum (map (fun p => (f (fst p) * g (snd p))%nat) (list_prod l1 l2))
  = (list_sum (map f l1) * list_sum (map g l2))%nat.
Proof.
  induction l1 as [|x l1 IH]; simpl; [reflexivity|].
  rewrite map_app, list_sum_app, IH, map_map. cbn [fst snd].
  rewrite list_sum_map_mul. lia.
Qed.

Lemma list_prod_map {A B C D} (f : A -> C) (g : B -> D) (l1 : list A)
    (l2 : list B) :
  list_prod (map f l1) (map g l2)
  = map (fun p => (f (fst p), g (snd p))) (list_prod l1 l2).
Proof.
  induction l1 as [|x l1 IH]; simpl; [reflexivity|].
  now rewrite map_app, IH, !map_map.
Qed.

(** Among mappings whose old ids are all distinct, an id of one of them
    is an old id of exactly one. *)
Lemma sum_hits_zero (items : list (string * mapping_df)) (id : Z) :
  id ∉ concat (map (fun item => df_index (snd item)) items) ->
  list_sum
    (map (fun item =>
            if existsb (Z.eqb id) (df_index (snd item)) then 1%nat else 0%nat)
       items) = 0%nat.
Proof.
  induction items as [|item items IH]; simpl; [reflexivity|].
  rewrite elem_of_app. intros Hnot.
  destruct (existsb (Z.eqb id) (df_index (snd item))) eqn:Hhit.
  - apply existsb_eqb_elem in Hhit. tauto.
  - rewrite IH; tauto.
Qed.

Lemma sum_hits_one (items : list (string * mapping_df)) (id : Z) :
  NoDup (concat (map (fun item => df_index (snd item)) items)) ->
  id ∈ concat (map (fun item => df_index (snd item)) items) ->
  list_sum
    (map (fun item =>
            if existsb (Z.eqb id) (df_index (snd item)) then 1%nat else 0%nat)
       items) = 1%nat.
Proof.
  induction items as [|item items IH]; simpl; intros Hnodup Hin.
  - now apply elem_of_nil in Hin.
  - apply NoDup_app in Hnodup as (_ & Hdisjoint & Hnodup).
    destruct (existsb (Z.eqb id) (df_index (snd item))) eqn:Hhit.
    + apply existsb_eqb_elem in Hhit.
      rewrite sum_hits_zero; [reflexivity|]. now apply Hdisjoint.
    + apply elem_of_app in Hin as [Hin|Hin].
      * apply existsb_eqb_elem in Hin. congruence.
      * now rewrite IH.
Qed.

(** The edges kept for the ordered pairs of a partition add up to all
    edges. *)
Lemma kept_counts_sum (items : list (string * mapping_df))
    (edges : list (Z * Z)) :
  NoDup (concat (map (fun item => df_index (snd item)) items)) ->
  Forall (fun edge =>
            fst edge ∈ concat (map (fun item => df_index (snd item)) items) /\
            snd edge ∈ concat (map (fun item => df_index (snd item)) items))
    edges ->
  list_sum
    (map (fun p : (string * mapping_df) * (string * mapping_df) =>
            length (List.filter
                      (edge_kept (df_index (snd (fst p)))
                         (df_index (snd (snd p)))) edges))
       (list_prod items items))
  = length edges.
Proof.
  intros Hnodup. induction 1 as [|[s t] edges [Hs Ht] Hall IH].
  - simpl. induction (list_prod items items) as [|p l IHl]; simpl; auto.
  - cbn [fst snd] in Hs, Ht.
    rewrite (map_ext _
               (fun p : (string * mapping_df) * (string * mapping_df) =>
                  ((if existsb (Z.eqb s) (df_index (snd (fst p)))
                    then 1 else 0)
                   * (if existsb (Z.eqb t) (df_index (snd (snd p)))
                      then 1 else 0)
                   + length (List.filter
                               (edge_kept (df_index (snd (fst p)))
                                  (df_index (snd (snd p)))) edges))%nat)).
    + rewrite list_sum_map_add, IH.
      rewrite (list_sum_prod
                 (fun item : string * mapping_df =>
                    if existsb (Z.eqb s) (df_index (snd item))
                    then 1%nat else 0%nat)
                 (fun item : string * mapping_df =>
                    if existsb (Z.eqb t) (df_index (snd item))
                    then 1%nat else 0%nat)).
      rewrite !sum_hits_one by assumption. reflexivity.
    + intros p. simpl. unfold edge_kept at 1. cbn [fst snd].
      destruct (existsb (Z.eqb s) (df_index (snd (fst p)))),
               (existsb (Z.eqb t) (df_index (snd (snd p)))); reflexivity.
Qed.

Lemma NoDup_concat_elem {A B} (f : A -> list B) (items : list A) (x : A) :
  NoDup (concat (map f items)) -> x ∈ items -> NoDup (f x).
Proof.
  induction items as [|y items IH]; simpl; intros Hnodup Hin.
  - now apply elem_of_nil in Hin.
  - apply NoDup_app in Hnodup as (Hy & _ & Hrest).
    apply elem_of_cons in Hin as [->|Hin]; [exact Hy|now apply IH].
Qed.

Lemma Forall_concat_elem {A B} (P : B -> Prop) (f : A -> list B)
    (items : list A) (x : A) :
  Forall P (concat (map f items)) -> x ∈ items -> Forall P (f x).
Proof.
  induction items as [|y items IH]; simpl; intros Hall Hin.
  - now apply elem_of_nil in Hin.
  - apply Forall_app in Hall as [Hy Hrest].
    apply elem_of_cons in Hin as [->|Hin]; [exact Hy|now apply IH].
Qed.

Lemma np_max_Ok (values : list Z) :
  values <> [] -> exists m, np_max values = Ok m.
Proof. destruct values as [|v rest]; [congruence|]. simpl. eauto. Qed.

Section EdgePartition.

Variables (env : environ) (output name : string).
Variables (orig_edges : edge_population) (orig_group : h5group).
Variable id_mapping : list (string * mapping_df).
Variable h5_read_chunk_size : option Z.

Hypothesis group_present :
  assoc GROUP_NAME (groups orig_edges) = Some orig_group.
Hypothesis ids_aligned :
  length (source_node_id orig_edges) = length (target_node_id orig_edges).
Hypothesis group_supported :
  supported_group (length (source_node_id orig_edges)) orig_group.
Hypothesis env_chunk : 1 <= _h5_get_read_chunk_size env.
Hypothesis arg_chunk : forall c, h5_read_chunk_size = Some c -> 1 <= c.
Hypothesis names_distinct : NoDup (dict_keys id_mapping).
Hypothesis ids_distinct :
  forall item, item ∈ id_mapping -> NoDup (df_index (snd item)).
Hypothesis ids_non_negative :
  forall item, item ∈ id_mapping ->
    Forall (fun i => 0 <= i) (df_index (snd item)).

(** The [with] block of one ordered pair counts the edges kept for it. *)
Lemma write_edges_block_kept (src dst : string * mapping_df) :
  src ∈ id_mapping -> dst ∈ id_mapping ->
  exists h5out sgid_count tgid_count,
    write_edges_block env [(name, orig_edges)] id_mapping h5_read_chunk_size
      (fst src) (fst dst) []
    = (h5out,
       Ok (length
             (List.filter
                (edge_kept (df_index (snd src)) (df_index (snd dst)))
                (combine (source_node_id orig_edges)
                   (target_node_id orig_edges))),
           sgid_count, tgid_count)).
Proof.
  destruct src as [a src_mapping], dst as [b dst_mapping]. cbn [fst snd].
  intros Hsrc Hdst.
  set (kept := List.filter _ _).
  pose proof (ids_distinct _ Hsrc) as Hs_nodup.
  pose proof (ids_distinct _ Hdst) as Ht_nodup.
  pose proof (ids_non_negative _ Hsrc) as Hs_pos.
  pose proof (ids_non_negative _ Hdst) as Ht_pos.
  cbn [snd] in Hs_nodup, Ht_nodup, Hs_pos, Ht_pos.
  destruct (filter_kept_in_index (df_index src_mapping)
              (df_index dst_mapping)
              (combine (source_node_id orig_edges)
                 (target_node_id orig_edges))) as [Hs_in Ht_in].
  fold kept in Hs_in, Ht_in.
  assert (Hs_len : length (loc_new_ids src_mapping (map fst kept))
                   = length kept).
  { pose proof (loc_new_ids_rows src_mapping (map fst kept) Hs_nodup Hs_in)
      as Hrows.
    apply Forall2_length in Hrows. now rewrite length_map in Hrows. }
  assert (Ht_len : length (loc_new_ids dst_mapping (map snd kept))
                   = length kept).
  { pose proof (loc_new_ids_rows dst_mapping (map snd kept) Ht_nodup Ht_in)
      as Hrows.
    apply Forall2_length in Hrows. now rewrite length_map in Hrows. }
  unfold write_edges_block. run_stateful.
  rewrite get_unique_population_single. unfold dict_get.
  rewrite (assoc_of_elem id_mapping a src_mapping names_distinct Hsrc).
  rewrite (assoc_of_elem id_mapping b dst_mapping names_distinct Hdst).
  rewrite (copy_edge_attributes_closed env [(name, orig_edges)] a b name
             (_get_population_name a b) src_mapping dst_mapping
             h5_read_chunk_size [] orig_edges orig_group);
    try assumption; try reflexivity;
    [|simpl; now rewrite String.eqb_refl].
  unfold _get_node_counts. rewrite assoc_dict_set_eq.
  unfold copied_edges, _finalize_edges, copy_state.
  cbn [source_node_id target_node_id]. fold kept. rewrite Hs_len.
  destruct (Nat.ltb_spec 0 (length kept)) as [Hpos|Hzero].
  - destruct (np_max_Ok (loc_new_ids src_mapping (map fst kept)))
      as (smax & ->).
    { intros Hnil. rewrite Hnil in Hs_len. simpl in Hs_len. lia. }
    destruct (np_max_Ok (loc_new_ids dst_mapping (map snd kept)))
      as (tmax & ->).
    { intros Hnil. rewrite Hnil in Ht_len. simpl in Ht_len. lia. }
    run_result. eauto.
  - eauto.
Qed.

Lemma write_edges_pair_kept (src dst : string * mapping_df)
    (written_edges : nat) (dir : directory) :
  src ∈ id_mapping -> dst ∈ id_mapping ->
  exists dir',
    write_edges_pair env output [(name, orig_edges)] id_mapping
      h5_read_chunk_size written_edges (fst src, fst dst) dir
    = (dir',
       Ok (written_edges
           + length
               (List.filter
                  (edge_kept (df_index (snd src)) (df_index (snd dst)))
                  (combine (source_node_id orig_edges)
                     (target_node_id orig_edges))))%nat).
Proof.
  intros Hsrc Hdst.
  destruct (write_edges_block_kept src dst Hsrc Hdst)
    as (h5out & sgid_count & tgid_count & Hblock).
  destruct (write_edges_pair_cases env output [(name, orig_edges)] id_mapping
              h5_read_chunk_size written_edges (fst src) (fst dst) dir
              _ _ _ _ Hblock) as [Hzero Hpos].
  destruct (length (List.filter _ _)) as [|n] eqn:Hcount.
  - rewrite Hzero by reflexivity. rewrite Nat.add_0_r. eauto.
  - destruct Hpos as (p & _ & _ & ->); [discriminate|]. eauto.
Qed.

Lemma write_edges_loop_kept
    (pairs : list ((string * mapping_df) * (string * mapping_df))) :
  (forall p, p ∈ pairs -> fst p ∈ id_mapping /\ snd p ∈ id_mapping) ->
  forall (written_edges : nat) (dir : directory),
  exists dir',
    for_acc (map (fun p => (fst (fst p), fst (snd p))) pairs)
      (write_edges_pair env output [(name, orig_edges)] id_mapping
         h5_read_chunk_size) written_edges dir
    = (dir',
       Ok (written_edges
           + list_sum
               (map (fun p : (string * mapping_df) * (string * mapping_df) =>
                       length
                         (List.filter
                            (edge_kept (df_index (snd (fst p)))
                               (df_index (snd (snd p))))
                            (combine (source_node_id orig_edges)
                               (target_node_id orig_edges))))
                  pairs))%nat).
Proof.
  induction pairs as [|p pairs IH]; intros Hpairs written_edges dir; simpl.
  - unfold mret, stateful_ret. rewrite Nat.add_0_r. eauto.
  - destruct (Hpairs p) as [Hsrc Hdst]; [left|].
    destruct (write_edges_pair_kept (fst p) (snd p) written_edges dir
                Hsrc Hdst) as (dir1 & Hpair).
    unfold mbind, stateful_bind, sbind. rewrite Hpair.
    assert (Hrest : forall q, q ∈ pairs ->
                      fst q ∈ id_mapping /\ snd q ∈ id_mapping)
      by (intros q Hq; apply Hpairs; now right).
    destruct (IH Hrest
                (written_edges
                 + length
                     (List.filter
                        (edge_kept (df_index (snd (fst p)))
                           (df_index (snd (snd p))))
                        (combine (source_node_id orig_edges)
                           (target_node_id orig_edges))))%nat dir1)
      as (dir' & ->).
    exists dir'. f_equal. f_equal. lia.
Qed.

End EdgePartition.

(** X15: the exhaustive split loses no edge: when the old ids of the
    populations of [id_mapping] are all distinct and non-negative (the
    populations share no node) and every source and target id of the
    edges is among them, [_write_edges] with [expect_to_use_all_edges]
    returns normally, and the edge counts of the ordered pairs add up
    to the edge count of the input population. The input holds one
    population with a supported group ['0'] and id arrays of one length;
    the chunk sizes are at least one row. *)
Theorem write_edges_partition_uses_all_edges (env : environ)
    (output name : string) (orig_edges : edge_population)
    (orig_group : h5group) (id_mapping : list (string * mapping_df))
    (h5_read_chunk_size : option Z) (dir : directory) :
  assoc GROUP_NAME (groups orig_edges) = Some orig_group ->
  length (source_node_id orig_edges) = length (target_node_id orig_edges) ->
  supported_group (length (source_node_id orig_edges)) orig_group ->
  1 <= _h5_get_read_chunk_size env ->
  (forall c, h5_read_chunk_size = Some c -> 1 <= c) ->
  NoDup (dict_keys id_mapping) ->
  NoDup (concat (map (fun item => df_index (snd item)) id_mapping)) ->
  Forall (fun i => 0 <= i)
    (concat (map (fun item => df_index (snd item)) id_mapping)) ->
  Forall (fun edge =>
            fst edge
            ∈ concat (map (fun item => df_index (snd item)) id_mapping) /\
            snd edge
            ∈ concat (map (fun item => df_index (snd item)) id_mapping))
    (combine (source_node_id orig_edges) (target_node_id orig_edges)) ->
  (exists dir',
     _write_edges env output [(name, orig_edges)] id_mapping
       h5_read_chunk_size true dir = (dir', Ok tt)) /\
  list_sum
    (map (pair_edge_count env [(name, orig_edges)] id_mapping
            h5_read_chunk_size)
       (product_keys id_mapping))
  = length (source_node_id orig_edges).
Proof.
  intros Hgroup Hlen Hsup Henv Hsize Hnames Hids Hpos Hcover.
  assert (Hpairs : product_keys id_mapping
                   = map (fun p : (string * mapping_df) * (string * mapping_df)
                            => (fst (fst p), fst (snd p)))
                       (list_prod id_mapping id_mapping)).
  { unfold product_keys, dict_keys. apply list_prod_map. }
  destruct (write_edges_loop_kept env output name orig_edges orig_group
              id_mapping h5_read_chunk_size Hgroup Hlen Hsup Henv Hsize
              Hnames
              (fun item => NoDup_concat_elem
                             (fun item : string * mapping_df =>
                                df_index (snd item)) id_mapping item Hids)
              (fun item => Forall_concat_elem _
                             (fun item : string * mapping_df =>
                                df_index (snd item)) id_mapping item Hpos)
              (list_prod id_mapping id_mapping))
    with (written_edges := 0%nat) (dir := dir) as (dir' & Hloop).
  { intros [src dst] Hin. apply list_elem_of_In, in_prod_iff in Hin.
    cbn [fst snd]. now rewrite !list_elem_of_In. }
  rewrite <- Hpairs, (kept_counts_sum id_mapping _ Hids Hcover) in Hloop.
  rewrite length_combine, <- Hlen, Nat.min_id in Hloop. cbn [Nat.add] in Hloop.
  split.
  - exists dir'. unfold _write_edges, mbind, stateful_bind, sbind.
    rewrite Hloop. unfold lift, _check_all_edges_used.
    rewrite get_unique_population_single. run_result.
    unfold dict_get. cbn [assoc]. rewrite String.eqb_refl. run_result.
    now rewrite Nat.eqb_refl.
  - apply write_edges_loop_count in Hloop. cbn [Nat.add] in Hloop.
    now symmetry.
Qed.

Lemma write_edges_partition_uses_all_edges_witness :
  (exists dir',
     _write_edges None "out" [("default", test_edges_population)]
       test_id_mapping (Some 3) true ∅ = (dir', Ok tt)) /\
  list_sum
    (map (pair_edge_count None [("default", test_edges_population)]
            test_id_mapping (Some 3))
       (product_keys test_id_mapping))
  = length (source_node_id test_edges_population).
Proof.
  apply (write_edges_partition_uses_all_edges None "out" "default"
           test_edges_population
           [("delay", H5Dataset [10; 11; 12; 13]);
            ("dynamics_params", H5Group [("u_syn", H5Dataset [1; 2; 3; 4])])]
           test_id_mapping (Some 3) ∅).
  - reflexivity.
  - reflexivity.
  - exact test_group_supported.
  - vm_compute. discriminate.
  - intros c [= <-]. lia.
  - compute_done.
  - compute_done.
  - compute_done.
  - compute_done.
Defined.

(** ** Relative paths in the configuration of a subcircuit *)

Lemma prefix_append (s t : string) : String.prefix s (s ++ t) = true.
Proof.
  induction s as [|c s IH]; simpl; [now destruct t|].
  now destruct (Ascii.ascii_dec c c).
Qed.

Lemma substring_all (s : string) : String.substring 0 (String.length s) s = s.
Proof. induction s as [|c s IH]; simpl; [reflexivity|now rewrite IH]. Qed.

Lemma str_drop_append (s t : string) :
  str_drop (String.length s) (s ++ t) = t.
Proof.
  unfold str_drop. induction s as [|c s IH]; simpl.
  - rewrite Nat.sub_0_r. apply substring_all.
  - exact IH.
Qed.

(** [_strip_base_path] gives back the path below [output]. *)
Lemma strip_base_path_relative (output rel : string) :
  String.prefix "/" rel = false ->
  _strip_base_path output (output ++ "/" ++ rel) = Ok rel.
Proof.
  intros Hrel. unfold _strip_base_path.
  rewrite prefix_append, str_drop_append.
  replace (String.prefix "/" ("/" ++ rel)) with true by now destruct rel.
  unfold str_drop. simpl. now rewrite Nat.sub_0_r, substring_all.
Qed.

Lemma base_dir_join (rel : string) :
  String.prefix "/" rel = false ->
  os_path_join "$BASE_DIR" rel = ("$BASE_DIR/" ++ rel)%string.
Proof. intros Hrel. unfold os_path_join. now rewrite Hrel. Qed.

Lemma dict_del_absent {V} (d : list (string * V)) (key : string) :
  assoc key d = None -> dict_del d key = d.
Proof.
  induction d as [|[k w] d IH]; simpl; [reflexivity|].
  destruct (String.eqb key k); [discriminate|].
  intros Hd. now rewrite IH.
Qed.

Lemma dict_del_keys {V} (d : list (string * V)) (key key' : string) :
  NoDup (dict_keys d) ->
  key' ∈ dict_keys (dict_del d key) -> key' ∈ dict_keys d /\ key' <> key.
Proof.
  induction d as [|[k w] d IH]; simpl; intros Hnodup Hin.
  - now apply elem_of_nil in Hin.
  - apply NoDup_cons in Hnodup as [Hfresh Hnodup].
    destruct (String.eqb_spec key k) as [->|Hne].
    + split; [now right|]. intros ->. contradiction.
    + simpl in Hin. apply elem_of_cons in Hin as [->|Hin].
      * split; [left|congruence].
      * destruct (IH Hnodup Hin). split; [now right|assumption].
Qed.

Lemma dict_del_NoDup {V} (d : list (string * V)) (key : string) :
  NoDup (dict_keys d) -> NoDup (dict_keys (dict_del d key)).
Proof.
  induction d as [|[k w] d IH]; simpl; intros Hnodup; [exact Hnodup|].
  apply NoDup_cons in Hnodup as [Hfresh Hnodup].
  destruct (String.eqb key k); [exact Hnodup|]. simpl.
  apply NoDup_cons. split; [|now apply IH].
  intros Hin. apply Hfresh. now apply (dict_del_keys d key k Hnodup).
Qed.

Lemma assoc_fold_del_ne {V} (keys : list string) (d : list (string * V))
    (key : string) :
  key ∉ keys -> assoc key (fold_left dict_del keys d) = assoc key d.
Proof.
  revert d. induction keys as [|k keys IH]; intros d Hkey; simpl;
    [reflexivity|].
  rewrite IH by (intros Hin; apply Hkey; now right).
  apply assoc_dict_del_ne. intros ->. apply Hkey. left.
Qed.

Lemma fold_del_keys {V} (keys : list string) (d : list (string * V))
    (key : string) :
  NoDup (dict_keys d) ->
  key ∈ dict_keys (fold_left dict_del keys d) ->
  key ∈ dict_keys d /\ key ∉ keys.
Proof.
  revert d. induction keys as [|k keys IH]; intros d Hnodup Hin; simpl in Hin.
  - split; [exact Hin|apply not_elem_of_nil].
  - apply IH in Hin as [Hin Hrest]; [|now apply dict_del_NoDup].
    apply dict_del_keys in Hin as [Hin Hne]; [|exact Hnodup].
    split; [exact Hin|]. intros [->|Hk]%elem_of_cons; contradiction.
Qed.

Section UpdateConfigPaths.

Variable pathlib_join : string -> string -> string.
Variables type_ output : string.
Variable new_population_files : list (string * string).

(** The populations the configuration names. *)
Variable named : list string.

(** Their files lie below [output], at a relative path [pathlib] joins
    back to the same string. *)
Hypothesis files_below_output :
  forall population path,
    population ∈ named ->
    assoc population new_population_files = Some path ->
    path <> DELETED_EMPTY_EDGES_FILE ->
    exists rel,
      path = (output ++ "/" ++ rel)%string /\
      String.prefix "/" rel = false /\
      pathlib_join output rel = path.

Lemma update_population_path_run (el : stanza) (population : string)
    (st : path_update) :
  population ∈ named ->
  assoc population (remaining_files st)
  = assoc population new_population_files ->
  exists st' el',
    update_population_path pathlib_join type_ output el population st
    = (st', Ok el') /\
    stanza_populations el' = stanza_populations el /\
    remaining_files st' = dict_del (remaining_files st) population /\
    (population_written new_population_files population = true ->
     removed_populations st' = removed_populations st /\
     exists rel,
       assoc population new_population_files
       = Some (output ++ "/" ++ rel)%string /\
       stanza_keys el'
       = dict_set (stanza_keys el) (type_ ++ "_file")
           (JString ("$BASE_DIR/" ++ rel))) /\
    (population_written new_population_files population = false ->
     removed_populations st' = {[population]} ∪ removed_populations st /\
     stanza_keys el' = stanza_keys el).
Proof.
  intros Hnamed Hassoc.
  unfold update_population_path, population_written. run_stateful.
  rewrite Hassoc.
  destruct (assoc population new_population_files) as [path|] eqn:Hpath.
  - destruct (String.eqb_spec path DELETED_EMPTY_EDGES_FILE) as [->|Hne].
    + do 2 eexists. split; [reflexivity|]. simpl.
      split; [reflexivity|]. split; [reflexivity|].
      split; [discriminate|]. intros _. split; reflexivity.
    + destruct (files_below_output population path Hnamed Hpath Hne)
        as (rel & -> & Hrel & Hjoin).
      rewrite (strip_base_path_relative output rel Hrel).
      rewrite Hjoin, String.eqb_refl, (base_dir_join rel Hrel).
      do 2 eexists. split; [reflexivity|]. simpl.
      split; [reflexivity|]. split; [reflexivity|].
      split; [|discriminate]. intros _. split; [reflexivity|].
      exists rel. split; reflexivity.
  - do 2 eexists. split; [reflexivity|]. simpl.
    split; [reflexivity|].
    split; [symmetry; now apply dict_del_absent; rewrite Hassoc|].
    split; [discriminate|]. intros _. split; reflexivity.
Qed.

Lemma update_populations_run (populations : list string) :
  forall (el : stanza) (st : path_update),
    NoDup populations ->
    (forall p, p ∈ populations -> p ∈ named) ->
    (forall p, p ∈ populations ->
       assoc p (remaining_files st) = assoc p new_population_files) ->
    exists st' el',
      for_acc populations (update_population_path pathlib_join type_ output)
        el st = (st', Ok el') /\
      stanza_populations el' = stanza_populations el /\
      remaining_files st'
      = fold_left dict_del populations (remaining_files st) /\
      (forall q,
         q ∈ removed_populations st' <->
         q ∈ removed_populations st \/
         (q ∈ populations /\
          population_written new_population_files q = false)) /\
      ((stanza_keys el' = stanza_keys el /\
        forall p, p ∈ populations ->
          population_written new_population_files p = false) \/
       exists p rel,
         p ∈ populations /\
         population_written new_population_files p = true /\
         assoc p new_population_files = Some (output ++ "/" ++ rel)%string /\
         assoc (type_ ++ "_file") (stanza_keys el')
         = Some (JString ("$BASE_DIR/" ++ rel))).
Proof.
  induction populations as [|p populations IH];
    intros el st Hnodup Hnamed Hassoc.
  - exists st, el. split; [reflexivity|]. split; [reflexivity|].
    split; [reflexivity|]. split.
    + intros q. split; [now left|].
      intros [Hq|[Hq _]]; [exact Hq|now apply elem_of_nil in Hq].
    + left. split; [reflexivity|]. intros p Hp. now apply elem_of_nil in Hp.
  - apply NoDup_cons in Hnodup as [Hfresh Hnodup].
    destruct (update_population_path_run el p st)
      as (st1 & el1 & Hfirst & Hpops1 & Hfiles1 & Hgood1 & Hbad1).
    { apply Hnamed. left. }
    { apply Hassoc. left. }
    destruct (IH el1 st1 Hnodup) as (st' & el' & Hrest & Hpops & Hfiles
                                       & Hremoved & Hkeys).
    { intros q Hq. apply Hnamed. now right. }
    { intros q Hq. rewrite Hfiles1, assoc_dict_del_ne.
      - apply Hassoc. now right.
      - intros ->. contradiction. }
    exists st', el'. split.
    { simpl. unfold mbind, stateful_bind, sbind. now rewrite Hfirst. }
    split; [congruence|]. split; [simpl; now rewrite <- Hfiles1|].
    destruct (population_written new_population_files p) eqn:Hwritten.
    + destruct (Hgood1 eq_refl) as (Hremoved1 & rel & Hpath & Hkeys1).
      split.
      * intros q. rewrite Hremoved, Hremoved1, elem_of_cons. split.
        -- intros [Hq|[Hq Hw]]; [now left|right; tauto].
        -- intros [Hq|[[->|Hq] Hw]]; [now left|congruence|right; tauto].
      * right. destruct Hkeys as [[Hsame _]|(p' & rel' & Hp' & Hw' & Hpath' & Hkey')].
        -- exists p, rel. split; [left|]. split; [exact Hwritten|].
           split; [exact Hpath|]. rewrite Hsame, Hkeys1.
           apply assoc_dict_set_eq.
        -- exists p', rel'. split; [now right|]. tauto.
    + destruct (Hbad1 eq_refl) as (Hremoved1 & Hkeys1).
      split.
      * intros q. rewrite Hremoved, Hremoved1, elem_of_union,
          elem_of_singleton, elem_of_cons. split.
        -- intros [[->|Hq]|[Hq Hw]]; [right; tauto|now left|right; tauto].
        -- intros [Hq|[[->|Hq] Hw]]; [left; now right|left; now left|
                                        right; tauto].
      * destruct Hkeys as [[Hsame Hall]|(p' & rel' & Hp' & Hw' & Hpath' & Hkey')].
        -- left. split; [congruence|].
           intros q [->|Hq]%elem_of_cons; [exact Hwritten|now apply Hall].
        -- right. exists p', rel'. split; [now right|]. tauto.
Qed.

Lemma update_paths_run (els : list stanza) :
  forall st : path_update,
    NoDup (concat (map (fun el => dict_keys (stanza_populations el)) els)) ->
    (forall p,
       p ∈ concat (map (fun el => dict_keys (stanza_populations el)) els) ->
       p ∈ named) ->
    (forall p,
       p ∈ concat (map (fun el => dict_keys (stanza_populations el)) els) ->
       assoc p (remaining_files st) = assoc p new_population_files) ->
    exists st' els',
      update_paths pathlib_join type_ output els st = (st', Ok els') /\
      remaining_files st'
      = fold_left dict_del
          (concat (map (fun el => dict_keys (stanza_populations el)) els))
          (remaining_files st) /\
      (forall q,
         q ∈ removed_populations st' <->
         q ∈ removed_populations st \/
         (q ∈ concat (map (fun el => dict_keys (stanza_populations el)) els) /\
          population_written new_population_files q = false)) /\
      Forall2
        (fun el el' =>
           stanza_populations el' = stanza_populations el /\
           ((forall p, p ∈ dict_keys (stanza_populations el) ->
               population_written new_population_files p = false) \/
            exists p rel,
              p ∈ dict_keys (stanza_populations el) /\
              population_written new_population_files p = true /\
              assoc p new_population_files
              = Some (output ++ "/" ++ rel)%string /\
              assoc (type_ ++ "_file") (stanza_keys el')
              = Some (JString ("$BASE_DIR/" ++ rel))))
        els els'.
Proof.
  induction els as [|el els IH]; intros st Hnodup Hnamed Hassoc.
  - exists st, []. split; [reflexivity|]. split; [reflexivity|].
    split; [|constructor].
    intros q. split; [now left|].
    intros [Hq|[Hq _]]; [exact Hq|now apply elem_of_nil in Hq].
  - simpl in Hnodup, Hnamed, Hassoc.
    apply NoDup_app in Hnodup as (Hnodup1 & Hdisjoint & Hnodup2).
    destruct (update_populations_run (dict_keys (stanza_populations el))
                el st Hnodup1)
      as (st1 & el1 & Hfirst & Hpops1 & Hfiles1 & Hremoved1 & Hkeys1).
    { intros p Hp. apply Hnamed, elem_of_app. now left. }
    { intros p Hp. apply Hassoc, elem_of_app. now left. }
    destruct (IH st1 Hnodup2)
      as (st' & els' & Hrest & Hfiles & Hremoved & Hall).
    { intros p Hp. apply Hnamed, elem_of_app. now right. }
    { intros p Hp. rewrite Hfiles1, assoc_fold_del_ne.
      - apply Hassoc, elem_of_app. now right.
      - intros Hin. now apply (Hdisjoint p). }
    exists st', (el1 :: els'). split.
    { simpl. unfold mbind, stateful_bind, sbind.
      unfold update_stanza_paths. rewrite Hfirst, Hrest. reflexivity. }
    split; [simpl; now rewrite fold_left_app, <- Hfiles1|].
    split.
    + intros q. simpl. rewrite Hremoved, Hremoved1, elem_of_app. tauto.
    + constructor; [|exact Hall]. split; [exact Hpops1|].
      destruct Hkeys1 as [[_ Hbad]|Hgood]; [now left|now right].
Qed.

End UpdateConfigPaths.

(** The second pass and the final filter, once the first pass has removed
    exactly the populations without a file of their own. *)
Lemma drop_removed_layout (type_ output : string)
    (new_population_files : list (string * string)) (removed : gset string)
    (els els1 : list stanza) :
  Forall2
    (fun el el' =>
       stanza_populations el' = stanza_populations el /\
       ((forall p, p ∈ dict_keys (stanza_populations el) ->
           population_written new_population_files p = false) \/
        exists p rel,
          p ∈ dict_keys (stanza_populations el) /\
          population_written new_population_files p = true /\
          assoc p new_population_files = Some (output ++ "/" ++ rel)%string /\
          assoc (type_ ++ "_file") (stanza_keys el')
          = Some (JString ("$BASE_DIR/" ++ rel))))
    els els1 ->
  (forall q,
     q ∈ concat (map (fun el => dict_keys (stanza_populations el)) els) ->
     (q ∈ removed <-> population_written new_population_files q = false)) ->
  map stanza_populations
    (List.filter has_populations (map (drop_removed removed) els1))
  = List.filter
      (fun populations : list (string * json) =>
         match populations with [] => false | _ => true end)
      (map (fun el =>
              List.filter
                (fun item => population_written new_population_files (fst item))
                (stanza_populations el))
         els) /\
  forall el', el' ∈ List.filter has_populations
                      (map (drop_removed removed) els1) ->
    exists population rel,
      population ∈ dict_keys (stanza_populations el') /\
      assoc population new_population_files
      = Some (output ++ "/" ++ rel)%string /\
      assoc (type_ ++ "_file") (stanza_keys el')
      = Some (JString ("$BASE_DIR/" ++ rel)).
Proof.
  induction 1 as [|el el1 els els1 [Hpops Hfile] Hall IH]; intros Hremoved.
  - split; [reflexivity|]. intros el' Hel'. now apply elem_of_nil in Hel'.
  - simpl in Hremoved.
    destruct IH as [IHpops IHfile].
    { intros q Hq. apply Hremoved, elem_of_app. now right. }
    assert (Hkept : stanza_populations (drop_removed removed el1)
                    = List.filter
                        (fun item =>
                           population_written new_population_files (fst item))
                        (stanza_populations el)).
    { cbn [drop_removed stanza_populations]. rewrite Hpops.
      apply filter_ext_in. intros item Hitem.
      assert (Hq : fst item
                   ∈ dict_keys (stanza_populations el)
                     ++ concat (map (fun el => dict_keys (stanza_populations el))
                                  els)).
      { apply elem_of_app. left. apply elem_of_map. exists item.
        split; [reflexivity|now apply list_elem_of_In]. }
      specialize (Hremoved (fst item) Hq).
      destruct (population_written new_population_files (fst item)).
      - apply negb_true_iff, bool_decide_eq_false. intros Hin.
        apply Hremoved in Hin. discriminate.
      - apply negb_false_iff, bool_decide_eq_true. now apply Hremoved. }
    assert (Hhas : has_populations (drop_removed removed el1)
                   = match List.filter
                             (fun item =>
                                population_written new_population_files
                                  (fst item))
                             (stanza_populations el)
                     with [] => false | _ => true end)
      by (unfold has_populations; now rewrite Hkept).
    cbn [map List.filter]. rewrite Hhas.
    destruct (List.filter _ (stanza_populations el)) as [|item kept] eqn:Hfilter.
    + split; [exact IHpops|exact IHfile].
    + split; [cbn [map]; now rewrite Hkept, IHpops|].
      intros el' [->|Hel']%elem_of_cons; [|now apply IHfile].
      destruct Hfile as [Hbad|(p & rel & Hp & Hwritten & Hpath & Hkey)].
      * exfalso.
        assert (Hitem : In item (List.filter
                          (fun item =>
                             population_written new_population_files (fst item))
                          (stanza_populations el)))
          by (rewrite Hfilter; left; reflexivity).
        apply filter_In in Hitem as [Hitem Hw].
        rewrite Hbad in Hw; [discriminate|].
        apply elem_of_map. exists item.
        split; [reflexivity|now apply list_elem_of_In].
      * exists p, rel. split; [|split; [exact Hpath|exact Hkey]].
        rewrite Hkept, <- Hfilter.
        apply elem_of_map in Hp as (item' & Hname & Hitem').
        apply elem_of_map. exists item'. split; [exact Hname|].
        apply list_elem_of_In, filter_In.
        split; [now apply list_elem_of_In|now rewrite <- Hname].
Qed.

(** X16: [_update_config_with_new_paths] on files laid out below
    [output]. Take a configuration whose elements of the updated type
    name each population once, files that all belong to a named
    population or to one called [external...], and, for the named
    populations, paths of the form [output/rel] (with [rel] relative and
    joined back to the same string by [pathlib]) or the sentinel. Then
    the call returns; each element keeps, in order, exactly its
    populations that have a file other than the sentinel; the elements
    left without a population are dropped; and the file of every
    remaining element is [$BASE_DIR/rel] for the file [output/rel] of one
    of the populations it keeps. *)
Theorem update_config_relative_paths
    (pathlib_join : string -> string -> string) (output : string)
    (config : sonata_config) (new_population_files : list (string * string))
    (type_ : string) (els : list stanza) :
  type_ = "nodes" \/ type_ = "edges" ->
  assoc type_ (config_networks config) = Some els ->
  NoDup (dict_keys new_population_files) ->
  NoDup (concat (map (fun el => dict_keys (stanza_populations el)) els)) ->
  (forall population,
     population ∈ dict_keys new_population_files ->
     population
     ∉ concat (map (fun el => dict_keys (stanza_populations el)) els) ->
     String.prefix "external" population = true) ->
  (forall population path,
     population
     ∈ concat (map (fun el => dict_keys (stanza_populations el)) els) ->
     assoc population new_population_files = Some path ->
     path <> DELETED_EMPTY_EDGES_FILE ->
     exists rel,
       path = (output ++ "/" ++ rel)%string /\
       String.prefix "/" rel = false /\
       pathlib_join output rel = path) ->
  exists config' els',
    _update_config_with_new_paths pathlib_join output config
      new_population_files type_ = Ok config' /\
    assoc type_ (config_networks config') = Some els' /\
    map stanza_populations els'
    = List.filter
        (fun populations : list (string * json) =>
           match populations with [] => false | _ => true end)
        (map (fun el =>
                List.filter
                  (fun item =>
                     population_written new_population_files (fst item))
                  (stanza_populations el))
           els) /\
    forall el', el' ∈ els' ->
      exists population rel,
        population ∈ dict_keys (stanza_populations el') /\
        assoc population new_population_files
        = Some (output ++ "/" ++ rel)%string /\
        assoc (type_ ++ "_file") (stanza_keys el')
        = Some (JString ("$BASE_DIR/" ++ rel)).
Proof.
  intros Htype Hels Hfiles Hnamed Hexternal Hpaths.
  unfold _update_config_with_new_paths, dict_get.
  replace (negb (String.eqb type_ "nodes" || String.eqb type_ "edges"))
    with false by (destruct Htype as [-> | ->]; reflexivity).
  rewrite Hels. run_result.
  destruct (update_paths_run pathlib_join type_ output new_population_files
              (concat (map (fun el => dict_keys (stanza_populations el)) els))
              Hpaths els
              {| remaining_files := new_population_files;
                 removed_populations := ∅ |} Hnamed)
    as (st & els1 & Hrun & Hremaining & Hremoved & Hall);
    [trivial|reflexivity|].
  rewrite Hrun. run_result.
  cbn [remaining_files removed_populations] in Hremaining, Hremoved.
  replace (forallb (String.prefix "external") (dict_keys (remaining_files st)))
    with true.
  2:{ symmetry. apply forallb_forall. intros key Hkey.
      apply list_elem_of_In in Hkey. rewrite Hremaining in Hkey.
      apply fold_del_keys in Hkey as [Hkey Hunnamed]; [|exact Hfiles].
      now apply Hexternal. }
  destruct (drop_removed_layout type_ output new_population_files
              (removed_populations st) els els1 Hall) as [Hlayout Hfile].
  { intros q Hq. rewrite Hremoved, elem_of_empty. tauto. }
  do 2 eexists. split; [reflexivity|]. cbn [config_networks].
  split; [apply assoc_dict_set_eq|]. split; [exact Hlayout|exact Hfile].
Qed.

Lemma update_config_relative_paths_witness :
  let pathlib_join := fun a b : string => (a ++ "/" ++ b)%string in
  let els :=
    [{| stanza_populations := [("A__A", JDict [])];
        stanza_keys := [("edges_file", JString "$BASE_DIR/e1.h5")] |};
     {| stanza_populations := [("V__A", JDict [])];
        stanza_keys := [("edges_file", JString "$BASE_DIR/e2.h5")] |}] in
  let config :=
    {| config_networks := [("nodes", []); ("edges", els)];
       config_keys := [("version", JInt 2)] |} in
  let files :=
    [("A__A", "out/A__A/e1.h5"); ("V__A", DELETED_EMPTY_EDGES_FILE);
     ("external_A__A", "out/external_A__A.h5")] in
  exists config' els',
    _update_config_with_new_paths pathlib_join "out" config files "edges"
    = Ok config' /\
    assoc "edges" (config_networks config') = Some els' /\
    map stanza_populations els' = [[("A__A", JDict [])]] /\
    forall el', el' ∈ els' ->
      exists population rel,
        population ∈ dict_keys (stanza_populations el') /\
        assoc population files = Some ("out" ++ "/" ++ rel)%string /\
        assoc "edges_file" (stanza_keys el')
        = Some (JString ("$BASE_DIR/" ++ rel)).
Proof.
  intros pathlib_join els config files.
  apply (update_config_relative_paths pathlib_join "out" config files
           "edges" els).
  - now right.
  - reflexivity.
  - compute_done.
  - compute_done.
  - intros population Hfile Hunnamed. simpl in Hfile, Hunnamed.
    apply elem_of_cons in Hfile as [->|Hfile];
      [exfalso; apply Hunnamed; left|].
    apply elem_of_cons in Hfile as [->|Hfile];
      [exfalso; apply Hunnamed; right; left|].
    apply list_elem_of_singleton in Hfile. now subst.
  - intros population path Hnamed Hpath Hne. simpl in Hnamed.
    apply elem_of_cons in Hnamed as [->|Hnamed].
    + injection Hpath as <-. exists "A__A/e1.h5". now repeat split.
    + apply list_elem_of_singleton in Hnamed. subst population.
      injection Hpath as <-. now contradiction Hne.
Defined.

(** ** The path [_write_subcircuit_edges] returns *)

(** The counts of a copied population. *)
Lemma get_node_counts_copied (h5out : h5file)
    (src_node_name dst_node_name dst_edge_name : string)
    (src_mapping dst_mapping : mapping_df) (orig_edges : edge_population)
    (orig_group : h5group) :
  NoDup (df_index src_mapping) -> NoDup (df_index dst_mapping) ->
  length
    (source_node_id
       (copied_edges src_node_name dst_node_name src_mapping dst_mapping
          orig_edges orig_group))
  = length
      (List.filter (edge_kept (df_index src_mapping) (df_index dst_mapping))
         (combine (source_node_id orig_edges) (target_node_id orig_edges))) /\
  exists sgid_count tgid_count,
    _get_node_counts
      (dict_set h5out dst_edge_name
         (copied_edges src_node_name dst_node_name src_mapping dst_mapping
            orig_edges orig_group))
      dst_edge_name
    = Ok (length
            (List.filter
               (edge_kept (df_index src_mapping) (df_index dst_mapping))
               (combine (source_node_id orig_edges)
                  (target_node_id orig_edges))),
          sgid_count, tgid_count).
Proof.
  intros Hs_nodup Ht_nodup.
  set (kept := List.filter _ _).
  destruct (filter_kept_in_index (df_index src_mapping)
              (df_index dst_mapping)
              (combine (source_node_id orig_edges)
                 (target_node_id orig_edges))) as [Hs_in Ht_in].
  fold kept in Hs_in, Ht_in.
  assert (Hs_len : length (loc_new_ids src_mapping (map fst kept))
                   = length kept).
  { pose proof (loc_new_ids_rows src_mapping (map fst kept) Hs_nodup Hs_in)
      as Hrows.
    apply Forall2_length in Hrows. now rewrite length_map in Hrows. }
  assert (Ht_len : length (loc_new_ids dst_mapping (map snd kept))
                   = length kept).
  { pose proof (loc_new_ids_rows dst_mapping (map snd kept) Ht_nodup Ht_in)
      as Hrows.
    apply Forall2_length in Hrows. now rewrite length_map in Hrows. }
  unfold _get_node_counts. rewrite assoc_dict_set_eq.
  unfold copied_edges, _finalize_edges, copy_state.
  cbn [source_node_id target_node_id]. fold kept. rewrite Hs_len.
  split; [reflexivity|].
  destruct (Nat.ltb_spec 0 (length kept)) as [Hpos|Hzero].
  - destruct (np_max_Ok (loc_new_ids src_mapping (map fst kept)))
      as (smax & ->).
    { intros Hnil. rewrite Hnil in Hs_len. simpl in Hs_len. lia. }
    destruct (np_max_Ok (loc_new_ids dst_mapping (map snd kept)))
      as (tmax & ->).
    { intros Hnil. rewrite Hnil in Ht_len. simpl in Ht_len. lia. }
    run_result. eauto.
  - eauto.
Qed.

Lemma dict_del_dict_set_fresh {V} (d : list (string * V)) (key : string)
    (v : V) :
  dict_has key d = false -> dict_del (dict_set d key v) key = d.
Proof.
  unfold dict_has. induction d as [|[k w] d IH]; simpl.
  - now rewrite String.eqb_refl.
  - destruct (String.eqb key k) eqn:Hk; [discriminate|].
    intros Hd. simpl. rewrite Hk. now rewrite IH.
Qed.

(** X17: the outcome of [_write_subcircuit_edges], for a source
    population with a supported group ['0'], mappings with distinct
    non-negative old ids and a destination name that is new to the file
    at [output_path]. If some edge has its source in the source mapping
    and its target in the target mapping, the call returns [output_path]
    and the file holds the new population, one row per such edge, with
    its indices, beside the populations it held. If there is none, the
    file is left as it was and the call returns [output_path], unless the
    file held no population: it is then removed and the call returns the
    [DELETED_EMPTY_EDGES_FILE] sentinel. *)
Theorem write_subcircuit_edges_result (env : environ) (output_path : string)
    (h5in : h5file)
    (src_node_pop dst_node_pop src_edge_pop_name dst_edge_pop_name : string)
    (src_mapping dst_mapping : mapping_df) (dir : directory)
    (orig_edges : edge_population) (orig_group : h5group) (file0 : h5file)
    (kept : list (Z * Z)) :
  assoc src_edge_pop_name h5in = Some orig_edges ->
  assoc GROUP_NAME (groups orig_edges) = Some orig_group ->
  length (source_node_id orig_edges) = length (target_node_id orig_edges) ->
  supported_group (length (source_node_id orig_edges)) orig_group ->
  Forall (fun i => 0 <= i) (df_index src_mapping) ->
  Forall (fun i => 0 <= i) (df_index dst_mapping) ->
  NoDup (df_index src_mapping) ->
  NoDup (df_index dst_mapping) ->
  1 <= _h5_get_read_chunk_size env ->
  file0 = default [] (dir !! output_path) ->
  dict_has dst_edge_pop_name file0 = false ->
  kept = List.filter (edge_kept (df_index src_mapping) (df_index dst_mapping))
           (combine (source_node_id orig_edges) (target_node_id orig_edges)) ->
  (kept <> [] ->
   exists file p idx,
     _write_subcircuit_edges env output_path h5in src_node_pop dst_node_pop
       src_edge_pop_name dst_edge_pop_name src_mapping dst_mapping dir
     = (<[output_path := file]> dir, Ok output_path) /\
     assoc dst_edge_pop_name file = Some p /\
     length (source_node_id p) = length kept /\
     indices p = Some idx /\
     forall other, other <> dst_edge_pop_name ->
       assoc other file = assoc other file0) /\
  (kept = [] -> file0 = [] ->
   _write_subcircuit_edges env output_path h5in src_node_pop dst_node_pop
     src_edge_pop_name dst_edge_pop_name src_mapping dst_mapping dir
   = (delete output_path dir, Ok DELETED_EMPTY_EDGES_FILE)) /\
  (kept = [] -> file0 <> [] ->
   _write_subcircuit_edges env output_path h5in src_node_pop dst_node_pop
     src_edge_pop_name dst_edge_pop_name src_mapping dst_mapping dir
   = (<[output_path := file0]> dir, Ok output_path)).
Proof.
  intros Hin Hgroup Hlen Hsup Hs_pos Ht_pos Hs_nodup Ht_nodup Henv Hfile0
    Hfresh Hkept.
  pose proof (copy_edge_attributes_closed env h5in src_node_pop dst_node_pop
                src_edge_pop_name dst_edge_pop_name src_mapping dst_mapping
                None file0 orig_edges orig_group Hin Hgroup Hfresh Hlen Hsup
                Hs_pos Ht_pos Henv ltac:(discriminate)) as Hcopy.
  destruct (get_node_counts_copied file0 src_node_pop dst_node_pop
              dst_edge_pop_name src_mapping dst_mapping orig_edges orig_group
              Hs_nodup Ht_nodup)
    as (Hcount & sgid_count & tgid_count & Hcounts).
  rewrite <- Hkept in Hcount, Hcounts.
  pose proof (subcircuit_edges_block_cases env h5in src_node_pop dst_node_pop
                src_edge_pop_name dst_edge_pop_name src_mapping dst_mapping
                file0 _ _ Hcopy Hcounts) as Hblock.
  cbn [fst snd] in Hblock.
  unfold _write_subcircuit_edges, with_h5_file_a.
  unfold mbind, stateful_bind, sbind. rewrite <- Hfile0, Hblock.
  split; [|split].
  - intros Hsome.
    destruct (length kept) as [|n] eqn:Hn;
      [destruct kept; [congruence|discriminate]|].
    cbn [Nat.eqb fst snd Nat.ltb Nat.leb].
    erewrite write_indexes_Ok by apply assoc_dict_set_eq.
    do 3 eexists. split; [reflexivity|].
    split; [apply assoc_dict_set_eq|]. split; [exact Hcount|].
    split; [reflexivity|].
    intros other Hother. now rewrite !assoc_dict_set_ne.
  - intros -> ->. cbn [length Nat.eqb fst snd Nat.ltb Nat.leb].
    rewrite dict_del_dict_set_fresh by exact Hfresh.
    cbn [length Nat.eqb]. unfold os_unlink, modify, mret, stateful_ret.
    now rewrite delete_insert_eq.
  - intros -> Hfile. cbn [length Nat.eqb fst snd Nat.ltb Nat.leb].
    rewrite dict_del_dict_set_fresh by exact Hfresh.
    destruct file0 as [|item file0]; [congruence|]. reflexivity.
Qed.

Lemma write_subcircuit_edges_result_witness :
  exists file p idx,
    _write_subcircuit_edges None "out/B/edges.h5" test_edges_file "B" "B"
      "default" "B__B" [(2, 0); (1, 1); (0, 2)] [(1, 1); (0, 2)] ∅
    = (<["out/B/edges.h5" := file]> ∅, Ok "out/B/edges.h5") /\
    assoc "B__B" file = Some p /\
    length (source_node_id p) = 4%nat /\
    indices p = Some idx /\
    forall other, other <> "B__B" -> assoc other file = assoc other [].
Proof.
  destruct (write_subcircuit_edges_result None "out/B/edges.h5"
              test_edges_file "B" "B" "default" "B__B"
              [(2, 0); (1, 1); (0, 2)] [(1, 1); (0, 2)] ∅
              test_edges_population
              [("delay", H5Dataset [10; 11; 12; 13]);
               ("dynamics_params",
                H5Group [("u_syn", H5Dataset [1; 2; 3; 4])])]
              [] [(2, 0); (0, 1); (0, 1); (2, 1)]) as (Hkept & _ & _).
  - reflexivity.
  - reflexivity.
  - reflexivity.
  - exact test_group_supported.
  - compute_done.
  - compute_done.
  - compute_done.
  - compute_done.
  - vm_compute. discriminate.
  - reflexivity.
  - reflexivity.
  - reflexivity.
  - apply Hkept. discriminate.
Defined.

(** ** The populations [_write_subcircuit_external] adds *)

Lemma dict_set_key_elem {V} (d : list (string * V)) (key key' : string)
    (v : V) :
  key' ∈ dict_keys (dict_set d key v) <-> key' = key \/ key' ∈ dict_keys d.
Proof.
  induction d as [|[k w] d IH]; simpl.
  - rewrite list_elem_of_singleton, elem_of_nil. tauto.
  - destruct (String.eqb_spec key k) as [->|Hne]; simpl.
    + rewrite !elem_of_cons. tauto.
    + rewrite !elem_of_cons, IH. tauto.
Qed.

Lemma dict_set_keys_same {V W} (d1 : list (string * V))
    (d2 : list (string * W)) (key : string) (v : V) (w : W) :
  dict_keys d1 = dict_keys d2 ->
  dict_keys (dict_set d1 key v) = dict_keys (dict_set d2 key w).
Proof.
  revert d2. induction d1 as [|[k1 v1] d1 IH]; intros [|[k2 v2] d2];
    simpl; try discriminate; [reflexivity|].
  intros [= -> Hkeys].
  destruct (String.eqb key k2); simpl; [now rewrite Hkeys|].
  f_equal. now apply IH.
Qed.

Lemma dict_set_NoDup {V} (d : list (string * V)) (key : string) (v : V) :
  NoDup (dict_keys d) -> NoDup (dict_keys (dict_set d key v)).
Proof.
  induction d as [|[k w] d IH]; simpl; intros Hnodup.
  - apply NoDup_singleton.
  - apply NoDup_cons in Hnodup as [Hfresh Hnodup].
    destruct (String.eqb_spec key k) as [->|Hne]; simpl.
    + now apply NoDup_cons.
    + apply NoDup_cons. split; [|now apply IH].
      rewrite dict_set_key_elem. intros [?|?]; [congruence|contradiction].
Qed.

Lemma dict_set_elem {V} (d : list (string * V)) (key : string) (v : V)
    (item : string * V) :
  item ∈ dict_set d key v -> item = (key, v) \/ item ∈ d.
Proof.
  induction d as [|[k w] d IH]; simpl.
  - intros Hin%list_elem_of_singleton. now left.
  - destruct (String.eqb_spec key k) as [->|Hne].
    + intros [->|Hin]%elem_of_cons; [now left|right; now right].
    + intros [->|Hin]%elem_of_cons; [right; left|].
      destruct (IH Hin); [now left|right; now right].
Qed.

Section SubcircuitExternalFacts.

Variable pathlib_join : string -> string -> string.
Variable create_source_nodes : string -> nat -> string -> string.
Variables (env : environ) (output : string) (circ : circuit).

(** An iteration either leaves the three dictionaries alone or enters
    one non-empty mapping under [external_<name>] in each. *)
Lemma external_edge_Ok (acc acc' : external_state)
    (item : string * circuit_edge) (dir dir' : directory) :
  external_edge pathlib_join env output circ acc item dir = (dir', Ok acc') ->
  acc' = acc \/
  exists wanted path,
    wanted <> [] /\
    acc' = {| ext_id_mapping :=
                dict_set (ext_id_mapping acc) ("external_" ++ fst item) wanted;
              ext_new_nodes :=
                dict_set (ext_new_nodes acc) ("external_" ++ fst item) wanted;
              ext_new_edges_files :=
                dict_set (ext_new_edges_files acc) ("external_" ++ fst item)
                  path |}.
Proof.
  unfold external_edge.
  destruct (negb _ && _); [|unfold mret, stateful_ret; intros [= _ <-]; now left].
  unfold mbind at 1 2 3 4 5, stateful_bind. intros Hrun.
  apply sbind_Ok in Hrun as (all_src_ids & dir1 & _ & Hrun).
  apply sbind_Ok in Hrun as (wanted_src_ids & dir2 & _ & Hrun).
  apply sbind_Ok in Hrun as (orig_edges & dir3 & _ & Hrun).
  apply sbind_Ok in Hrun as (dst_mapping & dir4 & _ & Hrun).
  apply sbind_Ok in Hrun as (wanted & dir5 & _ & Hrun).
  destruct wanted as [|row wanted].
  - unfold mret, stateful_ret in Hrun. injection Hrun as _ <-. now left.
  - cbn [length Nat.eqb] in Hrun. unfold mbind, stateful_bind in Hrun.
    apply sbind_Ok in Hrun as (path & dir6 & _ & Hrun).
    unfold mret, stateful_ret in Hrun. injection Hrun as _ <-.
    right. exists (row :: wanted), path. split; [discriminate|reflexivity].
Qed.

Lemma external_loop_names (id_mapping : list (string * mapping_df))
    (items : list (string * circuit_edge)) :
  forall (acc acc' : external_state) (dir dir' : directory),
    for_acc items (external_edge pathlib_join env output circ) acc dir
    = (dir', Ok acc') ->
    (forall item, item ∈ items -> item ∈ circuit_edges circ) ->
    (dict_keys (ext_new_nodes acc) = dict_keys (ext_new_edges_files acc) /\
     NoDup (dict_keys (ext_new_nodes acc)) /\
     (forall entry, entry ∈ ext_new_nodes acc -> snd entry <> []) /\
     (forall k, k ∈ dict_keys (ext_new_edges_files acc) ->
        (exists name,
           k = ("external_" ++ name)%string /\
           name ∈ dict_keys (circuit_edges circ)) /\
        exists m, assoc k (ext_id_mapping acc) = Some m /\ m <> []) /\
     (forall k, k ∉ dict_keys (ext_new_edges_files acc) ->
        assoc k (ext_id_mapping acc) = assoc k id_mapping)) ->
    dict_keys (ext_new_nodes acc') = dict_keys (ext_new_edges_files acc') /\
    NoDup (dict_keys (ext_new_nodes acc')) /\
    (forall entry, entry ∈ ext_new_nodes acc' -> snd entry <> []) /\
    (forall k, k ∈ dict_keys (ext_new_edges_files acc') ->
       (exists name,
          k = ("external_" ++ name)%string /\
          name ∈ dict_keys (circuit_edges circ)) /\
       exists m, assoc k (ext_id_mapping acc') = Some m /\ m <> []) /\
    (forall k, k ∉ dict_keys (ext_new_edges_files acc') ->
       assoc k (ext_id_mapping acc') = assoc k id_mapping).
Proof.
  induction items as [|item items IH]; intros acc acc' dir dir' Hrun Hitems Hinv.
  - simpl in Hrun. unfold mret, stateful_ret in Hrun.
    injection Hrun as _ <-. exact Hinv.
  - simpl in Hrun. unfold mbind, stateful_bind in Hrun.
    apply sbind_Ok in Hrun as (acc1 & dir1 & Hfirst & Hrest).
    apply (IH acc1 acc' dir1 dir' Hrest).
    { intros it Hit. apply Hitems. now right. }
    apply external_edge_Ok in Hfirst as [->|(wanted & path & Hwanted & ->)];
      [exact Hinv|].
    destruct Hinv as (Hkeys & Hnodup & Hnonempty & Hnames & Hframe).
    cbn [ext_id_mapping ext_new_nodes ext_new_edges_files].
    split; [now apply dict_set_keys_same|].
    split; [now apply dict_set_NoDup|].
    split.
    { intros entry [->|Hentry]%dict_set_elem; [exact Hwanted|].
      now apply Hnonempty. }
    split.
    + intros k [->|Hk]%dict_set_key_elem.
      * split.
        -- exists (fst item). split; [reflexivity|].
           apply elem_of_map. exists item. split; [reflexivity|].
           apply Hitems. left.
        -- exists wanted. split; [apply assoc_dict_set_eq|exact Hwanted].
      * destruct (Hnames k Hk) as (Hname & m & Hm & Hne).
        split; [exact Hname|].
        destruct (String.eqb_spec k ("external_" ++ fst item)) as [->|Hdiff].
        -- exists wanted. split; [apply assoc_dict_set_eq|exact Hwanted].
        -- exists m. split; [|exact Hne].
           rewrite assoc_dict_set_ne by congruence. exact Hm.
    + intros k Hk. rewrite dict_set_key_elem in Hk.
      rewrite assoc_dict_set_ne by (intros Heq; apply Hk; now left).
      apply Hframe. intros Hin. apply Hk. now right.
Qed.

Lemma external_node_files_keys (new_nodes : list (string * mapping_df)) :
  forall acc : list (string * string),
    (forall entry, entry ∈ new_nodes -> snd entry <> []) ->
    NoDup (dict_keys new_nodes) ->
    (forall entry, entry ∈ new_nodes -> fst entry ∉ dict_keys acc) ->
    dict_keys
      (fold_left
         (fun new_node_files entry =>
            if Nat.eqb (length (snd entry)) 0 then new_node_files
            else dict_set new_node_files (fst entry)
                   (create_source_nodes (fst entry) (length (snd entry))
                      output))
         new_nodes acc)
    = dict_keys acc ++ dict_keys new_nodes.
Proof.
  induction new_nodes as [|[k m] new_nodes IH];
    intros acc Hnonempty Hnodup Hfresh; simpl.
  - now rewrite app_nil_r.
  - simpl in Hnodup. apply NoDup_cons in Hnodup as [Hk Hnodup].
    destruct m as [|row m]; [now destruct (Hnonempty (k, [])); [left|]|].
    cbn [length Nat.eqb snd fst].
    rewrite IH.
    + rewrite dict_set_fresh by (apply (Hfresh (k, row :: m)); left).
      rewrite dict_keys_app. simpl. now rewrite <- app_assoc.
    + intros entry Hentry. apply Hnonempty. now right.
    + exact Hnodup.
    + intros entry Hentry. rewrite dict_set_key_elem.
      intros [Heq|Hin].
      * apply Hk. rewrite <- Heq. apply elem_of_map. now exists entry.
      * revert Hin. apply Hfresh. now right.
Qed.

End SubcircuitExternalFacts.

(** X18: what [_write_subcircuit_external] adds when it completes: the
    node files and the edge files it reports are for the same
    populations; each is called [external_<name>] after an edge
    population [name] of the circuit, so its name starts with
    [external]; [id_mapping], written in place, has a non-empty mapping
    for each of them and is unchanged for every other population. *)
Theorem write_subcircuit_external_names
    (pathlib_join : string -> string -> string)
    (create_source_nodes : string -> nat -> string -> string)
    (env : environ) (output : string) (circ : circuit)
    (id_mapping id_mapping' : list (string * mapping_df))
    (new_node_files new_edges_files : list (string * string))
    (dir dir' : directory) :
  _write_subcircuit_external pathlib_join create_source_nodes env output circ
    id_mapping dir
  = (dir', Ok (new_node_files, new_edges_files, id_mapping')) ->
  dict_keys new_node_files = dict_keys new_edges_files /\
  (forall k, k ∈ dict_keys new_edges_files ->
     (exists name,
        k = ("external_" ++ name)%string /\
        name ∈ dict_keys (circuit_edges circ)) /\
     String.prefix "external" k = true /\
     exists m, assoc k id_mapping' = Some m /\ m <> []) /\
  (forall k, k ∉ dict_keys new_edges_files ->
     assoc k id_mapping' = assoc k id_mapping).
Proof.
  unfold _write_subcircuit_external, mbind, stateful_bind. intros Hrun.
  apply sbind_Ok in Hrun as (acc & dir1 & Hloop & Hret).
  unfold mret, stateful_ret in Hret. injection Hret as _ <- <- <-.
  apply (external_loop_names pathlib_join env output circ id_mapping) in Hloop
    as (Hkeys & Hnodup & Hnonempty & Hnames & Hframe).
  - split; [|split; [|exact Hframe]].
    + unfold external_node_files.
      rewrite (external_node_files_keys create_source_nodes output
                 (ext_new_nodes acc) [] Hnonempty Hnodup).
      * exact Hkeys.
      * intros entry _. apply not_elem_of_nil.
    + intros k Hk. destruct (Hnames k Hk) as ((name & -> & Hname) & Hm).
      split; [eauto|]. split; [now destruct name|exact Hm].
  - trivial.
  - cbn [ext_new_nodes ext_new_edges_files ext_id_mapping].
    split; [reflexivity|]. split; [constructor|].
    split; [intros entry Hentry; now apply elem_of_nil in Hentry|].
    split; [intros k Hk; now apply elem_of_nil in Hk|]. reflexivity.
Qed.

Lemma write_subcircuit_external_names_witness :
  let pathlib_join := fun a b : string => (a ++ "/" ++ b)%string in
  let create_source_nodes :=
    fun (population : string) (count : nat) (output : string) =>
      (output ++ "/" ++ population ++ "/nodes.h5")%string in
  let circ :=
    {| circuit_edges :=
         [("default",
           {| edge_source_name := "default";
              edge_source_type := "biophysical";
              edge_target_name := "default";
              edge_storage := test_edges_file |})];
       circuit_nodes := [("default", [0; 1; 2])] |} in
  let run :=
    _write_subcircuit_external pathlib_join create_source_nodes (Some 3)
      "out" circ [("default", [(1, 0)])] ∅ in
  run
  = (fst run,
     Ok ([("external_default", "out/external_default/nodes.h5")],
         [("external_default", "out/external_default.h5")],
         [("default", [(1, 0)]); ("external_default", [(0, 0); (2, 1)])])) /\
  (forall k, k ∉ dict_keys [("external_default", "out/external_default.h5")] ->
     assoc k [("default", [(1, 0)]); ("external_default", [(0, 0); (2, 1)])]
     = assoc k [("default", [(1, 0)])]).
Proof.
  intros pathlib_join create_source_nodes circ run.
  assert (Hrun : run
                 = (fst run,
                    Ok ([("external_default", "out/external_default/nodes.h5")],
                        [("external_default", "out/external_default.h5")],
                        [("default", [(1, 0)]);
                         ("external_default", [(0, 0); (2, 1)])])))
    by (vm_compute; reflexivity).
  split; [exact Hrun|].
  exact (proj2 (proj2
           (write_subcircuit_external_names pathlib_join create_source_nodes
              (Some 3) "out" circ [("default", [(1, 0)])] _ _ _ ∅ (fst run)
              Hrun))).
Defined.

(** Every old id [_get_subcircuit_external_ids] returns is the source of
    a wanted connection. *)
Lemma external_ids_index_elem (env : environ)
    (all_sgids all_tgids wanted_src_ids wanted_dst_ids : list Z)
    (result : mapping_df) (old : Z) :
  1 <= _h5_get_read_chunk_size env ->
  length all_sgids = length all_tgids ->
  _get_subcircuit_external_ids env all_sgids all_tgids wanted_src_ids
    wanted_dst_ids = Ok result ->
  old ∈ df_index result ->
  exists t, (old, t) ∈ combine all_sgids all_tgids /\
            old ∈ wanted_src_ids /\ t ∈ wanted_dst_ids.
Proof.
  intros Hh Hlen. unfold _get_subcircuit_external_ids.
  destruct (chunked_slices_cover (combine all_sgids all_tgids)
              (_h5_get_read_chunk_size env) Hh)
    as (slices & Hslices & Hcover & _).
  rewrite length_combine, <- Hlen, Nat.min_id in Hslices.
  rewrite Hslices. run_result.
  destruct (external_ids_loop_index env all_sgids all_tgids wanted_src_ids
              wanted_dst_ids slices Hh Hlen None ltac:(discriminate))
    as (ret & -> & Hidx).
  rewrite Hcover in Hidx. run_result.
  assert (Hperm : forall r, df_index (df_sort_index r) ≡ₚ df_index r).
  { intros r. unfold df_index. apply Permutation_map, df_sort_index_perm. }
  destruct ret as [r|]; intros [= <-] Hold.
  - rewrite Hperm in Hold. apply (Hidx old) in Hold.
    cbn [from_option] in Hold. rewrite elem_of_nil in Hold. tauto.
  - now apply elem_of_nil in Hold.
Qed.

Section SubcircuitExternalIds.

Variable pathlib_join : string -> string -> string.
Variables (env : environ) (output : string) (circ : circuit).

Hypothesis env_chunk : 1 <= _h5_get_read_chunk_size env.
Hypothesis storage_aligned :
  forall name edge orig_edges,
    (name, edge) ∈ circuit_edges circ ->
    assoc name (edge_storage edge) = Some orig_edges ->
    length (source_node_id orig_edges) = length (target_node_id orig_edges).

(** What an iteration that adds a population has found. *)
Lemma external_edge_detail (acc acc' : external_state)
    (item : string * circuit_edge) (dir dir' : directory) :
  item ∈ circuit_edges circ ->
  external_edge pathlib_join env output circ acc item dir = (dir', Ok acc') ->
  acc' = acc \/
  exists wanted path orig_edges ids dst_mapping,
    edge_source_type (snd item) <> "virtual" /\
    assoc (fst item) (edge_storage (snd item)) = Some orig_edges /\
    assoc (edge_source_name (snd item)) (circuit_nodes circ) = Some ids /\
    assoc (edge_target_name (snd item)) (ext_id_mapping acc)
    = Some dst_mapping /\
    (forall old, old ∈ df_index wanted ->
       old ∈ ids /\
       (forall src_mapping,
          assoc (edge_source_name (snd item)) (ext_id_mapping acc)
          = Some src_mapping ->
          old ∉ df_index src_mapping) /\
       exists t,
         (old, t) ∈ combine (source_node_id orig_edges)
                      (target_node_id orig_edges) /\
         t ∈ df_index dst_mapping) /\
    acc' = {| ext_id_mapping :=
                dict_set (ext_id_mapping acc) ("external_" ++ fst item) wanted;
              ext_new_nodes :=
                dict_set (ext_new_nodes acc) ("external_" ++ fst item) wanted;
              ext_new_edges_files :=
                dict_set (ext_new_edges_files acc) ("external_" ++ fst item)
                  path |}.
Proof.
  destruct item as [name edge]. cbn [fst snd]. intros Hitem.
  unfold external_edge. cbn [fst snd].
  destruct (String.eqb_spec (edge_source_type edge) "virtual") as [|Htype];
    cbn [negb andb];
    [unfold mret, stateful_ret; intros [= _ <-]; now left|].
  destruct (dict_has (edge_target_name edge) (ext_id_mapping acc));
    [|unfold mret, stateful_ret; intros [= _ <-]; now left].
  unfold mbind at 1 2 3 4 5, stateful_bind. intros Hrun.
  apply sbind_Ok in Hrun as (ids & dir1 & Hids & Hrun).
  apply sbind_Ok in Hrun as (wanted_src_ids & dir2 & Hwanted_src & Hrun).
  apply sbind_Ok in Hrun as (orig_edges & dir3 & Horig & Hrun).
  apply sbind_Ok in Hrun as (dst_mapping & dir4 & Hdst & Hrun).
  apply sbind_Ok in Hrun as (wanted & dir5 & Hwanted & Hrun).
  unfold lift, dict_get in Hids, Horig, Hdst.
  destruct (assoc (edge_source_name edge) (circuit_nodes circ))
    as [ids'|] eqn:Hnodes; [|discriminate]. injection Hids as <- <-.
  destruct (assoc name (edge_storage edge)) as [orig'|] eqn:Hstorage;
    [|discriminate]. injection Horig as <- <-.
  destruct (assoc (edge_target_name edge) (ext_id_mapping acc))
    as [dst'|] eqn:Htarget; [|discriminate]. injection Hdst as <- <-.
  unfold lift in Hwanted_src, Hwanted.
  injection Hwanted_src as <- Hwanted_src. injection Hwanted as <- Hwanted.
  destruct wanted as [|row wanted].
  - unfold mret, stateful_ret in Hrun. injection Hrun as _ <-. now left.
  - cbn [length Nat.eqb] in Hrun. unfold mbind, stateful_bind in Hrun.
    apply sbind_Ok in Hrun as (path & dir6 & _ & Hrun).
    unfold mret, stateful_ret in Hrun. injection Hrun as _ <-.
    right. exists (row :: wanted), path, orig', ids', dst'.
    split; [exact Htype|]. split; [reflexivity|]. split; [reflexivity|].
    split; [reflexivity|]. split; [|reflexivity].
    intros old Hold.
    destruct (external_ids_index_elem env _ _ _ _ _ old env_chunk
                (storage_aligned name edge orig' Hitem Hstorage)
                Hwanted Hold) as (t & Hedge & Hsrc & Ht).
    assert (Hsrc' : old ∈ ids' /\
              forall src_mapping,
                assoc (edge_source_name edge) (ext_id_mapping acc)
                = Some src_mapping ->
                old ∉ df_index src_mapping).
    { destruct (assoc (edge_source_name edge) (ext_id_mapping acc))
        as [src_mapping|].
      - rewrite isin_correct in Hwanted_src by exact env_chunk.
        revert Hwanted_src. run_result. unfold np_mask.
        rewrite np_isin_length, Nat.eqb_refl. intros [= <-].
        rewrite mask_select_isin in Hsrc.
        apply list_elem_of_In, filter_In in Hsrc as [Hin Hnot].
        split; [now apply list_elem_of_In|].
        intros sm [= <-] Hmem. apply existsb_eqb_elem in Hmem.
        rewrite Hmem in Hnot. discriminate.
      - injection Hwanted_src as <-. split; [exact Hsrc|discriminate]. }
    destruct Hsrc' as [Hids Hnot]. split; [exact Hids|].
    split; [exact Hnot|]. eauto.
Qed.

End SubcircuitExternalIds.

Section SubcircuitExternalLoop.

Variable pathlib_join : string -> string -> string.
Variables (env : environ) (output : string) (circ : circuit).
Variable id_mapping : list (string * mapping_df).

(** The names of the populations the whole loop adds. *)
Variable added : list string.

Hypothesis env_chunk : 1 <= _h5_get_read_chunk_size env.
Hypothesis storage_aligned :
  forall name edge orig_edges,
    (name, edge) ∈ circuit_edges circ ->
    assoc name (edge_storage edge) = Some orig_edges ->
    length (source_node_id orig_edges) = length (target_node_id orig_edges).

Lemma external_loop_keys_mono (items : list (string * circuit_edge)) :
  forall (acc acc' : external_state) (dir dir' : directory),
    for_acc items (external_edge pathlib_join env output circ) acc dir
    = (dir', Ok acc') ->
    forall k, k ∈ dict_keys (ext_new_edges_files acc) ->
              k ∈ dict_keys (ext_new_edges_files acc').
Proof.
  induction items as [|item items IH]; intros acc acc' dir dir' Hrun k Hk.
  - simpl in Hrun. unfold mret, stateful_ret in Hrun.
    now injection Hrun as _ <-.
  - simpl in Hrun. unfold mbind, stateful_bind in Hrun.
    apply sbind_Ok in Hrun as (acc1 & dir1 & Hfirst & Hrest).
    apply (IH acc1 acc' dir1 dir' Hrest).
    apply external_edge_Ok in Hfirst as [->|(wanted & path & _ & ->)];
      [exact Hk|].
    cbn [ext_new_edges_files]. apply dict_set_key_elem. now right.
Qed.

Lemma external_loop_ids (items : list (string * circuit_edge)) :
  forall (acc acc' : external_state) (dir dir' : directory),
    for_acc items (external_edge pathlib_join env output circ) acc dir
    = (dir', Ok acc') ->
    (forall item, item ∈ items -> item ∈ circuit_edges circ) ->
    (forall k, k ∈ dict_keys (ext_new_edges_files acc') -> k ∈ added) ->
    ((forall k, k ∈ dict_keys (ext_new_nodes acc) ->
        assoc k (ext_id_mapping acc) = assoc k (ext_new_nodes acc)) /\
     dict_keys (ext_new_nodes acc) = dict_keys (ext_new_edges_files acc) /\
     (forall k, k ∉ dict_keys (ext_new_edges_files acc) ->
        assoc k (ext_id_mapping acc) = assoc k id_mapping) /\
     (forall k m, assoc k (ext_new_nodes acc) = Some m ->
        exists name edge orig_edges ids,
          (name, edge) ∈ circuit_edges circ /\
          k = ("external_" ++ name)%string /\
          edge_source_type edge <> "virtual" /\
          assoc name (edge_storage edge) = Some orig_edges /\
          assoc (edge_source_name edge) (circuit_nodes circ) = Some ids /\
          forall old, old ∈ df_index m ->
            old ∈ ids /\
            (edge_source_name edge ∉ added ->
             forall src_mapping,
               assoc (edge_source_name edge) id_mapping = Some src_mapping ->
               old ∉ df_index src_mapping) /\
            exists t,
              (old, t) ∈ combine (source_node_id orig_edges)
                           (target_node_id orig_edges) /\
              (edge_target_name edge ∉ added ->
               exists dst_mapping,
                 assoc (edge_target_name edge) id_mapping = Some dst_mapping /\
                 t ∈ df_index dst_mapping))) ->
    (forall k, k ∈ dict_keys (ext_new_nodes acc') ->
       assoc k (ext_id_mapping acc') = assoc k (ext_new_nodes acc')) /\
    dict_keys (ext_new_nodes acc') = dict_keys (ext_new_edges_files acc') /\
    (forall k, k ∉ dict_keys (ext_new_edges_files acc') ->
       assoc k (ext_id_mapping acc') = assoc k id_mapping) /\
    (forall k m, assoc k (ext_new_nodes acc') = Some m ->
       exists name edge orig_edges ids,
         (name, edge) ∈ circuit_edges circ /\
         k = ("external_" ++ name)%string /\
         edge_source_type edge <> "virtual" /\
         assoc name (edge_storage edge) = Some orig_edges /\
         assoc (edge_source_name edge) (circuit_nodes circ) = Some ids /\
         forall old, old ∈ df_index m ->
           old ∈ ids /\
           (edge_source_name edge ∉ added ->
            forall src_mapping,
              assoc (edge_source_name edge) id_mapping = Some src_mapping ->
              old ∉ df_index src_mapping) /\
           exists t,
             (old, t) ∈ combine (source_node_id orig_edges)
                          (target_node_id orig_edges) /\
             (edge_target_name edge ∉ added ->
              exists dst_mapping,
                assoc (edge_target_name edge) id_mapping = Some dst_mapping /\
                t ∈ df_index dst_mapping)).
Proof.
  induction items as [|item items IH];
    intros acc acc' dir dir' Hrun Hitems Hadded Hinv.
  - simpl in Hrun. unfold mret, stateful_ret in Hrun.
    injection Hrun as _ <-. exact Hinv.
  - simpl in Hrun. unfold mbind, stateful_bind in Hrun.
    apply sbind_Ok in Hrun as (acc1 & dir1 & Hfirst & Hrest).
    pose proof (external_loop_keys_mono items acc1 acc' dir1 dir' Hrest)
      as Hmono.
    apply (IH acc1 acc' dir1 dir' Hrest);
      [intros it Hit; apply Hitems; now right|exact Hadded|].
    apply (external_edge_detail pathlib_join env output circ env_chunk
             storage_aligned) in Hfirst
      as [->|(wanted & path & orig_edges & ids & dst_mapping & Htype
              & Hstorage & Hnodes & Htarget & Hids & Hacc1)];
      [exact Hinv| |apply Hitems; left].
    destruct Hinv as (Hsame & Hkeys & Hframe & Hknown).
    assert (Hbefore : forall k, k ∉ added ->
              assoc k (ext_id_mapping acc) = assoc k id_mapping).
    { intros k Hk. apply Hframe. intros Hin. apply Hk, Hadded, Hmono.
      rewrite Hacc1. cbn [ext_new_edges_files].
      apply dict_set_key_elem. now right. }
    rewrite Hacc1. cbn [ext_id_mapping ext_new_nodes ext_new_edges_files].
    split; [|split; [|split]].
    + intros k Hk.
      destruct (String.eqb_spec k ("external_" ++ fst item)) as [->|Hne].
      * now rewrite !assoc_dict_set_eq.
      * rewrite !assoc_dict_set_ne by congruence. apply Hsame.
        apply dict_set_key_elem in Hk as [?|?]; [contradiction|assumption].
    + now apply dict_set_keys_same.
    + intros k Hk. rewrite dict_set_key_elem in Hk.
      rewrite assoc_dict_set_ne by (intros Heq; apply Hk; now left).
      apply Hframe. intros Hin. apply Hk. now right.
    + intros k m Hm.
      destruct (String.eqb_spec k ("external_" ++ fst item)) as [->|Hne].
      * rewrite assoc_dict_set_eq in Hm. injection Hm as <-.
        exists (fst item), (snd item), orig_edges, ids.
        split; [rewrite <- surjective_pairing; apply Hitems; left|].
        split; [reflexivity|]. split; [exact Htype|].
        split; [exact Hstorage|]. split; [exact Hnodes|].
        intros old Hold. destruct (Hids old Hold) as (Hin & Hnot & t & Hedge & Ht).
        split; [exact Hin|]. split.
        -- intros Hsrc src_mapping Hsm. apply Hnot.
           now rewrite Hbefore.
        -- exists t. split; [exact Hedge|]. intros Htgt.
           exists dst_mapping. split; [|exact Ht].
           now rewrite <- Hbefore.
      * rewrite assoc_dict_set_ne in Hm by congruence. now apply Hknown.
Qed.

End SubcircuitExternalLoop.

(** X19: the ids [_write_subcircuit_external] makes external. For chunk
    sizes of at least one row and edge files with id arrays of one
    length, every mapping it enters into [id_mapping] under
    [external_<name>] belongs to an edge population [name] of the circuit
    whose source is not virtual, and each of its old ids is a node id of
    the source population of [name] and the source of an edge of [name];
    unless the source (target) population is itself one of the added
    ones, the id is not an old id of the source population in the
    [id_mapping] the caller passed, and the edge ends in an old id of the
    target population there. *)
Theorem write_subcircuit_external_ids
    (pathlib_join : string -> string -> string)
    (create_source_nodes : string -> nat -> string -> string)
    (env : environ) (output : string) (circ : circuit)
    (id_mapping id_mapping' : list (string * mapping_df))
    (new_node_files new_edges_files : list (string * string))
    (dir dir' : directory) :
  1 <= _h5_get_read_chunk_size env ->
  (forall name edge orig_edges,
     (name, edge) ∈ circuit_edges circ ->
     assoc name (edge_storage edge) = Some orig_edges ->
     length (source_node_id orig_edges)
     = length (target_node_id orig_edges)) ->
  _write_subcircuit_external pathlib_join create_source_nodes env output circ
    id_mapping dir
  = (dir', Ok (new_node_files, new_edges_files, id_mapping')) ->
  forall k m,
    k ∈ dict_keys new_edges_files ->
    assoc k id_mapping' = Some m ->
    exists name edge orig_edges ids,
      (name, edge) ∈ circuit_edges circ /\
      k = ("external_" ++ name)%string /\
      edge_source_type edge <> "virtual" /\
      assoc name (edge_storage edge) = Some orig_edges /\
      assoc (edge_source_name edge) (circuit_nodes circ) = Some ids /\
      forall old, old ∈ df_index m ->
        old ∈ ids /\
        (edge_source_name edge ∉ dict_keys new_edges_files ->
         forall src_mapping,
           assoc (edge_source_name edge) id_mapping = Some src_mapping ->
           old ∉ df_index src_mapping) /\
        exists t,
          (old, t) ∈ combine (source_node_id orig_edges)
                       (target_node_id orig_edges) /\
          (edge_target_name edge ∉ dict_keys new_edges_files ->
           exists dst_mapping,
             assoc (edge_target_name edge) id_mapping = Some dst_mapping /\
             t ∈ df_index dst_mapping).
Proof.
  intros Henv Haligned.
  unfold _write_subcircuit_external, mbind, stateful_bind. intros Hrun.
  apply sbind_Ok in Hrun as (acc & dir1 & Hloop & Hret).
  unfold mret, stateful_ret in Hret. injection Hret as _ <- <- <-.
  apply (external_loop_ids pathlib_join env output circ id_mapping
           (dict_keys (ext_new_edges_files acc)) Henv Haligned) in Hloop
    as (Hsame & Hkeys & _ & Hknown).
  - intros k m Hk Hm. apply Hknown. rewrite <- Hsame; [exact Hm|].
    now rewrite Hkeys.
  - trivial.
  - trivial.
  - cbn [ext_new_nodes ext_new_edges_files ext_id_mapping].
    split; [intros k Hk; now apply elem_of_nil in Hk|].
    split; [reflexivity|]. split; [reflexivity|]. discriminate.
Qed.

Lemma write_subcircuit_external_ids_witness :
  let pathlib_join := fun a b : string => (a ++ "/" ++ b)%string in
  let create_source_nodes :=
    fun (population : string) (count : nat) (output : string) =>
      (output ++ "/" ++ population ++ "/nodes.h5")%string in
  let circ :=
    {| circuit_edges :=
         [("default",
           {| edge_source_name := "default";
              edge_source_type := "biophysical";
              edge_target_name := "default";
              edge_storage := test_edges_file |})];
       circuit_nodes := [("default", [0; 1; 2])] |} in
  exists name edge orig_edges ids,
    (name, edge) ∈ circuit_edges circ /\
    "external_default" = ("external_" ++ name)%string /\
    edge_source_type edge <> "virtual" /\
    assoc name (edge_storage edge) = Some orig_edges /\
    assoc (edge_source_name edge) (circuit_nodes circ) = Some ids /\
    forall old, old ∈ df_index [(0, 0); (2, 1)] ->
      old ∈ ids /\
      (edge_source_name edge ∉ dict_keys
                                 [("external_default",
                                   "out/external_default.h5")] ->
       forall src_mapping,
         assoc (edge_source_name edge) [("default", [(1, 0)])]
         = Some src_mapping ->
         old ∉ df_index src_mapping) /\
      exists t,
        (old, t) ∈ combine (source_node_id orig_edges)
                     (target_node_id orig_edges) /\
        (edge_target_name edge ∉ dict_keys
                                   [("external_default",
                                     "out/external_default.h5")] ->
         exists dst_mapping,
           assoc (edge_target_name edge) [("default", [(1, 0)])]
           = Some dst_mapping /\
           t ∈ df_index dst_mapping).
Proof.
  intros pathlib_join create_source_nodes circ.
  set (run := _write_subcircuit_external pathlib_join create_source_nodes
                (Some 3) "out" circ [("default", [(1, 0)])] ∅).
  assert (Hrun : run
                 = (fst run,
                    Ok ([("external_default", "out/external_default/nodes.h5")],
                        [("external_default", "out/external_default.h5")],
                        [("default", [(1, 0)]);
                         ("external_default", [(0, 0); (2, 1)])])))
    by (vm_compute; reflexivity).
  apply (write_subcircuit_external_ids pathlib_join create_source_nodes
           (Some 3) "out" circ [("default", [(1, 0)])]
           [("default", [(1, 0)]); ("external_default", [(0, 0); (2, 1)])]
           [("external_default", "out/external_default/nodes.h5")]
           [("external_default", "out/external_default.h5")] ∅ (fst run)).
  - simpl. lia.
  - intros name edge orig_edges Hedge Horig.
    apply list_elem_of_singleton in Hedge. injection Hedge as -> ->.
    simpl in Horig. injection Horig as <-. reflexivity.
  - exact Hrun.
  - simpl. left.
  - reflexivity.
Defined.

(** ** The new ids of the edges are rows of the node tables *)

Lemma arange_elem (n : nat) (z : Z) : z ∈ arange n -> 0 <= z < Z.of_nat n.
Proof.
  intros Hz. apply list_elem_of_lookup in Hz as [i Hi].
  apply arange_lookup in Hi as [-> Hlt]. lia.
Qed.

Lemma loc_new_ids_elem (df : mapping_df) (labels : list Z) (new : Z) :
  new ∈ loc_new_ids df labels -> new ∈ df_new_id df.
Proof.
  unfold loc_new_ids. intros Hin.
  apply list_elem_of_In, in_flat_map in Hin as (lbl & _ & Hin).
  unfold df_new_id in *. apply in_map_iff in Hin as (row & <- & Hrow).
  apply filter_In in Hrow as [Hrow _].
  apply elem_of_map. exists row. split; [reflexivity|].
  now apply list_elem_of_In.
Qed.

(** X20: the edges written with the mappings of [_get_node_id_mapping]
    point into the node tables: for node tables without negative old
    ids, a source population with a supported group ['0'] and id arrays
    of one length, [_copy_edge_attributes] returns, every source id it
    writes is a row number of the source table and every target id a row
    number of the target table, and the node counts [_get_node_counts]
    then reports do not exceed the sizes of the tables. *)
Theorem copied_edges_within_node_tables (env : environ) (h5in : h5file)
    (src_node_pop dst_node_pop src_edge_name dst_edge_name : string)
    (split_nodes : list (string * node_table))
    (src_mapping dst_mapping : mapping_df) (src_table dst_table : node_table)
    (h5_read_chunk_size : option Z) (h5out : h5file)
    (orig_edges : edge_population) (orig_group : h5group) :
  assoc src_node_pop split_nodes = Some src_table ->
  assoc dst_node_pop split_nodes = Some dst_table ->
  assoc src_node_pop (_get_node_id_mapping split_nodes) = Some src_mapping ->
  assoc dst_node_pop (_get_node_id_mapping split_nodes) = Some dst_mapping ->
  Forall (fun i => 0 <= i) (nt_index src_table) ->
  Forall (fun i => 0 <= i) (nt_index dst_table) ->
  assoc src_edge_name h5in = Some orig_edges ->
  assoc GROUP_NAME (groups orig_edges) = Some orig_group ->
  dict_has dst_edge_name h5out = false ->
  length (source_node_id orig_edges) = length (target_node_id orig_edges) ->
  supported_group (length (source_node_id orig_edges)) orig_group ->
  1 <= _h5_get_read_chunk_size env ->
  (forall c, h5_read_chunk_size = Some c -> 1 <= c) ->
  exists new_edges,
    _copy_edge_attributes env h5in src_node_pop dst_node_pop src_edge_name
      dst_edge_name src_mapping dst_mapping h5_read_chunk_size h5out
    = (dict_set h5out dst_edge_name new_edges, Ok tt) /\
    Forall (fun i => 0 <= i < Z.of_nat (nt_len src_table))
      (source_node_id new_edges) /\
    Forall (fun i => 0 <= i < Z.of_nat (nt_len dst_table))
      (target_node_id new_edges) /\
    forall edge_count sgid_count tgid_count,
      _get_node_counts (dict_set h5out dst_edge_name new_edges) dst_edge_name
      = Ok (edge_count, sgid_count, tgid_count) ->
      0 <= sgid_count <= Z.of_nat (nt_len src_table) /\
      0 <= tgid_count <= Z.of_nat (nt_len dst_table).
Proof.
  intros Hsrc_table Hdst_table Hsrc Hdst Hs_pos Ht_pos Hin Hgroup Hfresh Hlen
    Hsup Henv Hsize.
  rewrite get_node_id_mapping_assoc, Hsrc_table in Hsrc.
  rewrite get_node_id_mapping_assoc, Hdst_table in Hdst.
  injection Hsrc as <-. injection Hdst as <-.
  assert (Hidx : forall table : node_table,
            df_index (make_mapping (nt_index table) (arange (nt_len table)))
            = nt_index table).
  { intros table. apply map_fst_combine_same. unfold nt_len.
    now rewrite arange_length. }
  assert (Hnew : forall table : node_table,
            df_new_id (make_mapping (nt_index table) (arange (nt_len table)))
            = arange (nt_len table)).
  { intros table. apply map_snd_combine_same. unfold nt_len.
    now rewrite arange_length. }
  eexists. split.
  { apply (copy_edge_attributes_closed env h5in src_node_pop dst_node_pop
             src_edge_name dst_edge_name _ _ h5_read_chunk_size h5out
             orig_edges orig_group); try assumption; now rewrite Hidx. }
  assert (Hs_rows : Forall (fun i => 0 <= i < Z.of_nat (nt_len src_table))
            (source_node_id
               (copied_edges src_node_pop dst_node_pop
                  (make_mapping (nt_index src_table)
                     (arange (nt_len src_table)))
                  (make_mapping (nt_index dst_table)
                     (arange (nt_len dst_table)))
                  orig_edges orig_group))).
  { apply Forall_forall. intros i Hi. cbn in Hi.
    apply loc_new_ids_elem in Hi. rewrite Hnew in Hi. now apply arange_elem. }
  assert (Ht_rows : Forall (fun i => 0 <= i < Z.of_nat (nt_len dst_table))
            (target_node_id
               (copied_edges src_node_pop dst_node_pop
                  (make_mapping (nt_index src_table)
                     (arange (nt_len src_table)))
                  (make_mapping (nt_index dst_table)
                     (arange (nt_len dst_table)))
                  orig_edges orig_group))).
  { apply Forall_forall. intros i Hi. cbn in Hi.
    apply loc_new_ids_elem in Hi. rewrite Hnew in Hi. now apply arange_elem. }
  split; [exact Hs_rows|]. split; [exact Ht_rows|].
  intros edge_count sgid_count tgid_count.
  unfold _get_node_counts. rewrite assoc_dict_set_eq.
  rewrite Forall_forall in Hs_rows, Ht_rows.
  destruct (Nat.ltb 0 _).
  - destruct (np_max (source_node_id _)) as [smax|] eqn:Hsmax;
      [|discriminate].
    destruct (np_max (target_node_id _)) as [tmax|] eqn:Htmax;
      [|discriminate].
    run_result. intros [= _ <- <-].
    apply np_max_spec in Hsmax as [Hsmax _].
    apply np_max_spec in Htmax as [Htmax _].
    apply Hs_rows in Hsmax. apply Ht_rows in Htmax. lia.
  - intros [= _ <- <-]. lia.
Qed.

Lemma copied_edges_within_node_tables_witness :
  let split_nodes :=
    [("A", {| nt_index := [5; 4; 3]; nt_columns := [] |});
     ("B", {| nt_index := [2; 1; 0]; nt_columns := [] |})] in
  exists new_edges,
    _copy_edge_attributes None test_edges_file "B" "B" "default" "B"
      [(2, 0); (1, 1); (0, 2)] [(2, 0); (1, 1); (0, 2)] (Some 3) []
    = (dict_set [] "B" new_edges, Ok tt) /\
    Forall (fun i => 0 <= i < 3) (source_node_id new_edges) /\
    Forall (fun i => 0 <= i < 3) (target_node_id new_edges) /\
    forall edge_count sgid_count tgid_count,
      _get_node_counts (dict_set [] "B" new_edges) "B"
      = Ok (edge_count, sgid_count, tgid_count) ->
      0 <= sgid_count <= 3 /\ 0 <= tgid_count <= 3.
Proof.
  intros split_nodes.
  apply (copied_edges_within_node_tables None test_edges_file "B" "B"
           "default" "B" split_nodes
           [(2, 0); (1, 1); (0, 2)] [(2, 0); (1, 1); (0, 2)]
           {| nt_index := [2; 1; 0]; nt_columns := [] |}
           {| nt_index := [2; 1; 0]; nt_columns := [] |}
           (Some 3) [] test_edges_population
           [("delay", H5Dataset [10; 11; 12; 13]);
            ("dynamics_params", H5Group [("u_syn", H5Dataset [1; 2; 3; 4])])]).
  - reflexivity.
  - reflexivity.
  - reflexivity.
  - reflexivity.
  - compute_done.
  - compute_done.
  - reflexivity.
  - reflexivity.
  - reflexivity.
  - reflexivity.
  - exact test_group_supported.
  - vm_compute. discriminate.
  - intros c [= <-]. lia.
Defined.

(** ** The external mapping, chunk by chunk *)

(** The source ids a chunk selects, read off the edges of the chunk. *)
Lemma chunk_selected_sources (sgids tgids src dst : list Z) :
  length sgids = length tgids ->
  mask_select sgids (chunk_mask sgids tgids src dst)
  = map fst (List.filter (edge_kept src dst) (combine sgids tgids)).
Proof.
  intros Hlen.
  assert (Hedges : forall edges : list (Z * Z),
            mask_select (map fst edges)
              (chunk_mask (map fst edges) (map snd edges) src dst)
            = map fst (List.filter (edge_kept src dst) edges));
    [|specialize (Hedges (combine sgids tgids));
      now rewrite map_fst_combine_same, map_snd_combine_same in Hedges].
  intros edges. now rewrite chunk_mask_edges, mask_select_map_filter.
Qed.

(** The ids a later chunk appends are the sources of its wanted
    connections that the mapping does not know, in increasing order. *)
Lemma external_ids_body_Some_index (env : environ)
    (all_sgids all_tgids src dst : list Z) (r new : mapping_df) (sl : slice) :
  1 <= _h5_get_read_chunk_size env ->
  length all_sgids = length all_tgids ->
  r <> [] ->
  external_ids_body env all_sgids all_tgids src dst (Some r) sl
  = Ok (Some (r ++ new)) ->
  df_index new
  = List.filter (fun old => negb (existsb (Z.eqb old) (df_index r)))
      (np_unique
         (map fst
            (List.filter (edge_kept src dst)
               (py_slice (combine all_sgids all_tgids) sl)))).
Proof.
  intros Hh Hlen Hr. unfold external_ids_body.
  pose proof (py_slice_length all_sgids all_tgids sl Hlen) as Hsl.
  destruct (external_chunk_mask _ _ src dst Hsl) as (Hand & Hsel & _).
  pose proof (chunk_selected_sources _ _ src dst Hsl) as Hsources.
  rewrite py_slice_combine in Hsources by exact Hlen.
  rewrite !isin_correct by exact Hh. run_result.
  rewrite Hand. run_result.
  assert (Hfilter : forall needed : list Z,
            List.filter
              (fun e => xorb (existsb (Z.eqb e) (df_index r)) true) needed
            = List.filter
                (fun old => negb (existsb (Z.eqb old) (df_index r))) needed).
  { intros needed. apply filter_ext. intros e. apply xorb_true_r. }
  destruct (np_any (chunk_mask _ _ src dst)) eqn:Hany.
  - rewrite Hsel, Hsources. run_result.
    set (needed := np_unique _).
    rewrite isin_correct by exact Hh. run_result.
    destruct (np_any (np_isin needed (df_index r) true)) eqn:Hmm.
    + unfold np_mask. rewrite np_isin_length, Nat.eqb_refl. run_result.
      destruct (np_max (df_new_id r)) as [top|]; [|discriminate].
      run_result. rewrite mask_select_isin, Hfilter.
      intros [= Hnew]. apply app_inv_head in Hnew. subst new.
      apply map_fst_combine_same. now rewrite length_map, arange_length.
    + intros [= Hnew].
      assert (Hnil : new = []).
      { apply (app_inv_head r). now rewrite app_nil_r. }
      subst new. symmetry. rewrite <- Hfilter, <- mask_select_isin.
      now apply mask_select_none.
  - intros [= Hnew].
    assert (Hnil : new = []).
    { apply (app_inv_head r). now rewrite app_nil_r. }
    subst new.
    rewrite <- Hsources, (mask_select_none _ _ Hany). reflexivity.
Qed.

(** The first chunk with a wanted connection starts the mapping with the
    sources of its wanted connections, numbered from zero. *)
Lemma external_ids_body_None_index (env : environ)
    (all_sgids all_tgids src dst : list Z) (sl : slice) :
  1 <= _h5_get_read_chunk_size env ->
  length all_sgids = length all_tgids ->
  exists first,
    external_ids_body env all_sgids all_tgids src dst None sl = Ok first /\
    from_option df_index [] first
    = np_unique
        (map fst
           (List.filter (edge_kept src dst)
              (py_slice (combine all_sgids all_tgids) sl))) /\
    from_option df_new_id [] first
    = arange (length (from_option df_index [] first)).
Proof.
  intros Hh Hlen. unfold external_ids_body.
  pose proof (py_slice_length all_sgids all_tgids sl Hlen) as Hsl.
  destruct (external_chunk_mask _ _ src dst Hsl) as (Hand & Hsel & _).
  pose proof (chunk_selected_sources _ _ src dst Hsl) as Hsources.
  rewrite py_slice_combine in Hsources by exact Hlen.
  rewrite !isin_correct by exact Hh. run_result.
  rewrite Hand. run_result.
  destruct (np_any (chunk_mask _ _ src dst)) eqn:Hany.
  - rewrite Hsel, Hsources. run_result.
    set (needed := np_unique _).
    eexists. split; [reflexivity|]. cbn [from_option].
    assert (Hidx : df_index (make_mapping needed (arange (length needed)))
                   = needed)
      by (apply map_fst_combine_same; now rewrite arange_length).
    split; [exact Hidx|]. rewrite Hidx.
    apply map_snd_combine_same. now rewrite arange_length.
  - exists None. split; [reflexivity|]. cbn [from_option].
    rewrite <- Hsources, (mask_select_none _ _ Hany). split; reflexivity.
Qed.

(** C5: in [_get_subcircuit_external_ids], a chunk met after the mapping
    has rows appends exactly the source ids of its wanted connections
    that are not old ids of the mapping yet, in increasing order, with
    new ids continuing from the largest existing new id plus one; the
    rows of the mapping are left as they are and ids already present are
    skipped. The first chunk with a wanted connection starts the mapping
    with the sources of its wanted connections, numbered from zero. The
    function returns a mapping whose old ids are exactly the sources of
    the wanted connections of the whole arrays, each once, whose new ids
    are distinct and are exactly 0..n-1, and which is empty when no
    connection matches. *)
Theorem external_ids_extend_mapping (env : environ)
    (all_sgids all_tgids wanted_src_ids wanted_dst_ids : list Z) :
  1 <= _h5_get_read_chunk_size env ->
  length all_sgids = length all_tgids ->
  (forall (r : mapping_df) (sl : slice),
     r <> [] ->
     exists new top,
       external_ids_body env all_sgids all_tgids wanted_src_ids
         wanted_dst_ids (Some r) sl = Ok (Some (r ++ new)) /\
       np_max (df_new_id r) = Ok top /\
       df_index new
       = List.filter (fun old => negb (existsb (Z.eqb old) (df_index r)))
           (np_unique
              (map fst
                 (List.filter (edge_kept wanted_src_ids wanted_dst_ids)
                    (py_slice (combine all_sgids all_tgids) sl)))) /\
       df_new_id new = map (fun i => top + 1 + i) (arange (length new)) /\
       StronglySorted Z.lt (df_index new) /\
       forall old, old ∈ df_index new -> old ∉ df_index r) /\
  (forall sl : slice,
     exists first,
       external_ids_body env all_sgids all_tgids wanted_src_ids
         wanted_dst_ids None sl = Ok first /\
       from_option df_index [] first
       = np_unique
           (map fst
              (List.filter (edge_kept wanted_src_ids wanted_dst_ids)
                 (py_slice (combine all_sgids all_tgids) sl))) /\
       from_option df_new_id [] first
       = arange (length (from_option df_index [] first))) /\
  exists result,
    _get_subcircuit_external_ids env all_sgids all_tgids wanted_src_ids
      wanted_dst_ids = Ok result /\
    NoDup (df_new_id result) /\
    NoDup (df_index result) /\
    df_new_id result ≡ₚ arange (length result) /\
    StronglySorted (fun a b => fst a <= fst b) result /\
    (forall old,
       old ∈ df_index result <->
       exists t, (old, t) ∈ combine all_sgids all_tgids /\
                 wanted_connection wanted_src_ids wanted_dst_ids (old, t)) /\
    df_index result
    = np_unique
        (map fst
           (List.filter (edge_kept wanted_src_ids wanted_dst_ids)
              (combine all_sgids all_tgids))) /\
    ((forall edge, edge ∈ combine all_sgids all_tgids ->
        ~ wanted_connection wanted_src_ids wanted_dst_ids edge) ->
     result = []).
Proof.
  intros Hh Hlen. split; [|split].
  { intros r sl Hr.
    destruct (external_ids_body_Some env all_sgids all_tgids wanted_src_ids
                wanted_dst_ids r sl Hh Hlen Hr)
      as (new & top & Hbody & Htop & Hnew & Hsorted & Hfresh).
    exists new, top. split; [exact Hbody|]. split; [exact Htop|].
    split; [now apply (external_ids_body_Some_index env all_sgids all_tgids
                         wanted_src_ids wanted_dst_ids r new sl)|].
    split; [exact Hnew|]. split; [exact Hsorted|].
    intros old Hold. now destruct (Hfresh old Hold). }
  { intros sl. now apply external_ids_body_None_index. }
  unfold _get_subcircuit_external_ids.
  destruct (chunked_slices_cover (combine all_sgids all_tgids)
              (_h5_get_read_chunk_size env) Hh)
    as (slices & Hslices & Hcover & _).
  rewrite length_combine, <- Hlen, Nat.min_id in Hslices.
  rewrite Hslices. run_result.
  destruct (external_ids_loop_spec env all_sgids all_tgids wanted_src_ids
              wanted_dst_ids slices None Hh Hlen I)
    as (ret & Hloop & Hinv & _).
  destruct (external_ids_loop_index env all_sgids all_tgids wanted_src_ids
              wanted_dst_ids slices Hh Hlen None ltac:(discriminate))
    as (ret' & Hloop' & Hidx).
  rewrite Hloop in Hloop'. injection Hloop' as <-.
  rewrite Hloop, Hcover in *. run_result.
  assert (Hresult : exists result,
            match ret with
            | Some r => Ok (df_sort_index r)
            | None => Ok (df_sort_index (make_mapping [] []))
            end = Ok result /\
            result ≡ₚ from_option id [] ret /\
            NoDup (df_index result) /\
            df_new_id result ≡ₚ arange (length result) /\
            StronglySorted (fun a b => fst a <= fst b) result).
  { destruct ret as [r|].
    - exists (df_sort_index r). split; [reflexivity|].
      pose proof (df_sort_index_perm r) as Hperm.
      destruct Hinv as (_ & Hnodup & Hids).
      split; [exact Hperm|]. split; [|split].
      + unfold df_index in *. now rewrite (Permutation_map fst Hperm).
      + rewrite (Permutation_length Hperm), <- Hids. unfold df_new_id.
        now apply Permutation_map.
      + apply df_sort_index_sorted.
    - exists []. split; [reflexivity|]. split; [reflexivity|].
      split; [constructor|]. split; [reflexivity|constructor]. }
  destruct Hresult as (result & -> & Hperm & Hnodup & Hnew & Hsorted).
  exists result. split; [reflexivity|].
  assert (Hindex : df_index result ≡ₚ from_option df_index [] ret).
  { unfold df_index. rewrite (Permutation_map fst Hperm).
    now destruct ret. }
  assert (Hset : forall old,
            old ∈ df_index result <->
            exists t, (old, t) ∈ combine all_sgids all_tgids /\
                      wanted_connection wanted_src_ids wanted_dst_ids
                        (old, t)).
  { intros old. rewrite Hindex, Hidx. cbn [from_option].
    rewrite elem_of_nil. unfold wanted_connection. cbn [fst snd]. tauto. }
  split.
  { rewrite Hnew. unfold arange.
    change (map Z.of_nat (seq 0 (length result)))
      with (Z.of_nat <$> seq 0 (length result)).
    apply NoDup_fmap_2; [apply Nat2Z.inj' | apply NoDup_seq]. }
  split; [exact Hnodup|]. split; [exact Hnew|]. split; [exact Hsorted|].
  split; [exact Hset|]. split.
  - apply sorted_lt_ext;
      [now apply sorted_index_lt|apply np_unique_sorted|].
    intros old. rewrite Hset, np_unique_elem, elem_of_map.
    unfold wanted_connection. split.
    + intros (t & Hin & Hs & Ht). exists (old, t). split; [reflexivity|].
      apply list_elem_of_In, filter_In. split; [now apply list_elem_of_In|].
      unfold edge_kept. apply andb_true_iff.
      now rewrite !existsb_eqb_elem.
    + intros ([s t] & -> & Hin). exists t.
      apply list_elem_of_In, filter_In in Hin as [Hin Hkept].
      unfold edge_kept in Hkept. apply andb_true_iff in Hkept as [Hs Ht].
      rewrite !existsb_eqb_elem in *.
      split; [now apply list_elem_of_In|]. now split.
  - intros Hno. destruct result as [|[old new] result]; [reflexivity|].
    exfalso. destruct (proj1 (Hset old)) as (t & Hin & Hwanted); [left|].
    now apply (Hno (old, t)).
Qed.

Lemma external_ids_extend_mapping_witness :
  1 <= _h5_get_read_chunk_size (Some 2) /\
  length [7; 7; 3; 9] = length [0; 0; 1; 1] /\
  (exists new top,
     external_ids_body (Some 2) [7; 7; 3; 9] [0; 0; 1; 1] [1; 3; 7; 9] [0; 1]
       (Some [(7, 0)]) (2, 4) = Ok (Some ([(7, 0)] ++ new)) /\
     np_max (df_new_id [(7, 0)]) = Ok top /\
     df_index new = [3; 9] /\
     df_new_id new = [top + 1 + 0; top + 1 + 1]) /\
  _get_subcircuit_external_ids (Some 2) [7; 7; 3; 9] [0; 0; 1; 1]
    [1; 3; 7; 9] [0; 1] = Ok [(3, 1); (7, 0); (9, 2)].
Proof.
  split; [simpl; lia|]. split; [reflexivity|].
  destruct (external_ids_extend_mapping (Some 2) [7; 7; 3; 9] [0; 0; 1; 1]
              [1; 3; 7; 9] [0; 1]) as (Hstep & _ & result & Hres & _).
  - simpl. lia.
  - reflexivity.
  - split.
    + destruct (Hstep [(7, 0)] (2, 4)) as (new & top & Hbody & Htop & Hidx
                                            & Hnew & _); [discriminate|].
      exists new, top. split; [exact Hbody|]. split; [exact Htop|].
      assert (Hindex : df_index new = [3; 9])
        by (rewrite Hidx; vm_compute; reflexivity).
      split; [exact Hindex|].
      rewrite Hnew. unfold df_index in Hindex.
      rewrite <- (length_map fst new), Hindex. reflexivity.
    + rewrite Hres. vm_compute in Hres. injection Hres as <-. reflexivity.
Defined.

(** ** The count check of the exhaustive mode *)

(** C3: [_write_edges] leaves the same files in both modes. When every
    pair was written, the exhaustive mode raises [RuntimeError] exactly
    when the edge counts summed over the ordered pairs differ from the
    edge count of the input population, after the last pair, so with the
    files of all pairs in place. Without [expect_to_use_all_edges] there
    is no check: once the loop over the pairs has ended normally the call
    returns normally, whatever the number of written edges, and the
    exhaustive mode returns what [_check_all_edges_used] says of that
    number. For an input with one population, a supported group
    ['0'] and id arrays of one length, and mappings with distinct names
    and distinct non-negative old ids, the call returns normally
    whatever the counts are, the count of each pair being the number of
    edges with their source in its source mapping and their target in
    its target mapping; the exhaustive mode leaves the same files and
    fails with [RuntimeError] exactly when these counts do not add up to
    the edge count of the input. *)
Theorem write_edges_count_check (env : environ) (output : string)
    (id_mapping : list (string * mapping_df))
    (h5_read_chunk_size : option Z) (dir : directory) :
  (forall h5in,
     fst (_write_edges env output h5in id_mapping h5_read_chunk_size true dir)
     = fst (_write_edges env output h5in id_mapping h5_read_chunk_size false
              dir)) /\
  (forall h5in dir' written_edges,
     for_acc (product_keys id_mapping)
       (write_edges_pair env output h5in id_mapping h5_read_chunk_size)
       0%nat dir = (dir', Ok written_edges) ->
     _write_edges env output h5in id_mapping h5_read_chunk_size false dir
     = (dir', Ok tt) /\
     _write_edges env output h5in id_mapping h5_read_chunk_size true dir
     = (dir', _check_all_edges_used h5in written_edges)) /\
  (forall name orig_edges dir',
     let h5in := [(name, orig_edges)] in
     let written_edges :=
       list_sum (map (pair_edge_count env h5in id_mapping h5_read_chunk_size)
                     (product_keys id_mapping)) in
     _write_edges env output h5in id_mapping h5_read_chunk_size false dir
     = (dir', Ok tt) ->
     (length (source_node_id orig_edges) <> written_edges ->
      _write_edges env output h5in id_mapping h5_read_chunk_size true dir
      = (dir', Raise RuntimeError)) /\
     (length (source_node_id orig_edges) = written_edges ->
      _write_edges env output h5in id_mapping h5_read_chunk_size true dir
      = (dir', Ok tt))) /\
  (forall name orig_edges orig_group,
     assoc GROUP_NAME (groups orig_edges) = Some orig_group ->
     length (source_node_id orig_edges)
     = length (target_node_id orig_edges) ->
     supported_group (length (source_node_id orig_edges)) orig_group ->
     1 <= _h5_get_read_chunk_size env ->
     (forall c, h5_read_chunk_size = Some c -> 1 <= c) ->
     NoDup (dict_keys id_mapping) ->
     (forall item, item ∈ id_mapping ->
        NoDup (df_index (snd item)) /\
        Forall (fun i => 0 <= i) (df_index (snd item))) ->
     let h5in := [(name, orig_edges)] in
     let kept_edges :=
       list_sum
         (map (fun p : (string * mapping_df) * (string * mapping_df) =>
                 length
                   (List.filter
                      (edge_kept (df_index (snd (fst p)))
                         (df_index (snd (snd p))))
                      (combine (source_node_id orig_edges)
                         (target_node_id orig_edges))))
            (list_prod id_mapping id_mapping)) in
     exists dir',
       _write_edges env output h5in id_mapping h5_read_chunk_size false dir
       = (dir', Ok tt) /\
       list_sum (map (pair_edge_count env h5in id_mapping h5_read_chunk_size)
                   (product_keys id_mapping))
       = kept_edges /\
       (length (source_node_id orig_edges) <> kept_edges ->
        _write_edges env output h5in id_mapping h5_read_chunk_size true dir
        = (dir', Raise RuntimeError)) /\
       (length (source_node_id orig_edges) = kept_edges ->
        _write_edges env output h5in id_mapping h5_read_chunk_size true dir
        = (dir', Ok tt))).
Proof.
  split; [|split; [|split]].
  - intros h5in. unfold _write_edges, mbind, stateful_bind, sbind.
    destruct (for_acc (product_keys id_mapping) _ 0%nat dir)
      as [dir1 [written|e]]; reflexivity.
  - intros h5in dir' written_edges Hloop.
    unfold _write_edges, mbind, stateful_bind, sbind.
    rewrite Hloop. split; reflexivity.
  - intros name orig_edges dir' h5in written_edges.
    unfold _write_edges, mbind, stateful_bind, sbind.
    destruct (for_acc (product_keys id_mapping) _ 0%nat dir)
      as [dir1 [written|e]] eqn:Hloop; [|discriminate].
    apply write_edges_loop_count in Hloop. simpl in Hloop.
    fold written_edges in Hloop. subst written.
    unfold mret, stateful_ret. intros [= <-].
    unfold lift, _check_all_edges_used. subst h5in.
    rewrite get_unique_population_single. run_result.
    unfold dict_get. simpl assoc. rewrite String.eqb_refl. run_result.
    split; intros Hcount.
    + apply Nat.eqb_neq in Hcount. now rewrite Hcount.
    + apply Nat.eqb_eq in Hcount. now rewrite Hcount.
  - intros name orig_edges orig_group Hgroup Hlen Hsup Henv Hsize Hnames
      Hvalid h5in kept_edges. subst h5in.
    assert (Hpairs : product_keys id_mapping
                     = map (fun p : (string * mapping_df)
                                    * (string * mapping_df) =>
                              (fst (fst p), fst (snd p)))
                         (list_prod id_mapping id_mapping)).
    { unfold product_keys, dict_keys. apply list_prod_map. }
    destruct (write_edges_loop_kept env output name orig_edges orig_group
                id_mapping h5_read_chunk_size Hgroup Hlen Hsup Henv Hsize
                Hnames (fun item Hitem => proj1 (Hvalid item Hitem))
                (fun item Hitem => proj2 (Hvalid item Hitem))
                (list_prod id_mapping id_mapping))
      with (written_edges := 0%nat) (dir := dir) as (dir' & Hloop).
    { intros [src dst] Hin. apply list_elem_of_In, in_prod_iff in Hin.
      cbn [fst snd]. now rewrite !list_elem_of_In. }
    rewrite <- Hpairs in Hloop. cbn [Nat.add] in Hloop.
    fold kept_edges in Hloop.
    exists dir'. split; [|split].
    + unfold _write_edges, mbind, stateful_bind, sbind.
      now rewrite Hloop.
    + apply write_edges_loop_count in Hloop. cbn [Nat.add] in Hloop.
      now symmetry.
    + unfold _write_edges, mbind, stateful_bind, sbind.
      rewrite Hloop.
      unfold lift, _check_all_edges_used.
      rewrite get_unique_population_single. run_result.
      unfold dict_get. simpl assoc. rewrite String.eqb_refl. run_result.
      split; intros Hcount.
      * apply Nat.eqb_neq in Hcount. now rewrite Hcount.
      * apply Nat.eqb_eq in Hcount. now rewrite Hcount.
Qed.

Lemma write_edges_count_check_witness :
  exists dir',
    _write_edges None "out" test_edges_file test_subset_mapping None false ∅
    = (dir', Ok tt) /\
    list_sum (map (pair_edge_count None test_edges_file test_subset_mapping
                     None)
                (product_keys test_subset_mapping)) = 1%nat /\
    length (source_node_id test_edges_population) = 4%nat /\
    _write_edges None "out" test_edges_file test_subset_mapping None true ∅
    = (dir', Raise RuntimeError).
Proof.
  destruct (write_edges_count_check None "out" test_subset_mapping None ∅)
    as (_ & _ & _ & Hvalid).
  destruct (Hvalid "default" test_edges_population
              [("delay", H5Dataset [10; 11; 12; 13]);
               ("dynamics_params",
                H5Group [("u_syn", H5Dataset [1; 2; 3; 4])])])
    as (dir' & Hfalse & Hcount & Hraise & _).
  - reflexivity.
  - reflexivity.
  - exact test_group_supported.
  - vm_compute. discriminate.
  - intros c [=].
  - compute_done.
  - intros item Hitem. apply list_elem_of_singleton in Hitem. subst item.
    split; compute_done.
  - exists dir'. split; [exact Hfalse|]. split; [exact Hcount|].
    split; [reflexivity|]. apply Hraise. vm_compute. discriminate.
Defined.

(** ** Pairs without edges leave no file *)

(** What a completed pair leaves at its file, by its edge count. *)
Lemma write_edges_pair_file (env : environ) (output : string)
    (h5in : h5file) (id_mapping : list (string * mapping_df))
    (h5_read_chunk_size : option Z) (written_edges written' : nat)
    (pair : string * string) (dir dir' : directory) :
  write_edges_pair env output h5in id_mapping h5_read_chunk_size
    written_edges pair dir = (dir', Ok written') ->
  (pair_edge_count env h5in id_mapping h5_read_chunk_size pair = O ->
   dir' !! pair_edge_file output pair = None) /\
  (pair_edge_count env h5in id_mapping h5_read_chunk_size pair <> O ->
   exists p sgid_count tgid_count,
     dir' !! pair_edge_file output pair
     = Some [(_get_population_name (fst pair) (snd pair), p)] /\
     length (source_node_id p)
     = pair_edge_count env h5in id_mapping h5_read_chunk_size pair /\
     indices p
     = Some {| source_to_target :=
                 range_index (source_node_id p) sgid_count;
               target_to_source :=
                 range_index (target_node_id p) tgid_count |}).
Proof.
  destruct pair as [src_node_pop dst_node_pop].
  unfold pair_edge_file, pair_edge_count. cbn [fst snd]. intros Hrun.
  destruct (write_edges_block env h5in id_mapping h5_read_chunk_size
              src_node_pop dst_node_pop [])
    as [h5out [[[edge_count sgid_count] tgid_count]|e]] eqn:Hblock.
  - destruct (write_edges_pair_cases env output h5in id_mapping
                h5_read_chunk_size written_edges src_node_pop dst_node_pop
                dir _ _ _ _ Hblock) as [Hzero Hpos].
    cbn [fst]. split.
    + intros ->. rewrite Hzero in Hrun by reflexivity.
      injection Hrun as <- _. apply lookup_delete_eq.
    + intros Hcount. destruct (Hpos Hcount) as (p & Hp & Hlen & Heq).
      rewrite Heq in Hrun. injection Hrun as <- _.
      apply write_edges_block_file in Hblock as (p0 & ->).
      simpl in Hp. rewrite String.eqb_refl in Hp. injection Hp as ->.
      eexists _, sgid_count, tgid_count.
      split; [rewrite lookup_insert_eq; simpl; now rewrite String.eqb_refl|].
      split; [exact Hlen|reflexivity].
  - revert Hrun. unfold write_edges_pair, with_h5_file_w. cbn [fst snd].
    unfold mbind, stateful_bind, sbind. rewrite Hblock. discriminate.
Qed.

(** The same for the whole loop, when no two pairs share a file. *)
Lemma write_edges_loop_files (env : environ) (output : string)
    (h5in : h5file) (id_mapping : list (string * mapping_df))
    (h5_read_chunk_size : option Z) (pairs : list (string * string)) :
  forall written_edges written' (dir dir' : directory),
    NoDup (map (pair_edge_file output) pairs) ->
    for_acc pairs
      (write_edges_pair env output h5in id_mapping h5_read_chunk_size)
      written_edges dir = (dir', Ok written') ->
    forall pair, pair ∈ pairs ->
      (pair_edge_count env h5in id_mapping h5_read_chunk_size pair = O ->
       dir' !! pair_edge_file output pair = None) /\
      (pair_edge_count env h5in id_mapping h5_read_chunk_size pair <> O ->
       exists p sgid_count tgid_count,
         dir' !! pair_edge_file output pair
         = Some [(_get_population_name (fst pair) (snd pair), p)] /\
         length (source_node_id p)
         = pair_edge_count env h5in id_mapping h5_read_chunk_size pair /\
         indices p
         = Some {| source_to_target :=
                     range_index (source_node_id p) sgid_count;
                   target_to_source :=
                     range_index (target_node_id p) tgid_count |}).
Proof.
  induction pairs as [|pair0 pairs IH];
    intros written_edges written' dir dir' Hnodup Hrun pair Hpair.
  - now apply elem_of_nil in Hpair.
  - simpl in Hnodup. apply NoDup_cons in Hnodup as [Hfresh Hnodup].
    simpl in Hrun. unfold mbind, stateful_bind in Hrun.
    apply sbind_Ok in Hrun as (w1 & dir1 & Hfirst & Hrest).
    apply elem_of_cons in Hpair as [->|Hpair];
      [|now apply (IH w1 written' dir1 dir' Hnodup Hrest)].
    apply write_edges_pair_file in Hfirst.
    apply write_edges_loop_outcome in Hrest as [Hframe _].
    assert (Hsame : dir' !! pair_edge_file output pair0
                    = dir1 !! pair_edge_file output pair0).
    { apply Hframe. intros pair Hin Heq. apply Hfresh. rewrite Heq.
      apply elem_of_map. now exists pair. }
    destruct Hfirst as [Hzero Hpos]. split.
    + intros Hcount. etransitivity; [exact Hsame | now apply Hzero].
    + intros Hcount.
      destruct (Hpos Hcount) as (p & sgid_count & tgid_count & Hfile & Hrows).
      exists p, sgid_count, tgid_count. split; [|exact Hrows].
      etransitivity; [exact Hsame | exact Hfile].
Qed.

(** For valid input the call returns, and the file of each pair is there
    exactly when an edge goes from its source to its target mapping. *)
Lemma write_edges_valid_files (env : environ) (output name : string)
    (orig_edges : edge_population) (orig_group : h5group)
    (id_mapping : list (string * mapping_df))
    (h5_read_chunk_size : option Z) (dir : directory) :
  assoc GROUP_NAME (groups orig_edges) = Some orig_group ->
  length (source_node_id orig_edges) = length (target_node_id orig_edges) ->
  supported_group (length (source_node_id orig_edges)) orig_group ->
  1 <= _h5_get_read_chunk_size env ->
  (forall c, h5_read_chunk_size = Some c -> 1 <= c) ->
  NoDup (dict_keys id_mapping) ->
  (forall item, item ∈ id_mapping ->
     NoDup (df_index (snd item)) /\
     Forall (fun i => 0 <= i) (df_index (snd item))) ->
  NoDup (map (pair_edge_file output) (product_keys id_mapping)) ->
  exists dir',
    _write_edges env output [(name, orig_edges)] id_mapping
      h5_read_chunk_size false dir = (dir', Ok tt) /\
    forall src dst, src ∈ id_mapping -> dst ∈ id_mapping ->
      let kept :=
        List.filter (edge_kept (df_index (snd src)) (df_index (snd dst)))
          (combine (source_node_id orig_edges) (target_node_id orig_edges)) in
      (kept = [] ->
       dir' !! pair_edge_file output (fst src, fst dst) = None) /\
      (kept <> [] ->
       exists p sgid_count tgid_count,
         dir' !! pair_edge_file output (fst src, fst dst)
         = Some [(_get_population_name (fst src) (fst dst), p)] /\
         length (source_node_id p) = length kept /\
         indices p
         = Some {| source_to_target :=
                     range_index (source_node_id p) sgid_count;
                   target_to_source :=
                     range_index (target_node_id p) tgid_count |}).
Proof.
  intros Hgroup Hlen Hsup Henv Hsize Hnames Hvalid Hfiles.
  assert (Hpairs : product_keys id_mapping
                   = map (fun p : (string * mapping_df)
                                  * (string * mapping_df) =>
                            (fst (fst p), fst (snd p)))
                       (list_prod id_mapping id_mapping)).
  { unfold product_keys, dict_keys. apply list_prod_map. }
  destruct (write_edges_loop_kept env output name orig_edges orig_group
              id_mapping h5_read_chunk_size Hgroup Hlen Hsup Henv Hsize
              Hnames (fun item Hitem => proj1 (Hvalid item Hitem))
              (fun item Hitem => proj2 (Hvalid item Hitem))
              (list_prod id_mapping id_mapping))
    with (written_edges := 0%nat) (dir := dir) as (dir' & Hloop).
  { intros [src dst] Hin. apply list_elem_of_In, in_prod_iff in Hin.
    cbn [fst snd]. now rewrite !list_elem_of_In. }
  rewrite <- Hpairs in Hloop.
  exists dir'. split.
  - unfold _write_edges, mbind, stateful_bind, sbind. now rewrite Hloop.
  - intros src dst Hsrc Hdst kept.
    assert (Hpair : (fst src, fst dst) ∈ product_keys id_mapping).
    { rewrite Hpairs. apply elem_of_map. exists (src, dst).
      split; [reflexivity|].
      apply list_elem_of_In, in_prod_iff. now rewrite <- !list_elem_of_In. }
    assert (Hcount : pair_edge_count env [(name, orig_edges)] id_mapping
                       h5_read_chunk_size (fst src, fst dst)
                     = length kept).
    { destruct (write_edges_block_kept env name orig_edges orig_group
                  id_mapping h5_read_chunk_size Hgroup Hlen Hsup Henv Hsize
                  Hnames (fun item Hitem => proj1 (Hvalid item Hitem))
                  (fun item Hitem => proj2 (Hvalid item Hitem))
                  src dst Hsrc Hdst)
        as (h5out & sgid_count & tgid_count & Hblock).
      unfold pair_edge_count. cbn [fst snd]. now rewrite Hblock. }
    destruct (write_edges_loop_files env output [(name, orig_edges)]
                id_mapping h5_read_chunk_size (product_keys id_mapping)
                0%nat _ dir dir' Hfiles Hloop _ Hpair) as [Hzero Hpos].
    rewrite Hcount in Hzero, Hpos. split.
    + intros Hnone. apply Hzero. now rewrite Hnone.
    + intros Hsome. apply Hpos. now destruct kept.
Qed.

(** C4: a pair that copies no edge leaves no output. When [_write_edges]
    has written every pair, and no two pairs share a file, the file of
    each ordered pair is gone if the pair copied no edge, and otherwise
    holds the population of the pair, one row per copied edge, with its
    two range indices; the exhaustive mode leaves these same files. For
    an input with one population, a supported group ['0'] and id arrays
    of one length, and mappings with distinct names and distinct
    non-negative old ids, the call does return, and the file of a pair is
    gone exactly when no edge goes from its source mapping to its target
    mapping. Pair
    by pair, [_write_edges] unlinks the file and writes no index when the
    count is zero. [_write_subcircuit_edges] deletes the population from
    the file and unlinks the file, returning the sentinel, exactly when
    no population is left in it; a pair that copies edges gets its two
    range indices written. *)
Theorem empty_edge_outputs_are_removed (env : environ) (h5in : h5file) :
  (forall output id_mapping h5_read_chunk_size (dir dir' : directory),
     NoDup (map (pair_edge_file output) (product_keys id_mapping)) ->
     _write_edges env output h5in id_mapping h5_read_chunk_size false dir
     = (dir', Ok tt) ->
     fst (_write_edges env output h5in id_mapping h5_read_chunk_size true dir)
     = dir' /\
     forall pair, pair ∈ product_keys id_mapping ->
       (pair_edge_count env h5in id_mapping h5_read_chunk_size pair = O ->
        dir' !! pair_edge_file output pair = None) /\
       (pair_edge_count env h5in id_mapping h5_read_chunk_size pair <> O ->
        exists p sgid_count tgid_count,
          dir' !! pair_edge_file output pair
          = Some [(_get_population_name (fst pair) (snd pair), p)] /\
          length (source_node_id p)
          = pair_edge_count env h5in id_mapping h5_read_chunk_size pair /\
          indices p
          = Some {| source_to_target :=
                      range_index (source_node_id p) sgid_count;
                    target_to_source :=
                      range_index (target_node_id p) tgid_count |})) /\
  (forall output name orig_edges orig_group id_mapping h5_read_chunk_size
          (dir : directory),
     h5in = [(name, orig_edges)] ->
     assoc GROUP_NAME (groups orig_edges) = Some orig_group ->
     length (source_node_id orig_edges)
     = length (target_node_id orig_edges) ->
     supported_group (length (source_node_id orig_edges)) orig_group ->
     1 <= _h5_get_read_chunk_size env ->
     (forall c, h5_read_chunk_size = Some c -> 1 <= c) ->
     NoDup (dict_keys id_mapping) ->
     (forall item, item ∈ id_mapping ->
        NoDup (df_index (snd item)) /\
        Forall (fun i => 0 <= i) (df_index (snd item))) ->
     NoDup (map (pair_edge_file output) (product_keys id_mapping)) ->
     exists dir',
       _write_edges env output h5in id_mapping h5_read_chunk_size false dir
       = (dir', Ok tt) /\
       forall src dst, src ∈ id_mapping -> dst ∈ id_mapping ->
         let kept :=
           List.filter (edge_kept (df_index (snd src)) (df_index (snd dst)))
             (combine (source_node_id orig_edges)
                (target_node_id orig_edges)) in
         (kept = [] ->
          dir' !! pair_edge_file output (fst src, fst dst) = None) /\
         (kept <> [] ->
          exists p sgid_count tgid_count,
            dir' !! pair_edge_file output (fst src, fst dst)
            = Some [(_get_population_name (fst src) (fst dst), p)] /\
            length (source_node_id p) = length kept /\
            indices p
            = Some {| source_to_target :=
                        range_index (source_node_id p) sgid_count;
                      target_to_source :=
                        range_index (target_node_id p) tgid_count |})) /\
  (forall output id_mapping h5_read_chunk_size written_edges src_node_pop
          dst_node_pop (dir : directory) h5out edge_count sgid_count
          tgid_count,
     let edge_pop_name := _get_population_name src_node_pop dst_node_pop in
     let edge_file_name :=
       os_path_join output (_get_edge_file_name edge_pop_name) in
     write_edges_block env h5in id_mapping h5_read_chunk_size src_node_pop
       dst_node_pop [] = (h5out, Ok (edge_count, sgid_count, tgid_count)) ->
     (edge_count = O ->
      write_edges_pair env output h5in id_mapping h5_read_chunk_size
        written_edges (src_node_pop, dst_node_pop) dir
      = (delete edge_file_name dir, Ok written_edges)) /\
     (edge_count <> O ->
      exists p,
        assoc edge_pop_name h5out = Some p /\
        length (source_node_id p) = edge_count /\
        write_edges_pair env output h5in id_mapping h5_read_chunk_size
          written_edges (src_node_pop, dst_node_pop) dir
        = (<[edge_file_name :=
               dict_set h5out edge_pop_name
                 (set_indices
                    (Some {| source_to_target :=
                               range_index (source_node_id p) sgid_count;
                             target_to_source :=
                               range_index (target_node_id p) tgid_count |})
                    p)]> dir,
           Ok (written_edges + edge_count)%nat))) /\
  (forall output_path src_node_pop dst_node_pop src_edge_pop_name
          dst_edge_pop_name src_mapping dst_mapping (dir : directory) h5out
          edge_count sgid_count tgid_count,
     _copy_edge_attributes env h5in src_node_pop dst_node_pop
       src_edge_pop_name dst_edge_pop_name src_mapping dst_mapping None
       (default [] (dir !! output_path)) = (h5out, Ok tt) ->
     _get_node_counts h5out dst_edge_pop_name
     = Ok (edge_count, sgid_count, tgid_count) ->
     let run :=
       _write_subcircuit_edges env output_path h5in src_node_pop dst_node_pop
         src_edge_pop_name dst_edge_pop_name src_mapping dst_mapping dir in
     (edge_count = O -> dict_del h5out dst_edge_pop_name = [] ->
      run = (delete output_path dir, Ok DELETED_EMPTY_EDGES_FILE)) /\
     (edge_count = O -> dict_del h5out dst_edge_pop_name <> [] ->
      run = (<[output_path := dict_del h5out dst_edge_pop_name]> dir,
             Ok output_path)) /\
     (edge_count <> O ->
      exists p,
        assoc dst_edge_pop_name h5out = Some p /\
        length (source_node_id p) = edge_count /\
        run = (<[output_path :=
                   dict_set h5out dst_edge_pop_name
                     (set_indices
                        (Some {| source_to_target :=
                                   range_index (source_node_id p) sgid_count;
                                 target_to_source :=
                                   range_index (target_node_id p) tgid_count |})
                        p)]> dir,
               Ok output_path))).
Proof.
  split; [|split; [|split]].
  - intros output id_mapping h5_read_chunk_size dir dir' Hfiles Hrun.
    pose proof (write_edges_Ok_loop _ _ _ _ _ _ _ _ Hrun) as (written & Hloop).
    split.
    + unfold _write_edges, mbind, stateful_bind, sbind. rewrite Hloop.
      unfold lift. now destruct (_check_all_edges_used h5in written).
    + now apply (write_edges_loop_files env output h5in id_mapping
                   h5_read_chunk_size (product_keys id_mapping) 0%nat written
                   dir dir').
  - intros output name orig_edges orig_group id_mapping h5_read_chunk_size
      dir ->. apply write_edges_valid_files.
  - intros. now apply write_edges_pair_cases.
  - intros output_path src_node_pop dst_node_pop src_edge_pop_name
      dst_edge_pop_name src_mapping dst_mapping dir h5out edge_count
      sgid_count tgid_count Hcopy Hcounts run.
    pose proof (subcircuit_edges_block_cases _ _ _ _ _ _ _ _ _ _ _
                  Hcopy Hcounts) as Hblock.
    cbn [fst] in Hblock.
    subst run. unfold _write_subcircuit_edges, with_h5_file_a.
    unfold mbind, stateful_bind, sbind. rewrite Hblock.
    split; [|split].
    + intros -> Hempty. cbn [Nat.eqb fst snd Nat.ltb Nat.leb].
      rewrite Hempty. cbn [length Nat.eqb].
      unfold os_unlink, modify, mret, stateful_ret.
      now rewrite delete_insert_eq.
    + intros -> Hleft. cbn [Nat.eqb fst snd Nat.ltb Nat.leb].
      destruct (dict_del h5out dst_edge_pop_name) as [|kept rest];
        [congruence | reflexivity].
    + intros Hpos.
      apply get_node_counts_Ok in Hcounts as (p & Hp & Hlen). simpl in Hlen.
      exists p. split; [exact Hp|]. split; [now symmetry|].
      destruct edge_count as [|n]; [congruence|].
      cbn [Nat.eqb fst snd Nat.ltb Nat.leb].
      now rewrite (write_indexes_Ok _ _ _ _ _ _ _ Hp).
Qed.

Lemma empty_edge_outputs_are_removed_witness :
  (exists dir' : directory,
     _write_edges None "out" test_edges_file test_id_mapping (Some 3) false ∅
     = (dir', Ok tt) /\
     fst (_write_edges None "out" test_edges_file test_id_mapping (Some 3)
            true ∅) = dir' /\
     dir' !! "out/edges_A.h5" = None /\
     dir' !! "out/edges_A__B__chemical.h5" = None /\
     exists p sgid_count tgid_count,
       dir' !! "out/edges_B.h5" = Some [("B", p)] /\
       length (source_node_id p) = 4%nat /\
       indices p
       = Some {| source_to_target :=
                   range_index (source_node_id p) sgid_count;
                 target_to_source :=
                   range_index (target_node_id p) tgid_count |}) /\
  write_edges_pair None "out" test_edges_file test_id_mapping (Some 3) 0
    ("A", "A") ∅ = (∅, Ok O) /\
  (exists file p idx,
     fst (write_edges_pair None "out" test_edges_file test_id_mapping
            (Some 3) 0 ("B", "B") ∅) !! "out/edges_B.h5" = Some file /\
     assoc "B" file = Some p /\
     indices p = Some idx) /\
  _write_subcircuit_edges None "out/edges.h5" test_edges_file "default"
    "default" "default" "default" [(5, 0)] [(5, 0)] ∅
  = (∅, Ok DELETED_EMPTY_EDGES_FILE).
Proof.
  destruct (empty_edge_outputs_are_removed None test_edges_file)
    as (Hall & Hvalid & Hpair & Hsub).
  split; [|split; [|split]].
  - assert (Hfiles : NoDup (map (pair_edge_file "out")
                              (product_keys test_id_mapping)))
      by compute_done.
    destruct (Hvalid "out" "default" test_edges_population
                [("delay", H5Dataset [10; 11; 12; 13]);
                 ("dynamics_params",
                  H5Group [("u_syn", H5Dataset [1; 2; 3; 4])])]
                test_id_mapping (Some 3) ∅)
      as (dir' & Hrun & _);
      [reflexivity | reflexivity | reflexivity | exact test_group_supported
      | vm_compute; discriminate | intros c [= <-]; lia | compute_done
      | | exact Hfiles |].
    { intros item Hitem.
      apply elem_of_cons in Hitem as [->|Hitem];
        [split; compute_done|].
      apply list_elem_of_singleton in Hitem. subst item.
      split; compute_done. }
    destruct (Hall "out" test_id_mapping (Some 3) ∅ dir' Hfiles Hrun)
      as [Hsame Hfile].
    exists dir'. split; [exact Hrun|]. split; [exact Hsame|].
    assert (HAA : ("A", "A") ∈ product_keys test_id_mapping) by compute_done.
    assert (HAB : ("A", "B") ∈ product_keys test_id_mapping) by compute_done.
    assert (HBB : ("B", "B") ∈ product_keys test_id_mapping) by compute_done.
    split; [|split].
    + change (dir' !! pair_edge_file "out" ("A", "A") = None).
      apply (proj1 (Hfile _ HAA)). vm_compute. reflexivity.
    + change (dir' !! pair_edge_file "out" ("A", "B") = None).
      apply (proj1 (Hfile _ HAB)). vm_compute. reflexivity.
    + destruct (proj2 (Hfile _ HBB))
        as (p & sgid_count & tgid_count & Hp & Hlen & Hidx);
        [vm_compute; discriminate|].
      exists p, sgid_count, tgid_count. split; [exact Hp|].
      split; [|exact Hidx]. rewrite Hlen. vm_compute. reflexivity.
  - set (block := write_edges_block None test_edges_file test_id_mapping
                    (Some 3) "A" "A" []).
    assert (Hblock : block = (fst block, Ok (O, 0, 0)))
      by (vm_compute; reflexivity).
    destruct (Hpair "out" test_id_mapping (Some 3) O "A" "A" ∅ (fst block)
                O 0 0 Hblock) as [Hzero _].
    rewrite (Hzero eq_refl). vm_compute. reflexivity.
  - set (block := write_edges_block None test_edges_file test_id_mapping
                    (Some 3) "B" "B" []).
    assert (Hblock : block = (fst block, Ok (4%nat, 3, 3)))
      by (vm_compute; reflexivity).
    destruct (Hpair "out" test_id_mapping (Some 3) O "B" "B" ∅ (fst block)
                4%nat 3 3 Hblock) as [_ Hpos].
    destruct Hpos as (p & Hp & Hlen & Hrun); [discriminate|].
    rewrite Hrun. cbn [fst].
    eexists _, _, _. split; [apply lookup_insert_eq|].
    split; [apply assoc_dict_set_eq | reflexivity].
  - set (copy := _copy_edge_attributes None test_edges_file "default"
                   "default" "default" "default" [(5, 0)] [(5, 0)] None
                   (default [] ((∅ : directory) !! "out/edges.h5"))).
    assert (Hcopy : copy = (fst copy, Ok tt)) by (vm_compute; reflexivity).
    assert (Hcounts : _get_node_counts (fst copy) "default" = Ok (O, 0, 0))
      by (vm_compute; reflexivity).
    destruct (Hsub "out/edges.h5" "default" "default" "default" "default"
                [(5, 0)] [(5, 0)] ∅ (fst copy) O 0 0 Hcopy Hcounts)
      as (Hdeleted & _ & _).
    rewrite Hdeleted; [vm_compute; reflexivity | reflexivity
                      | vm_compute; reflexivity].
Defined.
